(** * Melly validators: a shallow embedding of the four validation scripts

    The development embeds the Python scripts under
    [plugins/melly-validation/scripts/]:

      - [validate-c1-systems.py]     (module [Systems])
      - [validate-c2-containers.py]  (module [Containers])
      - [validate-c3-components.py]  (module [Components])
      - [validate-init.py]           (modules [Init], [InitDocument])

    Python values produced by [json.load] are modelled by the inductive type
    [json]; Python exceptions by the error monad [res]; the file system and
    the standard input by the record [world].  A script's [main] returns the
    process exit code together with the lines it printed on the error
    stream; an exception no handler catches is the outcome [Raise e] (the
    interpreter then prints a traceback, which is not an exit code chosen by
    [main]). *)

From Stdlib Require Import List String Ascii ZArith Bool Lia Permutation.
From Stdlib Require Import PrimFloat Uint63.
Import ListNotations.
Open Scope string_scope.
Open Scope list_scope.
Open Scope Z_scope.
Set Warnings "-register-all".

(** ** Exceptions and the error monad *)

Inductive exn : Type :=
| TypeError
| AttributeError
| KeyError
| ValueError        (* includes json.JSONDecodeError, a subclass *)
| OSError
| RecursionError.

Inductive res (A : Type) : Type :=
| Ok (a : A)
| Raise (e : exn).
Arguments Ok {A} a.
Arguments Raise {A} e.

Definition bind {A B : Type} (m : res A) (k : A -> res B) : res B :=
  match m with
  | Ok a => k a
  | Raise e => Raise e
  end.

Notation "x <- m ;; k" := (bind m (fun x => k))
  (at level 61, m at next level, right associativity).
Notation "' p <- m ;; k" := (bind m (fun x => match x with p => k end))
  (at level 61, p pattern, m at next level, right associativity).

(** [for_each body i l s] is the loop [for idx, x in enumerate(l, i): body],
    threading the loop's mutable variables as the state [s].  A [continue]
    is a body that returns its state early. *)
Fixpoint for_each {A St : Type} (body : nat -> A -> St -> res St)
         (idx : nat) (l : list A) (s : St) : res St :=
  match l with
  | [] => Ok s
  | x :: l' => s' <- body idx x s ;; for_each body (S idx) l' s'
  end.

(** ** JSON values as Python objects

    [json.load] yields [None], [bool], [int], [str], [list] and [dict]
    (floating-point literals are outside the model).  A [str] is a Rocq
    [string] whose characters stand for code points below 256.  A [dict]
    keeps its keys in insertion order; [lookup] reads the first binding
    ([json.load] never produces two bindings of one key). *)

Inductive json : Type :=
| JNull
| JBool (b : bool)
| JNum (n : Z)
| JStr (s : string)
| JArr (l : list json)
| JObj (m : list (string * json)).

Fixpoint lookup {V : Type} (k : string) (m : list (string * V)) : option V :=
  match m with
  | [] => None
  | (k', v) :: m' => if String.eqb k k' then Some v else lookup k m'
  end.

Definition has_key {V : Type} (k : string) (m : list (string * V)) : bool :=
  match lookup k m with Some _ => true | None => false end.

(** Python's [==] on these values: [True == 1], lists compare pointwise,
    dicts compare as maps. *)
Fixpoint py_eq (a b : json) {struct a} : bool :=
  match a, b with
  | JNull, JNull => true
  | JBool x, JBool y => Bool.eqb x y
  | JBool x, JNum n => Z.eqb (Z.b2z x) n
  | JNum n, JBool y => Z.eqb n (Z.b2z y)
  | JNum x, JNum y => Z.eqb x y
  | JStr x, JStr y => String.eqb x y
  | JArr x, JArr y =>
      (fix all2 (x y : list json) {struct x} : bool :=
         match x, y with
         | [], [] => true
         | a' :: x', b' :: y' => py_eq a' b' && all2 x' y'
         | _, _ => false
         end) x y
  | JObj x, JObj y =>
      Nat.eqb (List.length x) (List.length y) &&
      (fix sub (x : list (string * json)) {struct x} : bool :=
         match x with
         | [] => true
         | (k, v) :: x' =>
             match lookup k y with
             | Some v' => py_eq v v'
             | None => false
             end && sub x'
         end) x
  | _, _ => false
  end.

(** [bool(x)]: the truth value used by [if x] and [not x]. *)
Definition truthy (j : json) : bool :=
  match j with
  | JNull => false
  | JBool b => b
  | JNum n => negb (n =? 0)
  | JStr s => negb (String.eqb s "")
  | JArr l => match l with [] => false | _ => true end
  | JObj m => match m with [] => false | _ => true end
  end.

Definition is_dict (j : json) : bool :=
  match j with JObj _ => true | _ => false end.

Definition is_list (j : json) : bool :=
  match j with JArr _ => true | _ => false end.

(** [hash(x)] raises [TypeError] on lists and dicts. *)
Definition hashable (j : json) : bool :=
  match j with
  | JArr _ | JObj _ => false
  | _ => true
  end.

Definition contains_substring (k s : string) : bool :=
  match String.index 0 k s with Some _ => true | None => false end.

(** [x in l] for a Python list [l]: a linear scan with [==]. *)
Definition list_mem (x : json) (l : list json) : bool :=
  existsb (py_eq x) l.

(** ["k" in x] for a string literal [k]. *)
Definition py_contains (k : string) (x : json) : res bool :=
  match x with
  | JObj m => Ok (has_key k m)
  | JArr l => Ok (list_mem (JStr k) l)
  | JStr s => Ok (contains_substring k s)
  | _ => Raise TypeError
  end.

(** [x["k"]] for a string literal [k]. *)
Definition py_getitem (x : json) (k : string) : res json :=
  match x with
  | JObj m => match lookup k m with Some v => Ok v | None => Raise KeyError end
  | _ => Raise TypeError
  end.

(** [x.get("k", d)]; only dicts have the method. *)
Definition py_get (x : json) (k : string) (d : json) : res json :=
  match x with
  | JObj m => Ok (match lookup k m with Some v => v | None => d end)
  | _ => Raise AttributeError
  end.

Definition dict_get (m : list (string * json)) (k : string) (d : json) : json :=
  match lookup k m with Some v => v | None => d end.

Fixpoint chars (s : string) : list json :=
  match s with
  | EmptyString => []
  | String c s' => JStr (String c EmptyString) :: chars s'
  end.

(** [iter(x)]: what a [for] loop over [x] visits. *)
Definition py_iter (x : json) : res (list json) :=
  match x with
  | JArr l => Ok l
  | JObj m => Ok (map (fun kv => JStr (fst kv)) m)
  | JStr s => Ok (chars s)
  | _ => Raise TypeError
  end.

(** [len(x)]. *)
Definition py_len (x : json) : res nat :=
  match x with
  | JStr s => Ok (String.length s)
  | JArr l => Ok (List.length l)
  | JObj m => Ok (List.length m)
  | _ => Raise TypeError
  end.

(** ** Python sets of JSON values

    A set is the list of its elements in insertion order.  Membership and
    insertion hash the element first. *)

Definition pyset : Type := list json.

Definition set_mem (x : json) (s : pyset) : bool := existsb (py_eq x) s.

Definition set_add (x : json) (s : pyset) : pyset :=
  if set_mem x s then s else s ++ [x].

Definition set_remove (x : json) (s : pyset) : pyset :=
  filter (fun y => negb (py_eq x y)) s.

(** [x in s], raising on an unhashable [x]. *)
Definition py_in_set (x : json) (s : pyset) : res bool :=
  if hashable x then Ok (set_mem x s) else Raise TypeError.

(** The set comprehension [{e.get("id") for e in xs if isinstance(e, dict)
    and "id" in e}]. *)
Fixpoint collect_ids (xs : list json) (s : pyset) : res pyset :=
  match xs with
  | [] => Ok s
  | JObj m :: xs' =>
      match lookup "id" m with
      | Some v => if hashable v then collect_ids xs' (set_add v s)
                  else Raise TypeError
      | None => collect_ids xs' s
      end
  | _ :: xs' => collect_ids xs' s
  end.

Definition id_set (entities : json) : res pyset :=
  xs <- py_iter entities ;; collect_ids xs [].

Definition all_str (l : list json) : bool :=
  forallb (fun j => match j with JStr _ => true | _ => false end) l.

(** [sep.join(l)] and [sep.join(sorted(l))] raise [TypeError] unless every
    element is a [str]; the joined text itself is not modelled. *)
Definition py_join (l : list json) : res unit :=
  if all_str l then Ok tt else Raise TypeError.

(** ** The ID pattern [^[a-z0-9]+(-[a-z0-9]+)*$]

    [re.match] anchors at the start; [$] matches at the end of the string
    and also just before a final line feed. *)

Definition is_id_char (c : ascii) : bool :=
  let n := nat_of_ascii c in
  ((97 <=? n) && (n <=? 122) || (48 <=? n) && (n <=? 57))%nat.

Fixpoint id_tokens (expect_char : bool) (s : string) : bool :=
  match s with
  | EmptyString => negb expect_char
  | String c s' =>
      if is_id_char c then id_tokens false s'
      else if Ascii.eqb c "-"%char then negb expect_char && id_tokens true s'
      else Ascii.eqb c "010"%char && String.eqb s' "" && negb expect_char
  end.

(** [ID_PATTERN.match(x)] as a truth value; [TypeError] on a non-string. *)
Definition id_pattern_match (x : json) : res bool :=
  match x with
  | JStr s => Ok (id_tokens true s)
  | _ => Raise TypeError
  end.

(** ** Timestamps *)

(** A [datetime]: [dt_local] is the wall-clock reading in microseconds,
    [dt_offset] the UTC offset in microseconds of an aware value. *)
Record datetime : Type := mk_datetime {
  dt_local : Z;
  dt_offset : option Z
}.

(** [a <= b] on datetimes; naive against aware raises [TypeError]. *)
Definition dt_le (a b : datetime) : res bool :=
  match dt_offset a, dt_offset b with
  | None, None => Ok (dt_local a <=? dt_local b)
  | Some oa, Some ob => Ok (dt_local a - oa <=? dt_local b - ob)
  | _, _ => Raise TypeError
  end.

(** [s.replace('Z', '+00:00')]. *)
Fixpoint replace_Z (s : string) : string :=
  match s with
  | EmptyString => EmptyString
  | String c s' =>
      if Ascii.eqb c "Z"%char then String.append "+00:00" (replace_Z s')
      else String c (replace_Z s')
  end.

(** What the scripts take from the interpreter: the parser
    [datetime.fromisoformat] ([None] is [ValueError]), the order in which a
    set is iterated (hash order: some arrangement of its elements), and the
    number of nested calls still allowed before [RecursionError]. *)
Class Runtime : Type := {
  fromisoformat : string -> option datetime;
  set_order : pyset -> list json;
  set_order_perm : forall s, Permutation (set_order s) s;
  recursion_limit : nat
}.

(** ** The world a run sees *)

Inductive file : Type :=
| NoFile                (* nothing at this path *)
| Unreadable            (* exists; [open] or [read] raises [OSError] *)
| Malformed             (* readable; [json.load] raises [JSONDecodeError] *)
| Doc (j : json).       (* readable; [json.load] returns [j] *)

Inductive input : Type :=
| StdinMalformed
| StdinUnreadable
| StdinDoc (j : json).

Record world : Type := mk_world {
  stdin : input;
  files : string -> file;
  cwd : string
}.

Definition path_exists (w : world) (p : string) : bool :=
  match files w p with NoFile => false | _ => true end.

(** [with open(p) as f: json.load(f)]. *)
Definition load_json (w : world) (p : string) : res json :=
  match files w p with
  | NoFile => Raise OSError
  | Unreadable => Raise OSError
  | Malformed => Raise ValueError
  | Doc j => Ok j
  end.

Definition ends_with_slash (s : string) : bool :=
  match String.length s with
  | O => false
  | S n => match String.get n s with
           | Some c => Ascii.eqb c "/"%char
           | None => false
           end
  end.

(** [os.path.join(a, b)] for a relative [b]. *)
Definition path_join (a b : string) : string :=
  if String.eqb a "" || ends_with_slash a then String.append a b
  else String.append a (String.append "/" b).

Definition kb_path (w : world) (name : string) : string :=
  path_join (path_join (cwd w) "knowledge-base") name.

(** ** Findings and the error stream

    Every message a script builds is a [finding]: the constructor is the
    message's fixed text, its arguments the interpolated values.  [owner] is
    the entity label the message prints ([e.get("id", "unknown")] or
    [e.get("id", idx)]). *)

Inductive finding : Type :=
(* reading the input *)
| InvalidJson
| FailedToReadInput
(* validate_parent_reference *)
| ParentNotFound (path : string)
| Recommendation                       (* an entry "RECOMMENDATION: ..." *)
| FailedToReadParent
| ParentMissingTimestamp
| MissingMetadata
| ParentTimestampMismatch
| Detail (label : string) (v : json)   (* an indented "  Label: value" entry *)
| TimestampNotNewer
| InvalidTimestampFormat
(* entity checks *)
| NoEntities
| EntityNotObject (idx : nat)
| MissingRequiredField (idx : nat) (field : string)
| InvalidIdFormat (v : json)
| DuplicateId (v : json)
| UnknownType (v owner : json)
| RepositoriesNotArray (owner : json)
| RepositoriesEmpty (owner : json)
| RepositoryNotFound (owner repo : json)
| ParentEntityNotFound (owner v : json)
| AvailableParents (ids : pyset)
| FieldNotObject (owner : json) (field : string)
| MissingSubfield (owner : json) (field : string)
| UnknownEnvironment (owner v : json)
| EmptyFiles (owner : json)
(* observation checks *)
| ObservationsNotArray (owner : json)
| ObservationNotObject (owner : json) (idx : nat)
| ObservationMissingField (owner : json) (idx : nat) (field : string)
| DuplicateObservationId (owner v : json)
| UnknownObservationCategory (owner v : json)
| InvalidSeverity (owner v : json)
| ShortObservationDescription (owner label : json)
(* relation checks *)
| RelationsNotArray (owner : json)
| RelationNotObject (owner : json) (idx : nat)
| RelationMissingField (owner : json) (idx : nat) (field : string)
| DuplicateRelationId (owner v : json)
| UnknownRelationType (owner v : json)
| InvalidCoupling (owner v : json)
| SelfReference (owner label : json)
| RelationSourceNotFound (owner v : json)
| RelationTargetNotFound (owner v : json)
| ShortRelationDescription (owner : json) (label : option json)
| HighTightCoupling (tight total : nat)
| CircularDependency (path : list json)
(* advisories printed by main *)
| NoObservations (owner : json)
| NoRelations (owner : json)
| ParentWithoutChildren (id : json).

(** A line group printed by [error(...)], by [warning(...)], or a closing
    summary. *)
Inductive line : Type :=
| LError (f : finding) (location : string)
| LWarning (f : finding)
| LFailed
| LPassedWithWarnings
| LPassed
| LSkipped.

Definition is_error_line (l : line) : bool :=
  match l with LError _ _ => true | _ => false end.

Definition is_warning_line (l : line) : bool :=
  match l with LWarning _ => true | _ => false end.

(** The two lists every checker fills. *)
Record report : Type := mk_report {
  errors : list finding;
  warnings : list finding
}.

Definition no_findings : report := mk_report [] [].

Definition add_error (f : finding) (r : report) : report :=
  mk_report (errors r ++ [f]) (warnings r).

Definition add_warning (f : finding) (r : report) : report :=
  mk_report (errors r) (warnings r ++ [f]).

Definition add_errors (fs : list finding) (r : report) : report :=
  mk_report (errors r ++ fs) (warnings r).

Definition add_warnings (fs : list finding) (r : report) : report :=
  mk_report (errors r) (warnings r ++ fs).

(** What a checker returns: [(len(errors) == 0, errors, warnings)]. *)
Definition verdict : Type := (bool * list finding * list finding)%type.

Definition conclude (r : report) : verdict :=
  (match errors r with [] => true | _ => false end, errors r, warnings r).

(** The loop [for field in required: if field not in m: errors.append(...)]. *)
Definition missing_fields (mk : string -> finding) (required : list string)
           (m : list (string * json)) : list finding :=
  map mk (filter (fun f => negb (has_key f m)) required).

(** [if "k" in m: if len(m["k"]) < 10: ...] as a truth value. *)
Definition short_text (m : list (string * json)) (k : string) : res bool :=
  match lookup k m with
  | Some v => n <- py_len v ;; Ok (Nat.ltb n 10)
  | None => Ok false
  end.

(** [datetime.fromisoformat(v.replace('Z', '+00:00'))]: a value that is not
    a [str] has no [replace]. *)
Definition parse_timestamp `{Runtime} (v : json) : res datetime :=
  match v with
  | JStr s => match fromisoformat (replace_Z s) with
              | Some d => Ok d
              | None => Raise ValueError
              end
  | _ => Raise AttributeError
  end.

(** The parse of both timestamps and their comparison, as the [try] block
    runs it: [Ok true] when [current_ts <= parent_ts]. *)
Definition not_newer `{Runtime} (current parent : json) : res bool :=
  current_ts <- parse_timestamp current ;;
  parent_ts <- parse_timestamp parent ;;
  dt_le current_ts parent_ts.

(** How main prints the entries of a failed lineage check. *)
Definition is_recommendation (f : finding) : bool :=
  match f with Recommendation => true | _ => false end.

Definition lineage_line (f : finding) : line :=
  if is_recommendation f then LWarning f else LError f "".

(** The closing [if has_errors / elif has_warnings / else]. *)
Definition exit_code (has_errors has_warnings : bool) : Z * list line :=
  if has_errors then (2, [LFailed])
  else if has_warnings then (1, [LPassedWithWarnings])
  else (0, [LPassed]).

(** One stage of main: print a checker's verdict and update the flags. *)
Record progress : Type := mk_progress {
  has_errors : bool;
  has_warnings : bool;
  printed : list line
}.

Definition start : progress := mk_progress false false [].

Definition emit_verdict (location : string) (v : verdict) (p : progress)
  : progress :=
  let '(valid, errs, warns) := v in
  let p1 :=
    if valid then p
    else mk_progress true (has_warnings p)
           (printed p ++ map (fun e => LError e location) errs) in
  match warns with
  | [] => p1
  | _ => mk_progress (has_errors p1) true (printed p1 ++ map LWarning warns)
  end.

Definition emit_advisories (fs : list finding) (p : progress) : progress :=
  match fs with
  | [] => p
  | _ => mk_progress (has_errors p) true (printed p ++ map LWarning fs)
  end.

Definition finish (p : progress) : Z * list line :=
  let '(code, summary) := exit_code (has_errors p) (has_warnings p) in
  (code, printed p ++ summary).

(** ** Code the three layer scripts share verbatim

    The ID block of the entity loop and the whole of [validate_observations]
    are the same text in the three scripts, up to the noun in the messages
    and the category table; they are embedded once. *)

Record scan : Type := mk_scan {
  found : report;
  seen : pyset
}.

Definition note_error (f : finding) (s : scan) : scan :=
  mk_scan (add_error f (found s)) (seen s).

(** The block under [if "id" in entity]: pattern, then duplicates. *)
Definition check_id (m : list (string * json)) (s : scan) : res scan :=
  match lookup "id" m with
  | Some entity_id =>
      matches <- id_pattern_match entity_id ;;
      let s1 := if matches then s
                else note_error (InvalidIdFormat entity_id) s in
      dup <- py_in_set entity_id (seen s1) ;;
      let s2 := if dup then note_error (DuplicateId entity_id) s1 else s1 in
      Ok (mk_scan (found s2) (set_add entity_id (seen s2)))
  | None => Ok s
  end.

(** [validate_observations], for the category table of a layer. *)
Module Observations.
Section WithCategories.

Variable OBSERVATION_CATEGORIES : list json.

Definition OBSERVATION_SEVERITIES : list json := map JStr
  ["info"; "warning"; "critical"].

Definition observation_fields : list string :=
  ["id"; "category"; "description"].

(** The block under [if "id" in obs]; [seen] is [seen_obs_ids]. *)
Definition check_observation_id (owner : json) (m : list (string * json))
           (s : scan) : res scan :=
  match lookup "id" m with
  | Some obs_id =>
      dup <- py_in_set obs_id (seen s) ;;
      let s1 := if dup then note_error (DuplicateObservationId owner obs_id) s
                else s in
      Ok (mk_scan (found s1) (set_add obs_id (seen s1)))
  | None => Ok s
  end.

Definition check_category (owner : json) (m : list (string * json))
           (r : report) : report :=
  match lookup "category" m with
  | Some c =>
      if list_mem c OBSERVATION_CATEGORIES then r
      else add_warning (UnknownObservationCategory owner c) r
  | None => r
  end.

Definition check_severity (owner : json) (m : list (string * json))
           (r : report) : report :=
  match lookup "severity" m with
  | Some v =>
      if list_mem v OBSERVATION_SEVERITIES then r
      else add_error (InvalidSeverity owner v) r
  | None => r
  end.

Definition check_observation (owner : json) (idx : nat) (obs : json)
           (s : scan) : res scan :=
  match obs with
  | JObj m =>
      let s1 := mk_scan (add_errors
                           (missing_fields (ObservationMissingField owner idx)
                              observation_fields m) (found s)) (seen s) in
      s2 <- check_observation_id owner m s1 ;;
      let r := check_severity owner m (check_category owner m (found s2)) in
      short <- short_text m "description" ;;
      Ok (mk_scan
            (if short
             then add_warning (ShortObservationDescription owner
                                 (dict_get m "id" (JNum (Z.of_nat idx)))) r
             else r)
            (seen s2))
  | _ => Ok (note_error (ObservationNotObject owner idx) s)
  end.

(** The body of the outer loop: one entity and its observations, with a
    fresh [seen_obs_ids]. *)
Definition check_entity_observations (_ : nat) (entity : json) (r : report)
  : res report :=
  match entity with
  | JObj m =>
      let entity_id := dict_get m "id" (JStr "unknown") in
      match dict_get m "observations" (JArr []) with
      | JArr observations =>
          s <- for_each (check_observation entity_id) 0 observations
                 (mk_scan r []) ;;
          Ok (found s)
      | _ => Ok (add_error (ObservationsNotArray entity_id) r)
      end
  | _ => Ok r
  end.

Definition validate_observations (entities : json) : res verdict :=
  xs <- py_iter entities ;;
  r <- for_each check_entity_observations 0 xs no_findings ;;
  Ok (conclude r).

End WithCategories.
End Observations.

(** ** validate-c1-systems.py *)

Module Systems.

Definition ALLOWED_SYSTEM_TYPES : list json := map JStr
  ["web-application"; "mobile-application"; "desktop-application";
   "api-service"; "database"; "message-broker"; "cache"; "cdn";
   "external-service"; "user-facing"; "internal-service";
   "data-store"; "integration"; "other"].

Definition OBSERVATION_CATEGORIES : list json := map JStr
  ["architectural"; "technical"; "quality"; "security";
   "performance"; "scalability"; "maintainability"; "integration";
   "deployment"; "data"; "testing"; "documentation"].

Definition OBSERVATION_SEVERITIES : list json :=
  Observations.OBSERVATION_SEVERITIES.

Definition RELATION_TYPES : list json := map JStr
  ["http-rest"; "http-graphql"; "http-soap"; "grpc"; "websocket";
   "message-queue"; "event-stream"; "database-query"; "database-write";
   "file-io"; "dependency"; "inheritance"; "composition"; "aggregation";
   "uses"; "calls"; "contains"; "http"; "https"; "graphql"; "rpc";
   "database-connection"; "file-transfer"; "authentication"; "soap";
   "smtp"; "external-api"].

(** *** validate_parent_reference *)

(** The block under [if "parent" in metadata]: [Some declared] when a
    declared [parent.timestamp] differs from the parent file's timestamp. *)
Definition parent_mismatch (metadata parent_timestamp_str : json)
  : res (option json) :=
  has_parent <- py_contains "parent" metadata ;;
  if has_parent then
    parent <- py_getitem metadata "parent" ;;
    has_ts <- py_contains "timestamp" parent ;;
    if has_ts then
      declared <- py_getitem parent "timestamp" ;;
      Ok (if py_eq declared parent_timestamp_str then None else Some declared)
    else Ok None
  else Ok None.

(** The block under [if "timestamp" in metadata]; the [try] catches
    [ValueError] and [AttributeError] only. *)
Definition check_ordering `{Runtime} (metadata parent_timestamp_str : json)
  : res (bool * list finding) :=
  has_ts <- py_contains "timestamp" metadata ;;
  if has_ts then
    current <- py_getitem metadata "timestamp" ;;
    match not_newer current parent_timestamp_str with
    | Ok true =>
        Ok (false, [TimestampNotNewer;
                    Detail "Parent" parent_timestamp_str;
                    Detail "Current" current;
                    Recommendation])
    | Ok false => Ok (true, [])
    | Raise ValueError | Raise AttributeError =>
        Ok (false, [InvalidTimestampFormat])
    | Raise e => Raise e
    end
  else Ok (true, []).

Definition validate_parent_reference `{Runtime} (w : world) (data : json)
           (init_file_path : string) : res (bool * list finding) :=
  if negb (path_exists w init_file_path) then
    Ok (false, [ParentNotFound init_file_path; Recommendation])
  else
    match load_json w init_file_path with
    | Raise _ => Ok (false, [FailedToReadParent])
    | Ok init_data =>
        parent_metadata <- py_get init_data "metadata" (JObj []) ;;
        parent_timestamp_str <- py_get parent_metadata "timestamp" JNull ;;
        if negb (truthy parent_timestamp_str) then
          Ok (false, [ParentMissingTimestamp])
        else
          has_metadata <- py_contains "metadata" data ;;
          if negb has_metadata then Ok (false, [MissingMetadata])
          else
            metadata <- py_getitem data "metadata" ;;
            mismatch <- parent_mismatch metadata parent_timestamp_str ;;
            match mismatch with
            | Some declared =>
                Ok (false, [ParentTimestampMismatch;
                            Detail "Expected" parent_timestamp_str;
                            Detail "Actual" declared])
            | None => check_ordering metadata parent_timestamp_str
            end
    end.

(** *** validate_systems *)

Definition system_fields : list string :=
  ["id"; "name"; "type"; "repositories"; "description"; "observations";
   "relations"].

(** The block under [if "type" in system]. *)
Definition check_type (m : list (string * json)) (r : report) : report :=
  match lookup "type" m with
  | Some t =>
      if list_mem t ALLOWED_SYSTEM_TYPES then r
      else add_warning (UnknownType t (dict_get m "id" (JStr "unknown"))) r
  | None => r
  end.

(** The block under [if "repositories" in system]. *)
Definition check_repositories (init_repos : list json) (idx : nat)
           (m : list (string * json)) (r : report) : report :=
  let owner := dict_get m "id" (JNum (Z.of_nat idx)) in
  match lookup "repositories" m with
  | Some (JArr []) => add_error (RepositoriesEmpty owner) r
  | Some (JArr repos) =>
      add_warnings
        (map (RepositoryNotFound owner)
             (filter (fun repo => negb (list_mem repo init_repos)) repos)) r
  | Some _ => add_error (RepositoriesNotArray owner) r
  | None => r
  end.

Definition check_system (init_repos : list json) (idx : nat) (system : json)
           (s : scan) : res scan :=
  match system with
  | JObj m =>
      let s1 := mk_scan (add_errors (missing_fields (MissingRequiredField idx)
                                       system_fields m) (found s)) (seen s) in
      s2 <- check_id m s1 ;;
      Ok (mk_scan (check_repositories init_repos idx m
                     (check_type m (found s2))) (seen s2))
  | _ => Ok (note_error (EntityNotObject idx) s)
  end.

Definition validate_systems (systems : json) (init_repos : list json)
  : res verdict :=
  if negb (truthy systems) then Ok (false, [NoEntities], [])
  else
    xs <- py_iter systems ;;
    s <- for_each (check_system init_repos) 0 xs (mk_scan no_findings []) ;;
    Ok (conclude (found s)).

(** *** validate_observations *)

Definition validate_observations (systems : json) : res verdict :=
  Observations.validate_observations OBSERVATION_CATEGORIES systems.

(** *** validate_relations *)

Definition relation_fields : list string :=
  ["id"; "source"; "target"; "type"; "description"].

(** The adjacency dict [graph]: keys in the order the set of system IDs was
    iterated when the dict was built. *)
Definition graph : Type := list (json * list json).

Fixpoint graph_has (k : json) (g : graph) : bool :=
  match g with
  | [] => false
  | (k', _) :: g' => py_eq k k' || graph_has k g'
  end.

Fixpoint graph_get (k : json) (g : graph) : list json :=
  match g with
  | [] => []
  | (k', ns) :: g' => if py_eq k k' then ns else graph_get k g'
  end.

(** [graph[source].append(target)]. *)
Fixpoint graph_append (source target : json) (g : graph) : graph :=
  match g with
  | [] => []
  | (k', ns) :: g' =>
      if py_eq source k' then (k', ns ++ [target]) :: g'
      else (k', ns) :: graph_append source target g'
  end.

Record rel_scan : Type := mk_rel_scan {
  rfound : report;
  rgraph : graph;
  rseen : pyset
}.

Definition rel_error (f : finding) (s : rel_scan) : rel_scan :=
  mk_rel_scan (add_error f (rfound s)) (rgraph s) (rseen s).

Definition rel_warning (f : finding) (s : rel_scan) : rel_scan :=
  mk_rel_scan (add_warning f (rfound s)) (rgraph s) (rseen s).

Definition check_relation_id (owner : json) (m : list (string * json))
           (s : rel_scan) : res rel_scan :=
  match lookup "id" m with
  | Some rel_id =>
      dup <- py_in_set rel_id (rseen s) ;;
      let s1 := if dup then rel_error (DuplicateRelationId owner rel_id) s
                else s in
      Ok (mk_rel_scan (rfound s1) (rgraph s1) (set_add rel_id (rseen s1)))
  | None => Ok s
  end.

Definition check_relation_type (owner : json) (m : list (string * json))
           (s : rel_scan) : rel_scan :=
  match lookup "type" m with
  | Some t =>
      if list_mem t RELATION_TYPES then s
      else rel_warning (UnknownRelationType owner t) s
  | None => s
  end.

(** The block under [if source and target]. *)
Definition check_endpoints (system_ids : pyset) (owner : json) (idx : nat)
           (m : list (string * json)) (s : rel_scan) : res rel_scan :=
  let source := dict_get m "source" JNull in
  let target := dict_get m "target" JNull in
  if truthy source && truthy target then
    let s1 := if py_eq source target
              then rel_warning (SelfReference owner
                                  (dict_get m "id" (JNum (Z.of_nat idx)))) s
              else s in
    source_known <- py_in_set source system_ids ;;
    let s2 := if source_known then s1
              else rel_warning (RelationSourceNotFound owner source) s1 in
    target_known <- py_in_set target system_ids ;;
    let s3 := if target_known then s2
              else rel_warning (RelationTargetNotFound owner target) s2 in
    Ok (if graph_has source (rgraph s3) && target_known
        then mk_rel_scan (rfound s3) (graph_append source target (rgraph s3))
               (rseen s3)
        else s3)
  else Ok s.

Definition check_relation (system_ids : pyset) (owner : json) (idx : nat)
           (rel : json) (s : rel_scan) : res rel_scan :=
  match rel with
  | JObj m =>
      let s1 := mk_rel_scan
                  (add_errors (missing_fields (RelationMissingField owner idx)
                                 relation_fields m) (rfound s))
                  (rgraph s) (rseen s) in
      s2 <- check_relation_id owner m s1 ;;
      s3 <- check_endpoints system_ids owner idx m
              (check_relation_type owner m s2) ;;
      short <- short_text m "description" ;;
      Ok (if short
          then rel_warning (ShortRelationDescription owner
                              (Some (dict_get m "id" (JNum (Z.of_nat idx))))) s3
          else s3)
  | _ => Ok (rel_error (RelationNotObject owner idx) s)
  end.

Definition check_system_relations (system_ids : pyset) (_ : nat)
           (system : json) (s : rel_scan) : res rel_scan :=
  match system with
  | JObj m =>
      let system_id := dict_get m "id" (JStr "unknown") in
      match dict_get m "relations" (JArr []) with
      | JArr relations =>
          for_each (check_relation system_ids system_id) 0 relations
            (mk_rel_scan (rfound s) (rgraph s) [])
      | _ => Ok (rel_error (RelationsNotArray system_id) s)
      end
  | _ => Ok s
  end.

Fixpoint index_of (x : json) (l : list json) : option nat :=
  match l with
  | [] => None
  | y :: l' => if py_eq y x then Some O
               else option_map S (index_of x l')
  end.

(** The nested function [has_cycle].  [visited] and [rec_stack] are the two
    shared sets, returned as left by the call; [path] is private to the call
    (the caller passes a copy).  [depth] is the number of nested calls the
    interpreter still allows. *)
Fixpoint has_cycle (depth : nat) (g : graph) (node : json)
         (visited rec_stack : pyset) (path : list json)
  : res (option (list json) * pyset * pyset) :=
  match depth with
  | O => Raise RecursionError
  | S depth' =>
      let path1 := path ++ [node] in
      (fix neighbors (ns : list json) (visited rec_stack : pyset)
         : res (option (list json) * pyset * pyset) :=
         match ns with
         | [] => Ok (None, visited, set_remove node rec_stack)
         | neighbor :: ns' =>
             if negb (set_mem neighbor visited) then
               '(found_cycle, visited', rec_stack') <-
                  has_cycle depth' g neighbor visited rec_stack path1 ;;
               match found_cycle with
               | Some cycle_path => Ok (Some cycle_path, visited', rec_stack')
               | None => neighbors ns' visited' rec_stack'
               end
             else if set_mem neighbor rec_stack then
               match index_of neighbor path1 with
               | Some cycle_start =>
                   Ok (Some (skipn cycle_start path1 ++ [neighbor]),
                       visited, rec_stack)
               | None => Raise ValueError
               end
             else neighbors ns' visited rec_stack
         end) (graph_get node g) (set_add node visited) (set_add node rec_stack)
  end.

(** The loop [for node in graph] that starts a search at every node not yet
    visited and appends one warning per search that found a cycle; [depth]
    is the number of nested calls each search may make. *)
Fixpoint detect_cycles (depth : nat) (g : graph) (nodes : list json)
         (visited : pyset) (r : report) : res report :=
  match nodes with
  | [] => Ok r
  | node :: nodes' =>
      if set_mem node visited then detect_cycles depth g nodes' visited r
      else
        '(found_cycle, visited', _) <-
           has_cycle depth g node visited [] [] ;;
        match found_cycle with
        | Some cycle_path =>
            _ <- py_join cycle_path ;;
            detect_cycles depth g nodes' visited'
              (add_warning (CircularDependency cycle_path) r)
        | None => detect_cycles depth g nodes' visited' r
        end
  end.

Definition validate_relations `{Runtime} (systems : json) : res verdict :=
  xs <- py_iter systems ;;
  system_ids <- collect_ids xs [] ;;
  let g : graph := map (fun k => (k, [])) (set_order system_ids) in
  s <- for_each (check_system_relations system_ids) 0 xs
         (mk_rel_scan no_findings g []) ;;
  r <- detect_cycles recursion_limit (rgraph s) (map fst (rgraph s)) []
         (rfound s) ;;
  Ok (conclude r).

(** *** main *)

(** The comprehension that reads the repository names of [init.json]. *)
Fixpoint repo_names (repos : list json) : res (list json) :=
  match repos with
  | [] => Ok []
  | repo :: repos' =>
      path <- py_get repo "path" (JStr "") ;;
      name <- py_get repo "name" path ;;
      rest <- repo_names repos' ;;
      Ok (name :: rest)
  end.

(** [init_repos] after the [try ... except: pass]. *)
Definition load_init_repos (w : world) (init_file_path : string) : list json :=
  match (init_data <- load_json w init_file_path ;;
         repositories <- py_get init_data "repositories" (JArr []) ;;
         repos <- py_iter repositories ;;
         repo_names repos) with
  | Ok names => names
  | Raise _ => []
  end.

(** The closing loop that warns about empty observations and relations. *)
Definition empty_collections (system : json) : list finding :=
  match system with
  | JObj m =>
      let system_id := dict_get m "id" (JStr "unknown") in
      (if truthy (dict_get m "observations" (JArr [])) then []
       else [NoObservations system_id]) ++
      (if truthy (dict_get m "relations" (JArr [])) then []
       else [NoRelations system_id])
  | _ => []
  end.

Definition init_path (w : world) : string :=
  if path_exists w "knowledge-base/init.json" then "knowledge-base/init.json"
  else kb_path w "init.json".

(** The stages main runs once the lineage check has passed. *)
Definition checks `{Runtime} (w : world) (data : json) : res progress :=
  let init_repos := load_init_repos w (init_path w) in
  systems <- py_get data "systems" (JArr []) ;;
  v1 <- validate_systems systems init_repos ;;
  let p1 := emit_verdict "systems" v1 start in
  v2 <- validate_observations systems ;;
  let p2 := emit_verdict "observations" v2 p1 in
  v3 <- validate_relations systems ;;
  let p3 := emit_verdict "relations" v3 p2 in
  xs <- py_iter systems ;;
  Ok (emit_advisories (flat_map empty_collections xs) p3).

Definition main `{Runtime} (w : world) : res (Z * list line) :=
  match stdin w with
  | StdinMalformed => Ok (2, [LError InvalidJson ""])
  | StdinUnreadable => Ok (2, [LError FailedToReadInput ""])
  | StdinDoc data =>
      '(valid, errs) <- validate_parent_reference w data (init_path w) ;;
      if negb valid then Ok (2, map lineage_line errs)
      else p <- checks w data ;; Ok (finish p)
  end.

End Systems.

(** ** Code the container and component scripts share verbatim *)

(** The timestamp-ordering block of the C2 and C3 scripts ([parent_label]
    and [current_label] are the file names the messages print). *)
Definition check_ordering `{Runtime} (parent_label current_label : string)
           (metadata parent_timestamp_str : json) : res (bool * list finding) :=
  has_ts <- py_contains "timestamp" metadata ;;
  if has_ts then
    current <- py_getitem metadata "timestamp" ;;
    match not_newer current parent_timestamp_str with
    | Ok true =>
        Ok (false, [TimestampNotNewer;
                    Detail parent_label parent_timestamp_str;
                    Detail current_label current])
    | Ok false => Ok (true, [])
    | Raise ValueError | Raise AttributeError =>
        Ok (false, [InvalidTimestampFormat])
    | Raise e => Raise e
    end
  else Ok (true, []).

(** [validate_parent_reference] of the C2 and C3 scripts.  The C2 script
    returns the parent's timestamp string as a third component, which its
    main never reads; it is left out. *)
Definition layer_parent_reference `{Runtime}
           (parent_label current_label : string)
           (w : world) (data : json) (parent_file_path : string)
  : res (bool * list finding) :=
  if negb (path_exists w parent_file_path) then
    Ok (false, [ParentNotFound parent_file_path; Recommendation])
  else
    match load_json w parent_file_path with
    | Raise _ => Ok (false, [FailedToReadParent])
    | Ok parent_data =>
        parent_metadata <- py_get parent_data "metadata" (JObj []) ;;
        parent_timestamp_str <- py_get parent_metadata "timestamp" JNull ;;
        if negb (truthy parent_timestamp_str) then
          Ok (false, [ParentMissingTimestamp])
        else
          has_metadata <- py_contains "metadata" data ;;
          if negb has_metadata then Ok (false, [MissingMetadata])
          else
            metadata <- py_getitem data "metadata" ;;
            check_ordering parent_label current_label metadata
              parent_timestamp_str
    end.

(** The block under [if "system_id" in container] / [if "container_id" in
    component]: the reference must be in the parent layer's ID set. *)
Definition check_parent_id (key : string) (parent_ids : pyset) (idx : nat)
           (m : list (string * json)) (r : report) : res report :=
  match lookup key m with
  | Some parent_id =>
      known <- py_in_set parent_id parent_ids ;;
      if known then Ok r
      else
        _ <- py_join parent_ids ;;
        Ok (add_errors
              [ParentEntityNotFound (dict_get m "id" (JNum (Z.of_nat idx)))
                 parent_id;
               AvailableParents parent_ids] r)
  | None => Ok r
  end.

(** The closing loops of the two mains: the parent IDs that no entity
    names. [referenced] is the key set of the grouping dict. *)
Fixpoint referenced_parents (key : string) (entities : list json)
         (referenced : pyset) : res pyset :=
  match entities with
  | [] => Ok referenced
  | JObj m :: entities' =>
      let parent_id := dict_get m key JNull in
      if truthy parent_id then
        if hashable parent_id
        then referenced_parents key entities' (set_add parent_id referenced)
        else Raise TypeError
      else referenced_parents key entities' referenced
  | _ :: entities' => referenced_parents key entities' referenced
  end.

Definition childless_parents `{Runtime} (key : string) (parent_ids : pyset)
           (entities : json) : res (list finding) :=
  xs <- py_iter entities ;;
  referenced <- referenced_parents key xs [] ;;
  Ok (map ParentWithoutChildren
        (filter (fun id => negb (set_mem id referenced))
                (set_order parent_ids))).

(** ** validate-c2-containers.py *)

Module Containers.

Definition ALLOWED_CONTAINER_TYPES : list json := map JStr
  ["web-server"; "app-server"; "database"; "cache"; "message-broker";
   "spa"; "api"; "worker"; "file-storage"; "web-application";
   "application-server"; "spa-client"; "mobile-app"; "desktop-app"].

Definition ALLOWED_ENVIRONMENTS : list json := map JStr
  ["browser"; "server"; "cloud"; "edge"; "mobile"].

Definition OBSERVATION_CATEGORIES : list json := map JStr
  ["architectural"; "technical"; "quality"; "security";
   "performance"; "scalability"; "maintainability"; "integration";
   "deployment"; "data"; "testing"; "documentation"; "technology";
   "runtime"; "communication"; "data-storage"; "authentication";
   "configuration"; "monitoring"; "dependencies"].

Definition OBSERVATION_SEVERITIES : list json :=
  Observations.OBSERVATION_SEVERITIES.

Definition RELATION_TYPES : list json := map JStr
  ["http-rest"; "http-graphql"; "grpc"; "websocket";
   "database-connection"; "database-query"; "database-write";
   "database-read-write"; "cache-access"; "cache-read"; "cache-write";
   "cache-read-write"; "message-publish"; "message-subscribe";
   "message-consumer"; "file-read"; "file-write"; "cdn-fetch"; "stream";
   "dependency"; "uses"; "calls"; "contains"].

(** *** validate_parent_reference *)

Definition validate_parent_reference `{Runtime} (w : world) (data : json)
           (c1_file_path : string) : res (bool * list finding) :=
  layer_parent_reference "Parent (c1-systems.json)"
    "Current (c2-containers.json)" w data c1_file_path.

(** *** validate_containers *)

Definition container_fields : list string :=
  ["id"; "name"; "type"; "system_id"; "responsibility"; "technology";
   "runtime"].

Definition check_type (m : list (string * json)) (r : report) : report :=
  match lookup "type" m with
  | Some t =>
      if list_mem t ALLOWED_CONTAINER_TYPES then r
      else add_warning (UnknownType t (dict_get m "id" (JStr "unknown"))) r
  | None => r
  end.

Definition check_technology (idx : nat) (m : list (string * json))
           (r : report) : report :=
  let owner := dict_get m "id" (JNum (Z.of_nat idx)) in
  match lookup "technology" m with
  | Some (JObj tech) =>
      let r1 :=
        if has_key "primary_language" tech then r
        else add_error (MissingSubfield owner "technology.primary_language")
               r in
      if has_key "framework" tech then r1
      else add_error (MissingSubfield owner "technology.framework") r1
  | Some _ => add_error (FieldNotObject owner "technology") r
  | None => r
  end.

Definition check_runtime (idx : nat) (m : list (string * json))
           (r : report) : report :=
  let owner := dict_get m "id" (JNum (Z.of_nat idx)) in
  match lookup "runtime" m with
  | Some (JObj runtime) =>
      let r1 :=
        match lookup "environment" runtime with
        | None => add_error (MissingSubfield owner "runtime.environment") r
        | Some e => if list_mem e ALLOWED_ENVIRONMENTS then r
                    else add_warning (UnknownEnvironment owner e) r
        end in
      let r2 := if has_key "platform" runtime then r1
                else add_error (MissingSubfield owner "runtime.platform") r1 in
      match lookup "containerized" runtime with
      | None => add_error (MissingSubfield owner "runtime.containerized") r2
      | Some c =>
          if truthy c && negb (has_key "container_technology" runtime)
          then add_error
                 (MissingSubfield owner "runtime.container_technology") r2
          else r2
      end
  | Some _ => add_error (FieldNotObject owner "runtime") r
  | None => r
  end.

Definition check_container (c1_system_ids : pyset) (idx : nat)
           (container : json) (s : scan) : res scan :=
  match container with
  | JObj m =>
      let s1 := mk_scan (add_errors
                           (missing_fields (MissingRequiredField idx)
                              container_fields m) (found s)) (seen s) in
      s2 <- check_id m s1 ;;
      r <- check_parent_id "system_id" c1_system_ids idx m
             (check_type m (found s2)) ;;
      Ok (mk_scan (check_runtime idx m (check_technology idx m r)) (seen s2))
  | _ => Ok (note_error (EntityNotObject idx) s)
  end.

Definition validate_containers (containers : json) (c1_system_ids : pyset)
  : res verdict :=
  if negb (truthy containers) then Ok (false, [NoEntities], [])
  else
    xs <- py_iter containers ;;
    s <- for_each (check_container c1_system_ids) 0 xs
           (mk_scan no_findings []) ;;
    Ok (conclude (found s)).

(** *** validate_observations *)

Definition validate_observations (containers : json) : res verdict :=
  Observations.validate_observations OBSERVATION_CATEGORIES containers.

(** *** validate_relations *)

Definition relation_fields : list string := ["target"; "type"; "description"].

Definition check_relation_type (owner : json) (m : list (string * json))
           (r : report) : report :=
  match lookup "type" m with
  | Some t =>
      if list_mem t RELATION_TYPES then r
      else add_warning (UnknownRelationType owner t) r
  | None => r
  end.

(** The block under [if "target" in rel]. *)
Definition check_target (container_ids : pyset) (owner : json)
           (m : list (string * json)) (r : report) : res report :=
  match lookup "target" m with
  | Some target =>
      known <- py_in_set target container_ids ;;
      Ok (if known then r
          else add_warning (RelationTargetNotFound owner target) r)
  | None => Ok r
  end.

Definition check_relation (container_ids : pyset) (owner : json) (idx : nat)
           (rel : json) (r : report) : res report :=
  match rel with
  | JObj m =>
      let r1 := add_errors (missing_fields (RelationMissingField owner idx)
                              relation_fields m) r in
      r2 <- check_target container_ids owner m
              (check_relation_type owner m r1) ;;
      short <- short_text m "description" ;;
      Ok (if short then add_warning (ShortRelationDescription owner None) r2
          else r2)
  | _ => Ok (add_error (RelationNotObject owner idx) r)
  end.

Definition check_container_relations (container_ids : pyset) (_ : nat)
           (container : json) (r : report) : res report :=
  match container with
  | JObj m =>
      let container_id := dict_get m "id" (JStr "unknown") in
      match dict_get m "relations" (JArr []) with
      | JArr relations =>
          for_each (check_relation container_ids container_id) 0 relations r
      | _ => Ok (add_error (RelationsNotArray container_id) r)
      end
  | _ => Ok r
  end.

Definition validate_relations (containers : json) : res verdict :=
  xs <- py_iter containers ;;
  container_ids <- collect_ids xs [] ;;
  r <- for_each (check_container_relations container_ids) 0 xs no_findings ;;
  Ok (conclude r).

(** *** main *)

Definition c1_path (w : world) : string :=
  if path_exists w "knowledge-base/c1-systems.json"
  then "knowledge-base/c1-systems.json"
  else kb_path w "c1-systems.json".

(** [c1_system_ids] after the [try ... except: pass]. *)
Definition load_system_ids (w : world) (c1_file_path : string) : pyset :=
  match (c1_data <- load_json w c1_file_path ;;
         systems <- py_get c1_data "systems" (JArr []) ;;
         id_set systems) with
  | Ok ids => ids
  | Raise _ => []
  end.

Definition checks `{Runtime} (w : world) (data : json) : res progress :=
  let c1_system_ids := load_system_ids w (c1_path w) in
  containers <- py_get data "containers" (JArr []) ;;
  v1 <- validate_containers containers c1_system_ids ;;
  let p1 := emit_verdict "containers" v1 start in
  v2 <- validate_observations containers ;;
  let p2 := emit_verdict "observations" v2 p1 in
  v3 <- validate_relations containers ;;
  let p3 := emit_verdict "relations" v3 p2 in
  advisories <- childless_parents "system_id" c1_system_ids containers ;;
  Ok (emit_advisories advisories p3).

Definition main `{Runtime} (w : world) : res (Z * list line) :=
  match stdin w with
  | StdinMalformed => Ok (2, [LError InvalidJson ""])
  | StdinUnreadable => Ok (2, [LError FailedToReadInput ""])
  | StdinDoc data =>
      '(valid, errs) <- validate_parent_reference w data (c1_path w) ;;
      if negb valid then Ok (2, map lineage_line errs)
      else p <- checks w data ;; Ok (finish p)
  end.

End Containers.

(** ** validate-c3-components.py *)

Module Components.

Definition ALLOWED_COMPONENT_TYPES : list json := map JStr
  ["service"; "controller"; "repository"; "model"; "utility";
   "middleware"; "view"; "component"; "config"; "facade";
   "factory"; "adapter"].

Definition OBSERVATION_CATEGORIES : list json := map JStr
  ["design-patterns"; "code-quality"; "dependencies"; "testing";
   "complexity"; "maintainability"; "code-structure"; "error-handling";
   "performance"; "security"; "documentation"; "coupling"; "cohesion"].

Definition OBSERVATION_SEVERITIES : list json :=
  Observations.OBSERVATION_SEVERITIES.

Definition RELATION_TYPES : list json := map JStr
  ["dependency"; "interface-implementation"; "event-publisher";
   "event-subscriber"; "uses"; "calls"; "imports"; "injects"; "observes";
   "delegates"; "provides"; "consumes"; "inherits"; "implements";
   "composes"; "aggregates"; "notifies"; "extends"].

Definition COUPLING_TYPES : list json := map JStr ["loose"; "tight"].

(** *** validate_parent_reference *)

Definition validate_parent_reference `{Runtime} (w : world) (data : json)
           (c2_file_path : string) : res (bool * list finding) :=
  layer_parent_reference "Parent (c2-containers.json)"
    "Current (c3-components.json)" w data c2_file_path.

(** *** validate_components *)

Definition component_fields : list string :=
  ["id"; "name"; "type"; "container_id"; "responsibility"; "structure"].

Definition check_type (m : list (string * json)) (r : report) : report :=
  match lookup "type" m with
  | Some t =>
      if list_mem t ALLOWED_COMPONENT_TYPES then r
      else add_warning (UnknownType t (dict_get m "id" (JStr "unknown"))) r
  | None => r
  end.

Definition check_structure (idx : nat) (m : list (string * json))
           (r : report) : report :=
  let owner := dict_get m "id" (JNum (Z.of_nat idx)) in
  match lookup "structure" m with
  | Some (JObj struct) =>
      let r1 := if has_key "path" struct then r
                else add_error (MissingSubfield owner "structure.path") r in
      let r2 :=
        if has_key "language" struct then r1
        else add_error (MissingSubfield owner "structure.language") r1 in
      match lookup "files" struct with
      | Some (JArr []) => add_warning (EmptyFiles owner) r2
      | _ => r2
      end
  | Some _ => add_error (FieldNotObject owner "structure") r
  | None => r
  end.

Definition check_component (c2_container_ids : pyset) (idx : nat)
           (component : json) (s : scan) : res scan :=
  match component with
  | JObj m =>
      let s1 := mk_scan (add_errors
                           (missing_fields (MissingRequiredField idx)
                              component_fields m) (found s)) (seen s) in
      s2 <- check_id m s1 ;;
      r <- check_parent_id "container_id" c2_container_ids idx m
             (check_type m (found s2)) ;;
      Ok (mk_scan (check_structure idx m r) (seen s2))
  | _ => Ok (note_error (EntityNotObject idx) s)
  end.

Definition validate_components (components : json) (c2_container_ids : pyset)
  : res verdict :=
  if negb (truthy components) then Ok (false, [NoEntities], [])
  else
    xs <- py_iter components ;;
    s <- for_each (check_component c2_container_ids) 0 xs
           (mk_scan no_findings []) ;;
    Ok (conclude (found s)).

(** *** validate_observations *)

Definition validate_observations (components : json) : res verdict :=
  Observations.validate_observations OBSERVATION_CATEGORIES components.

(** *** validate_relations *)

Definition relation_fields : list string :=
  ["target"; "type"; "coupling"; "description"].

Record tally : Type := mk_tally {
  tfound : report;
  tight_coupling_count : nat;
  total_relations : nat
}.

Definition with_report (r : report) (t : tally) : tally :=
  mk_tally r (tight_coupling_count t) (total_relations t).

Definition check_relation_type (owner : json) (m : list (string * json))
           (r : report) : report :=
  match lookup "type" m with
  | Some t =>
      if list_mem t RELATION_TYPES then r
      else add_warning (UnknownRelationType owner t) r
  | None => r
  end.

(** The block under [if "coupling" in rel]. *)
Definition check_coupling (owner : json) (m : list (string * json))
           (t : tally) : tally :=
  match lookup "coupling" m with
  | Some c =>
      if negb (list_mem c COUPLING_TYPES)
      then with_report (add_error (InvalidCoupling owner c) (tfound t)) t
      else if py_eq c (JStr "tight")
           then mk_tally (tfound t) (S (tight_coupling_count t))
                  (total_relations t)
           else t
  | None => t
  end.

Definition check_target (component_ids : pyset) (owner : json)
           (m : list (string * json)) (r : report) : res report :=
  match lookup "target" m with
  | Some target =>
      known <- py_in_set target component_ids ;;
      Ok (if known then r
          else add_warning (RelationTargetNotFound owner target) r)
  | None => Ok r
  end.

Definition check_relation (component_ids : pyset) (owner : json) (idx : nat)
           (rel : json) (t0 : tally) : res tally :=
  let t := mk_tally (tfound t0) (tight_coupling_count t0)
             (S (total_relations t0)) in
  match rel with
  | JObj m =>
      let r1 := add_errors (missing_fields (RelationMissingField owner idx)
                              relation_fields m) (tfound t) in
      let t1 := check_coupling owner m
                  (with_report (check_relation_type owner m r1) t) in
      r2 <- check_target component_ids owner m (tfound t1) ;;
      short <- short_text m "description" ;;
      Ok (with_report
            (if short then add_warning (ShortRelationDescription owner None) r2
             else r2) t1)
  | _ => Ok (with_report (add_error (RelationNotObject owner idx) (tfound t)) t)
  end.

Definition check_component_relations (component_ids : pyset) (_ : nat)
           (component : json) (t : tally) : res tally :=
  match component with
  | JObj m =>
      let component_id := dict_get m "id" (JStr "unknown") in
      match dict_get m "relations" (JArr []) with
      | JArr relations =>
          for_each (check_relation component_ids component_id) 0 relations t
      | _ => Ok (with_report
                   (add_error (RelationsNotArray component_id) (tfound t)) t)
      end
  | _ => Ok t
  end.

Definition float_of_count (n : nat) : float :=
  PrimFloat.of_uint63 (Uint63.of_Z (Z.of_nat n)).

(** The double that the literal [0.3] denotes. *)
Definition three_tenths : float := 0x1.3333333333333p-2%float.

(** [total_relations > 0 and tight_coupling_count > total_relations * 0.3],
    in double precision (counts below 2^53 convert exactly). *)
Definition high_tight_coupling (tight total : nat) : bool :=
  Nat.ltb 0 total &&
  PrimFloat.ltb (PrimFloat.mul (float_of_count total) three_tenths)
                (float_of_count tight).

Definition validate_relations (components : json) : res verdict :=
  xs <- py_iter components ;;
  component_ids <- collect_ids xs [] ;;
  t <- for_each (check_component_relations component_ids) 0 xs
         (mk_tally no_findings 0 0) ;;
  let r := if high_tight_coupling (tight_coupling_count t) (total_relations t)
           then add_warning (HighTightCoupling (tight_coupling_count t)
                               (total_relations t)) (tfound t)
           else tfound t in
  Ok (conclude r).

(** *** main *)

Definition c2_path (w : world) : string :=
  if path_exists w "knowledge-base/c2-containers.json"
  then "knowledge-base/c2-containers.json"
  else kb_path w "c2-containers.json".

(** [c2_container_ids] after the [try]; the handler catches [OSError] and
    [JSONDecodeError], which only the load can raise. *)
Definition load_container_ids (w : world) (c2_file_path : string)
  : res pyset :=
  match load_json w c2_file_path with
  | Raise _ => Ok []
  | Ok c2_data =>
      containers <- py_get c2_data "containers" (JArr []) ;;
      id_set containers
  end.

Definition checks `{Runtime} (w : world) (data : json) : res progress :=
  c2_container_ids <- load_container_ids w (c2_path w) ;;
  components <- py_get data "components" (JArr []) ;;
  v1 <- validate_components components c2_container_ids ;;
  let p1 := emit_verdict "components" v1 start in
  v2 <- validate_observations components ;;
  let p2 := emit_verdict "observations" v2 p1 in
  v3 <- validate_relations components ;;
  let p3 := emit_verdict "relations" v3 p2 in
  advisories <- childless_parents "container_id" c2_container_ids components ;;
  Ok (emit_advisories advisories p3).

Definition main `{Runtime} (w : world) : res (Z * list line) :=
  match stdin w with
  | StdinMalformed => Ok (2, [LError InvalidJson ""])
  | StdinUnreadable => Ok (2, [LError FailedToReadInput ""])
  | StdinDoc data =>
      '(valid, errs) <- validate_parent_reference w data (c2_path w) ;;
      if negb valid then Ok (2, map lineage_line errs)
      else p <- checks w data ;; Ok (finish p)
  end.

End Components.

(** ** validate-init.py: how main obtains its document *)

Module Init.
Section Main.

(** The stages main runs on a loaded document (schema structure, repository
    paths, package manifests, timestamps, exit code); no property below
    depends on what they do. *)
Variable validate_loaded : json -> res (Z * list line).

(** The path main settles on, if either candidate exists. *)
Definition init_file (w : world) : option string :=
  if path_exists w "knowledge-base/init.json"
  then Some "knowledge-base/init.json"
  else if path_exists w (kb_path w "init.json")
       then Some (kb_path w "init.json")
       else None.

Definition main (w : world) : res (Z * list line) :=
  match init_file w with
  | None => Ok (0, [LSkipped])
  | Some p =>
      match load_json w p with
      | Raise ValueError => Ok (2, [LError InvalidJson ""])
      | Raise _ => Ok (2, [LError FailedToReadInput ""])
      | Ok data => validate_loaded data
      end
  end.

End Main.
End Init.

(** ** A reference runtime

    One admissible interpreter, used to run the scripts on concrete
    documents: sets iterate in insertion order, a thousand nested calls are
    allowed, and [fromisoformat] reads [YYYY-MM-DDTHH:MM:SS] with an optional
    [+HH:MM] or [-HH:MM] offset. *)

Definition digit (c : ascii) : option Z :=
  let n := nat_of_ascii c in
  if ((48 <=? n) && (n <=? 57))%nat then Some (Z.of_nat n - 48) else None.

Fixpoint number (s : string) (acc : Z) : option Z :=
  match s with
  | EmptyString => Some acc
  | String c s' =>
      match digit c with
      | Some d => number s' (10 * acc + d)
      | None => None
      end
  end.

Definition field (s : string) (start len : nat) : option Z :=
  let t := substring start len s in
  if Nat.eqb (String.length t) len then number t 0 else None.

Definition char_at (s : string) (i : nat) (c : ascii) : bool :=
  match String.get i s with
  | Some c' => Ascii.eqb c c'
  | None => false
  end.

Definition is_leap (y : Z) : bool :=
  (y mod 4 =? 0) && (negb (y mod 100 =? 0) || (y mod 400 =? 0)).

Definition days_in_month (y m : Z) : Z :=
  if m =? 2 then (if is_leap y then 29 else 28)
  else if (m =? 4) || (m =? 6) || (m =? 9) || (m =? 11) then 30 else 31.

(** Days from 1970-01-01 to the civil date [y-m-d]. *)
Definition days_from_civil (y m d : Z) : Z :=
  let y' := if m <=? 2 then y - 1 else y in
  let era := y' / 400 in
  let yoe := y' - era * 400 in
  let doy := (153 * (if m <=? 2 then m + 9 else m - 3) + 2) / 5 + d - 1 in
  let doe := yoe * 365 + yoe / 4 - yoe / 100 + doy in
  era * 146097 + doe - 719468.

Definition parse_offset (s : string) : option (option Z) :=
  match String.length s with
  | 19%nat => Some None
  | 25%nat =>
      match field s 20 2, field s 23 2 with
      | Some h, Some m =>
          if char_at s 22 ":" && (h <? 24) && (m <? 60) then
            let off := (h * 3600 + m * 60) * 1000000 in
            if char_at s 19 "+" then Some (Some off)
            else if char_at s 19 "-" then Some (Some (- off))
            else None
          else None
      | _, _ => None
      end
  | _ => None
  end.

Definition reference_fromisoformat (s : string) : option datetime :=
  match field s 0 4, field s 5 2, field s 8 2,
        field s 11 2, field s 14 2, field s 17 2, parse_offset s with
  | Some y, Some mo, Some d, Some h, Some mi, Some sec, Some off =>
      if char_at s 4 "-" && char_at s 7 "-" && char_at s 10 "T" &&
         char_at s 13 ":" && char_at s 16 ":" &&
         (1 <=? y) && (1 <=? mo) && (mo <=? 12) &&
         (1 <=? d) && (d <=? days_in_month y mo) &&
         (h <? 24) && (mi <? 60) && (sec <? 60)
      then Some (mk_datetime
                   ((days_from_civil y mo d * 86400 + h * 3600 + mi * 60 + sec)
                    * 1000000) off)
      else None
  | _, _, _, _, _, _, _ => None
  end.

Definition reference_runtime : Runtime :=
  {| fromisoformat := reference_fromisoformat;
     set_order := fun s => s;
     set_order_perm := fun s => Permutation_refl s;
     recursion_limit := 1000 |}.

(** ** Notions the properties are stated with *)

Definition errors_of (v : verdict) : list finding := snd (fst v).
Definition warnings_of (v : verdict) : list finding := snd v.
Definition valid_of (v : verdict) : bool := fst (fst v).

(** The findings a run printed as errors, and as warnings. *)
Definition printed_errors (out : list line) : list finding :=
  flat_map (fun l => match l with LError f _ => [f] | _ => [] end) out.

Definition printed_warnings (out : list line) : list finding :=
  flat_map (fun l => match l with LWarning f => [f] | _ => [] end) out.

(** The three-level exit code of a list of errors and a list of warnings. *)
Definition exit_of (errs warns : list finding) : Z :=
  match errs, warns with
  | _ :: _, _ => 2
  | [], _ :: _ => 1
  | [], [] => 0
  end.

(** [sys.exit(main())]: the exit status of the process.  An exception that
    no handler catches ends the interpreter with a traceback and the
    status 1. *)
Definition exit_status (run : res (Z * list line)) : Z :=
  match run with
  | Ok (code, _) => code
  | Raise _ => 1
  end.

(** A run that printed the findings of the verdicts [vs] and the advisories
    [adv], and whose exit code is the three-level code of all of them. *)
Definition reports (code : Z) (out : list line) (vs : list verdict)
           (adv : list finding) : Prop :=
  printed_errors out = flat_map errors_of vs /\
  printed_warnings out = flat_map warnings_of vs ++ adv /\
  code = exit_of (flat_map errors_of vs) (flat_map warnings_of vs ++ adv).

(** [metadata.timestamp] of a document, when it has one. *)
Definition doc_timestamp (d : json) : option json :=
  match d with
  | JObj m =>
      match lookup "metadata" m with
      | Some (JObj md) => lookup "timestamp" md
      | _ => None
      end
  | _ => None
  end.



(** The parent document is readable at [path] and carries a timestamp. *)
Definition parent_carries (w : world) (path : string) (p pts : json) : Prop :=
  files w path = Doc p /\ doc_timestamp p = Some pts /\ truthy pts = true.

(** The metadata object [md] declares no [parent.timestamp] that differs from
    [pts]. *)
Definition no_mismatch (md : list (string * json)) (pts : json) : bool :=
  match lookup "parent" md with
  | Some (JObj pm) =>
      match lookup "timestamp" pm with
      | Some declared => py_eq declared pts
      | None => true
      end
  | _ => true
  end.

(** A declared [metadata.parent], if any, is an object. *)
Definition parent_is_object (md : list (string * json)) : bool :=
  match lookup "parent" md with
  | Some (JObj _) | None => true
  | Some _ => false
  end.

(** A value that looks external: it starts with [http] (hence also with
    [https]) or contains [#]. *)
Definition looks_external (v : json) : bool :=
  match v with
  | JStr s => String.prefix "http" s || contains_substring "#" s
  | _ => false
  end.

Definition is_cycle_finding (f : finding) : bool :=
  match f with CircularDependency _ => true | _ => false end.

Definition is_unresolved_parent (f : finding) : bool :=
  match f with ParentEntityNotFound _ _ => true | _ => false end.

Definition is_unresolved_repository (f : finding) : bool :=
  match f with RepositoryNotFound _ _ => true | _ => false end.

Definition is_unresolved_endpoint (f : finding) : bool :=
  match f with
  | RelationSourceNotFound _ _ | RelationTargetNotFound _ _ => true
  | _ => false
  end.

(** Findings about a value outside a closed vocabulary the scripts treat as
    advisory, and those they treat as errors. *)
Definition is_unknown_vocabulary (f : finding) : bool :=
  match f with
  | UnknownType _ _ | UnknownObservationCategory _ _
  | UnknownRelationType _ _ => true
  | _ => false
  end.

Definition is_invalid_vocabulary (f : finding) : bool :=
  match f with
  | InvalidSeverity _ _ | InvalidCoupling _ _ => true
  | _ => false
  end.

(** The entries of a lineage check. *)
Definition lineage_finding (f : finding) : bool :=
  match f with
  | ParentNotFound _ | Recommendation | FailedToReadParent
  | ParentMissingTimestamp | MissingMetadata | ParentTimestampMismatch
  | Detail _ _ | TimestampNotNewer | InvalidTimestampFormat => true
  | _ => false
  end.

(** What each kind of checker can put in its list of errors and in its list
    of warnings: the table of severities, read off the [errors.append] and
    [warnings.append] calls of the three scripts. *)
Definition entity_error (f : finding) : bool :=
  match f with
  | NoEntities | EntityNotObject _ | MissingRequiredField _ _
  | InvalidIdFormat _ | DuplicateId _
  | RepositoriesNotArray _ | RepositoriesEmpty _
  | ParentEntityNotFound _ _ | AvailableParents _
  | FieldNotObject _ _ | MissingSubfield _ _ => true
  | _ => false
  end.

Definition entity_warning (f : finding) : bool :=
  match f with
  | UnknownType _ _ | RepositoryNotFound _ _
  | UnknownEnvironment _ _ | EmptyFiles _ => true
  | _ => false
  end.

Definition observation_error (f : finding) : bool :=
  match f with
  | ObservationsNotArray _ | ObservationNotObject _ _
  | ObservationMissingField _ _ _ | DuplicateObservationId _ _
  | InvalidSeverity _ _ => true
  | _ => false
  end.

Definition observation_warning (f : finding) : bool :=
  match f with
  | UnknownObservationCategory _ _ | ShortObservationDescription _ _ => true
  | _ => false
  end.

Definition relation_error (f : finding) : bool :=
  match f with
  | RelationsNotArray _ | RelationNotObject _ _ | RelationMissingField _ _ _
  | DuplicateRelationId _ _ | InvalidCoupling _ _ => true
  | _ => false
  end.

(** Warnings of the relation checkers, cycles apart. *)
Definition relation_warning (f : finding) : bool :=
  match f with
  | UnknownRelationType _ _ | SelfReference _ _
  | RelationSourceNotFound _ _ | RelationTargetNotFound _ _
  | ShortRelationDescription _ _ | HighTightCoupling _ _ => true
  | _ => false
  end.

(** Warnings of the C1 relation checker: the same, and cycles. *)
Definition systems_relation_warning (f : finding) : bool :=
  relation_warning f || is_cycle_finding f.

Definition none_of (p : finding -> bool) (fs : list finding) : Prop :=
  forallb (fun f => negb (p f)) fs = true.

(** [a -> b] is an edge of the relation graph restricted to known IDs: some
    relation of some entity of [xs] has a source equal to [a] and the target
    [b], and both its source and its target are in [ids]. *)
Definition relation_edge (xs : list json) (ids : pyset) (a b : json) : Prop :=
  exists idx m rels j r,
    nth_error xs idx = Some (JObj m) /\
    lookup "relations" m = Some (JArr rels) /\
    nth_error rels j = Some (JObj r) /\
    py_eq (dict_get r "source" JNull) a = true /\
    dict_get r "target" JNull = b /\
    set_mem (dict_get r "source" JNull) ids = true /\
    set_mem b ids = true.

(** Each element of [p] is linked to the next by [edge]. *)
Fixpoint walk (edge : json -> json -> Prop) (p : list json) : Prop :=
  match p with
  | a :: (b :: _) as p' => edge a b /\ walk edge p'
  | _ => True
  end.

(** A walk of at least one edge that ends where it starts. *)
Definition closed_walk (edge : json -> json -> Prop) (p : list json) : Prop :=
  walk edge p /\
  exists a mid b, p = a :: mid ++ [b] /\ py_eq a b = true.

(** The adjacency dict [g] has [keys] as its keys and, in its lists, edges
    of the relation graph restricted to [ids]. *)
Definition graph_ok (xs : list json) (ids : pyset) (keys : list json)
           (g : Systems.graph) : Prop :=
  map fst g = keys /\
  forall a b, In b (Systems.graph_get a g) -> relation_edge xs ids a b.

(** The policies the scripts apply to a value outside a closed vocabulary,
    stated for a checker [validate] and its table.  In each, [owner] is the
    label of the entity at position [idx]. *)

(** An entity type outside [allowed] is a warning; no such finding is an
    error. *)
Definition entity_type_policy (validate : json -> res verdict)
           (allowed : list json) : Prop :=
  forall entities xs valid errs warns,
    validate entities = Ok (valid, errs, warns) ->
    py_iter entities = Ok xs ->
    none_of is_unknown_vocabulary errs /\
    forall idx m t,
      nth_error xs idx = Some (JObj m) ->
      lookup "type" m = Some t ->
      list_mem t allowed = false ->
      In (UnknownType t (dict_get m "id" (JStr "unknown"))) warns.

(** An observation category outside [categories] is a warning and never an
    error; an observation severity outside the three levels is an error
    and never a warning. *)
Definition observation_policy (validate : json -> res verdict)
           (categories : list json) : Prop :=
  forall entities xs valid errs warns,
    validate entities = Ok (valid, errs, warns) ->
    py_iter entities = Ok xs ->
    none_of is_unknown_vocabulary errs /\
    none_of is_invalid_vocabulary warns /\
    forall idx m obs j o,
      nth_error xs idx = Some (JObj m) ->
      lookup "observations" m = Some (JArr obs) ->
      nth_error obs j = Some (JObj o) ->
      let owner := dict_get m "id" (JStr "unknown") in
      (forall c,
         lookup "category" o = Some c ->
         list_mem c categories = false ->
         In (UnknownObservationCategory owner c) warns) /\
      (forall v,
         lookup "severity" o = Some v ->
         list_mem v Observations.OBSERVATION_SEVERITIES = false ->
         In (InvalidSeverity owner v) errs /\ valid = false).

(** A relation type outside [types] is a warning and never an error. *)
Definition relation_type_policy (validate : json -> res verdict)
           (types : list json) : Prop :=
  forall entities xs valid errs warns,
    validate entities = Ok (valid, errs, warns) ->
    py_iter entities = Ok xs ->
    none_of is_unknown_vocabulary errs /\
    forall idx m rels j r t,
      nth_error xs idx = Some (JObj m) ->
      lookup "relations" m = Some (JArr rels) ->
      nth_error rels j = Some (JObj r) ->
      lookup "type" r = Some t ->
      list_mem t types = false ->
      In (UnknownRelationType (dict_get m "id" (JStr "unknown")) t) warns.

(** A coupling outside [couplings] is an error and never a warning. *)
Definition coupling_policy (validate : json -> res verdict)
           (couplings : list json) : Prop :=
  forall entities xs valid errs warns,
    validate entities = Ok (valid, errs, warns) ->
    py_iter entities = Ok xs ->
    none_of is_invalid_vocabulary warns /\
    forall idx m rels j r c,
      nth_error xs idx = Some (JObj m) ->
      lookup "relations" m = Some (JArr rels) ->
      nth_error rels j = Some (JObj r) ->
      lookup "coupling" r = Some c ->
      list_mem c couplings = false ->
      In (InvalidCoupling (dict_get m "id" (JStr "unknown")) c) errs /\
      valid = false.

(** Two observations of one entity that carry the same ID make an error. *)
Definition duplicate_observation_policy (validate : json -> res verdict)
  : Prop :=
  forall entities xs valid errs warns,
    validate entities = Ok (valid, errs, warns) ->
    py_iter entities = Ok xs ->
    forall idx m obs i j a b v,
      nth_error xs idx = Some (JObj m) ->
      lookup "observations" m = Some (JArr obs) ->
      (i < j)%nat ->
      nth_error obs i = Some (JObj a) ->
      nth_error obs j = Some (JObj b) ->
      lookup "id" a = Some v ->
      lookup "id" b = Some v ->
      In (DuplicateObservationId (dict_get m "id" (JStr "unknown")) v) errs /\
      valid = false.

(** ** Example documents *)

Module Examples.

Definition relation (id source target : string) : json :=
  JObj [("id", JStr id); ("source", JStr source); ("target", JStr target);
        ("type", JStr "uses");
        ("description", JStr "calls the other system")].

Definition observation (id severity : string) : json :=
  JObj [("id", JStr id); ("category", JStr "security");
        ("severity", JStr severity);
        ("description", JStr "tokens are rotated daily")].

Definition system (id repo : string) (observations relations : list json)
  : json :=
  JObj [("id", JStr id); ("name", JStr id); ("type", JStr "api-service");
        ("repositories", JArr [JStr repo]);
        ("description", JStr "a system");
        ("observations", JArr observations);
        ("relations", JArr relations)].

Definition layer_relation (target coupling : string) : json :=
  JObj [("target", JStr target); ("type", JStr "uses");
        ("coupling", JStr coupling);
        ("description", JStr "calls the other entity")].

Definition container (id system_id : string)
           (observations relations : list json) : json :=
  JObj [("id", JStr id); ("name", JStr id); ("type", JStr "api");
        ("system_id", JStr system_id);
        ("responsibility", JStr "serves requests");
        ("technology", JObj [("primary_language", JStr "python");
                             ("framework", JStr "flask")]);
        ("runtime", JObj [("environment", JStr "server");
                          ("platform", JStr "linux");
                          ("containerized", JBool false)]);
        ("observations", JArr observations);
        ("relations", JArr relations)].

Definition component (id container_id : string)
           (observations relations : list json) : json :=
  JObj [("id", JStr id); ("name", JStr id); ("type", JStr "service");
        ("container_id", JStr container_id);
        ("responsibility", JStr "handles orders");
        ("structure", JObj [("path", JStr "src/orders");
                            ("language", JStr "python")]);
        ("observations", JArr observations);
        ("relations", JArr relations)].

Definition document (metadata : list (string * json)) (key : string)
           (entities : list json) : json :=
  JObj [("metadata", JObj metadata); (key, JArr entities)].

Definition stamped (ts : string) : list (string * json) :=
  [("timestamp", JStr ts)].

Definition t0 : string := "2024-01-01T00:00:00Z".
Definition t1 : string := "2024-01-01T00:00:01Z".
Definition t2 : string := "2024-01-01T00:00:02Z".
Definition t3 : string := "2024-01-01T00:00:03Z".

Definition init_doc : json :=
  JObj [("metadata", JObj (stamped t0));
        ("repositories", JArr [JObj [("path", JStr "/repo-a")]])].

(** Three systems related a -> b -> c -> a. *)
Definition ring : list json :=
  [system "a" "/repo-a" [observation "o1" "info"] [relation "r1" "a" "b"];
   system "b" "/repo-a" [observation "o1" "info"] [relation "r1" "b" "c"];
   system "c" "/repo-a" [observation "o1" "info"] [relation "r1" "c" "a"]].

Definition c1_doc : json := document (stamped t1) "systems" ring.

Definition c2_doc : json :=
  document (stamped t2) "containers"
    [container "api" "a" [observation "o1" "info"] [];
     container "web" "b" [observation "o1" "info"] [];
     container "db" "c" [observation "o1" "info"] []].

(** A file system that holds the given documents under [knowledge-base/]. *)
Definition disk (init c1 c2 : file) (p : string) : file :=
  if String.eqb p "knowledge-base/init.json" then init
  else if String.eqb p "knowledge-base/c1-systems.json" then c1
  else if String.eqb p "knowledge-base/c2-containers.json" then c2
  else NoFile.

Definition full_disk : string -> file :=
  disk (Doc init_doc) (Doc c1_doc) (Doc c2_doc).

Definition run (doc : json) : world :=
  mk_world (StdinDoc doc) full_disk "/work".

Definition ring_ids : pyset := [JStr "a"; JStr "b"; JStr "c"].

(** The same ring, between containers and between components. *)
Definition container_ring : list json :=
  [container "a" "a" [observation "o1" "info"] [layer_relation "b" "loose"];
   container "b" "b" [observation "o1" "info"] [layer_relation "c" "loose"];
   container "c" "c" [observation "o1" "info"] [layer_relation "a" "loose"]].

Definition component_ring : list json :=
  [component "a" "api" [observation "o1" "info"] [layer_relation "b" "loose"];
   component "b" "web" [observation "o1" "info"] [layer_relation "c" "loose"];
   component "c" "db" [observation "o1" "info"] [layer_relation "a" "loose"]].

(** A C1 document stamped like its parent. *)
Definition same_stamp_doc : json := document (stamped t0) "systems" ring.


(** A C2 document whose metadata carries no timestamp. *)
Definition unstamped_doc : json :=
  document [("generator", JStr "melly")] "containers" container_ring.

(** A system that lists a repository the init document does not have. *)
Definition stray_system : json :=
  system "billing" "/repo-z" [observation "o1" "info"] [].

(** A container of a system that does not exist, a component of a container
    that does not exist. *)
Definition orphan_container : json :=
  container "api" "ghost" [observation "o1" "info"] [].

Definition orphan_component : json :=
  component "orders" "ghost" [observation "o1" "info"] [].

(** Relations to a URL and to a fragment-qualified name. *)
Definition linked_system : json :=
  system "a" "/repo-a" [observation "o1" "info"]
    [relation "r1" "a" "https://example.com/api"].

Definition linked_container : json :=
  container "api" "a" [observation "o1" "info"]
    [layer_relation "payments#charge" "loose"].

(** Observations with an unknown severity, and with one ID used twice. *)
Definition alarmed_system : json :=
  system "a" "/repo-a" [observation "o1" "urgent"] [].

Definition repeating (entity : list json -> list json -> json) : json :=
  entity [observation "o1" "info"; observation "o1" "warning"] [].

(** A component relation with an unknown coupling. *)
Definition coupled_component : json :=
  component "orders" "api" [observation "o1" "info"]
    [layer_relation "orders" "medium"].

(** A C1 document, newer than its parent, whose [systems] is null; and one
    without a timestamp whose [metadata.parent] is null. *)
Definition null_systems_doc : json :=
  JObj [("metadata", JObj (stamped t1)); ("systems", JNull)].

Definition null_parent_doc : json :=
  document [("parent", JNull)] "systems" ring.

(** Worlds with a broken input. *)
Definition garbled : world := mk_world StdinMalformed full_disk "/work".

Definition bare : world :=
  mk_world (StdinDoc c1_doc) (fun _ => NoFile) "/work".

End Examples.

(** ** Notions used in the proofs *)

Definition nonempty {A : Type} (l : list A) : bool :=
  match l with [] => false | _ => true end.

(** A verdict whose flag says whether its list of errors is empty. *)
Definition coherent (v : verdict) : Prop :=
  valid_of v = negb (nonempty (errors_of v)).

(** The flags and the printed lines of [p] account for the errors [es] and
    the warnings [ws]. *)
Definition tracks (p : progress) (es ws : list finding) : Prop :=
  printed_errors (printed p) = es /\
  printed_warnings (printed p) = ws /\
  has_errors p = nonempty es /\
  has_warnings p = nonempty ws.

(** [adds PE PW r r']: [r'] is [r] with more errors, all satisfying [PE],
    and more warnings, all satisfying [PW]. *)
Definition adds (PE PW : finding -> bool) (r r' : report) : Prop :=
  exists es ws,
    errors r' = errors r ++ es /\ warnings r' = warnings r ++ ws /\
    forallb PE es = true /\ forallb PW ws = true.

(** A file that cannot be loaded. *)
Definition is_input_error (f : file) : bool :=
  match f with Doc _ => false | _ => true end.


(** ** validate-init.py: the stages run on a loaded document

    [os.path] is the POSIX one.  Besides the files of a [world], the script
    asks which paths are directories and what time it is. *)

Module InitDocument.

Record host : Type := mk_host {
  host_world : world;
  host_dirs : string -> bool;  (* of the paths that exist, the directories *)
  host_clock : Z               (* now, in microseconds of UTC *)
}.

(** [os.path.isabs(p)] for a [str]; on any other JSON value the function
    raises [TypeError]. *)
Definition isabs (p : string) : bool :=
  match p with
  | String c _ => Ascii.eqb c "/"%char
  | EmptyString => false
  end.

(** [os.path.isdir(p)]: a directory exists and cannot be opened as a file. *)
Definition isdir (h : host) (p : string) : bool :=
  match files (host_world h) p with
  | Unreadable => host_dirs h p
  | _ => false
  end.

(** [datetime.now(timezone.utc)]. *)
Definition utc_now (h : host) : datetime :=
  mk_datetime (host_clock h) (Some 0).

(** [a > b] on datetimes. *)
Definition dt_gt (a b : datetime) : res bool :=
  match dt_offset a, dt_offset b with
  | None, None => Ok (dt_local b <? dt_local a)
  | Some oa, Some ob => Ok (dt_local b - ob <? dt_local a - oa)
  | _, _ => Raise TypeError
  end.

(** [abs((a - b).total_seconds()) > 3600]: the difference is a whole number
    of microseconds, and its quotient by [10**6] is rounded to a double that
    exceeds [3600] exactly when the number exceeds [3600 * 10**6]. *)
Definition more_than_an_hour_apart (a b : datetime) : res bool :=
  match dt_offset a, dt_offset b with
  | None, None => Ok (3600 * 1000000 <? Z.abs (dt_local a - dt_local b))
  | Some oa, Some ob =>
      Ok (3600 * 1000000 <? Z.abs ((dt_local a - oa) - (dt_local b - ob)))
  | _, _ => Raise TypeError
  end.

(** *** The pattern [^\d+\.\d+\.\d+$]

    [dots] is the number of dots still to come, [expect_digit] says that the
    current group has no digit yet.  As for the ID pattern, [$] also matches
    just before a final line feed. *)

Definition is_digit (c : ascii) : bool :=
  let n := nat_of_ascii c in ((48 <=? n) && (n <=? 57))%nat.

Fixpoint semver_tokens (dots : nat) (expect_digit : bool) (s : string)
  : bool :=
  match s with
  | EmptyString => negb expect_digit && Nat.eqb dots 0
  | String c s' =>
      if is_digit c then semver_tokens dots false s'
      else if Ascii.eqb c "."%char then
        match dots with
        | O => false
        | S dots' => negb expect_digit && semver_tokens dots' true s'
        end
      else Ascii.eqb c "010"%char && String.eqb s' "" &&
           negb expect_digit && Nat.eqb dots 0
  end.

(** [SEMVER_PATTERN.match(x)] as a truth value; [TypeError] on a
    non-string. *)
Definition semver_pattern_match (x : json) : res bool :=
  match x with
  | JStr s => Ok (semver_tokens 2 true s)
  | _ => Raise TypeError
  end.

(** The pattern on a Python [str].  A [str] is a sequence of code points,
    and [\d] in a [str] pattern matches every decimal digit of Unicode
    (category Nd): [decimal_digit] is that class, as the tables of the
    interpreter have it.  [semver_tokens] above is the same automaton on
    the strings of this development, which hold the code points below 256;
    among these the decimal digits are ['0'] to ['9'].  46 is the dot and 10
    the line feed. *)
Fixpoint semver_points (decimal_digit : N -> bool) (dots : nat)
         (expect_digit : bool) (s : list N) : bool :=
  match s with
  | [] => negb expect_digit && Nat.eqb dots 0
  | c :: s' =>
      if decimal_digit c then semver_points decimal_digit dots false s'
      else if N.eqb c 46 then
        match dots with
        | O => false
        | S dots' =>
            negb expect_digit && semver_points decimal_digit dots' true s'
        end
      else N.eqb c 10 && match s' with [] => true | _ => false end &&
           negb expect_digit && Nat.eqb dots 0
  end.

(** The code points of a string of this development. *)
Definition code_points (s : string) : list N :=
  map N_of_ascii (list_ascii_of_string s).

Definition ALLOWED_MANIFEST_TYPES : list json := map JStr
  ["npm"; "composer"; "cargo"; "go-mod"; "gradle"; "maven";
   "requirements-txt"; "pyproject-toml"; "gemfile"; "unknown"].

(** *** Messages and the error stream *)

Inductive message : Type :=
(* main *)
| InvalidJsonIn (path : string)
| FailedToRead (path : string)
| NoManifests
(* validate_schema_structure *)
| MissingField (field : string)
| InvalidSchemaVersion (v : json)
| InvalidTimestamp (v : json)
| RepositoriesNotList
| NoRepositories
(* validate_repository_paths *)
| RepositoryNotObject (idx : nat)
| RepositoryMissingPath (idx : nat)
| PathNotAbsolute (path : string)
| DuplicatePath (path : string)
| PathDoesNotExist (path : string)
| PathNotDirectory (path : string)
| DuplicateName (name : json)
(* validate_package_manifests *)
| ManifestsNotArray (repo : json)
| ManifestNotObject (idx : nat) (repo : json)
| ManifestMissingField (idx : nat) (field : string)
| UnknownManifestType (v : json)
| ManifestPathAbsolute (path : string)
| ManifestFileNotFound (full_path : string)
| ManifestDataNotObject
| NpmMissingName
| ComposerMissingName
| CargoMissingPackageName
(* validate_timestamps *)
| TimestampInFuture (v : json)
| GeneratedAtDiffers
| InvalidGeneratedAt (v : json).

(** A line group printed by [error(...)], by [warning(...)], or a one-line
    notice of main. *)
Inductive output : Type :=
| IError (m : message) (location : string)
| IWarning (m : message) (recommendation : string)
| ISkipped
| IFailed
| IPassedWithWarnings
| IPassed.

Record log : Type := mk_log {
  errs : list message;
  warns : list message
}.

Definition no_messages : log := mk_log [] [].

Definition err (m : message) (l : log) : log :=
  mk_log (errs l ++ [m]) (warns l).

Definition warn (m : message) (l : log) : log :=
  mk_log (errs l) (warns l ++ [m]).

(** [(len(errors) == 0, errors, warnings)]. *)
Definition outcome : Type := (bool * list message * list message)%type.

Definition close (l : log) : outcome :=
  (match errs l with [] => true | _ => false end, errs l, warns l).

(** The fields of [required] that [m] lacks, in order. *)
Definition absent (required : list string) (m : list (string * json))
  : list string :=
  filter (fun f => negb (has_key f m)) required.

(** *** validate_schema_structure *)

Definition required_metadata : list string :=
  ["schema_version"; "generator"; "generated_by"; "timestamp";
   "melly_version"].

(** The loop [for field in required_metadata]; [metadata] is whatever the
    document holds under that key. *)
Fixpoint missing_metadata (fields : list string) (metadata : json)
  : res (list message) :=
  match fields with
  | [] => Ok []
  | field :: fields' =>
      present <- py_contains field metadata ;;
      rest <- missing_metadata fields' metadata ;;
      Ok ((if present then []
           else [MissingField (String.append "metadata." field)]) ++ rest)
  end.

Definition check_schema_version (metadata : json) : res (list message) :=
  present <- py_contains "schema_version" metadata ;;
  if present then
    v <- py_getitem metadata "schema_version" ;;
    matches <- semver_pattern_match v ;;
    Ok (if matches then [] else [InvalidSchemaVersion v])
  else Ok [].

(** The [try] catches [ValueError] and [AttributeError] only. *)
Definition check_timestamp `{Runtime} (metadata : json)
  : res (list message) :=
  present <- py_contains "timestamp" metadata ;;
  if present then
    v <- py_getitem metadata "timestamp" ;;
    match parse_timestamp v with
    | Ok _ => Ok []
    | Raise ValueError | Raise AttributeError =>
        shown <- py_get metadata "timestamp" JNull ;;
        Ok [InvalidTimestamp shown]
    | Raise e => Raise e
    end
  else Ok [].

Definition check_repositories (data : json) : res (list message) :=
  present <- py_contains "repositories" data ;;
  if negb present then Ok [MissingField "repositories"]
  else
    repositories <- py_getitem data "repositories" ;;
    match repositories with
    | JArr [] => Ok [NoRepositories]
    | JArr _ => Ok []
    | _ => Ok [RepositoriesNotList]
    end.

Definition validate_schema_structure `{Runtime} (data : json)
  : res (bool * list message) :=
  has_metadata <- py_contains "metadata" data ;;
  if negb has_metadata then Ok (false, [MissingField "metadata"])
  else
    metadata <- py_getitem data "metadata" ;;
    e1 <- missing_metadata required_metadata metadata ;;
    e2 <- check_schema_version metadata ;;
    e3 <- check_timestamp metadata ;;
    e4 <- check_repositories data ;;
    let errors := e1 ++ e2 ++ e3 ++ e4 in
    Ok (match errors with [] => true | _ => false end, errors).

(** *** validate_repository_paths *)

Record path_scan : Type := mk_path_scan {
  plog : log;
  seen_paths : pyset;
  seen_names : pyset
}.

Definition path_error (m : message) (s : path_scan) : path_scan :=
  mk_path_scan (err m (plog s)) (seen_paths s) (seen_names s).

(** The block under [if "name" in repo]: a repeated name is a warning. *)
Definition check_name (r : list (string * json)) (s : path_scan)
  : res path_scan :=
  match lookup "name" r with
  | Some name =>
      dup <- py_in_set name (seen_names s) ;;
      Ok (mk_path_scan
            (if dup then warn (DuplicateName name) (plog s) else plog s)
            (seen_paths s) (set_add name (seen_names s)))
  | None => Ok s
  end.

(** The body of the loop; each [continue] is a branch that returns.  A
    path that is not a [str] makes [os.path.isabs] raise. *)
Definition check_repository (h : host) (idx : nat) (repo : json)
           (s : path_scan) : res path_scan :=
  match repo with
  | JObj r =>
      match lookup "path" r with
      | None => Ok (path_error (RepositoryMissingPath idx) s)
      | Some (JStr path) =>
          if negb (isabs path)
          then Ok (path_error (PathNotAbsolute path) s)
          else
            let s1 := if set_mem (JStr path) (seen_paths s)
                      then path_error (DuplicatePath path) s else s in
            let s2 := mk_path_scan (plog s1)
                        (set_add (JStr path) (seen_paths s1))
                        (seen_names s1) in
            if negb (path_exists (host_world h) path)
            then Ok (path_error (PathDoesNotExist path) s2)
            else
              check_name r
                (if negb (isdir h path)
                 then path_error (PathNotDirectory path) s2 else s2)
      | Some _ => Raise TypeError
      end
  | _ => Ok (path_error (RepositoryNotObject idx) s)
  end.

Definition validate_repository_paths (h : host) (repositories : json)
  : res outcome :=
  xs <- py_iter repositories ;;
  s <- for_each (check_repository h) 0 xs (mk_path_scan no_messages [] []) ;;
  Ok (close (plog s)).

(** *** validate_package_manifests *)

Definition manifest_fields : list string := ["type"; "path"; "data"].

Definition check_manifest_type (mf : list (string * json)) (l : log) : log :=
  match lookup "type" mf with
  | Some t =>
      if list_mem t ALLOWED_MANIFEST_TYPES then l
      else warn (UnknownManifestType t) l
  | None => l
  end.

(** The block under [if "path" in manifest].  [os.path.isabs] raises on a
    manifest path that is not a [str], [os.path.join] on a repository path
    that is not one. *)
Definition check_manifest_path (h : host) (repo_path : json)
           (mf : list (string * json)) (l : log) : res log :=
  match lookup "path" mf with
  | Some (JStr manifest_path) =>
      let l1 := if isabs manifest_path
                then err (ManifestPathAbsolute manifest_path) l else l in
      if truthy repo_path && negb (isabs manifest_path) then
        match repo_path with
        | JStr root =>
            let full_path := path_join root manifest_path in
            Ok (if path_exists (host_world h) full_path then l1
                else warn (ManifestFileNotFound full_path) l1)
        | _ => Raise TypeError
        end
      else Ok l1
  | Some _ => Raise TypeError
  | None => Ok l
  end.

(** The block under [if "data" in manifest]. *)
Definition check_manifest_data (mf : list (string * json)) (l : log)
  : res log :=
  match lookup "data" mf with
  | Some (JObj data) =>
      let manifest_type := dict_get mf "type" (JStr "") in
      if py_eq manifest_type (JStr "npm") then
        Ok (if has_key "name" data then l else warn NpmMissingName l)
      else if py_eq manifest_type (JStr "composer") then
        Ok (if has_key "name" data then l else warn ComposerMissingName l)
      else if py_eq manifest_type (JStr "cargo") then
        match lookup "package" data with
        | Some package =>
            named <- py_contains "name" package ;;
            Ok (if named then l else warn CargoMissingPackageName l)
        | None => Ok l
        end
      else Ok l
  | Some _ => Ok (err ManifestDataNotObject l)
  | None => Ok l
  end.

Definition check_manifest (h : host) (repo_name repo_path : json) (idx : nat)
           (manifest : json) (l : log) : res log :=
  match manifest with
  | JObj mf =>
      let l1 := mk_log (errs l ++ map (ManifestMissingField idx)
                                      (absent manifest_fields mf))
                       (warns l) in
      l2 <- check_manifest_path h repo_path mf (check_manifest_type mf l1) ;;
      check_manifest_data mf l2
  | _ => Ok (err (ManifestNotObject idx repo_name) l)
  end.

Definition check_repository_manifests (h : host) (_ : nat) (repo : json)
           (l : log) : res log :=
  match repo with
  | JObj r =>
      match lookup "manifests" r with
      | Some (JArr manifests) =>
          for_each (check_manifest h (dict_get r "name" (JStr "unknown"))
                      (dict_get r "path" (JStr ""))) 0 manifests l
      | Some _ =>
          Ok (err (ManifestsNotArray (dict_get r "name" (JStr "unknown"))) l)
      | None => Ok l
      end
  | _ => Ok l
  end.

Definition validate_package_manifests (h : host) (repositories : json)
  : res outcome :=
  xs <- py_iter repositories ;;
  l <- for_each (check_repository_manifests h) 0 xs no_messages ;;
  Ok (close l).

(** *** validate_timestamps *)

(** The inner [try], under [if "generated_at" in metadata]. *)
Definition check_generated_at `{Runtime} (metadata : json)
           (timestamp : datetime) : res (list message) :=
  present <- py_contains "generated_at" metadata ;;
  if present then
    v <- py_getitem metadata "generated_at" ;;
    match parse_timestamp v with
    | Ok generated_at =>
        apart <- more_than_an_hour_apart timestamp generated_at ;;
        Ok (if apart then [GeneratedAtDiffers] else [])
    | Raise ValueError | Raise AttributeError =>
        shown <- py_get metadata "generated_at" JNull ;;
        Ok [InvalidGeneratedAt shown]
    | Raise e => Raise e
    end
  else Ok [].

(** Both [try] blocks catch [ValueError] and [AttributeError] only; outside
    the inner block, only the parse of the timestamp raises one of them. *)
Definition validate_timestamps `{Runtime} (h : host) (metadata : json)
  : res (bool * list message) :=
  present <- py_contains "timestamp" metadata ;;
  if negb present then Ok (true, [])
  else
    timestamp_str <- py_getitem metadata "timestamp" ;;
    match parse_timestamp timestamp_str with
    | Ok timestamp =>
        future <- dt_gt timestamp (utc_now h) ;;
        w2 <- check_generated_at metadata timestamp ;;
        Ok (true,
            (if future then [TimestampInFuture timestamp_str] else []) ++ w2)
    | Raise ValueError | Raise AttributeError => Ok (true, [])
    | Raise e => Raise e
    end.

(** *** main *)

Record state : Type := mk_state {
  failed : bool;            (* has_errors *)
  warned : bool;            (* has_warnings *)
  shown : list output
}.

Definition initial : state := mk_state false false [].

(** [for warn in warns: has_warnings = True; warning(warn)]. *)
Definition emit_warnings (warnings : list message) (s : state) : state :=
  match warnings with
  | [] => s
  | _ => mk_state (failed s) true
           (shown s ++ map (fun m => IWarning m "") warnings)
  end.

(** [if not valid: has_errors = True; for err in errors: error(err,
    location=...)], then the warnings. *)
Definition emit (location : string) (v : outcome) (s : state) : state :=
  let '(valid, errors, warnings) := v in
  emit_warnings warnings
    (if valid then s
     else mk_state true (warned s)
            (shown s ++ map (fun e => IError e location) errors)).

(** [sum(len(repo.get("manifests", [])) for repo in repositories)]. *)
Fixpoint total_manifests (repositories : list json) : res nat :=
  match repositories with
  | [] => Ok O
  | repo :: rest =>
      manifests <- py_get repo "manifests" (JArr []) ;;
      n <- py_len manifests ;;
      total <- total_manifests rest ;;
      Ok (n + total)%nat
  end.

Definition no_manifests_advice : string :=
  "Ensure repositories contain package manifest files".

Definition summary (s : state) : Z * list output :=
  if failed s then (2, shown s ++ [IFailed])
  else if warned s then (1, shown s ++ [IPassedWithWarnings])
  else (0, shown s ++ [IPassed]).

(** What main does with the document it loaded. *)
Definition validate_loaded `{Runtime} (h : host) (data : json)
  : res (Z * list output) :=
  '(valid, errors) <- validate_schema_structure data ;;
  if negb valid then Ok (2, map (fun e => IError e "") errors)
  else
    repositories <- py_get data "repositories" (JArr []) ;;
    v2 <- validate_repository_paths h repositories ;;
    let s2 := emit "repositories" v2 initial in
    v3 <- validate_package_manifests h repositories ;;
    let s3 := emit "manifests" v3 s2 in
    metadata <- py_get data "metadata" (JObj []) ;;
    '(_, warnings) <- validate_timestamps h metadata ;;
    let s4 := emit_warnings warnings s3 in
    xs <- py_iter repositories ;;
    total <- total_manifests xs ;;
    let s5 := if Nat.eqb total 0
              then mk_state (failed s4) true
                     (shown s4 ++ [IWarning NoManifests no_manifests_advice])
              else s4 in
    Ok (summary s5).

Definition main `{Runtime} (h : host) : res (Z * list output) :=
  match Init.init_file (host_world h) with
  | None => Ok (0, [ISkipped])
  | Some p =>
      match load_json (host_world h) p with
      | Raise ValueError => Ok (2, [IError (InvalidJsonIn p) ""])
      | Raise _ => Ok (2, [IError (FailedToRead p) ""])
      | Ok data => validate_loaded h data
      end
  end.

End InitDocument.

(** ** Notions for the patterns *)

(** Text made of characters that [ok] accepts, and at least one of them. *)
Fixpoint all_chars (ok : ascii -> bool) (s : string) : bool :=
  match s with
  | EmptyString => true
  | String c s' => ok c && all_chars ok s'
  end.

Definition word (ok : ascii -> bool) (s : string) : bool :=
  negb (String.eqb s "") && all_chars ok s.

(** What [$] lets follow the match: nothing, or one final line feed. *)
Definition line_end (tail : string) : Prop :=
  tail = "" \/ tail = String "010"%char "".

(** A non-empty group of code points that [ok] accepts. *)
Definition point_group (ok : N -> bool) (g : list N) : Prop :=
  g <> [] /\ forallb ok g = true.

(** What [$] lets follow the match in a sequence of code points: nothing,
    or one final line feed. *)
Definition points_end (tail : list N) : Prop :=
  tail = [] \/ tail = [10%N].

(** The groups joined by hyphens. *)
Fixpoint hyphenated (groups : list string) : string :=
  match groups with
  | [] => ""
  | [g] => g
  | g :: rest => String.append g (String "-"%char (hyphenated rest))
  end.

(** ** Notions for the init document *)

(** A document with the structure [validate_schema_structure] asks for:
    an object whose metadata is an object with the five required fields, a
    schema version the pattern accepts and a timestamp that parses, and whose
    repositories are a non-empty list. *)
Definition well_formed `{Runtime} (data : json) : Prop :=
  exists m md v ts d x xs,
    data = JObj m /\
    lookup "metadata" m = Some (JObj md) /\
    Forall (fun f => has_key f md = true) InitDocument.required_metadata /\
    lookup "schema_version" md = Some (JStr v) /\
    InitDocument.semver_tokens 2 true v = true /\
    lookup "timestamp" md = Some ts /\
    parse_timestamp ts = Ok d /\
    lookup "repositories" m = Some (JArr (x :: xs)).

(** The messages a run of validate-init.py printed as errors, and as
    warnings. *)
Definition shown_errors (out : list InitDocument.output)
  : list InitDocument.message :=
  flat_map (fun l => match l with
                     | InitDocument.IError m _ => [m]
                     | _ => []
                     end) out.

Definition shown_warnings (out : list InitDocument.output)
  : list InitDocument.message :=
  flat_map (fun l => match l with
                     | InitDocument.IWarning m _ => [m]
                     | _ => []
                     end) out.

(** The three-level exit code of what was printed. *)
Definition three_level {A : Type} (es ws : list A) : Z :=
  match es, ws with
  | _ :: _, _ => 2
  | [], _ :: _ => 1
  | [], [] => 0
  end.

(** [x] is an object whose path is [p], the absolute path of a directory. *)
Definition repository_at (h : InitDocument.host) (x : json) (p : string)
  : Prop :=
  exists r,
    x = JObj r /\ lookup "path" r = Some (JStr p) /\
    InitDocument.isabs p = true /\ InitDocument.isdir h p = true.

(** Every entry is a repository in a directory of its own. *)
Definition repositories_in_place (h : InitDocument.host) (xs : list json)
  : Prop :=
  exists ps, Forall2 (repository_at h) xs ps /\ NoDup ps.

(** The name of a repository entry, if it has one, can be hashed. *)
Definition hashable_name (x : json) : Prop :=
  match x with
  | JObj r => match lookup "name" r with
              | Some name => hashable name = true
              | None => True
              end
  | _ => True
  end.

(** A manifest entry with the structure the manifest stage asks for: an
    object with a type, a relative path and a data object. *)
Definition manifest_shaped (mf : json) : Prop :=
  exists f p d,
    mf = JObj f /\ has_key "type" f = true /\
    lookup "path" f = Some (JStr p) /\ InitDocument.isabs p = false /\
    lookup "data" f = Some (JObj d).

(** The manifests of a repository entry, if it lists any, are a list of such
    entries. *)
Definition manifests_shaped (x : json) : Prop :=
  match x with
  | JObj r =>
      match lookup "manifests" r with
      | None => True
      | Some (JArr ms) => Forall manifest_shaped ms
      | Some _ => False
      end
  | _ => True
  end.

(** The timestamp parses to an instant with a UTC offset that is not later
    than the clock of the host. *)
Definition not_in_future `{Runtime} (h : InitDocument.host) (ts : json)
  : Prop :=
  exists t o,
    parse_timestamp ts = Ok t /\ dt_offset t = Some o /\
    dt_local t - o <= InitDocument.host_clock h.

(** A repository entry that lists at least one manifest. *)
Definition lists_a_manifest (x : json) : Prop :=
  exists r mf ms, x = JObj r /\ lookup "manifests" r = Some (JArr (mf :: ms)).

(** What the four stages ask of a document on a host. *)
Definition certified `{Runtime} (h : InitDocument.host) (data : json)
  : Prop :=
  well_formed data /\
  (exists ts, doc_timestamp data = Some ts /\ not_in_future h ts) /\
  exists xs,
    py_get data "repositories" (JArr []) = Ok (JArr xs) /\
    repositories_in_place h xs /\
    Forall manifests_shaped xs /\
    Exists lists_a_manifest xs.

(** ** Notions for the repository names of the init document *)

(** The name under which the systems script knows a repository entry: its
    name, else its path, else the empty string. *)
Definition repository_label (x : json) : json :=
  match x with
  | JObj r => dict_get r "name" (dict_get r "path" (JStr ""))
  | _ => JNull
  end.

(** ** Notions for the entity checks of the layer scripts *)

(** A system entry that [validate_systems] finds no fault with, and its
    ID: an object with the seven required fields, an ID the pattern accepts
    and a non-empty list of repositories. *)
Definition system_shaped (x : json) (id : string) : Prop :=
  exists m r rs,
    x = JObj m /\
    Forall (fun f => has_key f m = true) Systems.system_fields /\
    lookup "id" m = Some (JStr id) /\ id_tokens true id = true /\
    lookup "repositories" m = Some (JArr (r :: rs)).

(** A container entry that [validate_containers] finds no fault with: its
    system is one of [system_ids], its technology names a language and a
    framework, its runtime an environment, a platform and whether it is
    containerized, and with what if it is. *)
Definition container_shaped (system_ids : pyset) (x : json) (id : string)
  : Prop :=
  exists m sid tech rt c,
    x = JObj m /\
    Forall (fun f => has_key f m = true) Containers.container_fields /\
    lookup "id" m = Some (JStr id) /\ id_tokens true id = true /\
    lookup "system_id" m = Some sid /\
    hashable sid = true /\ set_mem sid system_ids = true /\
    lookup "technology" m = Some (JObj tech) /\
    has_key "primary_language" tech = true /\
    has_key "framework" tech = true /\
    lookup "runtime" m = Some (JObj rt) /\
    has_key "environment" rt = true /\
    has_key "platform" rt = true /\
    lookup "containerized" rt = Some c /\
    (truthy c = true -> has_key "container_technology" rt = true).

(** A component entry that [validate_components] finds no fault with: its
    container is one of [container_ids] and its structure names a path and
    a language. *)
Definition component_shaped (container_ids : pyset) (x : json) (id : string)
  : Prop :=
  exists m cid st,
    x = JObj m /\
    Forall (fun f => has_key f m = true) Components.component_fields /\
    lookup "id" m = Some (JStr id) /\ id_tokens true id = true /\
    lookup "container_id" m = Some cid /\
    hashable cid = true /\ set_mem cid container_ids = true /\
    lookup "structure" m = Some (JObj st) /\
    has_key "path" st = true /\
    has_key "language" st = true.

(** A non-empty list of entries of the given shape with distinct IDs. *)
Definition entities_in_order (shaped : json -> string -> Prop)
           (xs : list json) : Prop :=
  xs <> [] /\ exists ids, Forall2 shaped xs ids /\ NoDup ids.

(** ** Notions for the cycle search *)

(** [a -> b] is a relation the systems script enters in its graph: some
    relation of some system has a truthy source equal to [a] and the truthy
    target [b], and both are system IDs. *)
Definition followed_relation (xs : list json) (ids : pyset) (a b : json)
  : Prop :=
  relation_edge xs ids a b /\ truthy a = true /\ truthy b = true.
(** ** Notions for the observation and relation checks *)

(** A [str]. *)
Definition is_str (j : json) : bool :=
  match j with JStr _ => true | _ => false end.

(** No value of the list is equal, as Python compares them, to one before
    it. *)
Fixpoint distinct (ids : list json) : Prop :=
  match ids with
  | [] => True
  | id :: rest => Forall (fun q => py_eq q id = false) rest /\ distinct rest
  end.

(** An observation that [validate_observations] finds no fault with, and
    its ID: an object with an ID that can be hashed, a category, a
    description that has a length and, if it gives a severity, one of the
    three. *)
Definition observation_shaped (o id : json) : Prop :=
  exists m d n,
    o = JObj m /\
    lookup "id" m = Some id /\ hashable id = true /\
    has_key "category" m = true /\
    lookup "description" m = Some d /\ py_len d = Ok n /\
    forall v, lookup "severity" m = Some v ->
              list_mem v Observations.OBSERVATION_SEVERITIES = true.

(** The observations of an entity that is an object are a list of such
    observations, with distinct IDs; an entity without the key has none. *)
Definition observations_in_order (x : json) : Prop :=
  match x with
  | JObj m =>
      exists os ids,
        dict_get m "observations" (JArr []) = JArr os /\
        Forall2 observation_shaped os ids /\ distinct ids
  | _ => True
  end.

(** The ID of an entity that is an object, if it has one, can be hashed. *)
Definition hashable_id (x : json) : Prop :=
  match x with
  | JObj m => forall v, lookup "id" m = Some v -> hashable v = true
  | _ => True
  end.

(** A relation that the container script finds no fault with: an object
    with a type, a target that can be hashed and a description that has a
    length. *)
Definition container_relation_shaped (rel : json) : Prop :=
  exists m t d n,
    rel = JObj m /\ has_key "type" m = true /\
    lookup "target" m = Some t /\ hashable t = true /\
    lookup "description" m = Some d /\ py_len d = Ok n.

(** A relation that the component script finds no fault with: the same,
    and a coupling that is loose or tight. *)
Definition component_relation_shaped (rel : json) : Prop :=
  container_relation_shaped rel /\
  exists m c,
    rel = JObj m /\ lookup "coupling" m = Some c /\
    list_mem c Components.COUPLING_TYPES = true.

(** The relations of an entity that is an object are a list of relations
    of the given shape; an entity without the key has none. *)
Definition relations_in_order (shaped : json -> Prop) (x : json) : Prop :=
  match x with
  | JObj m =>
      exists rels,
        dict_get m "relations" (JArr []) = JArr rels /\ Forall shaped rels
  | _ => True
  end.

(** A relation that the systems script finds no fault with, and its ID: an
    object with the five required fields and an ID that can be hashed. *)
Definition system_relation_shaped (rel id : json) : Prop :=
  exists m,
    rel = JObj m /\
    Forall (fun f => has_key f m = true) Systems.relation_fields /\
    lookup "id" m = Some id /\ hashable id = true.

(** The relations of a system that is an object are a list of such
    relations, with distinct IDs; a system without the key has none. *)
Definition system_relations_in_order (x : json) : Prop :=
  match x with
  | JObj m =>
      exists rels ids,
        dict_get m "relations" (JArr []) = JArr rels /\
        Forall2 system_relation_shaped rels ids /\ distinct ids
  | _ => True
  end.

(** A relation the systems script can read: if it is an object, its ID can
    be hashed, its source and target can be hashed when both are truthy, and
    its description has a length. *)
Definition relation_readable (rel : json) : Prop :=
  match rel with
  | JObj m =>
      (forall v, lookup "id" m = Some v -> hashable v = true) /\
      (truthy (dict_get m "source" JNull) = true ->
       truthy (dict_get m "target" JNull) = true ->
       hashable (dict_get m "source" JNull) = true /\
       hashable (dict_get m "target" JNull) = true) /\
      (forall d, lookup "description" m = Some d ->
                 exists n, py_len d = Ok n)
  | _ => True
  end.

(** A system the relation check can read: if it is an object, its ID, if
    it has one, is a string, and its relations, if they are a list, are
    relations the script can read. *)
Definition system_readable (x : json) : Prop :=
  match x with
  | JObj m =>
      (forall v, lookup "id" m = Some v -> is_str v = true) /\
      forall rels, dict_get m "relations" (JArr []) = JArr rels ->
                   Forall relation_readable rels
  | _ => True
  end.

(** ** What a clean exit of a layer script certifies *)

(** A system with at least one observation and at least one relation. *)
Definition documented (x : json) : Prop :=
  match x with
  | JObj m =>
      truthy (dict_get m "observations" (JArr [])) = true /\
      truthy (dict_get m "relations" (JArr [])) = true
  | _ => True
  end.

(** Every repository the system names is one of [repos]. *)
Definition repositories_listed (repos : list json) (x : json) : Prop :=
  match x with
  | JObj m =>
      forall rs repo,
        lookup "repositories" m = Some (JArr rs) -> In repo rs ->
        list_mem repo repos = true
  | _ => True
  end.

(** Every relation of the system with a truthy source and a truthy target
    joins two of the IDs. *)
Definition endpoints_resolve (ids : pyset) (x : json) : Prop :=
  match x with
  | JObj m =>
      forall rels r,
        lookup "relations" m = Some (JArr rels) -> In (JObj r) rels ->
        truthy (dict_get r "source" JNull) = true ->
        truthy (dict_get r "target" JNull) = true ->
        set_mem (dict_get r "source" JNull) ids = true /\
        set_mem (dict_get r "target" JNull) ids = true
  | _ => True
  end.

(** What the systems script asks of a document before it exits with 0:
    well-shaped systems with distinct IDs, repositories that [repos] lists,
    observations and relations in order and not empty, relations between
    systems of the document, and no cycle among them. *)
Definition systems_certified (repos : list json) (data : json) : Prop :=
  exists xs ids,
    py_get data "systems" (JArr []) = Ok (JArr xs) /\
    collect_ids xs [] = Ok ids /\
    entities_in_order system_shaped xs /\
    Forall (repositories_listed repos) xs /\
    Forall observations_in_order xs /\
    Forall system_relations_in_order xs /\
    Forall documented xs /\
    Forall (endpoints_resolve ids) xs /\
    ~ (exists p, closed_walk (followed_relation xs ids) p).

(** Every relation of the entity that has a target names one of the
    IDs. *)
Definition targets_resolve (ids : pyset) (x : json) : Prop :=
  match x with
  | JObj m =>
      forall rels r t,
        lookup "relations" m = Some (JArr rels) -> In (JObj r) rels ->
        lookup "target" r = Some t -> set_mem t ids = true
  | _ => True
  end.

(** Every ID of the parent layer is the truthy reference of some entity
    that is an object. *)
Definition every_parent_has_a_child (key : string) (parent_ids : pyset)
           (xs : list json) : Prop :=
  forall id, In id parent_ids ->
    exists m,
      In (JObj m) xs /\ truthy (dict_get m key JNull) = true /\
      py_eq id (dict_get m key JNull) = true.

(** What the container and the component script ask of a document before
    they exit with 0: well-shaped entities with distinct IDs, each in a
    parent of [parent_ids], observations and relations in order, relation
    targets among the entities of the document, and no parent without a
    child. *)
Definition layer_certified (entities_key parent_key : string)
           (shaped : pyset -> json -> string -> Prop)
           (relation_shaped : json -> Prop)
           (parent_ids : pyset) (data : json) : Prop :=
  exists xs ids,
    py_get data entities_key (JArr []) = Ok (JArr xs) /\
    collect_ids xs [] = Ok ids /\
    entities_in_order (shaped parent_ids) xs /\
    Forall observations_in_order xs /\
    Forall (relations_in_order relation_shaped) xs /\
    Forall (targets_resolve ids) xs /\
    every_parent_has_a_child parent_key parent_ids xs.

Definition containers_certified : pyset -> json -> Prop :=
  layer_certified "containers" "system_id" container_shaped
    container_relation_shaped.

Definition components_certified : pyset -> json -> Prop :=
  layer_certified "components" "container_id" component_shaped
    component_relation_shaped.

(** Some relation of the document with a truthy source and a truthy target
    starts from [id]. *)
Definition starts_relation (xs : list json) (id : json) : Prop :=
  exists m rels r,
    In (JObj m) xs /\ lookup "relations" m = Some (JArr rels) /\
    In (JObj r) rels /\
    truthy (dict_get r "source" JNull) = true /\
    truthy (dict_get r "target" JNull) = true /\
    py_eq (dict_get r "source" JNull) id = true.

(** ** Notions for the IDs the entity checks can read *)

(** The ID of an entity that is an object, if it has one, is a string. *)
Definition string_id (x : json) : Prop :=
  match x with
  | JObj m => forall v, lookup "id" m = Some v -> is_str v = true
  | _ => True
  end.

(** An object with an ID that is not a string. *)
Definition nonstring_id (x : json) : Prop :=
  exists m v, x = JObj m /\ lookup "id" m = Some v /\ is_str v = false.

(** ** Example init documents *)

Module InitExamples.

Definition manifest (path : string) : json :=
  JObj [("type", JStr "npm"); ("path", JStr path);
        ("data", JObj [("name", JStr "app")])].

Definition repository (path name : string) (manifests : list json) : json :=
  JObj [("path", JStr path); ("name", JStr name);
        ("manifests", JArr manifests)].

Definition metadata (timestamp : string) : list (string * json) :=
  [("schema_version", JStr "1.0.0"); ("generator", JStr "melly");
   ("generated_by", JStr "melly-init"); ("timestamp", JStr timestamp);
   ("melly_version", JStr "1.0.0")].

Definition document (timestamp : string) (repositories : list json) : json :=
  JObj [("metadata", JObj (metadata timestamp));
        ("repositories", JArr repositories)].

(** One repository with one manifest, stamped in the past. *)
Definition app : json := repository "/srv/app" "app" [manifest "package.json"].

Definition past : string := "2024-01-01T00:00:00Z".
Definition future : string := "2030-01-01T00:00:00Z".
Definition naive : string := "2024-01-01T00:00:00".

Definition tidy : json := document past [app].

(** A disk with [/srv/app] and its manifest, and [doc] as the init file. *)
Definition disk (doc : json) (p : string) : file :=
  if String.eqb p "knowledge-base/init.json" then Doc doc
  else if String.eqb p "/srv/app" then Unreadable
  else if String.eqb p "/srv/app/package.json" then Malformed
  else NoFile.

(** The clock reads 2027-01-15T08:00:00Z. *)
Definition host_of (doc : json) : InitDocument.host :=
  InitDocument.mk_host (mk_world StdinUnreadable (disk doc) "/work")
    (fun _ => true) 1800000000000000.

(** The same disk without the manifest file. *)
Definition bare_host_of (doc : json) : InitDocument.host :=
  InitDocument.mk_host
    (mk_world StdinUnreadable
       (fun p => if String.eqb p "/srv/app/package.json" then NoFile
                 else disk doc p) "/work")
    (fun _ => true) 1800000000000000.

(** A class of decimal digits: ['0'] to ['9'] and the Arabic-Indic digits
    U+0660 to U+0669. *)
Definition western_or_arabic_indic (c : N) : bool :=
  ((48 <=? c) && (c <=? 57) || (1632 <=? c) && (c <=? 1641))%N.

End InitExamples.
(** ** Example documents that pass *)

Module LayerExamples.

(** Two systems and one dependency, recorded by both. *)
Definition pair : list json :=
  [Examples.system "a" "/repo-a" [Examples.observation "o1" "info"]
     [Examples.relation "r1" "a" "b"];
   Examples.system "b" "/repo-a" [Examples.observation "o1" "info"]
     [Examples.relation "r1" "a" "b"]].

Definition c1_doc : json :=
  Examples.document (Examples.stamped Examples.t1) "systems" pair.

Definition c3_doc : json :=
  Examples.document (Examples.stamped Examples.t3) "components"
    Examples.component_ring.

End LayerExamples.

(** ** Notions used in the proofs about the patterns *)

(** What may follow a group of digits when [dots] dots are still due. *)
Definition points_rest (decimal_digit : N -> bool) (dots : nat)
           (rest : list N) : Prop :=
  match dots with
  | O => points_end rest
  | S dots' =>
      exists s', rest = 46%N :: s' /\
                 InitDocument.semver_points decimal_digit dots' true s'
                 = true
  end.

(** What may follow a group of ID characters. *)
Definition id_rest (rest : string) : Prop :=
  line_end rest \/
  exists s', rest = String "-"%char s' /\ id_tokens true s' = true.

(** ** Notions used in the proofs about validate-init.py *)

(** The flags of main say whether an error, and whether a warning, was
    printed. *)
Definition accounted (s : InitDocument.state) : Prop :=
  InitDocument.failed s = nonempty (shown_errors (InitDocument.shown s)) /\
  InitDocument.warned s = nonempty (shown_warnings (InitDocument.shown s)).

(** An outcome whose flag says whether its list of errors is empty. *)
Definition balanced (v : InitDocument.outcome) : Prop :=
  fst (fst v) = negb (nonempty (snd (fst v))).

(** The message about a repository entry that is not an object. *)
Definition not_an_object_message (m : InitDocument.message) : bool :=
  match m with
  | InitDocument.RepositoryNotObject _ => true
  | _ => false
  end.

(** No error of the log is that message. *)
Definition objects_only (l : InitDocument.log) : Prop :=
  Forall (fun m => not_an_object_message m = false) (InitDocument.errs l).

(** ** Notions used in the proof about the coupling threshold *)

(** On the counts up to [bound], the test of the script agrees with the
    comparison of [10 * tight] with [3 * total]. *)
Definition threshold_agrees (bound : nat) : bool :=
  forallb (fun total =>
    forallb (fun tight =>
      Bool.eqb (Components.high_tight_coupling tight total)
               (Nat.ltb 0 total && Nat.ltb (3 * total) (10 * tight)))
      (seq 0 (S total)))
    (seq 0 (S bound)).

(** ** Notions used in the proofs about the cycle search *)

(** A node the search has left: visited, and no longer on the stack. *)
Definition black (visited rec_stack : pyset) (x : json) : Prop :=
  set_mem x visited = true /\ set_mem x rec_stack = false.

(** Some walk along the adjacency lists leads from [a] back to it. *)
Definition on_cycle (g : Systems.graph) (a : json) : Prop :=
  exists p b,
    walk (fun x y => In y (Systems.graph_get x g)) (a :: p ++ [b]) /\
    py_eq a b = true.

(** The nodes the search has left have only such nodes as successors, and
    none of them is on a cycle. *)
Definition settled (g : Systems.graph) (visited rec_stack : pyset) : Prop :=
  forall a, hashable a = true -> black visited rec_stack a ->
    (forall b, In b (Systems.graph_get a g) -> black visited rec_stack b) /\
    ~ on_cycle g a.

(** Keys and successors can be hashed. *)
Definition graph_hashable (g : Systems.graph) : Prop :=
  Forall (fun k => hashable k = true) (map fst g) /\
  forall a b, In b (Systems.graph_get a g) -> hashable b = true.

(** The adjacency dict [g'] has the keys of [g] and at least its edges. *)
Definition graph_grows (g g' : Systems.graph) : Prop :=
  map fst g' = map fst g /\
  forall a b, In b (Systems.graph_get a g) -> In b (Systems.graph_get a g').
(** ** Notions used in the proof that the cycle search returns *)

(** The nodes of the graph the search has not visited yet. *)
Definition unvisited (g : Systems.graph) (visited : pyset) : list json :=
  filter (fun k => negb (set_mem k visited)) (map fst g).

(** Every successor is a node of the graph. *)
Definition graph_closed (g : Systems.graph) : Prop :=
  forall a b, In b (Systems.graph_get a g) -> Systems.graph_has b g = true.

(** Every value on the stack is equal to one on the path. *)
Definition stack_on_path (rec_stack : pyset) (path : list json) : Prop :=
  forall x, hashable x = true -> set_mem x rec_stack = true ->
            exists y, In y path /\ py_eq y x = true.

(** * Properties *)

(** ** Reasoning about the error monad and loops *)

Lemma bind_ok {A B : Type} (m : res A) (k : A -> res B) (b : B) :
  bind m k = Ok b -> exists a, m = Ok a /\ k a = Ok b.
Proof.
  destruct m as [a|e]; simpl; intros Hk; [eauto | discriminate].
Qed.

Lemma ok_inj {A : Type} (a b : A) : Ok a = Ok b -> a = b.
Proof. intros Hab. inversion Hab. reflexivity. Qed.

(** Invert one monadic equation: split binds, decide tests, drop raises. *)
Ltac monad_step :=
  match goal with
  | H : Ok _ = Ok _ |- _ => apply ok_inj in H; try subst
  | H : Raise _ = Ok _ |- _ => discriminate H
  | H : (_, _) = (_, _) |- _ => inversion H; subst; clear H
  | H : bind _ _ = Ok _ |- _ =>
      let a := fresh "a" in
      let Ha := fresh "Ha" in
      apply bind_ok in H; destruct H as (a & Ha & H)
  | H : (if ?b then _ else _) = Ok _ |- _ =>
      let E := fresh "E" in destruct b eqn:E
  | H : match ?x with _ => _ end = Ok _ |- _ =>
      let E := fresh "E" in destruct x eqn:E
  end.

Ltac monad_inv := repeat monad_step.

(** A loop relates its first and last state by any preorder that each
    iteration respects. *)
Lemma for_each_preorder {A St : Type} (R : St -> St -> Prop)
      (body : nat -> A -> St -> res St) :
  (forall s, R s s) ->
  (forall s1 s2 s3, R s1 s2 -> R s2 s3 -> R s1 s3) ->
  (forall i x s s', body i x s = Ok s' -> R s s') ->
  forall l i s s', for_each body i l s = Ok s' -> R s s'.
Proof.
  intros Hrefl Htrans Hstep l.
  induction l as [|x l IH]; simpl; intros i s s' Hrun.
  - inversion Hrun; subst; apply Hrefl.
  - apply bind_ok in Hrun. destruct Hrun as (s1 & Hx & Hrest).
    eapply Htrans; [eapply Hstep; eassumption | eapply IH; eassumption].
Qed.

(** The iteration that handles the element at position [k]. *)
Lemma for_each_nth {A St : Type} (body : nat -> A -> St -> res St) :
  forall l i s s' k x,
    for_each body i l s = Ok s' ->
    nth_error l k = Some x ->
    exists s1 s2,
      for_each body i (firstn k l) s = Ok s1 /\
      body (i + k)%nat x s1 = Ok s2 /\
      for_each body (S (i + k)) (skipn (S k) l) s2 = Ok s'.
Proof.
  induction l as [|y l IH]; intros i s s' k x Hrun Hk.
  - destruct k; discriminate.
  - simpl in Hrun. apply bind_ok in Hrun. destruct Hrun as (s1 & Hy & Hrest).
    destruct k as [|k]; simpl in Hk.
    + inversion Hk; subst. exists s, s1. rewrite Nat.add_0_r.
      simpl. auto.
    + destruct (IH _ _ _ _ _ Hrest Hk) as (t1 & t2 & Ha & Hb & Hc).
      exists t1, t2. simpl. rewrite Hy. simpl.
      replace (i + S k)%nat with (S i + k)%nat by lia. auto.
Qed.

(** ** The flags of main track what it printed *)

Lemma conclude_coherent r : coherent (conclude r).
Proof. unfold coherent, conclude, valid_of, errors_of; simpl.
       destruct (errors r); reflexivity. Qed.

Lemma tracks_start : tracks start [] [].
Proof. repeat split. Qed.

Lemma printed_errors_app a b :
  printed_errors (a ++ b) = printed_errors a ++ printed_errors b.
Proof. apply flat_map_app. Qed.

Lemma printed_warnings_app a b :
  printed_warnings (a ++ b) = printed_warnings a ++ printed_warnings b.
Proof. apply flat_map_app. Qed.

Lemma printed_errors_errors loc fs :
  printed_errors (map (fun e => LError e loc) fs) = fs.
Proof. induction fs; simpl; congruence. Qed.

Lemma printed_warnings_errors loc fs :
  printed_warnings (map (fun e => LError e loc) fs) = [].
Proof. induction fs; simpl; congruence. Qed.

Lemma printed_errors_warnings fs : printed_errors (map LWarning fs) = [].
Proof. induction fs; simpl; congruence. Qed.

Lemma printed_warnings_warnings fs : printed_warnings (map LWarning fs) = fs.
Proof. induction fs; simpl; congruence. Qed.

Lemma nonempty_app {A : Type} (a b : list A) :
  nonempty (a ++ b) = nonempty a || nonempty b.
Proof. destruct a; simpl; [destruct b|]; reflexivity. Qed.

Lemma tracks_advisories p es ws adv :
  tracks p es ws -> tracks (emit_advisories adv p) es (ws ++ adv).
Proof.
  intros (He & Hw & Hfe & Hfw). unfold emit_advisories.
  destruct adv as [|f adv].
  - rewrite app_nil_r. repeat split; assumption.
  - unfold tracks; cbn [printed has_errors has_warnings].
    rewrite printed_errors_app, printed_warnings_app,
      printed_errors_warnings, printed_warnings_warnings, app_nil_r,
      nonempty_app, He, Hw, Hfe.
    repeat split. simpl. rewrite orb_true_r. reflexivity.
Qed.

Lemma tracks_verdict loc v p es ws :
  coherent v -> tracks p es ws ->
  tracks (emit_verdict loc v p) (es ++ errors_of v) (ws ++ warnings_of v).
Proof.
  destruct v as [[valid errs] warns]. unfold coherent, valid_of, errors_of,
    warnings_of; simpl. intros Hv Ht.
  assert (Hp1 : tracks
            (if valid then p
             else mk_progress true (has_warnings p)
                    (printed p ++ map (fun e => LError e loc) errs))
            (es ++ errs) ws).
  { destruct Ht as (He & Hw & Hfe & Hfw). destruct valid.
    - destruct errs; [|discriminate]. rewrite app_nil_r.
      repeat split; assumption.
    - unfold tracks; cbn [printed has_errors has_warnings].
      rewrite printed_errors_app, printed_warnings_app,
        printed_errors_errors, printed_warnings_errors, app_nil_r,
        nonempty_app, He, Hw, Hfw.
      destruct errs; [discriminate|]. simpl. rewrite orb_true_r.
      repeat split. }
  apply (tracks_advisories _ _ _ warns) in Hp1.
  exact Hp1.
Qed.

Lemma tracks_finish p es ws code out :
  tracks p es ws -> finish p = (code, out) ->
  printed_errors out = es /\ printed_warnings out = ws /\
  code = exit_of es ws.
Proof.
  intros (He & Hw & Hfe & Hfw). unfold finish, exit_code.
  rewrite Hfe, Hfw.
  assert (Hout : forall summary,
             printed_errors summary = [] -> printed_warnings summary = [] ->
             printed_errors (printed p ++ summary) = es /\
             printed_warnings (printed p ++ summary) = ws).
  { intros summary H1 H2.
    rewrite printed_errors_app, printed_warnings_app, He, Hw, H1, H2,
      !app_nil_r. auto. }
  destruct es as [|e es]; simpl; [destruct ws as [|w' ws]; simpl|];
    intros Hf; inversion Hf; subst;
    (split; [|split]; [apply Hout|apply Hout|]; reflexivity).
Qed.

Lemma falsy_iter x xs : truthy x = false -> py_iter x = Ok xs -> xs = [].
Proof.
  destruct x as [|b|n|s|l|m]; simpl; try discriminate.
  - destruct s; [|discriminate]. intros _ Hx. inversion Hx. reflexivity.
  - destruct l; [|discriminate]. intros _ Hx. inversion Hx. reflexivity.
  - destruct m; [|discriminate]. intros _ Hx. inversion Hx. reflexivity.
Qed.

(** ** Every checker returns a coherent verdict *)

Lemma validate_systems_coherent systems repos v :
  Systems.validate_systems systems repos = Ok v -> coherent v.
Proof.
  unfold Systems.validate_systems. intros Hv.
  monad_inv; [reflexivity | apply conclude_coherent].
Qed.

Lemma validate_containers_coherent containers ids v :
  Containers.validate_containers containers ids = Ok v -> coherent v.
Proof.
  unfold Containers.validate_containers. intros Hv.
  monad_inv; [reflexivity | apply conclude_coherent].
Qed.

Lemma validate_components_coherent components ids v :
  Components.validate_components components ids = Ok v -> coherent v.
Proof.
  unfold Components.validate_components. intros Hv.
  monad_inv; [reflexivity | apply conclude_coherent].
Qed.

Lemma validate_observations_coherent categories entities v :
  Observations.validate_observations categories entities = Ok v -> coherent v.
Proof.
  unfold Observations.validate_observations. intros Hv.
  monad_inv. apply conclude_coherent.
Qed.

Lemma systems_relations_coherent `{Runtime} systems v :
  Systems.validate_relations systems = Ok v -> coherent v.
Proof.
  unfold Systems.validate_relations. intros Hv.
  monad_inv. apply conclude_coherent.
Qed.

Lemma containers_relations_coherent containers v :
  Containers.validate_relations containers = Ok v -> coherent v.
Proof.
  unfold Containers.validate_relations. intros Hv.
  monad_inv. apply conclude_coherent.
Qed.

Lemma components_relations_coherent components v :
  Components.validate_relations components = Ok v -> coherent v.
Proof.
  unfold Components.validate_relations. intros Hv.
  monad_inv; apply conclude_coherent.
Qed.

(** Three verdicts printed in turn, then the advisories, then the summary. *)
Lemma three_stages_report l1 l2 l3 v1 v2 v3 adv code out :
  coherent v1 -> coherent v2 -> coherent v3 ->
  finish (emit_advisories adv
            (emit_verdict l3 v3
               (emit_verdict l2 v2 (emit_verdict l1 v1 start))))
  = (code, out) ->
  reports code out [v1; v2; v3] adv.
Proof.
  intros C1 C2 C3 Hf.
  pose proof (tracks_advisories _ _ _ adv
                (tracks_verdict l3 _ _ _ _ C3
                   (tracks_verdict l2 _ _ _ _ C2
                      (tracks_verdict l1 _ _ _ _ C1 tracks_start)))) as Ht.
  destruct (tracks_finish _ _ _ _ _ Ht Hf) as (He & Hw & Hc).
  unfold reports. simpl. rewrite !app_nil_r, !app_assoc.
  simpl in He, Hw, Hc. rewrite <- !app_assoc in *.
  rewrite He, Hw, Hc. rewrite !app_assoc. auto.
Qed.

(** ** The stages behind a run that passed the lineage check *)

Lemma systems_run `{Runtime} w data errs code out :
  stdin w = StdinDoc data ->
  Systems.validate_parent_reference w data (Systems.init_path w)
    = Ok (true, errs) ->
  Systems.main w = Ok (code, out) ->
  exists systems xs v1 v2 v3,
    py_get data "systems" (JArr []) = Ok systems /\
    py_iter systems = Ok xs /\
    Systems.validate_systems systems
      (Systems.load_init_repos w (Systems.init_path w)) = Ok v1 /\
    Systems.validate_observations systems = Ok v2 /\
    Systems.validate_relations systems = Ok v3 /\
    reports code out [v1; v2; v3] (flat_map Systems.empty_collections xs).
Proof.
  intros Hin Hlin Hmain. unfold Systems.main in Hmain.
  rewrite Hin, Hlin in Hmain. simpl in Hmain.
  unfold Systems.checks in Hmain. monad_inv.
  exists a0, a4, a1, a2, a3. repeat (split; [assumption|]).
  eapply three_stages_report; eauto using validate_systems_coherent,
    validate_observations_coherent, systems_relations_coherent.
Qed.

Lemma containers_run `{Runtime} w data errs code out :
  stdin w = StdinDoc data ->
  Containers.validate_parent_reference w data (Containers.c1_path w)
    = Ok (true, errs) ->
  Containers.main w = Ok (code, out) ->
  exists containers adv v1 v2 v3,
    py_get data "containers" (JArr []) = Ok containers /\
    childless_parents "system_id"
      (Containers.load_system_ids w (Containers.c1_path w)) containers
      = Ok adv /\
    Containers.validate_containers containers
      (Containers.load_system_ids w (Containers.c1_path w)) = Ok v1 /\
    Containers.validate_observations containers = Ok v2 /\
    Containers.validate_relations containers = Ok v3 /\
    reports code out [v1; v2; v3] adv.
Proof.
  intros Hin Hlin Hmain. unfold Containers.main in Hmain.
  rewrite Hin, Hlin in Hmain. simpl in Hmain.
  unfold Containers.checks in Hmain. monad_inv.
  exists a0, a4, a1, a2, a3. repeat (split; [assumption|]).
  eapply three_stages_report; eauto using validate_containers_coherent,
    validate_observations_coherent, containers_relations_coherent.
Qed.

Lemma components_run `{Runtime} w data errs code out :
  stdin w = StdinDoc data ->
  Components.validate_parent_reference w data (Components.c2_path w)
    = Ok (true, errs) ->
  Components.main w = Ok (code, out) ->
  exists ids components adv v1 v2 v3,
    Components.load_container_ids w (Components.c2_path w) = Ok ids /\
    py_get data "components" (JArr []) = Ok components /\
    childless_parents "container_id" ids components = Ok adv /\
    Components.validate_components components ids = Ok v1 /\
    Components.validate_observations components = Ok v2 /\
    Components.validate_relations components = Ok v3 /\
    reports code out [v1; v2; v3] adv.
Proof.
  intros Hin Hlin Hmain. unfold Components.main in Hmain.
  rewrite Hin, Hlin in Hmain. simpl in Hmain.
  unfold Components.checks in Hmain. monad_inv.
  exists a0, a1, a5, a2, a3, a4. repeat (split; [assumption|]).
  eapply three_stages_report; eauto using validate_components_coherent,
    validate_observations_coherent, components_relations_coherent.
Qed.

(** ** Main returns when its checkers do *)

(** A document that passes a lineage check is an object. *)
Lemma lineage_needs_object (check : json -> res (bool * list finding)) data :
  (forall r, check data = Ok r ->
             fst r = true ->
             exists has_metadata metadata,
               py_contains "metadata" data = Ok has_metadata /\
               py_getitem data "metadata" = Ok metadata) ->
  forall errs, check data = Ok (true, errs) -> exists m, data = JObj m.
Proof.
  intros Hcheck errs Hok.
  destruct (Hcheck _ Hok eq_refl) as (b & md & _ & Hget).
  destruct data; try discriminate Hget. eauto.
Qed.

Lemma systems_lineage_object `{Runtime} w data path errs :
  Systems.validate_parent_reference w data path = Ok (true, errs) ->
  exists m, data = JObj m.
Proof.
  apply (lineage_needs_object
           (fun d => Systems.validate_parent_reference w d path)).
  intros [valid es] Hr Hv. simpl in Hv. subst valid.
  unfold Systems.validate_parent_reference in Hr. monad_inv; eauto.
Qed.

Lemma layer_lineage_object `{Runtime} pl cl w data path errs :
  layer_parent_reference pl cl w data path = Ok (true, errs) ->
  exists m, data = JObj m.
Proof.
  apply (lineage_needs_object
           (fun d => layer_parent_reference pl cl w d path)).
  intros [valid es] Hr Hv. simpl in Hv. subst valid.
  unfold layer_parent_reference in Hr. monad_inv; eauto.
Qed.

Lemma observations_iterate categories entities v :
  Observations.validate_observations categories entities = Ok v ->
  exists xs, py_iter entities = Ok xs.
Proof.
  unfold Observations.validate_observations. intros Hv.
  apply bind_ok in Hv. destruct Hv as (xs & Hxs & _). eauto.
Qed.

(** The parent reference of every entity the entity loop has checked was
    hashed. *)
Lemma parent_ids_hashed {St : Type} (body : nat -> json -> St -> res St)
      (key : string) :
  (forall i m s s' v,
     body i (JObj m) s = Ok s' -> lookup key m = Some v ->
     hashable v = true) ->
  forall xs i s s' m v,
    for_each body i xs s = Ok s' ->
    In (JObj m) xs -> lookup key m = Some v -> hashable v = true.
Proof.
  intros Hbody xs i s s' m v Hrun Hin Hv.
  apply In_nth_error in Hin. destruct Hin as [k Hk].
  destruct (for_each_nth _ _ _ _ _ _ _ Hrun Hk) as (s1 & s2 & _ & Hb & _).
  eapply Hbody; eassumption.
Qed.

Lemma check_parent_id_hashes key ids idx m r r' v :
  check_parent_id key ids idx m r = Ok r' ->
  lookup key m = Some v -> hashable v = true.
Proof.
  unfold check_parent_id, py_in_set. intros Hc Hv. rewrite Hv in Hc.
  destruct (hashable v); [reflexivity|discriminate Hc].
Qed.

Lemma referenced_parents_returns key xs :
  (forall m v, In (JObj m) xs -> lookup key m = Some v ->
               hashable v = true) ->
  forall s, exists s', referenced_parents key xs s = Ok s'.
Proof.
  induction xs as [|x xs IH]; simpl; intros Hh s; [eauto|].
  assert (Hrest : forall m v, In (JObj m) xs -> lookup key m = Some v ->
                              hashable v = true) by eauto.
  destruct x as [| | | | |m]; try (apply IH; exact Hrest).
  unfold dict_get. destruct (lookup key m) as [v|] eqn:Hv; simpl;
    [|apply IH; exact Hrest].
  destruct (truthy v); [|apply IH; exact Hrest].
  rewrite (Hh m v (or_introl eq_refl) Hv). apply IH; exact Hrest.
Qed.

Lemma childless_parents_returns `{Runtime} key ids entities xs :
  py_iter entities = Ok xs ->
  (forall m v, In (JObj m) xs -> lookup key m = Some v ->
               hashable v = true) ->
  exists adv, childless_parents key ids entities = Ok adv.
Proof.
  intros Hxs Hh. unfold childless_parents. rewrite Hxs. simpl.
  destruct (referenced_parents_returns key xs Hh []) as [s' Hs'].
  rewrite Hs'. simpl. eauto.
Qed.

Lemma containers_parents_hashed containers ids v1 xs :
  Containers.validate_containers containers ids = Ok v1 ->
  py_iter containers = Ok xs ->
  forall m v, In (JObj m) xs -> lookup "system_id" m = Some v ->
              hashable v = true.
Proof.
  unfold Containers.validate_containers. intros Hv Hxs m v Hin Hm.
  destruct (truthy containers) eqn:Ht; simpl in Hv;
    [|rewrite (falsy_iter _ _ Ht Hxs) in Hin; destruct Hin].
  rewrite Hxs in Hv. simpl in Hv.
  apply bind_ok in Hv. destruct Hv as (s & Hloop & _).
  eapply (parent_ids_hashed (Containers.check_container ids) "system_id");
    [|exact Hloop|exact Hin|exact Hm].
  intros i m0 s0 s0' v0 Hb Hv0. unfold Containers.check_container in Hb.
  apply bind_ok in Hb. destruct Hb as (s2 & _ & Hb).
  apply bind_ok in Hb. destruct Hb as (r & Hparent & _).
  eapply check_parent_id_hashes; eassumption.
Qed.

Lemma components_parents_hashed components ids v1 xs :
  Components.validate_components components ids = Ok v1 ->
  py_iter components = Ok xs ->
  forall m v, In (JObj m) xs -> lookup "container_id" m = Some v ->
              hashable v = true.
Proof.
  unfold Components.validate_components. intros Hv Hxs m v Hin Hm.
  destruct (truthy components) eqn:Ht; simpl in Hv;
    [|rewrite (falsy_iter _ _ Ht Hxs) in Hin; destruct Hin].
  rewrite Hxs in Hv. simpl in Hv.
  apply bind_ok in Hv. destruct Hv as (s & Hloop & _).
  eapply (parent_ids_hashed (Components.check_component ids) "container_id");
    [|exact Hloop|exact Hin|exact Hm].
  intros i m0 s0 s0' v0 Hb Hv0. unfold Components.check_component in Hb.
  apply bind_ok in Hb. destruct Hb as (s2 & _ & Hb).
  apply bind_ok in Hb. destruct Hb as (r & Hparent & _).
  eapply check_parent_id_hashes; eassumption.
Qed.

Lemma finish_reports l1 l2 l3 v1 v2 v3 adv :
  coherent v1 -> coherent v2 -> coherent v3 ->
  exists code out,
    finish (emit_advisories adv
              (emit_verdict l3 v3
                 (emit_verdict l2 v2 (emit_verdict l1 v1 start))))
      = (code, out) /\
    reports code out [v1; v2; v3] adv.
Proof.
  intros C1 C2 C3.
  destruct (finish (emit_advisories adv
                      (emit_verdict l3 v3
                         (emit_verdict l2 v2 (emit_verdict l1 v1 start)))))
    as [code out] eqn:Hf.
  exists code, out. split; [reflexivity|].
  eapply three_stages_report; eassumption.
Qed.

Lemma systems_run_returns `{Runtime} w data errs systems v1 v2 v3 :
  stdin w = StdinDoc data ->
  Systems.validate_parent_reference w data (Systems.init_path w)
    = Ok (true, errs) ->
  py_get data "systems" (JArr []) = Ok systems ->
  Systems.validate_systems systems
    (Systems.load_init_repos w (Systems.init_path w)) = Ok v1 ->
  Systems.validate_observations systems = Ok v2 ->
  Systems.validate_relations systems = Ok v3 ->
  exists xs code out,
    py_iter systems = Ok xs /\
    Systems.main w = Ok (code, out) /\
    reports code out [v1; v2; v3] (flat_map Systems.empty_collections xs).
Proof.
  intros Hin Hlin Hsys H1 H2 H3.
  destruct (observations_iterate _ _ _ H2) as [xs Hxs].
  destruct (finish_reports "systems" "observations" "relations" v1 v2 v3
              (flat_map Systems.empty_collections xs)
              (validate_systems_coherent _ _ _ H1)
              (validate_observations_coherent _ _ _ H2)
              (systems_relations_coherent _ _ H3))
    as (code & out & Hf & Hr).
  exists xs, code, out. split; [exact Hxs|]. split; [|exact Hr].
  unfold Systems.main, Systems.checks.
  rewrite Hin, Hlin. simpl. rewrite Hsys. simpl.
  rewrite H1. simpl. rewrite H2. simpl. rewrite H3. simpl.
  rewrite Hxs. simpl. rewrite Hf. reflexivity.
Qed.

Lemma containers_run_returns `{Runtime} w data errs containers v1 v2 v3 :
  stdin w = StdinDoc data ->
  Containers.validate_parent_reference w data (Containers.c1_path w)
    = Ok (true, errs) ->
  py_get data "containers" (JArr []) = Ok containers ->
  Containers.validate_containers containers
    (Containers.load_system_ids w (Containers.c1_path w)) = Ok v1 ->
  Containers.validate_observations containers = Ok v2 ->
  Containers.validate_relations containers = Ok v3 ->
  exists adv code out,
    childless_parents "system_id"
      (Containers.load_system_ids w (Containers.c1_path w)) containers
      = Ok adv /\
    Containers.main w = Ok (code, out) /\
    reports code out [v1; v2; v3] adv.
Proof.
  intros Hin Hlin Hcs H1 H2 H3.
  destruct (observations_iterate _ _ _ H2) as [xs Hxs].
  destruct (childless_parents_returns "system_id"
              (Containers.load_system_ids w (Containers.c1_path w))
              _ _ Hxs (containers_parents_hashed _ _ _ _ H1 Hxs))
    as [adv Hadv].
  destruct (finish_reports "containers" "observations" "relations" v1 v2 v3
              adv
              (validate_containers_coherent _ _ _ H1)
              (validate_observations_coherent _ _ _ H2)
              (containers_relations_coherent _ _ H3))
    as (code & out & Hf & Hr).
  exists adv, code, out. split; [exact Hadv|]. split; [|exact Hr].
  unfold Containers.main, Containers.checks.
  rewrite Hin, Hlin. simpl. rewrite Hcs. simpl.
  rewrite H1. simpl. rewrite H2. simpl. rewrite H3. simpl.
  rewrite Hadv. simpl. rewrite Hf. reflexivity.
Qed.

Lemma components_run_returns `{Runtime} w data errs ids components v1 v2 v3 :
  stdin w = StdinDoc data ->
  Components.validate_parent_reference w data (Components.c2_path w)
    = Ok (true, errs) ->
  Components.load_container_ids w (Components.c2_path w) = Ok ids ->
  py_get data "components" (JArr []) = Ok components ->
  Components.validate_components components ids = Ok v1 ->
  Components.validate_observations components = Ok v2 ->
  Components.validate_relations components = Ok v3 ->
  exists adv code out,
    childless_parents "container_id" ids components = Ok adv /\
    Components.main w = Ok (code, out) /\
    reports code out [v1; v2; v3] adv.
Proof.
  intros Hin Hlin Hids Hcs H1 H2 H3.
  destruct (observations_iterate _ _ _ H2) as [xs Hxs].
  destruct (childless_parents_returns "container_id" ids
              _ _ Hxs (components_parents_hashed _ _ _ _ H1 Hxs))
    as [adv Hadv].
  destruct (finish_reports "components" "observations" "relations" v1 v2 v3
              adv
              (validate_components_coherent _ _ _ H1)
              (validate_observations_coherent _ _ _ H2)
              (components_relations_coherent _ _ H3))
    as (code & out & Hf & Hr).
  exists adv, code, out. split; [exact Hadv|]. split; [|exact Hr].
  unfold Components.main, Components.checks.
  rewrite Hin, Hlin. simpl. rewrite Hids. simpl. rewrite Hcs. simpl.
  rewrite H1. simpl. rewrite H2. simpl. rewrite H3. simpl.
  rewrite Hadv. simpl. rewrite Hf. reflexivity.
Qed.

(** ** The exit code of a run that passed the lineage check *)

(** X30: in each of the three layer scripts, once the lineage check has
    passed, main reads the entity collection of the document and, whenever
    its three checkers return their lists, returns an exit code.  A run
    that returns an exit code has printed as errors what the checkers
    returned as errors and as warnings what they returned as warnings,
    followed by main's own advisories; its exit code is 2 when there is an
    error, else 1 when there is a warning, else 0.  A run in which a
    checker raises returns no exit code. *)
Theorem exit_code_follows_findings `{Runtime} (w : world) (data : json)
        (errs : list finding) :
  stdin w = StdinDoc data ->
  (Systems.validate_parent_reference w data (Systems.init_path w)
     = Ok (true, errs) ->
   exists systems,
     py_get data "systems" (JArr []) = Ok systems /\
     (forall v1 v2 v3,
        Systems.validate_systems systems
          (Systems.load_init_repos w (Systems.init_path w)) = Ok v1 ->
        Systems.validate_observations systems = Ok v2 ->
        Systems.validate_relations systems = Ok v3 ->
        exists xs code out,
          py_iter systems = Ok xs /\
          Systems.main w = Ok (code, out) /\
          reports code out [v1; v2; v3]
            (flat_map Systems.empty_collections xs)) /\
     (forall code out,
        Systems.main w = Ok (code, out) ->
        exists xs v1 v2 v3,
          py_iter systems = Ok xs /\
          Systems.validate_systems systems
            (Systems.load_init_repos w (Systems.init_path w)) = Ok v1 /\
          Systems.validate_observations systems = Ok v2 /\
          Systems.validate_relations systems = Ok v3 /\
          reports code out [v1; v2; v3]
            (flat_map Systems.empty_collections xs)))
  /\
  (Containers.validate_parent_reference w data (Containers.c1_path w)
     = Ok (true, errs) ->
   exists containers,
     py_get data "containers" (JArr []) = Ok containers /\
     (forall v1 v2 v3,
        Containers.validate_containers containers
          (Containers.load_system_ids w (Containers.c1_path w)) = Ok v1 ->
        Containers.validate_observations containers = Ok v2 ->
        Containers.validate_relations containers = Ok v3 ->
        exists adv code out,
          childless_parents "system_id"
            (Containers.load_system_ids w (Containers.c1_path w)) containers
            = Ok adv /\
          Containers.main w = Ok (code, out) /\
          reports code out [v1; v2; v3] adv) /\
     (forall code out,
        Containers.main w = Ok (code, out) ->
        exists adv v1 v2 v3,
          childless_parents "system_id"
            (Containers.load_system_ids w (Containers.c1_path w)) containers
            = Ok adv /\
          Containers.validate_containers containers
            (Containers.load_system_ids w (Containers.c1_path w)) = Ok v1 /\
          Containers.validate_observations containers = Ok v2 /\
          Containers.validate_relations containers = Ok v3 /\
          reports code out [v1; v2; v3] adv))
  /\
  (Components.validate_parent_reference w data (Components.c2_path w)
     = Ok (true, errs) ->
   exists components,
     py_get data "components" (JArr []) = Ok components /\
     (forall ids v1 v2 v3,
        Components.load_container_ids w (Components.c2_path w) = Ok ids ->
        Components.validate_components components ids = Ok v1 ->
        Components.validate_observations components = Ok v2 ->
        Components.validate_relations components = Ok v3 ->
        exists adv code out,
          childless_parents "container_id" ids components = Ok adv /\
          Components.main w = Ok (code, out) /\
          reports code out [v1; v2; v3] adv) /\
     (forall code out,
        Components.main w = Ok (code, out) ->
        exists ids adv v1 v2 v3,
          Components.load_container_ids w (Components.c2_path w) = Ok ids /\
          childless_parents "container_id" ids components = Ok adv /\
          Components.validate_components components ids = Ok v1 /\
          Components.validate_observations components = Ok v2 /\
          Components.validate_relations components = Ok v3 /\
          reports code out [v1; v2; v3] adv)).
Proof.
  intros Hin. split; [|split]; intros Hlin.
  - destruct (systems_lineage_object _ _ _ _ Hlin) as [m ->].
    eexists. split; [reflexivity|]. split.
    + intros v1 v2 v3 H1 H2 H3.
      eapply systems_run_returns; try eassumption. reflexivity.
    + intros code out Hmain.
      destruct (systems_run _ _ _ _ _ Hin Hlin Hmain)
        as (systems & xs & v1 & v2 & v3 & Hs & Hrest).
      apply ok_inj in Hs. subst systems. eauto 10.
  - unfold Containers.validate_parent_reference in Hlin.
    destruct (layer_lineage_object _ _ _ _ _ _ Hlin) as [m ->].
    eexists. split; [reflexivity|]. split.
    + intros v1 v2 v3 H1 H2 H3.
      eapply containers_run_returns; try eassumption. reflexivity.
    + intros code out Hmain.
      destruct (containers_run _ _ _ _ _ Hin Hlin Hmain)
        as (containers & adv & v1 & v2 & v3 & Hs & Hrest).
      apply ok_inj in Hs. subst containers. eauto 10.
  - unfold Components.validate_parent_reference in Hlin.
    destruct (layer_lineage_object _ _ _ _ _ _ Hlin) as [m ->].
    eexists. split; [reflexivity|]. split.
    + intros ids v1 v2 v3 H0 H1 H2 H3.
      eapply components_run_returns; try eassumption. reflexivity.
    + intros code out Hmain.
      destruct (components_run _ _ _ _ _ Hin Hlin Hmain)
        as (ids & components & adv & v1 & v2 & v3 & H0 & Hs & Hrest).
      apply ok_inj in Hs. subst components. eauto 10.
Qed.

(** ** C3: a failed lineage check ends the run *)

Lemma systems_lineage_kinds `{Runtime} w data path valid errs :
  Systems.validate_parent_reference w data path = Ok (valid, errs) ->
  forallb lineage_finding errs = true.
Proof.
  unfold Systems.validate_parent_reference, Systems.check_ordering.
  intros Hl. monad_inv; reflexivity.
Qed.

Lemma layer_lineage_kinds `{Runtime} pl cl w data path valid errs :
  layer_parent_reference pl cl w data path = Ok (valid, errs) ->
  forallb lineage_finding errs = true.
Proof.
  unfold layer_parent_reference, check_ordering.
  intros Hl. monad_inv; reflexivity.
Qed.

(** C3.  In each of the three layer scripts, when the lineage check fails
    the run ends with exit code 2 and prints the entries of the lineage
    check, which are lineage findings, and nothing else: no checker
    contributes a finding.  When the lineage check passes and the run ends
    with an exit code, all three checkers have returned and each of their
    findings is printed, whatever the verdict of an earlier checker: no
    other stage cuts the run short. *)
Theorem lineage_failure_short_circuits `{Runtime} (w : world) (data : json) :
  stdin w = StdinDoc data ->
  (forall errs,
     Systems.validate_parent_reference w data (Systems.init_path w)
       = Ok (false, errs) ->
     Systems.main w = Ok (2, map lineage_line errs) /\
     forallb lineage_finding errs = true) /\
  (forall errs,
     Containers.validate_parent_reference w data (Containers.c1_path w)
       = Ok (false, errs) ->
     Containers.main w = Ok (2, map lineage_line errs) /\
     forallb lineage_finding errs = true) /\
  (forall errs,
     Components.validate_parent_reference w data (Components.c2_path w)
       = Ok (false, errs) ->
     Components.main w = Ok (2, map lineage_line errs) /\
     forallb lineage_finding errs = true) /\
  (forall errs code out,
     Systems.validate_parent_reference w data (Systems.init_path w)
       = Ok (true, errs) ->
     Systems.main w = Ok (code, out) ->
     exists systems v1 v2 v3,
       py_get data "systems" (JArr []) = Ok systems /\
       Systems.validate_systems systems
         (Systems.load_init_repos w (Systems.init_path w)) = Ok v1 /\
       Systems.validate_observations systems = Ok v2 /\
       Systems.validate_relations systems = Ok v3 /\
       printed_errors out = errors_of v1 ++ errors_of v2 ++ errors_of v3 /\
       incl (warnings_of v1 ++ warnings_of v2 ++ warnings_of v3)
            (printed_warnings out)) /\
  (forall errs code out,
     Containers.validate_parent_reference w data (Containers.c1_path w)
       = Ok (true, errs) ->
     Containers.main w = Ok (code, out) ->
     exists containers v1 v2 v3,
       py_get data "containers" (JArr []) = Ok containers /\
       Containers.validate_containers containers
         (Containers.load_system_ids w (Containers.c1_path w)) = Ok v1 /\
       Containers.validate_observations containers = Ok v2 /\
       Containers.validate_relations containers = Ok v3 /\
       printed_errors out = errors_of v1 ++ errors_of v2 ++ errors_of v3 /\
       incl (warnings_of v1 ++ warnings_of v2 ++ warnings_of v3)
            (printed_warnings out)) /\
  (forall errs code out,
     Components.validate_parent_reference w data (Components.c2_path w)
       = Ok (true, errs) ->
     Components.main w = Ok (code, out) ->
     exists ids components v1 v2 v3,
       Components.load_container_ids w (Components.c2_path w) = Ok ids /\
       py_get data "components" (JArr []) = Ok components /\
       Components.validate_components components ids = Ok v1 /\
       Components.validate_observations components = Ok v2 /\
       Components.validate_relations components = Ok v3 /\
       printed_errors out = errors_of v1 ++ errors_of v2 ++ errors_of v3 /\
       incl (warnings_of v1 ++ warnings_of v2 ++ warnings_of v3)
            (printed_warnings out)).
Proof.
  intros Hin.
  assert (Hflat : forall code out v1 v2 v3 adv,
             reports code out [v1; v2; v3] adv ->
             printed_errors out = errors_of v1 ++ errors_of v2 ++ errors_of v3
             /\ incl (warnings_of v1 ++ warnings_of v2 ++ warnings_of v3)
                     (printed_warnings out)).
  { intros code out v1 v2 v3 adv (He & Hw & _). simpl in He, Hw.
    rewrite app_nil_r in He, Hw. split; [assumption|].
    rewrite Hw, <- !app_assoc. intros f Hf.
    repeat rewrite in_app_iff in *. tauto. }
  split; [|split; [|split; [|split; [|split]]]].
  - intros errs Hl. split; [|eapply systems_lineage_kinds; exact Hl].
    unfold Systems.main. rewrite Hin, Hl. reflexivity.
  - intros errs Hl. split; [|eapply layer_lineage_kinds; exact Hl].
    unfold Containers.main. rewrite Hin, Hl. reflexivity.
  - intros errs Hl. split; [|eapply layer_lineage_kinds; exact Hl].
    unfold Components.main. rewrite Hin, Hl. reflexivity.
  - intros errs code out Hl Hm.
    destruct (systems_run _ _ _ _ _ Hin Hl Hm)
      as (systems & xs & v1 & v2 & v3 & H1 & H2 & H3 & H4 & H5 & H6).
    exists systems, v1, v2, v3. destruct (Hflat _ _ _ _ _ _ H6). auto 10.
  - intros errs code out Hl Hm.
    destruct (containers_run _ _ _ _ _ Hin Hl Hm)
      as (cs & adv & v1 & v2 & v3 & H1 & H2 & H3 & H4 & H5 & H6).
    exists cs, v1, v2, v3. destruct (Hflat _ _ _ _ _ _ H6). auto 10.
  - intros errs code out Hl Hm.
    destruct (components_run _ _ _ _ _ Hin Hl Hm)
      as (ids & cs & adv & v1 & v2 & v3 & H0 & H1 & H2 & H3 & H4 & H5 & H6).
    exists ids, cs, v1, v2, v3. destruct (Hflat _ _ _ _ _ _ H6). auto 10.
Qed.

(** ** C4: input errors *)

(** C4, as amended.  In the three layer scripts a malformed or unreadable
    standard input ends the run with exit code 2 and a single error line,
    and so does a parent document that is missing, unreadable or malformed
    (with the lineage entries only).  In the init script an init.json that
    exists but is unreadable or malformed ends the run with exit code 2 and
    a single error line, whereas an init.json that does not exist ends it
    with exit code 0 and the notice that validation is skipped. *)
Theorem input_errors_are_terminal `{Runtime} (w : world) :
  (stdin w = StdinMalformed \/ stdin w = StdinUnreadable ->
   exists f,
     Systems.main w = Ok (2, [LError f ""]) /\
     Containers.main w = Ok (2, [LError f ""]) /\
     Components.main w = Ok (2, [LError f ""])) /\
  (forall data,
     stdin w = StdinDoc data ->
     (is_input_error (files w (Systems.init_path w)) = true ->
      exists errs,
        Systems.main w = Ok (2, map lineage_line errs) /\
        (errs = [ParentNotFound (Systems.init_path w); Recommendation] \/
         errs = [FailedToReadParent])) /\
     (is_input_error (files w (Containers.c1_path w)) = true ->
      exists errs,
        Containers.main w = Ok (2, map lineage_line errs) /\
        (errs = [ParentNotFound (Containers.c1_path w); Recommendation] \/
         errs = [FailedToReadParent])) /\
     (is_input_error (files w (Components.c2_path w)) = true ->
      exists errs,
        Components.main w = Ok (2, map lineage_line errs) /\
        (errs = [ParentNotFound (Components.c2_path w); Recommendation] \/
         errs = [FailedToReadParent]))) /\
  (forall validate_loaded,
     (forall p, Init.init_file w = Some p ->
                is_input_error (files w p) = true ->
                exists f, Init.main validate_loaded w = Ok (2, [LError f ""]))
     /\
     (Init.init_file w = None ->
      Init.main validate_loaded w = Ok (0, [LSkipped]))).
Proof.
  split; [|split].
  - intros [Hin|Hin];
      [exists InvalidJson | exists FailedToReadInput];
      unfold Systems.main, Containers.main, Components.main;
      rewrite Hin; auto.
  - intros data Hin.
    unfold Systems.main, Containers.main, Components.main,
      Systems.validate_parent_reference,
      Containers.validate_parent_reference,
      Components.validate_parent_reference, layer_parent_reference,
      path_exists, load_json.
    rewrite Hin.
    repeat split; intros Hf;
      match goal with
      | H : is_input_error (files w ?p) = true |- _ =>
          destruct (files w p); try discriminate H
      end; simpl;
      (eexists; split; [|left; reflexivity]; reflexivity) ||
      (eexists; split; [|right; reflexivity]; reflexivity).
  - intros validate_loaded. split.
    + intros p Hp Hf. unfold Init.main, load_json. rewrite Hp.
      destruct (files w p) eqn:E; try discriminate Hf; eauto.
    + intros Hn. unfold Init.main. rewrite Hn. reflexivity.
Qed.

(** ** The lineage check on a readable, stamped parent *)

Lemma parent_carries_reads w path p pts :
  parent_carries w path p pts ->
  path_exists w path = true /\
  load_json w path = Ok p /\
  (parent_metadata <- py_get p "metadata" (JObj []) ;;
   py_get parent_metadata "timestamp" JNull) = Ok pts.
Proof.
  intros (Hf & Hts & _). unfold path_exists, load_json. rewrite Hf.
  repeat split. unfold doc_timestamp in Hts.
  destruct p as [| | | |?|pm]; try discriminate. simpl.
  destruct (lookup "metadata" pm) as [[| | | |?|pmd]|]; try discriminate.
  simpl. rewrite Hts. reflexivity.
Qed.

(** The lineage check of the C1 script, once the parent is read. *)
Lemma systems_lineage_unfold `{Runtime} w path p pts m md :
  parent_carries w path p pts ->
  lookup "metadata" m = Some (JObj md) ->
  Systems.validate_parent_reference w (JObj m) path =
  (mismatch <- Systems.parent_mismatch (JObj md) pts ;;
   match mismatch with
   | Some declared =>
       Ok (false, [ParentTimestampMismatch; Detail "Expected" pts;
                   Detail "Actual" declared])
   | None => Systems.check_ordering (JObj md) pts
   end).
Proof.
  intros Hp Hmd. pose proof Hp as (_ & _ & Htruthy).
  destruct (parent_carries_reads _ _ _ _ Hp) as (He & Hl & Hts).
  unfold Systems.validate_parent_reference. rewrite He, Hl. simpl.
  apply bind_ok in Hts. destruct Hts as (pmd & H1 & H2).
  rewrite H1. simpl. rewrite H2. simpl. rewrite Htruthy. simpl.
  unfold has_key. rewrite Hmd. simpl. reflexivity.
Qed.

(** The lineage check of the C2 and C3 scripts, once the parent is read. *)
Lemma layer_lineage_unfold `{Runtime} pl cl w path p pts m md :
  parent_carries w path p pts ->
  lookup "metadata" m = Some (JObj md) ->
  layer_parent_reference pl cl w (JObj m) path =
  check_ordering pl cl (JObj md) pts.
Proof.
  intros Hp Hmd. pose proof Hp as (_ & _ & Htruthy).
  destruct (parent_carries_reads _ _ _ _ Hp) as (He & Hl & Hts).
  unfold layer_parent_reference. rewrite He, Hl. simpl.
  apply bind_ok in Hts. destruct Hts as (pmd & H1 & H2).
  rewrite H1. simpl. rewrite H2. simpl. rewrite Htruthy. simpl.
  unfold has_key. rewrite Hmd. simpl. reflexivity.
Qed.

Lemma parent_mismatch_cases md pts :
  parent_is_object md = true ->
  (no_mismatch md pts = true /\
   Systems.parent_mismatch (JObj md) pts = Ok None) \/
  (no_mismatch md pts = false /\
   exists declared,
     Systems.parent_mismatch (JObj md) pts = Ok (Some declared)).
Proof.
  unfold parent_is_object, no_mismatch, Systems.parent_mismatch. simpl.
  unfold has_key.
  destruct (lookup "parent" md) as [[| | | |?|pm]|]; try discriminate;
    intros _; simpl; [|auto].
  unfold has_key. destruct (lookup "timestamp" pm) as [d|]; simpl; [|auto].
  destruct (py_eq d pts); eauto.
Qed.


(** ** A document without [metadata.timestamp] *)

(** A document whose [metadata] is an object without a [timestamp] key
    passes the lineage check of each layer script with no entry, provided
    the parent file is readable and carries a timestamp and, for the C1
    script, a declared [metadata.parent] is an object whose [timestamp], if
    any, equals the parent's.  The run then goes through the three checkers
    of the script: it returns an exit code whenever they return their lists,
    and a run that returns one has printed their findings. *)
Theorem unstamped_document_passes_lineage `{Runtime} (w : world)
        (m md : list (string * json)) :
  stdin w = StdinDoc (JObj m) ->
  lookup "metadata" m = Some (JObj md) ->
  lookup "timestamp" md = None ->
  (forall p pts,
     parent_carries w (Systems.init_path w) p pts ->
     parent_is_object md = true ->
     no_mismatch md pts = true ->
     Systems.validate_parent_reference w (JObj m) (Systems.init_path w)
       = Ok (true, []) /\
     (forall v1 v2 v3,
        Systems.validate_systems (dict_get m "systems" (JArr []))
          (Systems.load_init_repos w (Systems.init_path w)) = Ok v1 ->
        Systems.validate_observations (dict_get m "systems" (JArr []))
          = Ok v2 ->
        Systems.validate_relations (dict_get m "systems" (JArr []))
          = Ok v3 ->
        exists xs code out,
          py_iter (dict_get m "systems" (JArr [])) = Ok xs /\
          Systems.main w = Ok (code, out) /\
          reports code out [v1; v2; v3]
            (flat_map Systems.empty_collections xs)) /\
     (forall code out,
        Systems.main w = Ok (code, out) ->
        exists xs v1 v2 v3,
          py_iter (dict_get m "systems" (JArr [])) = Ok xs /\
          Systems.validate_systems (dict_get m "systems" (JArr []))
            (Systems.load_init_repos w (Systems.init_path w)) = Ok v1 /\
          Systems.validate_observations (dict_get m "systems" (JArr []))
            = Ok v2 /\
          Systems.validate_relations (dict_get m "systems" (JArr []))
            = Ok v3 /\
          reports code out [v1; v2; v3]
            (flat_map Systems.empty_collections xs))) /\
  (forall p pts,
     parent_carries w (Containers.c1_path w) p pts ->
     Containers.validate_parent_reference w (JObj m) (Containers.c1_path w)
       = Ok (true, []) /\
     (forall v1 v2 v3,
        Containers.validate_containers (dict_get m "containers" (JArr []))
          (Containers.load_system_ids w (Containers.c1_path w)) = Ok v1 ->
        Containers.validate_observations
          (dict_get m "containers" (JArr [])) = Ok v2 ->
        Containers.validate_relations (dict_get m "containers" (JArr []))
          = Ok v3 ->
        exists adv code out,
          childless_parents "system_id"
            (Containers.load_system_ids w (Containers.c1_path w))
            (dict_get m "containers" (JArr [])) = Ok adv /\
          Containers.main w = Ok (code, out) /\
          reports code out [v1; v2; v3] adv) /\
     (forall code out,
        Containers.main w = Ok (code, out) ->
        exists adv v1 v2 v3,
          childless_parents "system_id"
            (Containers.load_system_ids w (Containers.c1_path w))
            (dict_get m "containers" (JArr [])) = Ok adv /\
          Containers.validate_containers
            (dict_get m "containers" (JArr []))
            (Containers.load_system_ids w (Containers.c1_path w)) = Ok v1 /\
          Containers.validate_observations
            (dict_get m "containers" (JArr [])) = Ok v2 /\
          Containers.validate_relations
            (dict_get m "containers" (JArr [])) = Ok v3 /\
          reports code out [v1; v2; v3] adv)) /\
  (forall p pts,
     parent_carries w (Components.c2_path w) p pts ->
     Components.validate_parent_reference w (JObj m) (Components.c2_path w)
       = Ok (true, []) /\
     (forall ids v1 v2 v3,
        Components.load_container_ids w (Components.c2_path w) = Ok ids ->
        Components.validate_components (dict_get m "components" (JArr []))
          ids = Ok v1 ->
        Components.validate_observations
          (dict_get m "components" (JArr [])) = Ok v2 ->
        Components.validate_relations (dict_get m "components" (JArr []))
          = Ok v3 ->
        exists adv code out,
          childless_parents "container_id" ids
            (dict_get m "components" (JArr [])) = Ok adv /\
          Components.main w = Ok (code, out) /\
          reports code out [v1; v2; v3] adv) /\
     (forall code out,
        Components.main w = Ok (code, out) ->
        exists ids adv v1 v2 v3,
          Components.load_container_ids w (Components.c2_path w) = Ok ids /\
          childless_parents "container_id" ids
            (dict_get m "components" (JArr [])) = Ok adv /\
          Components.validate_components
            (dict_get m "components" (JArr [])) ids = Ok v1 /\
          Components.validate_observations
            (dict_get m "components" (JArr [])) = Ok v2 /\
          Components.validate_relations
            (dict_get m "components" (JArr [])) = Ok v3 /\
          reports code out [v1; v2; v3] adv)).
Proof.
  intros Hin Hmd Hts.
  assert (Hord : forall pts,
             Systems.check_ordering (JObj md) pts = Ok (true, [])).
  { intros pts. unfold Systems.check_ordering. simpl. unfold has_key.
    rewrite Hts. reflexivity. }
  assert (Hord' : forall pl cl pts,
             check_ordering pl cl (JObj md) pts = Ok (true, [])).
  { intros pl cl pts. unfold check_ordering. simpl. unfold has_key.
    rewrite Hts. reflexivity. }
  split; [|split].
  - intros p pts Hp Hobj Hmis.
    assert (Hl : Systems.validate_parent_reference w (JObj m)
                   (Systems.init_path w) = Ok (true, [])).
    { rewrite (systems_lineage_unfold _ _ _ _ _ _ Hp Hmd).
      destruct (parent_mismatch_cases md pts Hobj) as [[_ E]|[E _]];
        [|congruence].
      rewrite E. simpl. apply Hord. }
    split; [exact Hl|]. split.
    + intros v1 v2 v3 H1 H2 H3.
      eapply systems_run_returns; eauto.
    + intros code out Hmain.
      destruct (systems_run w (JObj m) [] code out Hin Hl Hmain)
        as (systems & xs & v1 & v2 & v3 & Hget & Hrest).
      apply ok_inj in Hget. subst systems.
      exists xs, v1, v2, v3. exact Hrest.
  - intros p pts Hp.
    assert (Hl : Containers.validate_parent_reference w (JObj m)
                   (Containers.c1_path w) = Ok (true, [])).
    { unfold Containers.validate_parent_reference.
      rewrite (layer_lineage_unfold _ _ _ _ _ _ _ _ Hp Hmd). apply Hord'. }
    split; [exact Hl|]. split.
    + intros v1 v2 v3 H1 H2 H3.
      eapply containers_run_returns; eauto.
    + intros code out Hmain.
      destruct (containers_run w (JObj m) [] code out Hin Hl Hmain)
        as (containers & adv & v1 & v2 & v3 & Hget & Hrest).
      apply ok_inj in Hget. subst containers.
      exists adv, v1, v2, v3. exact Hrest.
  - intros p pts Hp.
    assert (Hl : Components.validate_parent_reference w (JObj m)
                   (Components.c2_path w) = Ok (true, [])).
    { unfold Components.validate_parent_reference.
      rewrite (layer_lineage_unfold _ _ _ _ _ _ _ _ Hp Hmd). apply Hord'. }
    split; [exact Hl|]. split.
    + intros ids v1 v2 v3 Hids H1 H2 H3.
      eapply components_run_returns; eauto.
    + intros code out Hmain.
      destruct (components_run w (JObj m) [] code out Hin Hl Hmain)
        as (ids & components & adv & v1 & v2 & v3 & Hload & Hget & Hrest).
      apply ok_inj in Hget. subst components.
      exists ids, adv, v1, v2, v3. split; [exact Hload | exact Hrest].
Qed.

(** ** C2: when the lineage check accepts *)








(** ** What a checker appends *)

Section Adds.

Variables PE PW : finding -> bool.

Lemma adds_refl r : adds PE PW r r.
Proof. exists [], []. rewrite !app_nil_r. auto. Qed.

Lemma adds_trans r1 r2 r3 :
  adds PE PW r1 r2 -> adds PE PW r2 r3 -> adds PE PW r1 r3.
Proof.
  intros (e1 & w1 & A1 & B1 & C1 & D1) (e2 & w2 & A2 & B2 & C2 & D2).
  exists (e1 ++ e2), (w1 ++ w2).
  rewrite A2, B2, A1, B1, !app_assoc, !forallb_app, C1, C2, D1, D2. auto.
Qed.

Lemma adds_errors fs r :
  forallb PE fs = true -> adds PE PW r (add_errors fs r).
Proof. intros Hfs. exists fs, []. simpl. rewrite app_nil_r. auto. Qed.

Lemma adds_warnings fs r :
  forallb PW fs = true -> adds PE PW r (add_warnings fs r).
Proof. intros Hfs. exists [], fs. simpl. rewrite app_nil_r. auto. Qed.

Lemma adds_error f r : PE f = true -> adds PE PW r (add_error f r).
Proof.
  intros Hf. apply (adds_errors [f]). simpl. rewrite Hf. reflexivity.
Qed.

Lemma adds_warning f r : PW f = true -> adds PE PW r (add_warning f r).
Proof.
  intros Hf. apply (adds_warnings [f]). simpl. rewrite Hf. reflexivity.
Qed.

Lemma adds_incl_errors r r' f :
  adds PE PW r r' -> In f (errors r) -> In f (errors r').
Proof. intros (es & ws & A & _) Hf. rewrite A. apply in_or_app. auto. Qed.

Lemma adds_incl_warnings r r' f :
  adds PE PW r r' -> In f (warnings r) -> In f (warnings r').
Proof. intros (es & ws & _ & B & _) Hf. rewrite B. apply in_or_app. auto. Qed.

Lemma adds_all_errors r r' :
  adds PE PW r r' -> forallb PE (errors r) = true ->
  forallb PE (errors r') = true.
Proof.
  intros (es & ws & A & _ & C & _) Hr. rewrite A, forallb_app, Hr, C. auto.
Qed.

Lemma adds_all_warnings r r' :
  adds PE PW r r' -> forallb PW (warnings r) = true ->
  forallb PW (warnings r') = true.
Proof.
  intros (es & ws & _ & B & _ & D) Hr. rewrite B, forallb_app, Hr, D. auto.
Qed.

Lemma forallb_made {A : Type} (p : finding -> bool) (mk : A -> finding)
      (l : list A) :
  (forall x, p (mk x) = true) -> forallb p (map mk l) = true.
Proof. intros Hmk. induction l; simpl; [|rewrite Hmk]; auto. Qed.

(** A loop over [report] states, or over states that carry a report. *)
Lemma for_each_adds {A St : Type} (get : St -> report)
      (body : nat -> A -> St -> res St) :
  (forall i x s s', body i x s = Ok s' -> adds PE PW (get s) (get s')) ->
  forall l i s s', for_each body i l s = Ok s' -> adds PE PW (get s) (get s').
Proof.
  intros Hstep.
  apply (for_each_preorder (fun s s' => adds PE PW (get s) (get s'))).
  - intros s. apply adds_refl.
  - intros s1 s2 s3. apply adds_trans.
  - exact Hstep.
Qed.

End Adds.

(** Peel the appends of a step written with [add_*], tests and matches. *)
Ltac adds_pure :=
  lazymatch goal with
  | |- adds _ _ ?r ?r => apply adds_refl
  | |- adds _ _ _ (add_error _ _) =>
      eapply adds_trans; [|apply adds_error; reflexivity]; adds_pure
  | |- adds _ _ _ (add_warning _ _) =>
      eapply adds_trans; [|apply adds_warning; reflexivity]; adds_pure
  | |- adds _ _ _ (add_errors _ _) =>
      eapply adds_trans;
      [|apply adds_errors;
        first [reflexivity | apply forallb_made; intros; reflexivity]];
      adds_pure
  | |- adds _ _ _ (add_warnings _ _) =>
      eapply adds_trans;
      [|apply adds_warnings;
        first [reflexivity | apply forallb_made; intros; reflexivity]];
      adds_pure
  | |- adds _ _ _ (if ?b then _ else _) => destruct b; adds_pure
  | |- adds _ _ _ (match ?x with _ => _ end) => destruct x; adds_pure
  | |- adds _ _ _ (let _ := _ in _) => cbv zeta; adds_pure
  | |- adds _ _ _ ?t =>
      lazymatch t with
      | context [if ?b then _ else _] => destruct b; simpl; adds_pure
      | context [match ?x with _ => _ end] => destruct x; simpl; adds_pure
      | _ => idtac
      end
  end.

Lemma conclude_valid r valid errs warns :
  conclude r = (valid, errs, warns) ->
  errs = errors r /\ warns = warnings r /\
  valid = negb (nonempty (errors r)).
Proof.
  unfold conclude. intros Hc. inversion Hc; subst.
  destruct (errors r); auto.
Qed.

Lemma in_nonempty {A : Type} (x : A) l : In x l -> nonempty l = true.
Proof. destruct l; simpl; [tauto|auto]. Qed.

(** ** The entity checkers *)

Lemma check_id_adds PW m s s' :
  check_id m s = Ok s' -> adds entity_error PW (found s) (found s').
Proof.
  unfold check_id. intros Hc. monad_inv; simpl; unfold note_error; simpl;
    adds_pure.
Qed.

Lemma check_parent_id_adds PW key ids idx m r r' :
  check_parent_id key ids idx m r = Ok r' -> adds entity_error PW r r'.
Proof.
  unfold check_parent_id. intros Hc. monad_inv; adds_pure.
Qed.

Lemma check_system_adds repos i x s s' :
  Systems.check_system repos i x s = Ok s' ->
  adds entity_error entity_warning (found s) (found s').
Proof.
  unfold Systems.check_system. intros Hc.
  destruct x; monad_inv; try (unfold note_error; simpl; adds_pure).
  simpl. apply check_id_adds with (PW := entity_warning) in Ha.
  simpl in Ha.
  eapply adds_trans; [eapply adds_trans; [|exact Ha]|].
  - adds_pure.
  - unfold Systems.check_repositories, Systems.check_type. adds_pure.
Qed.

Lemma check_container_adds ids i x s s' :
  Containers.check_container ids i x s = Ok s' ->
  adds entity_error entity_warning (found s) (found s').
Proof.
  unfold Containers.check_container. intros Hc.
  destruct x; monad_inv; try (unfold note_error; simpl; adds_pure).
  simpl. apply check_id_adds with (PW := entity_warning) in Ha.
  apply check_parent_id_adds with (PW := entity_warning) in Ha0.
  simpl in Ha.
  eapply adds_trans; [eapply adds_trans; [eapply adds_trans; [|exact Ha]|]|].
  - adds_pure.
  - eapply adds_trans; [|exact Ha0]. unfold Containers.check_type. adds_pure.
  - unfold Containers.check_runtime, Containers.check_technology. adds_pure.
Qed.

Lemma check_component_adds ids i x s s' :
  Components.check_component ids i x s = Ok s' ->
  adds entity_error entity_warning (found s) (found s').
Proof.
  unfold Components.check_component. intros Hc.
  destruct x; monad_inv; try (unfold note_error; simpl; adds_pure).
  simpl. apply check_id_adds with (PW := entity_warning) in Ha.
  apply check_parent_id_adds with (PW := entity_warning) in Ha0.
  simpl in Ha.
  eapply adds_trans; [eapply adds_trans; [eapply adds_trans; [|exact Ha]|]|].
  - adds_pure.
  - eapply adds_trans; [|exact Ha0]. unfold Components.check_type. adds_pure.
  - unfold Components.check_structure. adds_pure.
Qed.

(** Read a checker's returned triple off its final report. *)
Ltac use_conclude :=
  match goal with
  | H : conclude _ = (_, _, _) |- _ =>
      let Hvalid := fresh "Hvalid" in
      apply conclude_valid in H; destruct H as (-> & -> & Hvalid)
  end.

(** The severities of the entity checkers. *)
Lemma validate_systems_kinds systems repos valid errs warns :
  Systems.validate_systems systems repos = Ok (valid, errs, warns) ->
  forallb entity_error errs = true /\ forallb entity_warning warns = true.
Proof.
  unfold Systems.validate_systems. intros Hv. monad_inv; [auto|].
  use_conclude.
  apply for_each_adds with (PE := entity_error) (PW := entity_warning)
                           (get := found) in Ha0;
    [|apply check_system_adds].
  split; [eapply adds_all_errors|eapply adds_all_warnings]; eauto.
Qed.

Lemma validate_containers_kinds containers ids valid errs warns :
  Containers.validate_containers containers ids = Ok (valid, errs, warns) ->
  forallb entity_error errs = true /\ forallb entity_warning warns = true.
Proof.
  unfold Containers.validate_containers. intros Hv. monad_inv; [auto|].
  use_conclude.
  apply for_each_adds with (PE := entity_error) (PW := entity_warning)
                           (get := found) in Ha0;
    [|apply check_container_adds].
  split; [eapply adds_all_errors|eapply adds_all_warnings]; eauto.
Qed.

Lemma validate_components_kinds components ids valid errs warns :
  Components.validate_components components ids = Ok (valid, errs, warns) ->
  forallb entity_error errs = true /\ forallb entity_warning warns = true.
Proof.
  unfold Components.validate_components. intros Hv. monad_inv; [auto|].
  use_conclude.
  apply for_each_adds with (PE := entity_error) (PW := entity_warning)
                           (get := found) in Ha0;
    [|apply check_component_adds].
  split; [eapply adds_all_errors|eapply adds_all_warnings]; eauto.
Qed.

Lemma forallb_weaken {A : Type} (p q : A -> bool) l :
  (forall x, p x = true -> q x = true) ->
  forallb p l = true -> forallb q l = true.
Proof.
  intros Hpq. rewrite !forallb_forall. auto.
Qed.

(** From one severity class to the absence of a kind outside it. *)
Ltac exclude_kind H :=
  unfold none_of; eapply forallb_weaken; [|exact H];
  let f := fresh "f" in intros f; destruct f; simpl; congruence.

(** The finding an iteration leaves is in the loop's final report. *)
Lemma for_each_keeps_error {A St : Type} PE PW (get : St -> report)
      (body : nat -> A -> St -> res St) l i s s' k x f :
  (forall i x s s', body i x s = Ok s' -> adds PE PW (get s) (get s')) ->
  for_each body i l s = Ok s' ->
  nth_error l k = Some x ->
  (forall s1 s2, body (i + k)%nat x s1 = Ok s2 -> In f (errors (get s2))) ->
  In f (errors (get s')).
Proof.
  intros Hstep Hrun Hk Hf.
  destruct (for_each_nth _ _ _ _ _ _ _ Hrun Hk) as (s1 & s2 & _ & Hb & Hrest).
  eapply adds_incl_errors;
    [eapply for_each_adds; [exact Hstep|exact Hrest]|eauto].
Qed.

Lemma for_each_keeps_warning {A St : Type} PE PW (get : St -> report)
      (body : nat -> A -> St -> res St) l i s s' k x f :
  (forall i x s s', body i x s = Ok s' -> adds PE PW (get s) (get s')) ->
  for_each body i l s = Ok s' ->
  nth_error l k = Some x ->
  (forall s1 s2, body (i + k)%nat x s1 = Ok s2 -> In f (warnings (get s2))) ->
  In f (warnings (get s')).
Proof.
  intros Hstep Hrun Hk Hf.
  destruct (for_each_nth _ _ _ _ _ _ _ Hrun Hk) as (s1 & s2 & _ & Hb & Hrest).
  eapply adds_incl_warnings;
    [eapply for_each_adds; [exact Hstep|exact Hrest]|eauto].
Qed.

Lemma in_added_error f r : In f (errors (add_error f r)).
Proof. simpl. apply in_or_app. simpl. auto. Qed.

Lemma in_added_warning f r : In f (warnings (add_warning f r)).
Proof. simpl. apply in_or_app. simpl. auto. Qed.

(** ** C5: unresolved references to the parent layer *)

Lemma check_parent_id_unresolved key ids idx m r r' v :
  check_parent_id key ids idx m r = Ok r' ->
  lookup key m = Some v ->
  set_mem v ids = false ->
  In (ParentEntityNotFound (dict_get m "id" (JNum (Z.of_nat idx))) v)
     (errors r').
Proof.
  unfold check_parent_id, py_in_set. intros Hc Hv Hun. rewrite Hv in Hc.
  monad_inv; [congruence|].
  simpl. apply in_or_app. simpl. auto.
Qed.

Lemma check_container_unresolved ids idx m s s' v :
  Containers.check_container ids idx (JObj m) s = Ok s' ->
  lookup "system_id" m = Some v ->
  set_mem v ids = false ->
  In (ParentEntityNotFound (dict_get m "id" (JNum (Z.of_nat idx))) v)
     (errors (found s')).
Proof.
  unfold Containers.check_container. intros Hc Hv Hun. monad_inv. simpl.
  eapply (adds_incl_errors entity_error entity_warning);
    [|eapply check_parent_id_unresolved; eassumption].
  unfold Containers.check_runtime, Containers.check_technology. adds_pure.
Qed.

Lemma check_component_unresolved ids idx m s s' v :
  Components.check_component ids idx (JObj m) s = Ok s' ->
  lookup "container_id" m = Some v ->
  set_mem v ids = false ->
  In (ParentEntityNotFound (dict_get m "id" (JNum (Z.of_nat idx))) v)
     (errors (found s')).
Proof.
  unfold Components.check_component. intros Hc Hv Hun. monad_inv. simpl.
  eapply (adds_incl_errors entity_error entity_warning);
    [|eapply check_parent_id_unresolved; eassumption].
  unfold Components.check_structure. adds_pure.
Qed.

Lemma check_system_unlisted repos idx m s s' rs repo :
  Systems.check_system repos idx (JObj m) s = Ok s' ->
  lookup "repositories" m = Some (JArr rs) ->
  In repo rs ->
  list_mem repo repos = false ->
  In (RepositoryNotFound (dict_get m "id" (JNum (Z.of_nat idx))) repo)
     (warnings (found s')).
Proof.
  unfold Systems.check_system. intros Hc Hrs Hin Hun. monad_inv. simpl.
  unfold Systems.check_repositories. rewrite Hrs.
  destruct rs as [|r0 rs]; [destruct Hin|].
  unfold add_warnings. cbn [warnings]. apply in_or_app. right.
  apply in_map. apply filter_In. split; [exact Hin|].
  rewrite Hun. reflexivity.
Qed.

(** C5, as amended.  A container whose [system_id] is not in the set of C1
    system IDs, and a component whose [container_id] is not in the set of C2
    container IDs, is reported in the list of errors (the verdict is then
    invalid) and never in the list of warnings.  A repository that a system
    lists and the init document does not is reported in the list of
    warnings, never in the list of errors. *)
Theorem unresolved_parent_severity :
  (forall containers ids xs valid errs warns,
     Containers.validate_containers containers ids = Ok (valid, errs, warns) ->
     py_iter containers = Ok xs ->
     none_of is_unresolved_parent warns /\
     forall idx m v,
       nth_error xs idx = Some (JObj m) ->
       lookup "system_id" m = Some v ->
       set_mem v ids = false ->
       In (ParentEntityNotFound (dict_get m "id" (JNum (Z.of_nat idx))) v) errs
       /\ valid = false) /\
  (forall components ids xs valid errs warns,
     Components.validate_components components ids = Ok (valid, errs, warns) ->
     py_iter components = Ok xs ->
     none_of is_unresolved_parent warns /\
     forall idx m v,
       nth_error xs idx = Some (JObj m) ->
       lookup "container_id" m = Some v ->
       set_mem v ids = false ->
       In (ParentEntityNotFound (dict_get m "id" (JNum (Z.of_nat idx))) v) errs
       /\ valid = false) /\
  (forall systems repos xs valid errs warns,
     Systems.validate_systems systems repos = Ok (valid, errs, warns) ->
     py_iter systems = Ok xs ->
     none_of is_unresolved_repository errs /\
     forall idx m rs repo,
       nth_error xs idx = Some (JObj m) ->
       lookup "repositories" m = Some (JArr rs) ->
       In repo rs ->
       list_mem repo repos = false ->
       In (RepositoryNotFound (dict_get m "id" (JNum (Z.of_nat idx))) repo)
          warns).
Proof.
  split; [|split].
  - intros containers ids xs valid errs warns Hv Hxs.
    destruct (validate_containers_kinds _ _ _ _ _ Hv) as [_ Hw].
    split; [exclude_kind Hw|].
    intros idx m v Hk Hsys Hun.
    unfold Containers.validate_containers in Hv.
    destruct (truthy containers) eqn:Ht; simpl in Hv;
      [|rewrite (falsy_iter _ _ Ht Hxs) in Hk; destruct idx; discriminate].
    rewrite Hxs in Hv. simpl in Hv. monad_inv. use_conclude.
    assert (Hin : In (ParentEntityNotFound
                        (dict_get m "id" (JNum (Z.of_nat idx))) v)
                     (errors (found a))).
    { eapply for_each_keeps_error with (get := found);
        [apply check_container_adds|eassumption|eassumption|].
      intros s1 s2 Hb. eapply check_container_unresolved; eassumption. }
    split; [exact Hin|]. rewrite Hvalid, (in_nonempty _ _ Hin). reflexivity.
  - intros components ids xs valid errs warns Hv Hxs.
    destruct (validate_components_kinds _ _ _ _ _ Hv) as [_ Hw].
    split; [exclude_kind Hw|].
    intros idx m v Hk Hsys Hun.
    unfold Components.validate_components in Hv.
    destruct (truthy components) eqn:Ht; simpl in Hv;
      [|rewrite (falsy_iter _ _ Ht Hxs) in Hk; destruct idx; discriminate].
    rewrite Hxs in Hv. simpl in Hv. monad_inv. use_conclude.
    assert (Hin : In (ParentEntityNotFound
                        (dict_get m "id" (JNum (Z.of_nat idx))) v)
                     (errors (found a))).
    { eapply for_each_keeps_error with (get := found);
        [apply check_component_adds|eassumption|eassumption|].
      intros s1 s2 Hb. eapply check_component_unresolved; eassumption. }
    split; [exact Hin|]. rewrite Hvalid, (in_nonempty _ _ Hin). reflexivity.
  - intros systems repos xs valid errs warns Hv Hxs.
    destruct (validate_systems_kinds _ _ _ _ _ Hv) as [He _].
    split; [exclude_kind He|].
    intros idx m rs repo Hk Hrs Hin Hun.
    unfold Systems.validate_systems in Hv.
    destruct (truthy systems) eqn:Ht; simpl in Hv;
      [|rewrite (falsy_iter _ _ Ht Hxs) in Hk; destruct idx; discriminate].
    rewrite Hxs in Hv. simpl in Hv. monad_inv. use_conclude.
    eapply for_each_keeps_warning with (get := found);
      [apply check_system_adds|eassumption|eassumption|].
    intros s1 s2 Hb. eapply check_system_unlisted; eassumption.
Qed.

(** ** The observation checker *)

Lemma py_eq_refl v : hashable v = true -> py_eq v v = true.
Proof.
  destruct v as [|b|n|s|l|m]; simpl; try discriminate; intros _.
  - reflexivity.
  - destruct b; reflexivity.
  - apply Z.eqb_refl.
  - apply String.eqb_refl.
Qed.

Lemma set_mem_add_same v s :
  hashable v = true -> set_mem v (set_add v s) = true.
Proof.
  intros Hv. unfold set_add. destruct (set_mem v s) eqn:E; [exact E|].
  unfold set_mem. rewrite existsb_app. simpl.
  rewrite (py_eq_refl _ Hv), orb_true_r. reflexivity.
Qed.

Lemma set_mem_add_other x y s :
  set_mem x s = true -> set_mem x (set_add y s) = true.
Proof.
  intros Hx. unfold set_add. destruct (set_mem y s); [exact Hx|].
  unfold set_mem in *. rewrite existsb_app, Hx. reflexivity.
Qed.

Lemma dict_get_some m k d v : lookup k m = Some v -> dict_get m k d = v.
Proof. intros Hk. unfold dict_get. rewrite Hk. reflexivity. Qed.

Section ObservationChecker.

Variable categories : list json.

Lemma check_observation_id_adds PW owner m s s' :
  Observations.check_observation_id owner m s = Ok s' ->
  adds observation_error PW (found s) (found s').
Proof.
  unfold Observations.check_observation_id. intros Hc.
  monad_inv; simpl; unfold note_error; simpl; adds_pure.
Qed.

Lemma check_observation_adds owner i x s s' :
  Observations.check_observation categories owner i x s = Ok s' ->
  adds observation_error observation_warning (found s) (found s').
Proof.
  unfold Observations.check_observation. intros Hc.
  destruct x as [| | | | |m];
    try (monad_inv; unfold note_error; simpl; adds_pure; fail).
  monad_inv.
  apply check_observation_id_adds with (PW := observation_warning) in Ha.
  simpl in Ha. simpl.
  eapply adds_trans; [eapply adds_trans; [|exact Ha]|].
  - adds_pure.
  - unfold Observations.check_severity, Observations.check_category.
    adds_pure.
Qed.

Lemma check_entity_observations_adds i x r r' :
  Observations.check_entity_observations categories i x r = Ok r' ->
  adds observation_error observation_warning r r'.
Proof.
  unfold Observations.check_entity_observations. intros Hc.
  destruct x; monad_inv; try adds_pure.
  eapply (for_each_adds _ _ found) in Ha;
    [exact Ha|apply check_observation_adds].
Qed.

(** The severities of the observation checker. *)
Lemma validate_observations_kinds entities valid errs warns :
  Observations.validate_observations categories entities
    = Ok (valid, errs, warns) ->
  forallb observation_error errs = true /\
  forallb observation_warning warns = true.
Proof.
  unfold Observations.validate_observations. intros Hv. monad_inv.
  use_conclude.
  apply for_each_adds with (PE := observation_error)
                           (PW := observation_warning)
                           (get := fun r => r) in Ha0;
    [|apply check_entity_observations_adds].
  split; [eapply adds_all_errors|eapply adds_all_warnings]; eauto.
Qed.

(** An iteration of the observation loop never forgets an ID it has seen. *)
Lemma check_observation_remembers owner v i x s s' :
  Observations.check_observation categories owner i x s = Ok s' ->
  set_mem v (seen s) = true -> set_mem v (seen s') = true.
Proof.
  unfold Observations.check_observation, Observations.check_observation_id.
  intros Hc Hv. destruct x as [| | | | |m]; monad_inv; simpl; auto.
  apply set_mem_add_other.
  match goal with |- context [if ?b then _ else _] => destruct b end;
    simpl; exact Hv.
Qed.

(** After an observation that carries the ID [v], [v] has been seen. *)
Lemma check_observation_records owner v i a s s' :
  Observations.check_observation categories owner i (JObj a) s = Ok s' ->
  lookup "id" a = Some v ->
  set_mem v (seen s') = true.
Proof.
  unfold Observations.check_observation, Observations.check_observation_id,
    py_in_set.
  intros Hc Hv. rewrite Hv in Hc. monad_inv. simpl.
  apply set_mem_add_same. assumption.
Qed.

(** An observation whose ID has been seen is reported as a duplicate. *)
Lemma check_observation_duplicate owner v i b s s' :
  Observations.check_observation categories owner i (JObj b) s = Ok s' ->
  lookup "id" b = Some v ->
  set_mem v (seen s) = true ->
  In (DuplicateObservationId owner v) (errors (found s')).
Proof.
  unfold Observations.check_observation, Observations.check_observation_id,
    py_in_set.
  intros Hc Hv Hseen. rewrite Hv in Hc. simpl in Hc. rewrite Hseen in Hc.
  monad_inv; simpl.
  match goal with
  | |- In ?f (errors ?t) =>
      match t with
      | context [add_error f ?r] => set (r0 := add_error f r)
      end
  end.
  apply (adds_incl_errors observation_error observation_warning r0);
    [|apply in_added_error].
  unfold Observations.check_severity, Observations.check_category.
  adds_pure.
Qed.

Lemma observation_loop_duplicate owner obs s s' i j a b v :
  for_each (Observations.check_observation categories owner) 0 obs s = Ok s' ->
  (i < j)%nat ->
  nth_error obs i = Some (JObj a) ->
  nth_error obs j = Some (JObj b) ->
  lookup "id" a = Some v ->
  lookup "id" b = Some v ->
  In (DuplicateObservationId owner v) (errors (found s')).
Proof.
  intros Hrun Hij Hi Hj Ha Hb.
  destruct (for_each_nth _ _ _ _ _ _ _ Hrun Hj)
    as (t1 & t2 & Hpre & Hbody & Hrest).
  assert (Hi' : nth_error (firstn j obs) i = Some (JObj a)).
  { rewrite nth_error_firstn.
    destruct (Nat.ltb_spec i j); [exact Hi|lia]. }
  destruct (for_each_nth _ _ _ _ _ _ _ Hpre Hi')
    as (u1 & u2 & _ & Hbody_i & Hmid).
  assert (Hseen : set_mem v (seen t1) = true).
  { eapply (for_each_preorder
              (fun s s' => set_mem v (seen s) = true ->
                           set_mem v (seen s') = true));
      [auto|auto| |exact Hmid|].
    - intros k x s0 s0'. apply check_observation_remembers.
    - eapply check_observation_records; eassumption. }
  eapply (adds_incl_errors observation_error observation_warning);
    [eapply for_each_adds with (get := found);
     [apply check_observation_adds|exact Hrest]|].
  eapply check_observation_duplicate; eassumption.
Qed.

Lemma validate_observations_duplicate entities xs valid errs warns
      idx m obs i j a b v :
  Observations.validate_observations categories entities
    = Ok (valid, errs, warns) ->
  py_iter entities = Ok xs ->
  nth_error xs idx = Some (JObj m) ->
  lookup "observations" m = Some (JArr obs) ->
  (i < j)%nat ->
  nth_error obs i = Some (JObj a) ->
  nth_error obs j = Some (JObj b) ->
  lookup "id" a = Some v ->
  lookup "id" b = Some v ->
  In (DuplicateObservationId (dict_get m "id" (JStr "unknown")) v) errs /\
  valid = false.
Proof.
  intros Hv Hxs Hk Hobs Hij Hi Hj Ha Hb.
  unfold Observations.validate_observations in Hv.
  rewrite Hxs in Hv. simpl in Hv. monad_inv. use_conclude.
  assert (Hin : In (DuplicateObservationId (dict_get m "id" (JStr "unknown")) v)
                   (errors a0)).
  { eapply for_each_keeps_error with (get := fun r => r);
      [apply check_entity_observations_adds|eassumption|eassumption|].
    intros s1 s2 Hbody. unfold Observations.check_entity_observations in Hbody.
    rewrite (dict_get_some _ _ (JArr []) _ Hobs) in Hbody. monad_inv.
    eapply observation_loop_duplicate; eassumption. }
  split; [exact Hin|]. rewrite Hvalid, (in_nonempty _ _ Hin). reflexivity.
Qed.

End ObservationChecker.

(** ** The relation checkers *)

Lemma adds_weaken (PE PW PE' PW' : finding -> bool) r r' :
  (forall f, PE f = true -> PE' f = true) ->
  (forall f, PW f = true -> PW' f = true) ->
  adds PE PW r r' -> adds PE' PW' r r'.
Proof.
  intros He Hw (es & ws & A & B & C & D). exists es, ws.
  repeat split; auto; eapply forallb_weaken; eauto.
Qed.

Lemma containers_check_relation_adds ids owner i x r r' :
  Containers.check_relation ids owner i x r = Ok r' ->
  adds relation_error relation_warning r r'.
Proof.
  unfold Containers.check_relation, Containers.check_target,
    Containers.check_relation_type.
  intros Hc. destruct x as [| | | | |m]; monad_inv; adds_pure.
Qed.

Lemma containers_entity_relations_adds ids i x r r' :
  Containers.check_container_relations ids i x r = Ok r' ->
  adds relation_error relation_warning r r'.
Proof.
  unfold Containers.check_container_relations. intros Hc.
  destruct x as [| | | | |m]; try (monad_inv; adds_pure; fail).
  destruct (dict_get m "relations" (JArr [])) as [| | | |rels|];
    try (monad_inv; adds_pure; fail).
  eapply (for_each_adds _ _ (fun r => r)) in Hc;
    [exact Hc|apply containers_check_relation_adds].
Qed.

Lemma containers_relations_kinds containers valid errs warns :
  Containers.validate_relations containers = Ok (valid, errs, warns) ->
  forallb relation_error errs = true /\ forallb relation_warning warns = true.
Proof.
  unfold Containers.validate_relations. intros Hv. monad_inv. use_conclude.
  apply for_each_adds with (PE := relation_error) (PW := relation_warning)
                           (get := fun r => r) in Ha1;
    [|apply containers_entity_relations_adds].
  split; [eapply adds_all_errors|eapply adds_all_warnings]; eauto.
Qed.

Lemma components_check_relation_adds ids owner i x t t' :
  Components.check_relation ids owner i x t = Ok t' ->
  adds relation_error relation_warning (Components.tfound t)
    (Components.tfound t').
Proof.
  unfold Components.check_relation, Components.check_target,
    Components.check_coupling, Components.check_relation_type,
    Components.with_report.
  intros Hc. destruct x as [| | | | |m]; monad_inv; simpl; adds_pure.
Qed.

Lemma components_entity_relations_adds ids i x t t' :
  Components.check_component_relations ids i x t = Ok t' ->
  adds relation_error relation_warning (Components.tfound t)
    (Components.tfound t').
Proof.
  unfold Components.check_component_relations, Components.with_report.
  intros Hc.
  destruct x as [| | | | |m]; try (monad_inv; simpl; adds_pure; fail).
  destruct (dict_get m "relations" (JArr [])) as [| | | |rels|];
    try (monad_inv; simpl; adds_pure; fail).
  eapply (for_each_adds _ _ Components.tfound) in Hc;
    [exact Hc|apply components_check_relation_adds].
Qed.

Lemma components_relations_kinds components valid errs warns :
  Components.validate_relations components = Ok (valid, errs, warns) ->
  forallb relation_error errs = true /\ forallb relation_warning warns = true.
Proof.
  unfold Components.validate_relations. intros Hv. monad_inv. use_conclude.
  apply for_each_adds with (PE := relation_error) (PW := relation_warning)
                           (get := Components.tfound) in Ha1;
    [|apply components_entity_relations_adds].
  assert (Hadd : adds relation_error relation_warning no_findings
                   (if Components.high_tight_coupling
                         (Components.tight_coupling_count a1)
                         (Components.total_relations a1)
                    then add_warning
                           (HighTightCoupling
                              (Components.tight_coupling_count a1)
                              (Components.total_relations a1))
                           (Components.tfound a1)
                    else Components.tfound a1)).
  { eapply adds_trans; [exact Ha1|]. adds_pure. }
  split; [eapply adds_all_errors|eapply adds_all_warnings]; eauto.
Qed.

Lemma systems_check_relation_adds ids owner i x s s' :
  Systems.check_relation ids owner i x s = Ok s' ->
  adds relation_error relation_warning (Systems.rfound s) (Systems.rfound s').
Proof.
  unfold Systems.check_relation, Systems.check_endpoints,
    Systems.check_relation_id, Systems.check_relation_type,
    Systems.rel_warning, Systems.rel_error.
  intros Hc. destruct x as [| | | | |m]; monad_inv; simpl; adds_pure.
Qed.

Lemma systems_entity_relations_adds ids i x s s' :
  Systems.check_system_relations ids i x s = Ok s' ->
  adds relation_error relation_warning (Systems.rfound s) (Systems.rfound s').
Proof.
  unfold Systems.check_system_relations, Systems.rel_error. intros Hc.
  destruct x as [| | | | |m]; try (monad_inv; simpl; adds_pure; fail).
  destruct (dict_get m "relations" (JArr [])) as [| | | |rels|];
    try (monad_inv; simpl; adds_pure; fail).
  eapply (for_each_adds _ _ Systems.rfound) in Hc;
    [exact Hc|apply systems_check_relation_adds].
Qed.

Lemma detect_cycles_adds PE depth g nodes :
  forall visited r r',
    Systems.detect_cycles depth g nodes visited r = Ok r' ->
    adds PE is_cycle_finding r r'.
Proof.
  induction nodes as [|node nodes IH]; simpl; intros visited r r' Hd.
  - monad_inv. apply adds_refl.
  - destruct (set_mem node visited); [eauto|].
    apply bind_ok in Hd. destruct Hd as ([[found_cycle visited'] rs] & _ & Hd).
    destruct found_cycle as [cycle_path|]; [|eauto].
    apply bind_ok in Hd. destruct Hd as (_ & _ & Hd).
    eapply adds_trans; [|eapply IH; exact Hd].
    apply adds_warning. reflexivity.
Qed.

Lemma systems_relations_kinds `{Runtime} systems valid errs warns :
  Systems.validate_relations systems = Ok (valid, errs, warns) ->
  forallb relation_error errs = true /\
  forallb systems_relation_warning warns = true.
Proof.
  unfold Systems.validate_relations. intros Hv. monad_inv. use_conclude.
  apply for_each_adds with (PE := relation_error) (PW := relation_warning)
                           (get := Systems.rfound) in Ha1;
    [|apply systems_entity_relations_adds].
  apply detect_cycles_adds with (PE := relation_error) in Ha2.
  assert (Hadd : adds relation_error systems_relation_warning no_findings a2).
  { eapply adds_trans; (eapply adds_weaken; [| |eassumption]); auto;
      intros f Hf; unfold systems_relation_warning; rewrite Hf;
      auto using orb_true_r. }
  split; [eapply adds_all_errors|eapply adds_all_warnings]; eauto.
Qed.

(** From one relation to the verdict: what the iteration on the relation at
    position [j] of the entity at position [idx] leaves in its report is in
    the lists the checker returns. *)
Lemma containers_relation_lifts containers xs ids valid errs warns
      idx m rels j r :
  Containers.validate_relations containers = Ok (valid, errs, warns) ->
  py_iter containers = Ok xs ->
  collect_ids xs [] = Ok ids ->
  nth_error xs idx = Some (JObj m) ->
  lookup "relations" m = Some (JArr rels) ->
  nth_error rels j = Some r ->
  forall f,
    (forall s s',
       Containers.check_relation ids (dict_get m "id" (JStr "unknown")) j r s
         = Ok s' -> In f (warnings s')) ->
    In f warns.
Proof.
  intros Hv Hxs Hids Hk Hrels Hj f Hf.
  unfold Containers.validate_relations in Hv.
  rewrite Hxs in Hv. simpl in Hv. rewrite Hids in Hv. simpl in Hv.
  monad_inv. use_conclude.
  eapply for_each_keeps_warning with (get := fun r => r);
    [apply containers_entity_relations_adds|eassumption|eassumption|].
  intros s1 s2 Hbody. unfold Containers.check_container_relations in Hbody.
  rewrite (dict_get_some _ _ (JArr []) _ Hrels) in Hbody.
  eapply for_each_keeps_warning with (get := fun r => r);
    [apply containers_check_relation_adds|eassumption|eassumption|].
  intros t1 t2. apply Hf.
Qed.

Lemma components_relation_lifts components xs ids valid errs warns
      idx m rels j r :
  Components.validate_relations components = Ok (valid, errs, warns) ->
  py_iter components = Ok xs ->
  collect_ids xs [] = Ok ids ->
  nth_error xs idx = Some (JObj m) ->
  lookup "relations" m = Some (JArr rels) ->
  nth_error rels j = Some r ->
  (forall f,
     (forall s s',
        Components.check_relation ids (dict_get m "id" (JStr "unknown")) j r s
          = Ok s' -> In f (warnings (Components.tfound s'))) ->
     In f warns) /\
  (forall f,
     (forall s s',
        Components.check_relation ids (dict_get m "id" (JStr "unknown")) j r s
          = Ok s' -> In f (errors (Components.tfound s'))) ->
     In f errs /\ valid = false).
Proof.
  intros Hv Hxs Hids Hk Hrels Hj.
  unfold Components.validate_relations in Hv.
  rewrite Hxs in Hv. simpl in Hv. rewrite Hids in Hv. simpl in Hv.
  monad_inv. use_conclude.
  assert (Hlast : adds relation_error relation_warning (Components.tfound a)
                   (if Components.high_tight_coupling
                         (Components.tight_coupling_count a)
                         (Components.total_relations a)
                    then add_warning
                           (HighTightCoupling
                              (Components.tight_coupling_count a)
                              (Components.total_relations a))
                           (Components.tfound a)
                    else Components.tfound a)) by adds_pure.
  split; intros f Hf.
  - eapply adds_incl_warnings; [exact Hlast|].
    eapply for_each_keeps_warning with (get := Components.tfound);
      [apply components_entity_relations_adds|eassumption|eassumption|].
    intros s1 s2 Hbody. unfold Components.check_component_relations in Hbody.
    rewrite (dict_get_some _ _ (JArr []) _ Hrels) in Hbody.
    eapply for_each_keeps_warning with (get := Components.tfound);
      [apply components_check_relation_adds|eassumption|eassumption|].
    intros t1 t2. apply Hf.
  - assert (Hin : In f (errors (Components.tfound a))).
    { eapply for_each_keeps_error with (get := Components.tfound);
        [apply components_entity_relations_adds|eassumption|eassumption|].
      intros s1 s2 Hbody. unfold Components.check_component_relations in Hbody.
      rewrite (dict_get_some _ _ (JArr []) _ Hrels) in Hbody.
      eapply for_each_keeps_error with (get := Components.tfound);
        [apply components_check_relation_adds|eassumption|eassumption|].
      intros t1 t2. apply Hf. }
    apply (adds_incl_errors _ _ _ _ _ Hlast) in Hin.
    split; [exact Hin|]. rewrite Hvalid, (in_nonempty _ _ Hin). reflexivity.
Qed.

Lemma systems_relation_lifts `{Runtime} systems xs ids valid errs warns
      idx m rels j r :
  Systems.validate_relations systems = Ok (valid, errs, warns) ->
  py_iter systems = Ok xs ->
  collect_ids xs [] = Ok ids ->
  nth_error xs idx = Some (JObj m) ->
  lookup "relations" m = Some (JArr rels) ->
  nth_error rels j = Some r ->
  forall f,
    (forall s s',
       Systems.check_relation ids (dict_get m "id" (JStr "unknown")) j r s
         = Ok s' -> In f (warnings (Systems.rfound s'))) ->
    In f warns.
Proof.
  intros Hv Hxs Hids Hk Hrels Hj f Hf.
  unfold Systems.validate_relations in Hv.
  rewrite Hxs in Hv. simpl in Hv. rewrite Hids in Hv. simpl in Hv.
  monad_inv. use_conclude.
  eapply adds_incl_warnings;
    [eapply detect_cycles_adds with (PE := relation_error); eassumption|].
  eapply for_each_keeps_warning with (get := Systems.rfound);
    [apply systems_entity_relations_adds|eassumption|eassumption|].
  intros s1 s2 Hbody. unfold Systems.check_system_relations in Hbody.
  rewrite (dict_get_some _ _ (JArr []) _ Hrels) in Hbody.
  eapply for_each_keeps_warning with (get := Systems.rfound);
    [apply systems_check_relation_adds|eassumption|eassumption|].
  intros t1 t2. apply Hf.
Qed.

(** ** C6: unresolved relation endpoints *)

Lemma check_endpoints_unresolved ids owner j r s s' :
  Systems.check_endpoints ids owner j r s = Ok s' ->
  truthy (dict_get r "source" JNull) = true ->
  truthy (dict_get r "target" JNull) = true ->
  (set_mem (dict_get r "source" JNull) ids = false ->
   In (RelationSourceNotFound owner (dict_get r "source" JNull))
      (warnings (Systems.rfound s'))) /\
  (set_mem (dict_get r "target" JNull) ids = false ->
   In (RelationTargetNotFound owner (dict_get r "target" JNull))
      (warnings (Systems.rfound s'))).
Proof.
  unfold Systems.check_endpoints, py_in_set.
  intros Hc Hs Ht. rewrite Hs, Ht in Hc. simpl in Hc.
  set (source := dict_get r "source" JNull) in *.
  set (target := dict_get r "target" JNull) in *.
  destruct (hashable source); [|discriminate Hc].
  destruct (hashable target); [|discriminate Hc].
  simpl in Hc. apply ok_inj in Hc. subst s'.
  assert (Hsame : forall (c : bool) g (t : Systems.rel_scan),
             Systems.rfound
               (if c then Systems.mk_rel_scan (Systems.rfound t) g
                           (Systems.rseen t)
                else t) = Systems.rfound t).
  { intros [|] g t; reflexivity. }
  rewrite Hsame. unfold Systems.rel_warning.
  split; intros Hun; rewrite Hun; simpl.
  - destruct (set_mem target ids); simpl;
      repeat rewrite in_app_iff; simpl; auto.
  - repeat rewrite in_app_iff; simpl; auto.
Qed.

Lemma systems_unresolved_endpoints ids owner j r s s' :
  Systems.check_relation ids owner j (JObj r) s = Ok s' ->
  truthy (dict_get r "source" JNull) = true ->
  truthy (dict_get r "target" JNull) = true ->
  (set_mem (dict_get r "source" JNull) ids = false ->
   In (RelationSourceNotFound owner (dict_get r "source" JNull))
      (warnings (Systems.rfound s'))) /\
  (set_mem (dict_get r "target" JNull) ids = false ->
   In (RelationTargetNotFound owner (dict_get r "target" JNull))
      (warnings (Systems.rfound s'))).
Proof.
  unfold Systems.check_relation. intros Hc Hs Ht.
  apply bind_ok in Hc. destruct Hc as (s2 & _ & Hc).
  apply bind_ok in Hc. destruct Hc as (s3 & Hends & Hc).
  apply bind_ok in Hc. destruct Hc as (short & _ & Hc).
  apply ok_inj in Hc. subst s'.
  destruct (check_endpoints_unresolved _ _ _ _ _ _ Hends Hs Ht) as [A B].
  assert (Hlast : adds relation_error relation_warning (Systems.rfound s3)
                    (Systems.rfound
                       (if short
                        then Systems.rel_warning
                               (ShortRelationDescription owner
                                  (Some (dict_get r "id" (JNum (Z.of_nat j)))))
                               s3
                        else s3))).
  { destruct short; simpl; adds_pure. }
  split; intros Hun; eapply adds_incl_warnings; eauto.
Qed.

Lemma layer_unresolved_target check ids owner m r r' tgt :
  (check = Containers.check_target \/ check = Components.check_target) ->
  check ids owner m r = Ok r' ->
  lookup "target" m = Some tgt ->
  set_mem tgt ids = false ->
  In (RelationTargetNotFound owner tgt) (warnings r').
Proof.
  intros [->| ->] Hc Ht Hun;
    unfold Containers.check_target, Components.check_target, py_in_set in Hc;
    rewrite Ht in Hc; monad_inv; rewrite Hun; apply in_added_warning.
Qed.

Lemma containers_unresolved_target ids owner j r s s' tgt :
  Containers.check_relation ids owner j (JObj r) s = Ok s' ->
  lookup "target" r = Some tgt ->
  set_mem tgt ids = false ->
  In (RelationTargetNotFound owner tgt) (warnings s').
Proof.
  unfold Containers.check_relation. intros Hc Ht Hun.
  apply bind_ok in Hc. destruct Hc as (r2 & Htarget & Hc).
  apply bind_ok in Hc. destruct Hc as (short & _ & Hc).
  apply ok_inj in Hc. subst s'.
  eapply (adds_incl_warnings relation_error relation_warning r2);
    [adds_pure|].
  eapply layer_unresolved_target; eauto.
Qed.

Lemma components_unresolved_target ids owner j r s s' tgt :
  Components.check_relation ids owner j (JObj r) s = Ok s' ->
  lookup "target" r = Some tgt ->
  set_mem tgt ids = false ->
  In (RelationTargetNotFound owner tgt) (warnings (Components.tfound s')).
Proof.
  unfold Components.check_relation. intros Hc Ht Hun.
  apply bind_ok in Hc. destruct Hc as (r2 & Htarget & Hc).
  apply bind_ok in Hc. destruct Hc as (short & _ & Hc).
  apply ok_inj in Hc. subst s'. unfold Components.with_report. simpl.
  eapply (adds_incl_warnings relation_error relation_warning r2);
    [adds_pure|].
  eapply layer_unresolved_target; eauto.
Qed.

(** C6, as amended.  A relation endpoint that is not in the set of entity
    IDs of the document is reported in the list of warnings, whatever the
    value looks like, and never in the list of errors: the [target] of every
    relation in the C2 and C3 scripts; the [source] and the [target] of a
    relation in the C1 script, when both are present and truthy. *)
Theorem unresolved_endpoints_are_warnings `{Runtime} :
  (forall systems xs ids valid errs warns,
     Systems.validate_relations systems = Ok (valid, errs, warns) ->
     py_iter systems = Ok xs ->
     collect_ids xs [] = Ok ids ->
     none_of is_unresolved_endpoint errs /\
     forall idx m rels j r,
       nth_error xs idx = Some (JObj m) ->
       lookup "relations" m = Some (JArr rels) ->
       nth_error rels j = Some (JObj r) ->
       let owner := dict_get m "id" (JStr "unknown") in
       let source := dict_get r "source" JNull in
       let target := dict_get r "target" JNull in
       truthy source = true ->
       truthy target = true ->
       (set_mem source ids = false ->
        In (RelationSourceNotFound owner source) warns) /\
       (set_mem target ids = false ->
        In (RelationTargetNotFound owner target) warns)) /\
  (forall containers xs ids valid errs warns,
     Containers.validate_relations containers = Ok (valid, errs, warns) ->
     py_iter containers = Ok xs ->
     collect_ids xs [] = Ok ids ->
     none_of is_unresolved_endpoint errs /\
     forall idx m rels j r target,
       nth_error xs idx = Some (JObj m) ->
       lookup "relations" m = Some (JArr rels) ->
       nth_error rels j = Some (JObj r) ->
       lookup "target" r = Some target ->
       set_mem target ids = false ->
       In (RelationTargetNotFound (dict_get m "id" (JStr "unknown")) target)
          warns) /\
  (forall components xs ids valid errs warns,
     Components.validate_relations components = Ok (valid, errs, warns) ->
     py_iter components = Ok xs ->
     collect_ids xs [] = Ok ids ->
     none_of is_unresolved_endpoint errs /\
     forall idx m rels j r target,
       nth_error xs idx = Some (JObj m) ->
       lookup "relations" m = Some (JArr rels) ->
       nth_error rels j = Some (JObj r) ->
       lookup "target" r = Some target ->
       set_mem target ids = false ->
       In (RelationTargetNotFound (dict_get m "id" (JStr "unknown")) target)
          warns).
Proof.
  split; [|split].
  - intros systems xs ids valid errs warns Hv Hxs Hids.
    destruct (systems_relations_kinds _ _ _ _ Hv) as [He _].
    split; [exclude_kind He|].
    intros idx m rels j r Hk Hrels Hj owner source target Hs Ht.
    split; intros Hun;
      (eapply systems_relation_lifts; [eassumption ..|]);
      intros s s' Hc;
      destruct (systems_unresolved_endpoints _ _ _ _ _ _ Hc Hs Ht); auto.
  - intros containers xs ids valid errs warns Hv Hxs Hids.
    destruct (containers_relations_kinds _ _ _ _ Hv) as [He _].
    split; [exclude_kind He|].
    intros idx m rels j r target Hk Hrels Hj Ht Hun.
    eapply containers_relation_lifts; [eassumption ..|].
    intros s s' Hc. eapply containers_unresolved_target; eassumption.
  - intros components xs ids valid errs warns Hv Hxs Hids.
    destruct (components_relations_kinds _ _ _ _ Hv) as [He _].
    split; [exclude_kind He|].
    intros idx m rels j r target Hk Hrels Hj Ht Hun.
    destruct (components_relation_lifts _ _ _ _ _ _ _ _ _ _ _
                Hv Hxs Hids Hk Hrels Hj) as [Hlift _].
    apply Hlift.
    intros s s' Hc. eapply components_unresolved_target; eassumption.
Qed.

(** ** C8 and C9: closed vocabularies and duplicate observation IDs *)

Lemma systems_unknown_type repos idx m s s' t :
  Systems.check_system repos idx (JObj m) s = Ok s' ->
  lookup "type" m = Some t ->
  list_mem t Systems.ALLOWED_SYSTEM_TYPES = false ->
  In (UnknownType t (dict_get m "id" (JStr "unknown"))) (warnings (found s')).
Proof.
  unfold Systems.check_system. intros Hc Ht Hun. monad_inv. simpl.
  eapply (adds_incl_warnings entity_error entity_warning
            (Systems.check_type m (found a)));
    [unfold Systems.check_repositories; adds_pure|].
  unfold Systems.check_type. rewrite Ht, Hun. apply in_added_warning.
Qed.

Lemma containers_unknown_type ids idx m s s' t :
  Containers.check_container ids idx (JObj m) s = Ok s' ->
  lookup "type" m = Some t ->
  list_mem t Containers.ALLOWED_CONTAINER_TYPES = false ->
  In (UnknownType t (dict_get m "id" (JStr "unknown"))) (warnings (found s')).
Proof.
  unfold Containers.check_container. intros Hc Ht Hun. monad_inv. simpl.
  eapply (adds_incl_warnings entity_error entity_warning
            (Containers.check_type m (found a)));
    [eapply adds_trans;
     [eapply check_parent_id_adds; eassumption
     |unfold Containers.check_runtime, Containers.check_technology; adds_pure]
    |].
  unfold Containers.check_type. rewrite Ht, Hun. apply in_added_warning.
Qed.

Lemma components_unknown_type ids idx m s s' t :
  Components.check_component ids idx (JObj m) s = Ok s' ->
  lookup "type" m = Some t ->
  list_mem t Components.ALLOWED_COMPONENT_TYPES = false ->
  In (UnknownType t (dict_get m "id" (JStr "unknown"))) (warnings (found s')).
Proof.
  unfold Components.check_component. intros Hc Ht Hun. monad_inv. simpl.
  eapply (adds_incl_warnings entity_error entity_warning
            (Components.check_type m (found a)));
    [eapply adds_trans;
     [eapply check_parent_id_adds; eassumption
     |unfold Components.check_structure; adds_pure]
    |].
  unfold Components.check_type. rewrite Ht, Hun. apply in_added_warning.
Qed.

Lemma systems_type_policy repos :
  entity_type_policy (fun e => Systems.validate_systems e repos)
    Systems.ALLOWED_SYSTEM_TYPES.
Proof.
  intros systems xs valid errs warns Hv Hxs.
  destruct (validate_systems_kinds _ _ _ _ _ Hv) as [He _].
  split; [exclude_kind He|].
  intros idx m t Hk Ht Hun.
  unfold Systems.validate_systems in Hv.
  destruct (truthy systems) eqn:Htr; simpl in Hv;
    [|rewrite (falsy_iter _ _ Htr Hxs) in Hk; destruct idx; discriminate].
  rewrite Hxs in Hv. simpl in Hv. monad_inv. use_conclude.
  eapply for_each_keeps_warning with (get := found);
    [apply check_system_adds|eassumption|eassumption|].
  intros s1 s2 Hb. eapply systems_unknown_type; eassumption.
Qed.

Lemma containers_type_policy ids :
  entity_type_policy (fun e => Containers.validate_containers e ids)
    Containers.ALLOWED_CONTAINER_TYPES.
Proof.
  intros containers xs valid errs warns Hv Hxs.
  destruct (validate_containers_kinds _ _ _ _ _ Hv) as [He _].
  split; [exclude_kind He|].
  intros idx m t Hk Ht Hun.
  unfold Containers.validate_containers in Hv.
  destruct (truthy containers) eqn:Htr; simpl in Hv;
    [|rewrite (falsy_iter _ _ Htr Hxs) in Hk; destruct idx; discriminate].
  rewrite Hxs in Hv. simpl in Hv. monad_inv. use_conclude.
  eapply for_each_keeps_warning with (get := found);
    [apply check_container_adds|eassumption|eassumption|].
  intros s1 s2 Hb. eapply containers_unknown_type; eassumption.
Qed.

Lemma components_type_policy ids :
  entity_type_policy (fun e => Components.validate_components e ids)
    Components.ALLOWED_COMPONENT_TYPES.
Proof.
  intros components xs valid errs warns Hv Hxs.
  destruct (validate_components_kinds _ _ _ _ _ Hv) as [He _].
  split; [exclude_kind He|].
  intros idx m t Hk Ht Hun.
  unfold Components.validate_components in Hv.
  destruct (truthy components) eqn:Htr; simpl in Hv;
    [|rewrite (falsy_iter _ _ Htr Hxs) in Hk; destruct idx; discriminate].
  rewrite Hxs in Hv. simpl in Hv. monad_inv. use_conclude.
  eapply for_each_keeps_warning with (get := found);
    [apply check_component_adds|eassumption|eassumption|].
  intros s1 s2 Hb. eapply components_unknown_type; eassumption.
Qed.

Section ObservationVocabulary.

Variable categories : list json.

Lemma check_observation_vocabulary owner i o s s' :
  Observations.check_observation categories owner i (JObj o) s = Ok s' ->
  (forall c,
     lookup "category" o = Some c ->
     list_mem c categories = false ->
     In (UnknownObservationCategory owner c) (warnings (found s'))) /\
  (forall v,
     lookup "severity" o = Some v ->
     list_mem v Observations.OBSERVATION_SEVERITIES = false ->
     In (InvalidSeverity owner v) (errors (found s'))).
Proof.
  unfold Observations.check_observation. intros Hc.
  apply bind_ok in Hc. destruct Hc as (s2 & _ & Hc).
  apply bind_ok in Hc. destruct Hc as (short & _ & Hc).
  apply ok_inj in Hc. subst s'. cbn [found seen].
  split.
  - intros c Hcat Hun.
    eapply (adds_incl_warnings observation_error observation_warning
              (Observations.check_category categories owner o (found s2)));
      [unfold Observations.check_severity; adds_pure|].
    unfold Observations.check_category. rewrite Hcat, Hun.
    apply in_added_warning.
  - intros v Hsev Hun.
    eapply (adds_incl_errors observation_error observation_warning
              (Observations.check_severity owner o
                 (Observations.check_category categories owner o (found s2))));
      [adds_pure|].
    unfold Observations.check_severity at 1. rewrite Hsev, Hun.
    apply in_added_error.
Qed.

Lemma observations_follow_policy :
  observation_policy (Observations.validate_observations categories)
    categories.
Proof.
  intros entities xs valid errs warns Hv Hxs.
  destruct (validate_observations_kinds _ _ _ _ _ Hv) as [He Hw].
  split; [exclude_kind He|]. split; [exclude_kind Hw|].
  intros idx m obs j o Hk Hobs Hj owner.
  unfold Observations.validate_observations in Hv.
  rewrite Hxs in Hv. simpl in Hv. monad_inv. use_conclude.
  split.
  - intros c Hcat Hun.
    eapply for_each_keeps_warning with (get := fun r => r);
      [apply check_entity_observations_adds|eassumption|eassumption|].
    intros s1 s2 Hbody. unfold Observations.check_entity_observations in Hbody.
    rewrite (dict_get_some _ _ (JArr []) _ Hobs) in Hbody. monad_inv.
    eapply for_each_keeps_warning with (get := found);
      [apply check_observation_adds|eassumption|eassumption|].
    intros t1 t2 Hstep.
    destruct (check_observation_vocabulary _ _ _ _ _ Hstep) as [A _]. eauto.
  - intros v Hsev Hun.
    assert (Hin : In (InvalidSeverity owner v) (errors a)).
    { eapply for_each_keeps_error with (get := fun r => r);
        [apply check_entity_observations_adds|eassumption|eassumption|].
      intros s1 s2 Hbody.
      unfold Observations.check_entity_observations in Hbody.
      rewrite (dict_get_some _ _ (JArr []) _ Hobs) in Hbody. monad_inv.
      eapply for_each_keeps_error with (get := found);
        [apply check_observation_adds|eassumption|eassumption|].
      intros t1 t2 Hstep.
      destruct (check_observation_vocabulary _ _ _ _ _ Hstep) as [_ B]. eauto. }
    split; [exact Hin|]. rewrite Hvalid, (in_nonempty _ _ Hin). reflexivity.
Qed.

Lemma observations_report_duplicates :
  duplicate_observation_policy (Observations.validate_observations categories).
Proof.
  intros entities xs valid errs warns Hv Hxs idx m obs i j a b v.
  intros. eapply validate_observations_duplicate; eassumption.
Qed.

End ObservationVocabulary.

Lemma systems_unknown_relation_type ids owner j r s s' t :
  Systems.check_relation ids owner j (JObj r) s = Ok s' ->
  lookup "type" r = Some t ->
  list_mem t Systems.RELATION_TYPES = false ->
  In (UnknownRelationType owner t) (warnings (Systems.rfound s')).
Proof.
  unfold Systems.check_relation. intros Hc Ht Hun.
  apply bind_ok in Hc. destruct Hc as (s2 & _ & Hc).
  apply bind_ok in Hc. destruct Hc as (s3 & Hends & Hc).
  apply bind_ok in Hc. destruct Hc as (short & _ & Hc).
  apply ok_inj in Hc. subst s'.
  eapply (adds_incl_warnings relation_error relation_warning
            (Systems.rfound (Systems.check_relation_type owner r s2))).
  - eapply adds_trans with (r2 := Systems.rfound s3).
    + revert Hends. unfold Systems.check_endpoints, Systems.rel_warning.
      intros Hends. monad_inv; simpl; adds_pure.
    + destruct short; unfold Systems.rel_warning; simpl; adds_pure.
  - unfold Systems.check_relation_type. rewrite Ht, Hun.
    apply in_added_warning.
Qed.

Lemma containers_unknown_relation_type ids owner j r s s' t :
  Containers.check_relation ids owner j (JObj r) s = Ok s' ->
  lookup "type" r = Some t ->
  list_mem t Containers.RELATION_TYPES = false ->
  In (UnknownRelationType owner t) (warnings s').
Proof.
  unfold Containers.check_relation. intros Hc Ht Hun.
  apply bind_ok in Hc. destruct Hc as (r2 & Htarget & Hc).
  apply bind_ok in Hc. destruct Hc as (short & _ & Hc).
  apply ok_inj in Hc. subst s'.
  match type of Htarget with
  | Containers.check_target _ _ _ ?r1 = _ =>
      eapply (adds_incl_warnings relation_error relation_warning r1)
  end.
  - eapply adds_trans with (r2 := r2); [|adds_pure].
    revert Htarget. unfold Containers.check_target. intros Htarget.
    monad_inv; adds_pure.
  - unfold Containers.check_relation_type. rewrite Ht, Hun.
    apply in_added_warning.
Qed.

Lemma components_relation_vocabulary ids owner j r s s' :
  Components.check_relation ids owner j (JObj r) s = Ok s' ->
  (forall t,
     lookup "type" r = Some t ->
     list_mem t Components.RELATION_TYPES = false ->
     In (UnknownRelationType owner t) (warnings (Components.tfound s'))) /\
  (forall c,
     lookup "coupling" r = Some c ->
     list_mem c Components.COUPLING_TYPES = false ->
     In (InvalidCoupling owner c) (errors (Components.tfound s'))).
Proof.
  unfold Components.check_relation. intros Hc.
  apply bind_ok in Hc. destruct Hc as (r2 & Htarget & Hc).
  apply bind_ok in Hc. destruct Hc as (short & _ & Hc).
  apply ok_inj in Hc. subst s'. unfold Components.with_report in *.
  cbn [Components.tfound] in *.
  assert (Hrest : forall r1,
             Components.check_target ids owner r r1 = Ok r2 ->
             adds relation_error relation_warning r1
               (if short
                then add_warning (ShortRelationDescription owner None) r2
                else r2)).
  { intros r1 Hr1. eapply adds_trans with (r2 := r2); [|adds_pure].
    revert Hr1. unfold Components.check_target. intros Hr1.
    monad_inv; adds_pure. }
  split.
  - intros t Ht Hun.
    eapply adds_incl_warnings; [apply Hrest; exact Htarget|].
    unfold Components.check_coupling, Components.check_relation_type.
    rewrite Ht, Hun. cbn [Components.tfound].
    match goal with
    | |- In ?f (warnings (Components.tfound ?t)) =>
        assert (Hadd : adds relation_error relation_warning
                         (add_warning f
                            (add_errors
                               (missing_fields (RelationMissingField owner j)
                                  Components.relation_fields r)
                               (Components.tfound s)))
                         (Components.tfound t))
    end.
    { adds_pure. }
    eapply adds_incl_warnings; [exact Hadd|apply in_added_warning].
  - intros c Hcoup Hun.
    eapply adds_incl_errors; [apply Hrest; exact Htarget|].
    unfold Components.check_coupling. rewrite Hcoup, Hun.
    cbn [negb Components.tfound]. apply in_added_error.
Qed.

Lemma systems_relation_type_policy `{Runtime} :
  relation_type_policy Systems.validate_relations Systems.RELATION_TYPES.
Proof.
  intros systems xs valid errs warns Hv Hxs.
  destruct (systems_relations_kinds _ _ _ _ Hv) as [He _].
  split; [exclude_kind He|].
  intros idx m rels j r t Hk Hrels Hj Ht Hun.
  assert (Hids : exists ids, collect_ids xs [] = Ok ids).
  { unfold Systems.validate_relations in Hv. rewrite Hxs in Hv.
    simpl in Hv. monad_inv. eauto. }
  destruct Hids as [ids Hids].
  eapply systems_relation_lifts; [eassumption ..|].
  intros s s' Hc. eapply systems_unknown_relation_type; eassumption.
Qed.

Lemma containers_relation_type_policy :
  relation_type_policy Containers.validate_relations Containers.RELATION_TYPES.
Proof.
  intros containers xs valid errs warns Hv Hxs.
  destruct (containers_relations_kinds _ _ _ _ Hv) as [He _].
  split; [exclude_kind He|].
  intros idx m rels j r t Hk Hrels Hj Ht Hun.
  assert (Hids : exists ids, collect_ids xs [] = Ok ids).
  { unfold Containers.validate_relations in Hv. rewrite Hxs in Hv.
    simpl in Hv. monad_inv. eauto. }
  destruct Hids as [ids Hids].
  eapply containers_relation_lifts; [eassumption ..|].
  intros s s' Hc. eapply containers_unknown_relation_type; eassumption.
Qed.

Lemma components_relation_policies :
  relation_type_policy Components.validate_relations Components.RELATION_TYPES
  /\ coupling_policy Components.validate_relations Components.COUPLING_TYPES.
Proof.
  split; intros components xs valid errs warns Hv Hxs;
    destruct (components_relations_kinds _ _ _ _ Hv) as [He Hw];
    (split; [first [exclude_kind He | exclude_kind Hw]|]);
    assert (Hids : exists ids, collect_ids xs [] = Ok ids)
      by (unfold Components.validate_relations in Hv; rewrite Hxs in Hv;
          simpl in Hv; monad_inv; eauto);
    destruct Hids as [ids Hids].
  - intros idx m rels j r t Hk Hrels Hj Ht Hun.
    destruct (components_relation_lifts _ _ _ _ _ _ _ _ _ _ _
                Hv Hxs Hids Hk Hrels Hj) as [Hlift _].
    apply Hlift. intros s s' Hc.
    destruct (components_relation_vocabulary _ _ _ _ _ _ Hc) as [A _]. eauto.
  - intros idx m rels j r c Hk Hrels Hj Hc Hun.
    destruct (components_relation_lifts _ _ _ _ _ _ _ _ _ _ _
                Hv Hxs Hids Hk Hrels Hj) as [_ Hlift].
    apply Hlift. intros s s' Hstep.
    destruct (components_relation_vocabulary _ _ _ _ _ _ Hstep) as [_ B].
    eauto.
Qed.

(** C8, as amended.  In every layer script an entity type, an observation
    category and a relation type outside the layer's closed vocabulary are
    reported in the list of warnings and never in the list of errors; an
    observation severity outside [info, warning, critical] and, in the C3
    script, a coupling outside [loose, tight] are reported in the list of
    errors (the verdict is then invalid) and never in the list of
    warnings. *)
Theorem vocabulary_severity `{Runtime} :
  (forall repos,
     entity_type_policy (fun e => Systems.validate_systems e repos)
       Systems.ALLOWED_SYSTEM_TYPES) /\
  (forall ids,
     entity_type_policy (fun e => Containers.validate_containers e ids)
       Containers.ALLOWED_CONTAINER_TYPES) /\
  (forall ids,
     entity_type_policy (fun e => Components.validate_components e ids)
       Components.ALLOWED_COMPONENT_TYPES) /\
  observation_policy Systems.validate_observations
    Systems.OBSERVATION_CATEGORIES /\
  observation_policy Containers.validate_observations
    Containers.OBSERVATION_CATEGORIES /\
  observation_policy Components.validate_observations
    Components.OBSERVATION_CATEGORIES /\
  relation_type_policy Systems.validate_relations Systems.RELATION_TYPES /\
  relation_type_policy Containers.validate_relations
    Containers.RELATION_TYPES /\
  relation_type_policy Components.validate_relations
    Components.RELATION_TYPES /\
  coupling_policy Components.validate_relations Components.COUPLING_TYPES.
Proof.
  split; [intros repos; apply systems_type_policy|].
  split; [intros ids; apply containers_type_policy|].
  split; [intros ids; apply components_type_policy|].
  split; [apply observations_follow_policy|].
  split; [apply observations_follow_policy|].
  split; [apply observations_follow_policy|].
  split; [apply systems_relation_type_policy|].
  split; [apply containers_relation_type_policy|].
  exact components_relation_policies.
Qed.

(** C9, as amended.  In each of the three layer scripts, two observations
    of one entity that carry the same ID are reported: the later one is in
    the list of errors as a duplicate, and the verdict is invalid. *)
Theorem duplicate_observation_ids_are_errors :
  duplicate_observation_policy Systems.validate_observations /\
  duplicate_observation_policy Containers.validate_observations /\
  duplicate_observation_policy Components.validate_observations.
Proof.
  split; [|split]; apply observations_report_duplicates.
Qed.

(** ** C7: cycles *)

Lemma permutation_of_three {A : Type} (x y z : A) l :
  Permutation l [x; y; z] ->
  l = [x; y; z] \/ l = [x; z; y] \/ l = [y; x; z] \/
  l = [y; z; x] \/ l = [z; x; y] \/ l = [z; y; x].
Proof.
  intros Hp.
  destruct (Permutation_vs_cons_inv Hp) as (l1 & l2 & ->).
  apply Permutation_sym, Permutation_cons_app_inv in Hp.
  apply Permutation_length_2_inv in Hp.
  destruct l1 as [|a [|b [|c l1]]]; simpl in Hp;
    destruct Hp as [Hp|Hp]; inversion Hp; subst; simpl; auto 10;
    destruct l1; discriminate.
Qed.

(** The ring a -> b -> c -> a, searched from the first ID the set yields. *)
Lemma ring_has_one_cycle `{Runtime} :
  (3 <= recursion_limit)%nat ->
  exists first p,
    hd_error (set_order Examples.ring_ids) = Some first /\
    Systems.validate_relations (JArr Examples.ring)
      = Ok (true, [], [CircularDependency p]) /\
    ((first = JStr "a" /\ p = [JStr "a"; JStr "b"; JStr "c"; JStr "a"]) \/
     (first = JStr "b" /\ p = [JStr "b"; JStr "c"; JStr "a"; JStr "b"]) \/
     (first = JStr "c" /\ p = [JStr "c"; JStr "a"; JStr "b"; JStr "c"])).
Proof.
  intros Hlimit.
  destruct recursion_limit as [|[|[|n]]] eqn:Elimit; try lia.
  unfold Systems.validate_relations. rewrite Elimit.
  assert (Hids : collect_ids Examples.ring [] = Ok Examples.ring_ids)
    by reflexivity.
  simpl py_iter. cbn [bind]. rewrite Hids. cbn [bind].
  destruct (permutation_of_three _ _ _ _ (set_order_perm Examples.ring_ids))
    as [E|[E|[E|[E|[E|E]]]]]; rewrite E;
    eexists; eexists; (split; [reflexivity|]);
    (split; [vm_compute; reflexivity|]); auto 10.
Qed.

(** ** The cycle search reports closed walks of the relation graph *)

Lemma walk_app_one edge p a b :
  walk edge (p ++ [a]) -> edge a b -> walk edge ((p ++ [a]) ++ [b]).
Proof.
  induction p as [|x p IH]; simpl; intros Hw Hab; [auto|].
  destruct p as [|y p]; simpl in *; [tauto|].
  destruct Hw as [Hxy Hw]. split; [exact Hxy|]. apply IH; assumption.
Qed.

Lemma walk_tail edge a p : walk edge (a :: p) -> walk edge p.
Proof. destruct p; simpl; tauto. Qed.

Lemma walk_skipn edge n p : walk edge p -> walk edge (skipn n p).
Proof.
  revert p. induction n as [|n IH]; intros p Hw; [exact Hw|].
  destruct p as [|a p]; [exact Hw|]. simpl. apply IH.
  eapply walk_tail; eassumption.
Qed.

Lemma index_of_skipn x l i :
  Systems.index_of x l = Some i ->
  exists y rest, skipn i l = y :: rest /\ py_eq y x = true.
Proof.
  revert i. induction l as [|z l IH]; simpl; intros i Hi; [discriminate|].
  destruct (py_eq z x) eqn:E.
  - inversion Hi; subst. simpl. eauto.
  - destruct (Systems.index_of x l) as [k|]; [|discriminate].
    inversion Hi; subst. simpl. eauto.
Qed.

Lemma index_of_bound x l i :
  Systems.index_of x l = Some i -> (i <= List.length l)%nat.
Proof.
  revert i. induction l as [|z l IH]; simpl; intros i Hi; [discriminate|].
  destruct (py_eq z x); [inversion Hi; lia|].
  destruct (Systems.index_of x l) as [k|]; [|discriminate].
  inversion Hi; subst. specialize (IH k eq_refl). lia.
Qed.

(** A search that finds a cycle returns a closed walk along the adjacency
    lists, provided the path it was given is a walk. *)
Lemma has_cycle_sound g depth :
  forall node visited rec_stack path cycle visited' rec_stack',
    Systems.has_cycle depth g node visited rec_stack path
      = Ok (Some cycle, visited', rec_stack') ->
    walk (fun a b => In b (Systems.graph_get a g)) (path ++ [node]) ->
    closed_walk (fun a b => In b (Systems.graph_get a g)) cycle.
Proof.
  induction depth as [|depth IH];
    intros node visited rec_stack path cycle visited' rec_stack' Hc Hw;
    [discriminate Hc|].
  simpl in Hc.
  set (edge := fun a b => In b (Systems.graph_get a g)) in *.
  assert (Hns : forall n, In n (Systems.graph_get node g) -> edge node n)
    by (intros n Hn; exact Hn).
  revert Hc Hns.
  generalize (set_add node visited) (set_add node rec_stack).
  generalize (Systems.graph_get node g).
  intros ns. induction ns as [|n ns IHns]; intros v rs Hc Hns;
    [discriminate Hc|].
  destruct (negb (set_mem n v)) eqn:Hvis.
  - apply bind_ok in Hc. destruct Hc as ([[found_cycle v1] rs1] & Hrec & Hc).
    destruct found_cycle as [c|].
    + apply ok_inj in Hc. inversion Hc; subst.
      eapply IH; [exact Hrec|].
      apply walk_app_one; [exact Hw|]. apply Hns. left. reflexivity.
    + eapply IHns; [exact Hc|]. intros k Hk. apply Hns. right. exact Hk.
  - destruct (set_mem n rs) eqn:Hstack.
    + destruct (Systems.index_of n (path ++ [node])) as [i|] eqn:Hi;
        [|discriminate Hc].
      apply ok_inj in Hc. inversion Hc; subst.
      destruct (index_of_skipn _ _ _ Hi) as (y & rest & Hskip & Hy).
      split.
      * assert (Hfull : walk edge ((path ++ [node]) ++ [n]))
          by (apply walk_app_one; [exact Hw|]; apply Hns; left; reflexivity).
        apply (walk_skipn _ i) in Hfull.
        rewrite skipn_app in Hfull.
        replace (i - List.length (path ++ [node]))%nat with 0%nat in Hfull
          by (pose proof (index_of_bound _ _ _ Hi); lia).
        exact Hfull.
      * exists y, rest, n. rewrite Hskip. auto.
    + eapply IHns; [exact Hc|]. intros k Hk. apply Hns. right. exact Hk.
Qed.

Lemma detect_cycles_sound depth g nodes :
  forall visited r r' p,
    Systems.detect_cycles depth g nodes visited r = Ok r' ->
    In (CircularDependency p) (warnings r') ->
    In (CircularDependency p) (warnings r) \/
    closed_walk (fun a b => In b (Systems.graph_get a g)) p.
Proof.
  induction nodes as [|node nodes IH]; simpl; intros visited r r' p Hd Hp.
  - apply ok_inj in Hd. subst. auto.
  - destruct (set_mem node visited); [eauto|].
    apply bind_ok in Hd.
    destruct Hd as ([[found_cycle visited'] rs] & Hsearch & Hd).
    destruct found_cycle as [cycle_path|]; [|eauto].
    apply bind_ok in Hd. destruct Hd as (_ & _ & Hd).
    destruct (IH _ _ _ _ Hd Hp) as [Hold|Hnew]; [|auto].
    simpl in Hold. apply in_app_or in Hold. destruct Hold as [Hold|Hold];
      [auto|].
    destruct Hold as [Heq|[]]. inversion Heq; subst.
    right. eapply has_cycle_sound; [exact Hsearch|]. simpl. exact I.
Qed.

(** On hashable values [==] is an equivalence. *)
Lemma py_eq_hashable a b :
  py_eq a b = true -> hashable b = true -> hashable a = true.
Proof. destruct a, b; simpl; congruence. Qed.

Lemma py_eq_sym a b :
  hashable a = true -> hashable b = true -> py_eq a b = py_eq b a.
Proof.
  destruct a, b; simpl; try congruence; intros _ _.
  - destruct b, b0; reflexivity.
  - apply Z.eqb_sym.
  - apply Z.eqb_sym.
  - apply Z.eqb_sym.
  - apply String.eqb_sym.
Qed.

Lemma py_eq_trans a b c :
  hashable a = true -> hashable b = true -> hashable c = true ->
  py_eq a b = true -> py_eq b c = true -> py_eq a c = true.
Proof.
  destruct a, b, c; simpl; try congruence; intros _ _ _;
    rewrite ?Z.eqb_eq, ?String.eqb_eq, ?Bool.eqb_true_iff;
    intros; subst; auto;
    repeat match goal with
           | x : bool |- _ => destruct x
           end; simpl in *; congruence.
Qed.

Lemma graph_keys_append s t g :
  map fst (Systems.graph_append s t g) = map fst g.
Proof.
  induction g as [|[k ns] g IH]; simpl; [reflexivity|].
  destruct (py_eq s k); simpl; congruence.
Qed.

Lemma graph_has_keys s g :
  Systems.graph_has s g = existsb (py_eq s) (map fst g).
Proof. induction g as [|[k ns] g IH]; simpl; congruence. Qed.

(** What [graph[source].append(target)] adds to the adjacency lists. *)
Lemma graph_get_append s t g a b :
  hashable s = true ->
  Forall (fun k => hashable k = true) (map fst g) ->
  In b (Systems.graph_get a (Systems.graph_append s t g)) ->
  In b (Systems.graph_get a g) \/ (b = t /\ py_eq s a = true).
Proof.
  intros Hs. induction g as [|[k ns] g IH]; simpl; intros Hk Hb; [auto|].
  inversion Hk as [|? ? Hk1 Hk2]; subst.
  destruct (py_eq s k) eqn:Esk; simpl in Hb.
  - destruct (py_eq a k) eqn:Eak; [|auto].
    apply in_app_or in Hb. destruct Hb as [Hb|[Hb|[]]]; [auto|].
    right. split; [auto|].
    assert (Ha : hashable a = true) by (eapply py_eq_hashable; eauto).
    eapply py_eq_trans with (b := k); auto.
    rewrite py_eq_sym; auto.
  - destruct (py_eq a k); auto.
Qed.

Lemma graph_get_empty a keys :
  Systems.graph_get a (map (fun k => (k, [])) keys) = [].
Proof.
  induction keys as [|k keys IH]; simpl; [reflexivity|].
  destruct (py_eq a k); auto.
Qed.

Lemma collect_ids_hashable xs :
  forall s ids,
    collect_ids xs s = Ok ids ->
    Forall (fun k => hashable k = true) s ->
    Forall (fun k => hashable k = true) ids.
Proof.
  induction xs as [|x xs IH]; simpl; intros s ids Hc Hs.
  - apply ok_inj in Hc. subst. exact Hs.
  - destruct x as [| | | | |m]; eauto.
    destruct (lookup "id" m) as [v|]; eauto.
    destruct (hashable v) eqn:Hv; [|discriminate Hc].
    eapply IH; [exact Hc|]. unfold set_add.
    destruct (set_mem v s); [exact Hs|].
    apply Forall_app. split; [exact Hs|]. constructor; auto.
Qed.

(** A loop keeps an invariant that each iteration keeps, the iteration
    knowing the position of its element. *)
Lemma for_each_invariant {A St : Type} (P : St -> Prop)
      (body : nat -> A -> St -> res St) :
  forall l i s s',
    for_each body i l s = Ok s' ->
    (forall k x t t',
       nth_error l k = Some x -> body (i + k)%nat x t = Ok t' -> P t -> P t') ->
    P s -> P s'.
Proof.
  induction l as [|x l IH]; simpl; intros i s s' Hrun Hstep Hs.
  - apply ok_inj in Hrun. subst. exact Hs.
  - apply bind_ok in Hrun. destruct Hrun as (s1 & Hx & Hrest).
    eapply IH; [exact Hrest| |].
    + intros k y t t' Hk Hy. apply (Hstep (S k) y t t'); [exact Hk|].
      replace (i + S k)%nat with (S i + k)%nat by lia. exact Hy.
    + apply (Hstep 0%nat x s s1); [reflexivity| |exact Hs].
      rewrite Nat.add_0_r. exact Hx.
Qed.

Section RelationGraph.

Variables (xs : list json) (ids : pyset) (keys : list json).

Hypothesis ids_hashable : Forall (fun k => hashable k = true) ids.
Hypothesis keys_of_ids : Permutation keys ids.

Lemma keys_hashable : Forall (fun k => hashable k = true) keys.
Proof.
  rewrite Forall_forall in *. intros k Hk. apply ids_hashable.
  eapply Permutation_in; eassumption.
Qed.

Lemma graph_has_known s g :
  map fst g = keys -> Systems.graph_has s g = true -> set_mem s ids = true.
Proof.
  intros Hg Hs. rewrite graph_has_keys, Hg in Hs.
  apply existsb_exists in Hs. destruct Hs as (k & Hk & Hsk).
  unfold set_mem. apply existsb_exists. exists k. split; [|exact Hsk].
  eapply Permutation_in; eassumption.
Qed.

Lemma check_relation_graph idx m rels j r owner s s' :
  nth_error xs idx = Some (JObj m) ->
  lookup "relations" m = Some (JArr rels) ->
  nth_error rels j = Some r ->
  Systems.check_relation ids owner j r s = Ok s' ->
  graph_ok xs ids keys (Systems.rgraph s) ->
  graph_ok xs ids keys (Systems.rgraph s').
Proof.
  intros Hm Hrels Hj Hc Hg. unfold Systems.check_relation in Hc.
  destruct r as [| | | | |r]; try (apply ok_inj in Hc; subst; exact Hg).
  apply bind_ok in Hc. destruct Hc as (s2 & Hid & Hc).
  apply bind_ok in Hc. destruct Hc as (s3 & Hends & Hc).
  apply bind_ok in Hc. destruct Hc as (short & _ & Hc).
  apply ok_inj in Hc.
  assert (H2 : Systems.rgraph s2 = Systems.rgraph s).
  { revert Hid. unfold Systems.check_relation_id, Systems.rel_error.
    destruct (lookup "id" r) as [rel_id|];
      [|intros Hid; apply ok_inj in Hid; subst; reflexivity].
    intros Hid. apply bind_ok in Hid. destruct Hid as (dup & _ & Hid).
    apply ok_inj in Hid. subst s2. destruct dup; reflexivity. }
  assert (H3 : graph_ok xs ids keys (Systems.rgraph s3)).
  { revert Hends. unfold Systems.check_endpoints, py_in_set.
    set (source := dict_get r "source" JNull).
    set (target := dict_get r "target" JNull).
    set (t := Systems.check_relation_type owner r s2).
    assert (Ht : Systems.rgraph t = Systems.rgraph s).
    { unfold t, Systems.check_relation_type, Systems.rel_warning.
      destruct (lookup "type" r) as [ty|]; [|exact H2].
      destruct (list_mem ty Systems.RELATION_TYPES); simpl; exact H2. }
    destruct (truthy source && truthy target);
      [|intros Hends; apply ok_inj in Hends; subst; rewrite Ht; exact Hg].
    destruct (hashable source) eqn:Hs; [|discriminate].
    destruct (hashable target) eqn:Htg; [|discriminate].
    simpl. intros Hends. apply ok_inj in Hends.
    match type of Hends with
    | (if ?c then _ else ?u) = _ =>
        assert (Hu : Systems.rgraph u = Systems.rgraph s)
          by (unfold Systems.rel_warning;
              repeat match goal with
                     | |- context [if ?b then _ else _] => destruct b
                     end; simpl; exact Ht);
        destruct c eqn:Hcond
    end; subst s3; [|rewrite Hu; exact Hg].
    simpl. rewrite Hu. destruct Hg as [Hkeys Hedges].
    apply andb_true_iff in Hcond. destruct Hcond as [Hhas Hknown].
    rewrite Hu in Hhas.
    split; [rewrite graph_keys_append; exact Hkeys|].
    intros a b Hb.
    apply graph_get_append in Hb;
      [|exact Hs|rewrite Hkeys; exact keys_hashable].
    destruct Hb as [Hb|[-> Hsa]]; [auto|].
    exists idx, m, rels, j, r. repeat split; auto.
    eapply graph_has_known; eassumption. }
  subst s'. destruct short; simpl; exact H3.
Qed.

Lemma check_system_relations_graph idx x s s' :
  nth_error xs idx = Some x ->
  Systems.check_system_relations ids idx x s = Ok s' ->
  graph_ok xs ids keys (Systems.rgraph s) ->
  graph_ok xs ids keys (Systems.rgraph s').
Proof.
  intros Hx Hc Hg. unfold Systems.check_system_relations in Hc.
  destruct x as [| | | | |m]; try (apply ok_inj in Hc; subst; exact Hg).
  destruct (dict_get m "relations" (JArr [])) as [| | | |rels|] eqn:Hd;
    try (apply ok_inj in Hc; subst; exact Hg).
  unfold dict_get in Hd.
  destruct (lookup "relations" m) as [v|] eqn:Hrels.
  - subst v.
    eapply (for_each_invariant
              (fun t => graph_ok xs ids keys (Systems.rgraph t)));
      [exact Hc| |exact Hg].
    intros k r t t' Hk Hr. eapply check_relation_graph; eassumption.
  - inversion Hd; subst rels. simpl in Hc. apply ok_inj in Hc. subst.
    exact Hg.
Qed.

End RelationGraph.

(** Every cycle the C1 relation checker reports is a closed walk of the
    relation graph restricted to known IDs. *)
Lemma reported_cycles_are_closed_walks `{Runtime} systems xs ids
      valid errs warns p :
  Systems.validate_relations systems = Ok (valid, errs, warns) ->
  py_iter systems = Ok xs ->
  collect_ids xs [] = Ok ids ->
  In (CircularDependency p) warns ->
  closed_walk (relation_edge xs ids) p.
Proof.
  intros Hv Hxs Hids Hp. unfold Systems.validate_relations in Hv.
  rewrite Hxs in Hv. simpl in Hv. rewrite Hids in Hv. simpl in Hv.
  apply bind_ok in Hv. destruct Hv as (s & Hloop & Hv).
  apply bind_ok in Hv. destruct Hv as (r & Hdetect & Hv).
  apply ok_inj in Hv. use_conclude.
  assert (Hhash : Forall (fun k => hashable k = true) ids)
    by (eapply collect_ids_hashable; [exact Hids|constructor]).
  assert (Hg : graph_ok xs ids (set_order ids) (Systems.rgraph s)).
  { eapply (for_each_invariant
              (fun t => graph_ok xs ids (set_order ids) (Systems.rgraph t)));
      [exact Hloop| |].
    - intros k x t t' Hk Hx.
      eapply check_system_relations_graph;
        [exact Hhash|apply set_order_perm|exact Hk|exact Hx].
    - simpl. split.
      + rewrite map_map. simpl. apply map_id.
      + intros a b Hb. rewrite graph_get_empty in Hb. destruct Hb. }
  destruct (detect_cycles_sound _ _ _ _ _ _ _ Hdetect Hp) as [Hold|Hnew].
  - exfalso.
    pose proof (for_each_adds relation_error relation_warning Systems.rfound
                  _ (systems_entity_relations_adds ids) _ _ _ _ Hloop)
      as Hadds.
    apply adds_all_warnings in Hadds; [|reflexivity].
    rewrite forallb_forall in Hadds. specialize (Hadds _ Hold).
    discriminate Hadds.
  - destruct Hnew as [Hwalk Hclosed]. split; [|exact Hclosed].
    destruct Hg as [_ Hedges].
    clear - Hwalk Hedges. induction p as [|a p IH]; simpl; [exact I|].
    destruct p as [|b p]; [exact I|].
    destruct Hwalk as [Hab Hwalk]. split; [auto|]. apply IH. exact Hwalk.
Qed.

Lemma in_printed_warnings_exit code out vs adv f :
  reports code out vs adv ->
  In f (flat_map warnings_of vs) ->
  In f (printed_warnings out) /\ (printed_errors out = [] -> code = 1).
Proof.
  intros (He & Hw & Hc) Hf.
  assert (Hin : In f (flat_map warnings_of vs ++ adv))
    by (apply in_or_app; auto).
  split; [rewrite Hw; exact Hin|].
  intros Hnone. rewrite <- He, Hnone in Hc. rewrite Hc.
  destruct (flat_map warnings_of vs ++ adv); [destruct Hin|reflexivity].
Qed.

(** C7, as amended.  In the C1 script a cycle is reported in the list of
    warnings and never in the list of errors, and every cycle reported is a
    closed walk along relations whose source and target are both known
    entity IDs; the C2 and C3 scripts search no graph and report no cycle,
    neither as an error nor as a warning.
    For the three systems related a -> b -> c -> a, with room for three
    nested calls, the C1 script reports exactly one cycle and nothing else:
    the ring read from the first ID the set of IDs yields, [a, b, c, a]
    when that is a.  A run on a document with these systems that passed the
    lineage check prints that cycle as a warning and exits with 1 when it
    printed no error. *)
Theorem cycles_are_warnings_of_systems `{Runtime} :
  (forall systems xs ids valid errs warns,
     Systems.validate_relations systems = Ok (valid, errs, warns) ->
     py_iter systems = Ok xs ->
     collect_ids xs [] = Ok ids ->
     none_of is_cycle_finding errs /\
     forall p,
       In (CircularDependency p) warns ->
       closed_walk (relation_edge xs ids) p) /\
  (forall containers valid errs warns,
     Containers.validate_relations containers = Ok (valid, errs, warns) ->
     none_of is_cycle_finding errs /\ none_of is_cycle_finding warns) /\
  (forall components valid errs warns,
     Components.validate_relations components = Ok (valid, errs, warns) ->
     none_of is_cycle_finding errs /\ none_of is_cycle_finding warns) /\
  ((3 <= recursion_limit)%nat ->
   exists first p,
     hd_error (set_order Examples.ring_ids) = Some first /\
     Systems.validate_relations (JArr Examples.ring)
       = Ok (true, [], [CircularDependency p]) /\
     ((first = JStr "a" /\ p = [JStr "a"; JStr "b"; JStr "c"; JStr "a"]) \/
      (first = JStr "b" /\ p = [JStr "b"; JStr "c"; JStr "a"; JStr "b"]) \/
      (first = JStr "c" /\ p = [JStr "c"; JStr "a"; JStr "b"; JStr "c"])) /\
     forall w data errs code out,
       stdin w = StdinDoc data ->
       py_get data "systems" (JArr []) = Ok (JArr Examples.ring) ->
       Systems.validate_parent_reference w data (Systems.init_path w)
         = Ok (true, errs) ->
       Systems.main w = Ok (code, out) ->
       In (CircularDependency p) (printed_warnings out) /\
       (printed_errors out = [] -> code = 1)).
Proof.
  split; [|split; [|split]].
  - intros systems xs ids valid errs warns Hv Hxs Hids.
    destruct (systems_relations_kinds _ _ _ _ Hv) as [He _].
    split; [exclude_kind He|].
    intros p Hp. eapply reported_cycles_are_closed_walks; eassumption.
  - intros containers valid errs warns Hv.
    destruct (containers_relations_kinds _ _ _ _ Hv) as [He Hw].
    split; [exclude_kind He|exclude_kind Hw].
  - intros components valid errs warns Hv.
    destruct (components_relations_kinds _ _ _ _ Hv) as [He Hw].
    split; [exclude_kind He|exclude_kind Hw].
  - intros Hlimit.
    destruct (ring_has_one_cycle Hlimit) as (first & p & Hfirst & Hring & Hp).
    exists first, p. repeat (split; [assumption|]).
    intros w data errs code out Hin Hsys Hlin Hmain.
    destruct (systems_run _ _ _ _ _ Hin Hlin Hmain)
      as (systems & xs & v1 & v2 & v3 & H1 & H2 & H3 & H4 & H5 & H6).
    rewrite Hsys in H1. apply ok_inj in H1. subst systems.
    rewrite Hring in H5. apply ok_inj in H5. subst v3.
    eapply in_printed_warnings_exit; [exact H6|].
    simpl. rewrite !in_app_iff. simpl. auto.
Qed.

(** ** The properties at concrete documents *)

(** The run of the C1 script on the ring document, which passes the lineage
    check, reports the cycle and exits with 1. *)
Lemma exit_code_follows_findings_witness :
  stdin (Examples.run Examples.c1_doc) = StdinDoc Examples.c1_doc /\
  @Systems.validate_parent_reference reference_runtime
    (Examples.run Examples.c1_doc) Examples.c1_doc
    (Systems.init_path (Examples.run Examples.c1_doc)) = Ok (true, []) /\
  @Systems.main reference_runtime (Examples.run Examples.c1_doc)
    = Ok (1, [LWarning (CircularDependency
                          [JStr "a"; JStr "b"; JStr "c"; JStr "a"]);
              LPassedWithWarnings]) /\
  exists xs v1 v2 v3,
    py_iter (JArr Examples.ring) = Ok xs /\
    Systems.validate_systems (JArr Examples.ring)
      (Systems.load_init_repos (Examples.run Examples.c1_doc)
         (Systems.init_path (Examples.run Examples.c1_doc))) = Ok v1 /\
    Systems.validate_observations (JArr Examples.ring) = Ok v2 /\
    @Systems.validate_relations reference_runtime (JArr Examples.ring)
      = Ok v3 /\
    reports 1 [LWarning (CircularDependency
                           [JStr "a"; JStr "b"; JStr "c"; JStr "a"]);
               LPassedWithWarnings]
      [v1; v2; v3] (flat_map Systems.empty_collections xs).
Proof.
  assert (H1 : stdin (Examples.run Examples.c1_doc) = StdinDoc Examples.c1_doc)
    by reflexivity.
  assert (H2 : @Systems.validate_parent_reference reference_runtime
                 (Examples.run Examples.c1_doc) Examples.c1_doc
                 (Systems.init_path (Examples.run Examples.c1_doc))
               = Ok (true, []))
    by (vm_compute; reflexivity).
  assert (H3 : @Systems.main reference_runtime (Examples.run Examples.c1_doc)
               = Ok (1, [LWarning (CircularDependency
                                     [JStr "a"; JStr "b"; JStr "c"; JStr "a"]);
                         LPassedWithWarnings]))
    by (vm_compute; reflexivity).
  refine (conj H1 (conj H2 (conj H3 _))).
  destruct (proj1 (@exit_code_follows_findings reference_runtime _ _ _ H1) H2)
    as (systems & Hsystems & _ & Hrun).
  apply ok_inj in Hsystems. subst systems.
  exact (Hrun _ _ H3).
Defined.


(** The run of the C1 script on a document stamped like its parent. *)
Lemma lineage_failure_short_circuits_witness :
  stdin (Examples.run Examples.same_stamp_doc)
    = StdinDoc Examples.same_stamp_doc /\
  @Systems.validate_parent_reference reference_runtime
    (Examples.run Examples.same_stamp_doc) Examples.same_stamp_doc
    (Systems.init_path (Examples.run Examples.same_stamp_doc))
    = Ok (false, [TimestampNotNewer;
                  Detail "Parent" (JStr Examples.t0);
                  Detail "Current" (JStr Examples.t0);
                  Recommendation]) /\
  @Systems.main reference_runtime (Examples.run Examples.same_stamp_doc)
    = Ok (2, map lineage_line
               [TimestampNotNewer;
                Detail "Parent" (JStr Examples.t0);
                Detail "Current" (JStr Examples.t0);
                Recommendation]).
Proof.
  assert (H1 : stdin (Examples.run Examples.same_stamp_doc)
               = StdinDoc Examples.same_stamp_doc) by reflexivity.
  assert (H2 : @Systems.validate_parent_reference reference_runtime
                 (Examples.run Examples.same_stamp_doc)
                 Examples.same_stamp_doc
                 (Systems.init_path (Examples.run Examples.same_stamp_doc))
               = Ok (false, [TimestampNotNewer;
                             Detail "Parent" (JStr Examples.t0);
                             Detail "Current" (JStr Examples.t0);
                             Recommendation]))
    by (vm_compute; reflexivity).
  refine (conj H1 (conj H2 _)).
  exact (proj1 (proj1 (@lineage_failure_short_circuits reference_runtime
                         _ _ H1) _ H2)).
Defined.

(** The three layer scripts on a standard input that is not JSON. *)
Lemma input_errors_are_terminal_witness :
  (stdin Examples.garbled = StdinMalformed \/
   stdin Examples.garbled = StdinUnreadable) /\
  exists f,
    @Systems.main reference_runtime Examples.garbled = Ok (2, [LError f ""]) /\
    @Containers.main reference_runtime Examples.garbled
      = Ok (2, [LError f ""]) /\
    @Components.main reference_runtime Examples.garbled
      = Ok (2, [LError f ""]).
Proof.
  assert (H1 : stdin Examples.garbled = StdinMalformed \/
               stdin Examples.garbled = StdinUnreadable)
    by (left; reflexivity).
  refine (conj H1 _).
  exact (proj1 (@input_errors_are_terminal reference_runtime Examples.garbled)
           H1).
Defined.

(** A container of the system "ghost", checked against the ring's IDs. *)
Lemma unresolved_parent_severity_witness :
  Containers.validate_containers (JArr [Examples.orphan_container])
    Examples.ring_ids
    = Ok (false,
          [ParentEntityNotFound (JStr "api") (JStr "ghost");
           AvailableParents Examples.ring_ids], []) /\
  set_mem (JStr "ghost") Examples.ring_ids = false /\
  In (ParentEntityNotFound (JStr "api") (JStr "ghost"))
     [ParentEntityNotFound (JStr "api") (JStr "ghost");
      AvailableParents Examples.ring_ids] /\
  false = false.
Proof.
  assert (H1 : Containers.validate_containers
                 (JArr [Examples.orphan_container]) Examples.ring_ids
               = Ok (false,
                     [ParentEntityNotFound (JStr "api") (JStr "ghost");
                      AvailableParents Examples.ring_ids], []))
    by (vm_compute; reflexivity).
  assert (H2 : set_mem (JStr "ghost") Examples.ring_ids = false)
    by reflexivity.
  refine (conj H1 (conj H2 _)).
  exact (proj2 (proj1 unresolved_parent_severity _ _ _ _ _ _ H1 eq_refl)
           0%nat _ (JStr "ghost") eq_refl eq_refl H2).
Defined.

(** A container relation to "payments#charge", which no container has as
    its ID. *)
Lemma unresolved_endpoints_are_warnings_witness :
  Containers.validate_relations (JArr [Examples.linked_container])
    = Ok (true, [],
          [RelationTargetNotFound (JStr "api") (JStr "payments#charge")]) /\
  collect_ids [Examples.linked_container] [] = Ok [JStr "api"] /\
  set_mem (JStr "payments#charge") [JStr "api"] = false /\
  In (RelationTargetNotFound (JStr "api") (JStr "payments#charge"))
     [RelationTargetNotFound (JStr "api") (JStr "payments#charge")].
Proof.
  assert (H1 : Containers.validate_relations
                 (JArr [Examples.linked_container])
               = Ok (true, [],
                     [RelationTargetNotFound (JStr "api")
                        (JStr "payments#charge")]))
    by (vm_compute; reflexivity).
  assert (H2 : collect_ids [Examples.linked_container] [] = Ok [JStr "api"])
    by reflexivity.
  assert (H3 : set_mem (JStr "payments#charge") [JStr "api"] = false)
    by reflexivity.
  refine (conj H1 (conj H2 (conj H3 _))).
  exact (proj2 (proj1 (proj2 (@unresolved_endpoints_are_warnings
                                reference_runtime))
                  _ _ _ _ _ _ H1 eq_refl H2)
           0%nat _ _ 0%nat _ (JStr "payments#charge")
           eq_refl eq_refl eq_refl eq_refl H3).
Defined.

(** The ring under the reference runtime, which allows a thousand nested
    calls. *)
Lemma cycles_are_warnings_of_systems_witness :
  (3 <= @recursion_limit reference_runtime)%nat /\
  exists first p,
    hd_error (@set_order reference_runtime Examples.ring_ids) = Some first /\
    @Systems.validate_relations reference_runtime (JArr Examples.ring)
      = Ok (true, [], [CircularDependency p]) /\
    ((first = JStr "a" /\ p = [JStr "a"; JStr "b"; JStr "c"; JStr "a"]) \/
     (first = JStr "b" /\ p = [JStr "b"; JStr "c"; JStr "a"; JStr "b"]) \/
     (first = JStr "c" /\ p = [JStr "c"; JStr "a"; JStr "b"; JStr "c"])) /\
    forall w data errs code out,
      stdin w = StdinDoc data ->
      py_get data "systems" (JArr []) = Ok (JArr Examples.ring) ->
      @Systems.validate_parent_reference reference_runtime w data
        (Systems.init_path w) = Ok (true, errs) ->
      @Systems.main reference_runtime w = Ok (code, out) ->
      In (CircularDependency p) (printed_warnings out) /\
      (printed_errors out = [] -> code = 1).
Proof.
  assert (H1 : (3 <= @recursion_limit reference_runtime)%nat)
    by (simpl; lia).
  refine (conj H1 _).
  exact (proj2 (proj2 (proj2 (@cycles_are_warnings_of_systems
                                reference_runtime))) H1).
Defined.

(** A system whose observation has the severity "urgent". *)
Lemma vocabulary_severity_witness :
  Systems.validate_observations (JArr [Examples.alarmed_system])
    = Ok (false, [InvalidSeverity (JStr "a") (JStr "urgent")], []) /\
  list_mem (JStr "urgent") Observations.OBSERVATION_SEVERITIES = false /\
  In (InvalidSeverity (JStr "a") (JStr "urgent"))
     [InvalidSeverity (JStr "a") (JStr "urgent")] /\
  false = false.
Proof.
  assert (H1 : Systems.validate_observations (JArr [Examples.alarmed_system])
               = Ok (false, [InvalidSeverity (JStr "a") (JStr "urgent")], []))
    by (vm_compute; reflexivity).
  assert (H2 : list_mem (JStr "urgent") Observations.OBSERVATION_SEVERITIES
               = false) by reflexivity.
  refine (conj H1 (conj H2 _)).
  exact (proj2 (proj2 (proj2
           (proj1 (proj2 (proj2 (proj2 (@vocabulary_severity
                                          reference_runtime))))
              _ _ _ _ _ H1 eq_refl))
           0%nat _ _ 0%nat _ eq_refl eq_refl eq_refl)
           (JStr "urgent") eq_refl H2).
Defined.

(** A container with two observations that carry the ID "o1". *)
Lemma duplicate_observation_ids_are_errors_witness :
  Containers.validate_observations
    (JArr [Examples.repeating (Examples.container "api" "a")])
    = Ok (false, [DuplicateObservationId (JStr "api") (JStr "o1")], []) /\
  (0 < 1)%nat /\
  In (DuplicateObservationId (JStr "api") (JStr "o1"))
     [DuplicateObservationId (JStr "api") (JStr "o1")] /\
  false = false.
Proof.
  assert (H1 : Containers.validate_observations
                 (JArr [Examples.repeating (Examples.container "api" "a")])
               = Ok (false,
                     [DuplicateObservationId (JStr "api") (JStr "o1")], []))
    by (vm_compute; reflexivity).
  assert (H2 : (0 < 1)%nat) by lia.
  refine (conj H1 (conj H2 _)).
  exact (proj1 (proj2 duplicate_observation_ids_are_errors)
           _ _ _ _ _ H1 eq_refl
           0%nat _ _ 0%nat 1%nat _ _ (JStr "o1")
           eq_refl eq_refl H2 eq_refl eq_refl eq_refl eq_refl).
Defined.

(** A C2 document whose metadata has a generator and no timestamp. *)
Lemma unstamped_document_passes_lineage_witness :
  stdin (Examples.run Examples.unstamped_doc)
    = StdinDoc Examples.unstamped_doc /\
  lookup "metadata"
    [("metadata", JObj [("generator", JStr "melly")]);
     ("containers", JArr Examples.container_ring)]
    = Some (JObj [("generator", JStr "melly")]) /\
  lookup "timestamp" [("generator", JStr "melly")] = None /\
  parent_carries (Examples.run Examples.unstamped_doc)
    (Containers.c1_path (Examples.run Examples.unstamped_doc))
    Examples.c1_doc (JStr Examples.t1) /\
  @Containers.validate_parent_reference reference_runtime
    (Examples.run Examples.unstamped_doc) Examples.unstamped_doc
    (Containers.c1_path (Examples.run Examples.unstamped_doc))
    = Ok (true, []) /\
  @Containers.main reference_runtime (Examples.run Examples.unstamped_doc)
    = Ok (0, [LPassed]) /\
  exists adv v1 v2 v3,
    @childless_parents reference_runtime "system_id"
      (Containers.load_system_ids (Examples.run Examples.unstamped_doc)
         (Containers.c1_path (Examples.run Examples.unstamped_doc)))
      (JArr Examples.container_ring) = Ok adv /\
    Containers.validate_containers (JArr Examples.container_ring)
      (Containers.load_system_ids (Examples.run Examples.unstamped_doc)
         (Containers.c1_path (Examples.run Examples.unstamped_doc)))
      = Ok v1 /\
    Containers.validate_observations (JArr Examples.container_ring)
      = Ok v2 /\
    Containers.validate_relations (JArr Examples.container_ring) = Ok v3 /\
    reports 0 [LPassed] [v1; v2; v3] adv.
Proof.
  assert (H1 : stdin (Examples.run Examples.unstamped_doc)
               = StdinDoc Examples.unstamped_doc) by reflexivity.
  assert (H2 : lookup "metadata"
                 [("metadata", JObj [("generator", JStr "melly")]);
                  ("containers", JArr Examples.container_ring)]
               = Some (JObj [("generator", JStr "melly")])) by reflexivity.
  assert (H3 : lookup "timestamp" [("generator", JStr "melly")] = None)
    by reflexivity.
  assert (H4 : parent_carries (Examples.run Examples.unstamped_doc)
                 (Containers.c1_path (Examples.run Examples.unstamped_doc))
                 Examples.c1_doc (JStr Examples.t1)) by (repeat split).
  assert (H5 : @Containers.main reference_runtime
                 (Examples.run Examples.unstamped_doc) = Ok (0, [LPassed]))
    by (vm_compute; reflexivity).
  refine (conj H1 (conj H2 (conj H3 (conj H4 _)))).
  destruct (proj1 (proj2 (@unstamped_document_passes_lineage
                            reference_runtime
                            (Examples.run Examples.unstamped_doc) _ _
                            H1 H2 H3)) _ _ H4) as (Hl & _ & Hrun).
  exact (conj Hl (conj H5 (Hrun _ _ H5))).
Defined.

(** ** Where the statements of the specification fail *)


(** C4 at a world without init.json: the init script exits with 0, whatever
    the later stages would return. *)
Lemma missing_init_file_is_not_an_error :
  Init.init_file Examples.bare = None /\
  Init.main (fun _ => Ok (2, [])) Examples.bare = Ok (0, [LSkipped]).
Proof. vm_compute. split; reflexivity. Qed.

(** C5 at a system that lists a repository absent from the init document:
    the reference is reported as a warning and the verdict is valid. *)
Lemma unlisted_repository_is_a_warning :
  list_mem (JStr "/repo-z") [JStr "/repo-a"] = false /\
  Systems.validate_systems (JArr [Examples.stray_system]) [JStr "/repo-a"]
  = Ok (true, [], [RepositoryNotFound (JStr "billing") (JStr "/repo-z")]).
Proof. vm_compute. split; reflexivity. Qed.

(** C6 at two relations whose targets look external and resolve to no
    entity: a URL in the C1 script and a fragment-qualified name in the C2
    script; each is reported as an unresolved target. *)
Lemma external_looking_target_is_reported :
  (looks_external (JStr "https://example.com/api") = true /\
   @Systems.validate_relations reference_runtime
     (JArr [Examples.linked_system])
   = Ok (true, [],
         [RelationTargetNotFound (JStr "a")
            (JStr "https://example.com/api")])) /\
  (looks_external (JStr "payments#charge") = true /\
   Containers.validate_relations (JArr [Examples.linked_container])
   = Ok (true, [],
         [RelationTargetNotFound (JStr "api") (JStr "payments#charge")])).
Proof. vm_compute. repeat split. Qed.

(** C7 at three containers and three components related a -> b -> c -> a:
    the relation checkers of the C2 and C3 scripts report nothing, and the
    runs exit with 0. *)
Lemma container_cycle_is_not_reported :
  Containers.validate_relations (JArr Examples.container_ring)
    = Ok (true, [], []) /\
  Components.validate_relations (JArr Examples.component_ring)
    = Ok (true, [], []) /\
  @Containers.main reference_runtime
    (Examples.run (Examples.document (Examples.stamped Examples.t2)
                     "containers" Examples.container_ring))
    = Ok (0, [LPassed]) /\
  @Components.main reference_runtime
    (Examples.run (Examples.document (Examples.stamped Examples.t3)
                     "components" Examples.component_ring))
    = Ok (0, [LPassed]).
Proof. vm_compute. repeat split. Qed.

(** C8 at an observation with the severity "urgent" and at a relation with
    the coupling "medium": each is reported as an error and makes the
    verdict invalid. *)
Lemma unknown_severity_is_an_error :
  Systems.validate_observations (JArr [Examples.alarmed_system])
    = Ok (false, [InvalidSeverity (JStr "a") (JStr "urgent")], []) /\
  Components.validate_relations (JArr [Examples.coupled_component])
    = Ok (false, [InvalidCoupling (JStr "orders") (JStr "medium")], []).
Proof. vm_compute. split; reflexivity. Qed.

(** C9 at a container and at a component with two observations that share
    the ID "o1": the C2 and C3 scripts report the duplicate as an error. *)
Lemma duplicate_observation_reported_by_every_layer :
  Containers.validate_observations
    (JArr [Examples.repeating (Examples.container "api" "a")])
    = Ok (false, [DuplicateObservationId (JStr "api") (JStr "o1")], []) /\
  Components.validate_observations
    (JArr [Examples.repeating (Examples.component "orders" "api")])
    = Ok (false, [DuplicateObservationId (JStr "orders") (JStr "o1")], []).
Proof. vm_compute. split; reflexivity. Qed.

(** ** Where the code falls short of the specification *)

(** C1 at a document, newer than its parent, whose [systems] is null.  The
    lineage check passes; the entity check returns the error that there are
    no systems; the observation check then raises TypeError, iterating over
    null, and main, which has no handler, does not return an exit code: the
    process ends with the status 1, although an error has been found. *)
Lemma error_before_a_crash_is_not_exit_two :
  stdin (Examples.run Examples.null_systems_doc)
    = StdinDoc Examples.null_systems_doc /\
  @Systems.validate_parent_reference reference_runtime
    (Examples.run Examples.null_systems_doc) Examples.null_systems_doc
    (Systems.init_path (Examples.run Examples.null_systems_doc))
    = Ok (true, []) /\
  py_get Examples.null_systems_doc "systems" (JArr []) = Ok JNull /\
  Systems.validate_systems JNull
    (Systems.load_init_repos (Examples.run Examples.null_systems_doc)
       (Systems.init_path (Examples.run Examples.null_systems_doc)))
    = Ok (false, [NoEntities], []) /\
  Systems.validate_observations JNull = Raise TypeError /\
  @Systems.main reference_runtime (Examples.run Examples.null_systems_doc)
    = Raise TypeError /\
  exit_status
    (@Systems.main reference_runtime
       (Examples.run Examples.null_systems_doc)) = 1.
Proof. vm_compute. repeat split. Qed.

(** C10 at a document of the systems layer that has no timestamp and whose
    [metadata.parent] is null.  The parent file is readable and carries a
    timestamp, and the document declares no parent timestamp that could
    differ from it; yet the lineage check raises TypeError, testing whether
    null contains ["timestamp"], and main does not reach a checker. *)
Lemma null_parent_aborts_the_lineage_check :
  doc_timestamp Examples.null_parent_doc = None /\
  parent_carries (Examples.run Examples.null_parent_doc)
    (Systems.init_path (Examples.run Examples.null_parent_doc))
    Examples.init_doc (JStr Examples.t0) /\
  no_mismatch [("parent", JNull)] (JStr Examples.t0) = true /\
  @Systems.validate_parent_reference reference_runtime
    (Examples.run Examples.null_parent_doc) Examples.null_parent_doc
    (Systems.init_path (Examples.run Examples.null_parent_doc))
    = Raise TypeError /\
  @Systems.main reference_runtime (Examples.run Examples.null_parent_doc)
    = Raise TypeError /\
  exit_status
    (@Systems.main reference_runtime
       (Examples.run Examples.null_parent_doc)) = 1.
Proof. vm_compute. repeat split. Qed.

(** ** The two patterns *)

Lemma append_nil_r s : String.append s "" = s.
Proof. induction s; simpl; congruence. Qed.

Lemma append_assoc a b c :
  String.append (String.append a b) c = String.append a (String.append b c).
Proof. induction a; simpl; congruence. Qed.

Lemma line_end_first c tail :
  line_end (String c tail) -> c = "010"%char /\ tail = "".
Proof. intros [H|H]; inversion H; auto. Qed.

Lemma word_spec ok g :
  word ok g = true <-> all_chars ok g = true /\ g <> "".
Proof.
  unfold word. rewrite andb_true_iff, negb_true_iff. split.
  - intros [Hn Hg]. split; auto. intros ->. discriminate.
  - intros [Hg Hn]. split; auto. apply String.eqb_neq. exact Hn.
Qed.

(** *** The schema-version pattern *)

Lemma points_end_first c tail :
  points_end (c :: tail) -> c = 10%N /\ tail = [].
Proof. intros [H|H]; inversion H; auto. Qed.

Section DecimalDigits.

Variable decimal_digit : N -> bool.

Hypothesis dot_is_no_digit : decimal_digit 46%N = false.
Hypothesis line_feed_is_no_digit : decimal_digit 10%N = false.

Lemma semver_points_group s : forall dots expect,
  InitDocument.semver_points decimal_digit dots expect s = true <->
  exists g rest,
    forallb decimal_digit g = true /\
    (expect = true -> g <> []) /\
    s = g ++ rest /\ points_rest decimal_digit dots rest.
Proof.
  induction s as [|c s IH]; intros dots expect; simpl.
  - split.
    + intros H. apply andb_true_iff in H. destruct H as [He Hd].
      apply Nat.eqb_eq in Hd. subst dots.
      exists [], []. repeat split; auto.
      * intros ->. discriminate He.
      * left; reflexivity.
    + intros (g & rest & Hg & He & Hs & Hr).
      destruct g; [|discriminate Hs]. simpl in Hs. subst rest.
      destruct dots; simpl in Hr.
      * destruct expect; [exfalso; apply He; auto | reflexivity].
      * destruct Hr as (? & Hr & _). discriminate Hr.
  - destruct (decimal_digit c) eqn:Hc.
    + rewrite IH. split.
      * intros (g & rest & Hg & _ & Hs & Hr).
        exists (c :: g), rest. simpl. rewrite Hc, Hg.
        repeat split; auto; [discriminate | congruence].
      * intros (g & rest & Hg & He & Hs & Hr).
        destruct g as [|c' g]; simpl in Hs.
        -- subst rest. exfalso. destruct dots; simpl in Hr.
           ++ apply points_end_first in Hr. destruct Hr as [-> _].
              congruence.
           ++ destruct Hr as (? & Hr & _). inversion Hr; subst.
              congruence.
        -- inversion Hs; subst. simpl in Hg.
           apply andb_true_iff in Hg. destruct Hg as [_ Hg].
           exists g, rest. repeat split; auto. discriminate.
    + destruct (N.eqb_spec c 46) as [->|Hdot].
      * destruct dots as [|dots].
        -- split; [discriminate|].
           intros (g & rest & Hg & He & Hs & Hr).
           destruct g as [|c' g]; simpl in Hs.
           ++ subst rest. apply points_end_first in Hr.
              destruct Hr as [Hr _]. discriminate Hr.
           ++ inversion Hs; subst. simpl in Hg. rewrite Hc in Hg.
              discriminate Hg.
        -- split.
           ++ intros H. apply andb_true_iff in H. destruct H as [He Ht].
              exists [], (46%N :: s). repeat split; auto.
              ** intros ->. discriminate He.
              ** simpl. eauto.
           ++ intros (g & rest & Hg & He & Hs & Hr).
              destruct g as [|c' g]; simpl in Hs.
              ** subst rest. simpl in Hr. destruct Hr as (s' & Hr & Ht).
                 inversion Hr; subst.
                 destruct expect; [exfalso; apply He; auto|]. exact Ht.
              ** inversion Hs; subst. simpl in Hg. rewrite Hc in Hg.
                 discriminate Hg.
      * split.
        -- intros H.
           apply andb_true_iff in H. destruct H as [H Hd].
           apply andb_true_iff in H. destruct H as [H He].
           apply andb_true_iff in H. destruct H as [Hf Hs].
           apply N.eqb_eq in Hf. subst c.
           destruct s; [|discriminate Hs].
           apply Nat.eqb_eq in Hd. subst dots.
           exists [], [10%N]. repeat split; auto.
           ++ intros ->. discriminate He.
           ++ right; reflexivity.
        -- intros (g & rest & Hg & He & Hs & Hr).
           destruct g as [|c' g]; simpl in Hs.
           ++ subst rest. destruct dots; simpl in Hr.
              ** apply points_end_first in Hr. destruct Hr as [-> ->].
                 destruct expect; [exfalso; apply He; auto|]. reflexivity.
              ** destruct Hr as (? & Hr & _). inversion Hr; subst.
                 contradiction.
           ++ inversion Hs; subst. simpl in Hg. rewrite Hc in Hg.
              discriminate Hg.
Qed.

Lemma semver_points_language s :
  InitDocument.semver_points decimal_digit 2 true s = true <->
  exists a b c tail,
    point_group decimal_digit a /\
    point_group decimal_digit b /\
    point_group decimal_digit c /\
    points_end tail /\
    s = a ++ 46%N :: b ++ 46%N :: c ++ tail.
Proof.
  split.
  - intros H. apply semver_points_group in H.
    destruct H as (a & r1 & Ha & Hna & -> & s1 & -> & H).
    apply semver_points_group in H.
    destruct H as (b & r2 & Hb & Hnb & -> & s2 & -> & H).
    apply semver_points_group in H.
    destruct H as (c & tail & Hc & Hnc & -> & Ht).
    exists a, b, c, tail. unfold point_group. repeat split; auto.
  - intros (a & b & c & tail & [Hna Ha] & [Hnb Hb] & [Hnc Hc] & Ht & ->).
    apply semver_points_group. exists a. eexists.
    repeat split; [exact Ha | intros _; exact Hna |]. simpl.
    eexists; split; [reflexivity|].
    apply semver_points_group. exists b. eexists.
    repeat split; [exact Hb | intros _; exact Hnb |]. simpl.
    eexists; split; [reflexivity|].
    apply semver_points_group. exists c, tail.
    repeat split; [exact Hc | intros _; exact Hnc | exact Ht].
Qed.

End DecimalDigits.

Lemma is_digit_point c :
  InitDocument.is_digit c
  = ((48 <=? N_of_ascii c) && (N_of_ascii c <=? 57))%N.
Proof.
  unfold InitDocument.is_digit, nat_of_ascii.
  set (n := N_of_ascii c).
  destruct (N.leb_spec 48 n), (N.leb_spec n 57),
    (Nat.leb_spec 48 (N.to_nat n)), (Nat.leb_spec (N.to_nat n) 57);
    simpl; try reflexivity; lia.
Qed.

Lemma ascii_eqb_point c d :
  Ascii.eqb c d = N.eqb (N_of_ascii c) (N_of_ascii d).
Proof.
  destruct (Ascii.eqb_spec c d) as [->|Hne].
  - symmetry. apply N.eqb_refl.
  - symmetry. apply N.eqb_neq. intros Heq. apply Hne.
    rewrite <- (ascii_N_embedding c), <- (ascii_N_embedding d).
    congruence.
Qed.

(** On the strings of this development the two automata agree, for any
    class of decimal digits that has ['0'] to ['9'] below 256. *)
Lemma semver_tokens_points decimal_digit :
  (forall c, (c < 256)%N ->
             decimal_digit c = ((48 <=? c) && (c <=? 57))%N) ->
  forall s dots expect,
    InitDocument.semver_tokens dots expect s
    = InitDocument.semver_points decimal_digit dots expect
        (InitDocument.code_points s).
Proof.
  intros Hlatin. induction s as [|c s IH]; intros dots expect.
  - reflexivity.
  - change (InitDocument.code_points (String c s))
      with (N_of_ascii c :: InitDocument.code_points s).
    cbn [InitDocument.semver_tokens InitDocument.semver_points].
    rewrite (Hlatin _ (N_ascii_bounded c)), <- is_digit_point.
    destruct (InitDocument.is_digit c); [apply IH|].
    rewrite (ascii_eqb_point c "."%char), (ascii_eqb_point c "010"%char).
    change (N_of_ascii "."%char) with 46%N.
    change (N_of_ascii "010"%char) with 10%N.
    destruct (N.eqb (N_of_ascii c) 46).
    + destruct dots; [reflexivity|]. rewrite IH. reflexivity.
    + destruct s; reflexivity.
Qed.

(** X1: on a Python [str], a sequence of code points, the schema-version
    pattern accepts exactly three non-empty groups of decimal digits
    separated by dots, optionally followed by one final line feed, the
    decimal digits being those of Unicode, of which ['0'] to ['9'] are the
    ones below 256.  On the strings of this development, which hold the
    code points below 256, this is what the embedded match computes. *)
Theorem semver_pattern_language (decimal_digit : N -> bool) :
  (forall c, (c < 256)%N ->
             decimal_digit c = ((48 <=? c) && (c <=? 57))%N) ->
  (forall s : list N,
     InitDocument.semver_points decimal_digit 2 true s = true <->
     exists a b c tail,
       point_group decimal_digit a /\
       point_group decimal_digit b /\
       point_group decimal_digit c /\
       points_end tail /\
       s = a ++ 46%N :: b ++ 46%N :: c ++ tail) /\
  (forall s : string,
     InitDocument.semver_pattern_match (JStr s)
     = Ok (InitDocument.semver_points decimal_digit 2 true
             (InitDocument.code_points s))).
Proof.
  intros Hlatin. split.
  - intros s. apply semver_points_language.
    + rewrite Hlatin by reflexivity. reflexivity.
    + rewrite Hlatin by reflexivity. reflexivity.
  - intros s. unfold InitDocument.semver_pattern_match. f_equal.
    apply semver_tokens_points. exact Hlatin.
Qed.

Lemma length_append a b :
  String.length (String.append a b) = (String.length a + String.length b)%nat.
Proof. induction a; simpl; congruence. Qed.

Lemma id_tokens_group s : forall expect,
  id_tokens expect s = true <->
  exists g rest,
    all_chars is_id_char g = true /\
    (expect = true -> g <> "") /\
    s = String.append g rest /\ id_rest rest.
Proof.
  induction s as [|c s IH]; intros expect; simpl.
  - split.
    + intros He. exists "", "". repeat split; auto.
      * intros ->. discriminate He.
      * left; left; reflexivity.
    + intros (g & rest & Hg & He & Hs & Hr).
      destruct g; [|discriminate Hs].
      destruct expect; [exfalso; apply He; auto | reflexivity].
  - destruct (is_id_char c) eqn:Hc.
    + rewrite IH. split.
      * intros (g & rest & Hg & _ & Hs & Hr).
        exists (String c g), rest. simpl. rewrite Hc, Hg.
        repeat split; auto; [discriminate | congruence].
      * intros (g & rest & Hg & He & Hs & Hr).
        destruct g as [|c' g]; simpl in Hs.
        -- subst rest. exfalso. destruct Hr as [Hr|(? & Hr & _)].
           ++ apply line_end_first in Hr. destruct Hr as [-> _].
              discriminate Hc.
           ++ inversion Hr; subst. discriminate Hc.
        -- inversion Hs; subst. simpl in Hg.
           apply andb_true_iff in Hg. destruct Hg as [_ Hg].
           exists g, rest. repeat split; auto. discriminate.
    + destruct (Ascii.eqb_spec c "-"%char) as [->|Hdash].
      * split.
        -- intros H. apply andb_true_iff in H. destruct H as [He Ht].
           exists "", (String "-"%char s). repeat split; auto.
           ++ intros ->. discriminate He.
           ++ right. eauto.
        -- intros (g & rest & Hg & He & Hs & Hr).
           destruct g as [|c' g]; simpl in Hs.
           ++ subst rest. destruct Hr as [Hr|(s' & Hr & Ht)].
              ** apply line_end_first in Hr. destruct Hr as [Hr _].
                 discriminate Hr.
              ** inversion Hr; subst.
                 destruct expect; [exfalso; apply He; auto|]. exact Ht.
           ++ inversion Hs; subst. simpl in Hg. discriminate Hg.
      * split.
        -- intros H.
           apply andb_true_iff in H. destruct H as [H He].
           apply andb_true_iff in H. destruct H as [Hf Hs].
           destruct (Ascii.eqb_spec c "010"%char) as [->|]; [|discriminate].
           apply String.eqb_eq in Hs. subst s.
           exists "", (String "010"%char ""). repeat split; auto.
           ++ intros ->. discriminate He.
           ++ left; right; reflexivity.
        -- intros (g & rest & Hg & He & Hs & Hr).
           destruct g as [|c' g]; simpl in Hs.
           ++ subst rest. destruct Hr as [Hr|(? & Hr & _)].
              ** apply line_end_first in Hr. destruct Hr as [-> ->].
                 destruct expect; [exfalso; apply He; auto|]. reflexivity.
              ** inversion Hr; subst. contradiction.
           ++ inversion Hs; subst. simpl in Hg. rewrite Hc in Hg.
              discriminate Hg.
Qed.

Lemma hyphenated_cons g groups :
  groups <> [] ->
  hyphenated (g :: groups) =
  String.append g (String "-"%char (hyphenated groups)).
Proof. destruct groups; [contradiction | reflexivity]. Qed.

Lemma id_tokens_groups n : forall s,
  (String.length s <= n)%nat ->
  id_tokens true s = true ->
  exists groups tail,
    groups <> [] /\
    Forall (fun g => word is_id_char g = true) groups /\
    line_end tail /\
    s = String.append (hyphenated groups) tail.
Proof.
  induction n as [|n IH]; intros s Hlen H;
    apply id_tokens_group in H;
    destruct H as (g & rest & Hg & Hn & -> & Hr);
    specialize (Hn eq_refl);
    assert (Hw : word is_id_char g = true) by (apply word_spec; auto).
  - destruct g; [contradiction | simpl in Hlen; lia].
  - destruct Hr as [Hr|(s' & -> & Ht)].
    + exists [g], rest. repeat split; auto. discriminate.
    + apply IH in Ht.
      * destruct Ht as (groups & tail & Hne & Hall & Ht & ->).
        exists (g :: groups), tail. repeat split; auto.
        -- discriminate.
        -- rewrite hyphenated_cons by assumption.
           rewrite append_assoc. reflexivity.
      * rewrite length_append in Hlen. simpl in Hlen.
        destruct g; [contradiction | simpl in Hlen; lia].
Qed.

(** X2: the ID pattern accepts exactly the non-empty groups of lower-case
    letters and digits joined by single hyphens, optionally followed by one
    final line feed. *)
Theorem id_pattern_language (s : string) :
  id_pattern_match (JStr s) = Ok true <->
  exists groups tail,
    groups <> [] /\
    Forall (fun g => word is_id_char g = true) groups /\
    line_end tail /\
    s = String.append (hyphenated groups) tail.
Proof.
  unfold id_pattern_match. split.
  - intros H. apply ok_inj in H.
    apply (id_tokens_groups (String.length s)); auto.
  - intros (groups & tail & Hne & Hall & Ht & ->). f_equal.
    induction groups as [|g groups IH]; [contradiction|].
    inversion Hall as [|? ? Hg Hrest]; subst.
    apply word_spec in Hg. apply id_tokens_group.
    destruct groups as [|g' groups].
    + exists g, tail. repeat split; [apply Hg | intros _; apply Hg |].
      left; exact Ht.
    + rewrite hyphenated_cons by discriminate. rewrite append_assoc.
      exists g. eexists.
      repeat split; [apply Hg | intros _; apply Hg |].
      right. eexists. split; [reflexivity|].
      apply IH; [discriminate | assumption].
Qed.

(** ** The schema stage of validate-init.py *)

Lemma missing_metadata_object fields md :
  InitDocument.missing_metadata fields (JObj md) =
  Ok (map (fun f => InitDocument.MissingField (String.append "metadata." f))
          (InitDocument.absent fields md)).
Proof.
  induction fields as [|f fields IH]; simpl; [reflexivity|].
  rewrite IH. simpl. destruct (has_key f md); reflexivity.
Qed.

Lemma absent_nil fields md :
  InitDocument.absent fields md = [] <->
  Forall (fun f => has_key f md = true) fields.
Proof.
  unfold InitDocument.absent. induction fields as [|f fields IH]; simpl.
  - split; auto.
  - destruct (has_key f md) eqn:Hf; simpl.
    + rewrite IH. split; [auto | intros Hall; inversion Hall; auto].
    + split; [discriminate|]. intros Hall. inversion Hall; congruence.
Qed.

Lemma has_key_lookup {V : Type} k (m : list (string * V)) :
  has_key k m = true <-> exists v, lookup k m = Some v.
Proof.
  unfold has_key. destruct (lookup k m); split; eauto; try discriminate.
  intros (? & ?); discriminate.
Qed.

Lemma schema_structure_sound `{Runtime} data errs :
  InitDocument.validate_schema_structure data = Ok (true, errs) ->
  errs = [] /\ well_formed data.
Proof.
  unfold InitDocument.validate_schema_structure. intros Hrun.
  apply bind_ok in Hrun. destruct Hrun as (has_md & Hmd & Hrun).
  destruct has_md; simpl in Hrun; [|discriminate].
  apply bind_ok in Hrun. destruct Hrun as (metadata & Hget & Hrun).
  apply bind_ok in Hrun. destruct Hrun as (e1 & He1 & Hrun).
  apply bind_ok in Hrun. destruct Hrun as (e2 & He2 & Hrun).
  apply bind_ok in Hrun. destruct Hrun as (e3 & He3 & Hrun).
  apply bind_ok in Hrun. destruct Hrun as (e4 & He4 & Hrun).
  apply ok_inj in Hrun.
  destruct (e1 ++ e2 ++ e3 ++ e4) eqn:Hall; [|discriminate].
  inversion Hrun; subst errs. split; [reflexivity|].
  apply app_eq_nil in Hall. destruct Hall as [-> Hall].
  apply app_eq_nil in Hall. destruct Hall as [-> Hall].
  apply app_eq_nil in Hall. destruct Hall as [-> ->].
  destruct data as [| | | |?|m]; try discriminate Hget.
  simpl in Hget. destruct (lookup "metadata" m) as [md0|] eqn:Hm;
    [|discriminate]. apply ok_inj in Hget. subst md0.
  (* the metadata is an object: its schema version was read *)
  assert (Hobj : exists md, metadata = JObj md).
  { unfold InitDocument.check_schema_version in He2.
    simpl in He1. apply bind_ok in He1. destruct He1 as (p & Hp & He1).
    rewrite Hp in He2. simpl in He2.
    destruct p.
    - apply bind_ok in He2. destruct He2 as (v & Hv & _).
      destruct metadata; try discriminate Hv. eauto.
    - apply bind_ok in He1. destruct He1 as (? & _ & He1).
      apply ok_inj in He1. discriminate He1. }
  destruct Hobj as (md & ->).
  change (InitDocument.missing_metadata InitDocument.required_metadata
            (JObj md) = Ok []) in He1.
  rewrite missing_metadata_object in He1. apply ok_inj in He1.
  apply map_eq_nil in He1. apply absent_nil in He1.
  assert (Hsv : has_key "schema_version" md = true).
  { inversion He1; assumption. }
  assert (Hts : has_key "timestamp" md = true).
  { rewrite Forall_forall in He1. apply He1. simpl. auto. }
  apply has_key_lookup in Hsv. destruct Hsv as (sv & Hsv).
  apply has_key_lookup in Hts. destruct Hts as (ts & Hts).
  unfold InitDocument.check_schema_version in He2. simpl in He2.
  unfold has_key in He2. rewrite Hsv in He2. simpl in He2.
  destruct sv; try discriminate He2. simpl in He2.
  destruct (InitDocument.semver_tokens 2 true s) eqn:Hsem;
    [|discriminate He2].
  unfold InitDocument.check_timestamp in He3. simpl in He3.
  unfold has_key in He3. rewrite Hts in He3. simpl in He3.
  destruct (parse_timestamp ts) as [d|e] eqn:Hparse.
  2:{ destruct e; discriminate He3. }
  unfold InitDocument.check_repositories in He4. simpl in He4.
  unfold has_key in He4.
  destruct (lookup "repositories" m) as [r|] eqn:Hr; simpl in He4;
    [|discriminate He4].
  destruct r as [| | | |[|x xs]|]; try discriminate He4.
  exists m, md, s, ts, d, x, xs. repeat split; auto.
Qed.

Lemma schema_structure_complete `{Runtime} data :
  well_formed data ->
  InitDocument.validate_schema_structure data = Ok (true, []).
Proof.
  intros (m & md & v & ts & d & x & xs & -> & Hm & Hall & Hsv & Hsem & Hts &
          Hparse & Hr).
  unfold InitDocument.validate_schema_structure.
  replace (py_contains "metadata" (JObj m)) with (Ok true)
    by (simpl; unfold has_key; rewrite Hm; reflexivity).
  replace (py_getitem (JObj m) "metadata") with (Ok (JObj md))
    by (simpl; rewrite Hm; reflexivity).
  cbn [bind negb].
  rewrite missing_metadata_object.
  apply absent_nil in Hall. rewrite Hall. cbn [bind map].
  replace (InitDocument.check_schema_version (JObj md)) with
    (@Ok (list InitDocument.message) []).
  2:{ unfold InitDocument.check_schema_version. simpl.
      unfold has_key. rewrite Hsv. simpl. rewrite Hsem. reflexivity. }
  replace (InitDocument.check_timestamp (JObj md)) with
    (@Ok (list InitDocument.message) []).
  2:{ unfold InitDocument.check_timestamp. simpl.
      unfold has_key. rewrite Hts. simpl. rewrite Hparse. reflexivity. }
  replace (InitDocument.check_repositories (JObj m)) with
    (@Ok (list InitDocument.message) []).
  2:{ unfold InitDocument.check_repositories. simpl.
      unfold has_key. rewrite Hr. reflexivity. }
  reflexivity.
Qed.

(** X3: the schema stage accepts a document exactly when it is an object
    whose metadata is an object with the five required fields, a schema
    version the pattern accepts and a timestamp that parses, and whose
    repositories are a non-empty list; it then reports no error. *)
Theorem schema_structure_accepts_iff `{Runtime} (data : json)
        (errs : list InitDocument.message) :
  InitDocument.validate_schema_structure data = Ok (true, errs) <->
  errs = [] /\ well_formed data.
Proof.
  split.
  - apply schema_structure_sound.
  - intros [-> Hwf]. apply schema_structure_complete. exact Hwf.
Qed.

(** ** The exit code of validate-init.py *)

Lemma shown_errors_app a b :
  shown_errors (a ++ b) = shown_errors a ++ shown_errors b.
Proof. apply flat_map_app. Qed.

Lemma shown_warnings_app a b :
  shown_warnings (a ++ b) = shown_warnings a ++ shown_warnings b.
Proof. apply flat_map_app. Qed.

Lemma shown_errors_errors loc ms :
  shown_errors (map (fun e => InitDocument.IError e loc) ms) = ms.
Proof. induction ms; simpl; congruence. Qed.

Lemma shown_warnings_errors loc ms :
  shown_warnings (map (fun e => InitDocument.IError e loc) ms) = [].
Proof. induction ms; simpl; congruence. Qed.

Lemma shown_errors_warnings rec ms :
  shown_errors (map (fun m => InitDocument.IWarning m rec) ms) = [].
Proof. induction ms; simpl; congruence. Qed.

Lemma shown_warnings_warnings rec ms :
  shown_warnings (map (fun m => InitDocument.IWarning m rec) ms) = ms.
Proof. induction ms; simpl; congruence. Qed.

Lemma close_balanced l : balanced (InitDocument.close l).
Proof.
  unfold balanced, InitDocument.close. simpl.
  destruct (InitDocument.errs l); reflexivity.
Qed.

Lemma accounted_initial : accounted InitDocument.initial.
Proof. split; reflexivity. Qed.

Lemma accounted_emit_warnings ws s :
  accounted s -> accounted (InitDocument.emit_warnings ws s).
Proof.
  intros [He Hw]. unfold InitDocument.emit_warnings.
  destruct ws as [|m ws]; [split; assumption|].
  unfold accounted. cbn [InitDocument.failed InitDocument.warned
                         InitDocument.shown].
  rewrite shown_errors_app, shown_warnings_app, shown_errors_warnings,
    shown_warnings_warnings, app_nil_r, nonempty_app.
  split; [exact He|]. simpl. rewrite orb_true_r. reflexivity.
Qed.

Lemma accounted_emit loc v s :
  balanced v -> accounted s -> accounted (InitDocument.emit loc v s).
Proof.
  destruct v as [[valid es] ws]. unfold balanced. simpl.
  intros Hv [He Hw]. apply accounted_emit_warnings.
  destruct valid; [split; assumption|].
  unfold accounted. cbn [InitDocument.failed InitDocument.warned
                         InitDocument.shown].
  rewrite shown_errors_app, shown_warnings_app, shown_errors_errors,
    shown_warnings_errors, app_nil_r, nonempty_app.
  split; [|exact Hw].
  destruct es; [discriminate Hv|]. simpl. rewrite orb_true_r. reflexivity.
Qed.

Lemma accounted_summary s code out :
  accounted s -> InitDocument.summary s = (code, out) ->
  code = three_level (shown_errors out) (shown_warnings out).
Proof.
  intros [He Hw]. unfold InitDocument.summary.
  destruct (InitDocument.failed s);
    [|destruct (InitDocument.warned s)];
    intros Hs; inversion Hs; subst; clear Hs;
    rewrite shown_errors_app, shown_warnings_app; simpl;
    rewrite !app_nil_r.
  - destruct (shown_errors (InitDocument.shown s)); [discriminate He|].
    reflexivity.
  - destruct (shown_errors (InitDocument.shown s)); [|discriminate He].
    destruct (shown_warnings (InitDocument.shown s)); [discriminate Hw|].
    reflexivity.
  - destruct (shown_errors (InitDocument.shown s)); [|discriminate He].
    destruct (shown_warnings (InitDocument.shown s)); [|discriminate Hw].
    reflexivity.
Qed.

(** The state of main when it reaches the closing summary. *)
Lemma validate_loaded_stages `{Runtime} h data code out :
  InitDocument.validate_loaded h data = Ok (code, out) ->
  (exists es, es <> [] /\ code = 2 /\
              out = map (fun e => InitDocument.IError e "") es /\
              InitDocument.validate_schema_structure data = Ok (false, es)) \/
  (exists s, accounted s /\ InitDocument.summary s = (code, out) /\
             InitDocument.validate_schema_structure data = Ok (true, [])).
Proof.
  unfold InitDocument.validate_loaded. intros Hrun.
  apply bind_ok in Hrun. destruct Hrun as ([valid es] & Hschema & Hrun).
  destruct valid; simpl in Hrun.
  - right.
    destruct (schema_structure_sound _ _ Hschema) as [-> _].
    apply bind_ok in Hrun. destruct Hrun as (repos & _ & Hrun).
    apply bind_ok in Hrun. destruct Hrun as (v2 & Hv2 & Hrun).
    apply bind_ok in Hrun. destruct Hrun as (v3 & Hv3 & Hrun).
    apply bind_ok in Hrun. destruct Hrun as (md & _ & Hrun).
    apply bind_ok in Hrun. destruct Hrun as ([v4 ws] & _ & Hrun).
    apply bind_ok in Hrun. destruct Hrun as (xs & _ & Hrun).
    apply bind_ok in Hrun. destruct Hrun as (total & _ & Hrun).
    apply ok_inj in Hrun.
    eexists. split; [|split; [exact Hrun | exact Hschema]].
    assert (H4 : accounted
                   (InitDocument.emit_warnings ws
                      (InitDocument.emit "manifests" v3
                         (InitDocument.emit "repositories" v2
                            InitDocument.initial)))).
    { apply accounted_emit_warnings.
      unfold InitDocument.validate_package_manifests in Hv3.
      apply bind_ok in Hv3. destruct Hv3 as (? & _ & Hv3).
      apply bind_ok in Hv3. destruct Hv3 as (? & _ & Hv3).
      apply ok_inj in Hv3. subst v3.
      unfold InitDocument.validate_repository_paths in Hv2.
      apply bind_ok in Hv2. destruct Hv2 as (? & _ & Hv2).
      apply bind_ok in Hv2. destruct Hv2 as (? & _ & Hv2).
      apply ok_inj in Hv2. subst v2.
      apply accounted_emit; [apply close_balanced|].
      apply accounted_emit; [apply close_balanced|].
      apply accounted_initial. }
    destruct (Nat.eqb total 0); [|exact H4].
    destruct H4 as [He Hw]. unfold accounted.
    cbn [InitDocument.failed InitDocument.warned InitDocument.shown].
    rewrite shown_errors_app, shown_warnings_app, !nonempty_app. simpl.
    rewrite ?app_nil_r, ?orb_true_r, ?orb_false_r.
    split; [exact He | reflexivity].
  - left. apply ok_inj in Hrun. inversion Hrun; subst.
    exists es. repeat split; auto.
    intros ->.
    unfold InitDocument.validate_schema_structure in Hschema.
    apply bind_ok in Hschema. destruct Hschema as (b & _ & Hschema).
    destruct b; simpl in Hschema; [|discriminate].
    repeat (apply bind_ok in Hschema;
            destruct Hschema as (? & _ & Hschema)).
    apply ok_inj in Hschema.
    match type of Hschema with
    | (match ?l with _ => _ end, _) = _ => destruct l
    end; inversion Hschema.
Qed.

(** X4: a run of validate-init.py that returns exits with 2 when it printed
    an error, with 1 when it printed warnings only, and with 0 when it
    printed neither. *)
Theorem init_exit_code_follows_messages `{Runtime}
        (h : InitDocument.host) (code : Z)
        (out : list InitDocument.output) :
  InitDocument.main h = Ok (code, out) ->
  code = three_level (shown_errors out) (shown_warnings out).
Proof.
  unfold InitDocument.main. intros Hrun.
  destruct (Init.init_file (InitDocument.host_world h)) as [p|].
  - destruct (load_json (InitDocument.host_world h) p) as [data|e].
    + apply validate_loaded_stages in Hrun.
      destruct Hrun as [(es & Hne & -> & -> & _)|(s & Hs & Hsum & _)].
      * rewrite shown_errors_errors. destruct es; [contradiction|].
        reflexivity.
      * eapply accounted_summary; eassumption.
    + destruct e; apply ok_inj in Hrun; inversion Hrun; reflexivity.
  - apply ok_inj in Hrun. inversion Hrun. reflexivity.
Qed.

(** ** The repository stage of validate-init.py *)

Lemma set_mem_str_add q p s :
  set_mem (JStr q) (set_add (JStr p) s) =
  set_mem (JStr q) s || String.eqb q p.
Proof.
  unfold set_add. destruct (set_mem (JStr p) s) eqn:Hp.
  - destruct (String.eqb_spec q p) as [->|]; [|rewrite orb_false_r; auto].
    rewrite Hp. reflexivity.
  - unfold set_mem. rewrite existsb_app. simpl. rewrite orb_false_r.
    reflexivity.
Qed.

Lemma isdir_exists h p :
  InitDocument.isdir h p = true ->
  path_exists (InitDocument.host_world h) p = true.
Proof.
  unfold InitDocument.isdir, path_exists.
  destruct (files (InitDocument.host_world h) p); auto; discriminate.
Qed.

Lemma check_name_keeps r s s' :
  InitDocument.check_name r s = Ok s' ->
  InitDocument.errs (InitDocument.plog s') =
  InitDocument.errs (InitDocument.plog s) /\
  InitDocument.seen_paths s' = InitDocument.seen_paths s.
Proof.
  unfold InitDocument.check_name. intros Hrun.
  destruct (lookup "name" r) as [name|].
  - apply bind_ok in Hrun. destruct Hrun as (dup & _ & Hrun).
    apply ok_inj in Hrun. subst s'. destruct dup; split; reflexivity.
  - apply ok_inj in Hrun. subst s'. split; reflexivity.
Qed.

Lemma check_name_returns r s :
  hashable_name (JObj r) ->
  exists s', InitDocument.check_name r s = Ok s'.
Proof.
  unfold hashable_name, InitDocument.check_name, py_in_set.
  destruct (lookup "name" r) as [name|]; [|eauto].
  intros ->. simpl. eauto.
Qed.

(** An iteration that leaves the list of errors empty has seen a repository
    in a directory that no earlier entry names. *)
Lemma check_repository_clean h i x s s1 :
  InitDocument.check_repository h i x s = Ok s1 ->
  InitDocument.errs (InitDocument.plog s1) = [] ->
  InitDocument.errs (InitDocument.plog s) = [] /\
  exists p,
    repository_at h x p /\
    set_mem (JStr p) (InitDocument.seen_paths s) = false /\
    InitDocument.seen_paths s1 =
    set_add (JStr p) (InitDocument.seen_paths s).
Proof.
  unfold InitDocument.check_repository. intros Hrun Hclean.
  assert (Herr : forall m t,
             InitDocument.errs
               (InitDocument.plog (InitDocument.path_error m t)) <> []).
  { intros m t. simpl. destruct (InitDocument.errs (InitDocument.plog t));
      discriminate. }
  destruct x as [| | | | |r];
    try (apply ok_inj in Hrun; subst s1; exfalso;
         eapply Herr; exact Hclean).
  destruct (lookup "path" r) as [path|] eqn:Hpath.
  2:{ apply ok_inj in Hrun; subst s1; exfalso; eapply Herr; exact Hclean. }
  destruct path as [| | |p| |]; try discriminate Hrun.
  destruct (InitDocument.isabs p) eqn:Habs; simpl in Hrun.
  2:{ apply ok_inj in Hrun; subst s1; exfalso; eapply Herr; exact Hclean. }
  destruct (path_exists (InitDocument.host_world h) p) eqn:Hex;
    simpl in Hrun.
  2:{ apply ok_inj in Hrun; subst s1; exfalso; eapply Herr; exact Hclean. }
  apply check_name_keeps in Hrun. destruct Hrun as [He Hs].
  rewrite He in Hclean.
  destruct (InitDocument.isdir h p) eqn:Hdir; simpl in Hclean, Hs.
  2:{ exfalso. revert Hclean.
      match goal with |- ?l ++ _ = [] -> _ => destruct l; discriminate end. }
  destruct (set_mem (JStr p) (InitDocument.seen_paths s)) eqn:Hseen;
    simpl in Hclean, Hs.
  { exfalso. revert Hclean.
    destruct (InitDocument.errs (InitDocument.plog s)); discriminate. }
  split; [exact Hclean|]. exists p. split; [|split; auto].
  exists r. auto.
Qed.

Lemma check_repository_accepts h i x p s :
  repository_at h x p -> hashable_name x ->
  set_mem (JStr p) (InitDocument.seen_paths s) = false ->
  exists s1,
    InitDocument.check_repository h i x s = Ok s1 /\
    InitDocument.errs (InitDocument.plog s1) =
    InitDocument.errs (InitDocument.plog s) /\
    InitDocument.seen_paths s1 =
    set_add (JStr p) (InitDocument.seen_paths s).
Proof.
  intros (r & -> & Hpath & Habs & Hdir) Hname Hseen.
  unfold InitDocument.check_repository.
  rewrite Hpath, Habs, (isdir_exists _ _ Hdir), Hdir, Hseen. simpl.
  match goal with
  | |- exists s1, InitDocument.check_name r ?t = _ /\ _ =>
      destruct (check_name_returns r t Hname) as (s1 & Hs1)
  end.
  exists s1. split; [exact Hs1|].
  apply check_name_keeps in Hs1. exact Hs1.
Qed.

Lemma repository_loop_sound h l : forall i s s',
  for_each (InitDocument.check_repository h) i l s = Ok s' ->
  InitDocument.errs (InitDocument.plog s') = [] ->
  InitDocument.errs (InitDocument.plog s) = [] /\
  exists ps,
    Forall2 (repository_at h) l ps /\ NoDup ps /\
    forall p, In p ps ->
              set_mem (JStr p) (InitDocument.seen_paths s) = false.
Proof.
  induction l as [|x l IH]; simpl; intros i s s' Hrun Hclean.
  - apply ok_inj in Hrun. subst s'. split; [exact Hclean|].
    exists []. repeat split; [constructor | constructor | intros ? []].
  - apply bind_ok in Hrun. destruct Hrun as (s1 & Hx & Hrest).
    destruct (IH _ _ _ Hrest Hclean) as (Hc1 & ps & Hall & Hnd & Hfresh).
    destruct (check_repository_clean _ _ _ _ _ Hx Hc1)
      as (Hc & p & Hp & Hseen & Hs1).
    split; [exact Hc|]. exists (p :: ps).
    assert (Hout : forall q, In q ps -> q <> p /\
               set_mem (JStr q) (InitDocument.seen_paths s) = false).
    { intros q Hq. specialize (Hfresh q Hq).
      rewrite Hs1, set_mem_str_add in Hfresh.
      apply orb_false_iff in Hfresh. destruct Hfresh as [Hm Hne].
      split; [|exact Hm]. apply String.eqb_neq. exact Hne. }
    repeat split.
    + constructor; assumption.
    + constructor; [|exact Hnd]. intros Hin. apply Hout in Hin.
      destruct Hin as [Hne _]. contradiction.
    + intros q [<-|Hq]; [exact Hseen | apply Hout; exact Hq].
Qed.

Lemma repository_loop_complete h l : forall ps i s,
  Forall2 (repository_at h) l ps -> NoDup ps ->
  Forall hashable_name l ->
  (forall p, In p ps ->
             set_mem (JStr p) (InitDocument.seen_paths s) = false) ->
  exists s',
    for_each (InitDocument.check_repository h) i l s = Ok s' /\
    InitDocument.errs (InitDocument.plog s') =
    InitDocument.errs (InitDocument.plog s).
Proof.
  induction l as [|x l IH]; intros ps i s Hall Hnd Hnames Hfresh.
  - exists s. split; reflexivity.
  - inversion Hall as [|? p ? ps' Hx Hrest]; subst.
    inversion Hnd as [|? ? Hnotin Hnd']; subst.
    inversion Hnames as [|? ? Hn Hnames']; subst.
    destruct (check_repository_accepts h i x p s Hx Hn) as (s1 & Hs1 & He & Hs).
    { apply Hfresh. left; reflexivity. }
    destruct (IH ps' (S i) s1 Hrest Hnd' Hnames') as (s' & Hrun & He').
    { intros q Hq. rewrite Hs, set_mem_str_add.
      rewrite Hfresh by (right; exact Hq). simpl.
      apply String.eqb_neq. intros ->. contradiction. }
    exists s'. simpl. rewrite Hs1. simpl. split; [exact Hrun|].
    congruence.
Qed.

Lemma repository_paths_sound h xs es ws :
  InitDocument.validate_repository_paths h (JArr xs) = Ok (true, es, ws) ->
  es = [] /\ repositories_in_place h xs.
Proof.
  unfold InitDocument.validate_repository_paths. simpl. intros Hrun.
  apply bind_ok in Hrun. destruct Hrun as (s & Hloop & Hrun).
  apply ok_inj in Hrun. unfold InitDocument.close in Hrun.
  destruct (InitDocument.errs (InitDocument.plog s)) eqn:He;
    inversion Hrun; subst. split; [reflexivity|].
  destruct (repository_loop_sound _ _ _ _ _ Hloop He)
    as (_ & ps & Hall & Hnd & _).
  exists ps. split; assumption.
Qed.

(** X5: the repository stage accepts a list of entries only if each one is
    an object whose path is the absolute path of an existing directory and no
    two of them name the same path; it accepts every such list whose names
    can be hashed. *)
Theorem repository_paths_accepts (h : InitDocument.host)
        (xs : list json) :
  (forall es ws,
     InitDocument.validate_repository_paths h (JArr xs) = Ok (true, es, ws) ->
     es = [] /\ repositories_in_place h xs) /\
  (repositories_in_place h xs -> Forall hashable_name xs ->
   exists ws,
     InitDocument.validate_repository_paths h (JArr xs) = Ok (true, [], ws)).
Proof.
  split.
  - intros es ws. apply repository_paths_sound.
  - intros (ps & Hall & Hnd) Hnames.
    destruct (repository_loop_complete h xs ps 0%nat
                (InitDocument.mk_path_scan InitDocument.no_messages [] [])
                Hall Hnd Hnames) as (s' & Hrun & He).
    { intros p _. reflexivity. }
    unfold InitDocument.validate_repository_paths. simpl.
    rewrite Hrun. simpl. unfold InitDocument.close.
    simpl in He. rewrite He. eauto.
Qed.

(** ** The manifest stage of validate-init.py *)

Lemma app_nil_inv {A : Type} (a b : list A) : a ++ b = [] -> a = [].
Proof. destruct a; [reflexivity | discriminate]. Qed.

Lemma check_manifest_type_errs f l :
  InitDocument.errs (InitDocument.check_manifest_type f l) =
  InitDocument.errs l.
Proof.
  unfold InitDocument.check_manifest_type.
  destruct (lookup "type" f) as [t|]; [|reflexivity].
  destruct (list_mem t InitDocument.ALLOWED_MANIFEST_TYPES); reflexivity.
Qed.

Lemma check_manifest_path_clean h rp f l l' :
  InitDocument.check_manifest_path h rp f l = Ok l' ->
  InitDocument.errs l' = [] ->
  InitDocument.errs l = [] /\
  forall v, lookup "path" f = Some v ->
            exists p, v = JStr p /\ InitDocument.isabs p = false.
Proof.
  unfold InitDocument.check_manifest_path. intros Hrun Hclean.
  destruct (lookup "path" f) as [v|].
  2:{ apply ok_inj in Hrun. subst l'. split; [exact Hclean|].
      intros ? Hv; discriminate Hv. }
  destruct v as [| | |p| |]; try discriminate Hrun.
  assert (Hl : InitDocument.errs l' =
               InitDocument.errs
                 (if InitDocument.isabs p
                  then InitDocument.err (InitDocument.ManifestPathAbsolute p) l
                  else l)).
  { destruct (truthy rp && negb (InitDocument.isabs p)).
    - destruct rp; try discriminate Hrun. apply ok_inj in Hrun. subst l'.
      match goal with
      | |- context [if path_exists ?w ?q then _ else _] =>
          destruct (path_exists w q)
      end; reflexivity.
    - apply ok_inj in Hrun. subst l'. reflexivity. }
  rewrite Hl in Hclean. destruct (InitDocument.isabs p) eqn:Habs.
  - simpl in Hclean. apply app_eq_nil in Hclean.
    destruct Hclean as [_ Hc]. discriminate Hc.
  - split; [exact Hclean|]. intros v Hv. inversion Hv; subst. eauto.
Qed.

Lemma check_manifest_data_clean f l l' :
  InitDocument.check_manifest_data f l = Ok l' ->
  InitDocument.errs l' = [] ->
  InitDocument.errs l = [] /\
  forall v, lookup "data" f = Some v -> exists d, v = JObj d.
Proof.
  unfold InitDocument.check_manifest_data. intros Hrun Hclean.
  destruct (lookup "data" f) as [v|].
  2:{ apply ok_inj in Hrun. subst l'. split; [exact Hclean|].
      intros ? Hv; discriminate Hv. }
  assert (Hbad : forall t, InitDocument.errs
             (InitDocument.err InitDocument.ManifestDataNotObject t) <> []).
  { intros t. simpl. destruct (InitDocument.errs t); discriminate. }
  destruct v as [| | | | |d];
    try (apply ok_inj in Hrun; subst l'; exfalso; eapply Hbad; exact Hclean).
  assert (Hl : InitDocument.errs l' = InitDocument.errs l).
  { destruct (py_eq (dict_get f "type" (JStr "")) (JStr "npm")).
    { apply ok_inj in Hrun. subst l'. destruct (has_key "name" d);
        reflexivity. }
    destruct (py_eq (dict_get f "type" (JStr "")) (JStr "composer")).
    { apply ok_inj in Hrun. subst l'. destruct (has_key "name" d);
        reflexivity. }
    destruct (py_eq (dict_get f "type" (JStr "")) (JStr "cargo")).
    2:{ apply ok_inj in Hrun. subst l'. reflexivity. }
    destruct (lookup "package" d).
    2:{ apply ok_inj in Hrun. subst l'. reflexivity. }
    apply bind_ok in Hrun. destruct Hrun as (named & _ & Hrun).
    apply ok_inj in Hrun. subst l'. destruct named; reflexivity. }
  rewrite Hl in Hclean. split; [exact Hclean|].
  intros v Hv. inversion Hv; subst. eauto.
Qed.

Lemma check_manifest_clean h name rp i mf l l' :
  InitDocument.check_manifest h name rp i mf l = Ok l' ->
  InitDocument.errs l' = [] ->
  InitDocument.errs l = [] /\ manifest_shaped mf.
Proof.
  unfold InitDocument.check_manifest. intros Hrun Hclean.
  destruct mf as [| | | | |f];
    try (apply ok_inj in Hrun; subst l'; simpl in Hclean;
         apply app_eq_nil in Hclean; destruct Hclean as [_ Hc];
         discriminate Hc).
  apply bind_ok in Hrun. destruct Hrun as (l2 & Hpath & Hdata).
  destruct (check_manifest_data_clean _ _ _ Hdata Hclean) as [Hc2 Hd].
  destruct (check_manifest_path_clean _ _ _ _ _ Hpath Hc2) as [Hc1 Hp].
  rewrite check_manifest_type_errs in Hc1. cbn [InitDocument.errs] in Hc1.
  apply app_eq_nil in Hc1. destruct Hc1 as [Hc Habsent].
  split; [exact Hc|].
  apply map_eq_nil in Habsent. apply absent_nil in Habsent.
  inversion Habsent as [|? ? Htype Hrest]; subst.
  inversion Hrest as [|? ? Hhp Hrest']; subst.
  inversion Hrest' as [|? ? Hhd _]; subst.
  apply has_key_lookup in Hhp. destruct Hhp as (vp & Hvp).
  apply has_key_lookup in Hhd. destruct Hhd as (vd & Hvd).
  destruct (Hp _ Hvp) as (p & -> & Habs).
  destruct (Hd _ Hvd) as (d & ->).
  exists f, p, d. auto.
Qed.

Lemma manifest_loop_clean h name rp ms : forall i l l',
  for_each (InitDocument.check_manifest h name rp) i ms l = Ok l' ->
  InitDocument.errs l' = [] ->
  InitDocument.errs l = [] /\ Forall manifest_shaped ms.
Proof.
  induction ms as [|mf ms IH]; simpl; intros i l l' Hrun Hclean.
  - apply ok_inj in Hrun. subst l'. split; [exact Hclean | constructor].
  - apply bind_ok in Hrun. destruct Hrun as (l1 & Hmf & Hrest).
    destruct (IH _ _ _ Hrest Hclean) as [Hc1 Hall].
    destruct (check_manifest_clean _ _ _ _ _ _ _ Hmf Hc1) as [Hc Hshape].
    split; [exact Hc | constructor; assumption].
Qed.

Lemma check_repository_manifests_clean h i x l l' :
  InitDocument.check_repository_manifests h i x l = Ok l' ->
  InitDocument.errs l' = [] ->
  InitDocument.errs l = [] /\ manifests_shaped x.
Proof.
  unfold InitDocument.check_repository_manifests, manifests_shaped.
  intros Hrun Hclean.
  destruct x as [| | | | |r];
    try (apply ok_inj in Hrun; subst l'; split; [exact Hclean | exact I]).
  destruct (lookup "manifests" r) as [ms|].
  2:{ apply ok_inj in Hrun; subst l'; split; [exact Hclean | exact I]. }
  destruct ms as [| | | |ms|];
    try (apply ok_inj in Hrun; subst l'; simpl in Hclean;
         apply app_eq_nil in Hclean; destruct Hclean as [_ Hc];
         discriminate Hc).
  eapply manifest_loop_clean; eassumption.
Qed.

Lemma package_manifests_sound h xs es ws :
  InitDocument.validate_package_manifests h (JArr xs) = Ok (true, es, ws) ->
  es = [] /\ Forall manifests_shaped xs.
Proof.
  unfold InitDocument.validate_package_manifests. simpl. intros Hrun.
  apply bind_ok in Hrun. destruct Hrun as (l & Hloop & Hrun).
  apply ok_inj in Hrun. unfold InitDocument.close in Hrun.
  destruct (InitDocument.errs l) eqn:He; inversion Hrun; subst.
  split; [reflexivity|].
  clear Hrun. revert Hloop He. generalize InitDocument.no_messages.
  generalize 0%nat.
  induction xs as [|x xs IH]; simpl; intros i l0 Hloop He.
  - constructor.
  - apply bind_ok in Hloop. destruct Hloop as (l1 & Hx & Hrest).
    assert (Hc1 : InitDocument.errs l1 = []).
    { clear IH Hx. revert Hrest He. generalize (S i). revert l1.
      induction xs as [|y ys IHy]; simpl; intros l1 j Hrest He.
      - apply ok_inj in Hrest. congruence.
      - apply bind_ok in Hrest. destruct Hrest as (l2 & Hy & Hrest).
        specialize (IHy _ _ Hrest He).
        apply (check_repository_manifests_clean _ _ _ _ _ Hy IHy). }
    constructor.
    + apply (check_repository_manifests_clean _ _ _ _ _ Hx Hc1).
    + apply (IH _ _ Hrest He).
Qed.

(** X6: the manifest stage accepts a list of repository entries only if,
    in every entry that lists manifests, they are a list of objects that
    each carry a type, a relative path and a data object. *)
Theorem package_manifests_accepts_shaped (h : InitDocument.host)
        (xs : list json) (es ws : list InitDocument.message) :
  InitDocument.validate_package_manifests h (JArr xs) = Ok (true, es, ws) ->
  es = [] /\ Forall manifests_shaped xs.
Proof. apply package_manifests_sound. Qed.

(** A loop run on related states, with bodies that keep the relation,
    returns related states. *)
Lemma for_each_simulation {A St St' : Type} (R : St -> St' -> Prop)
      (body : nat -> A -> St -> res St)
      (body' : nat -> A -> St' -> res St') :
  (forall i x s t s1,
     R s t -> body i x s = Ok s1 ->
     exists t1, body' i x t = Ok t1 /\ R s1 t1) ->
  forall l i s t s',
    R s t -> for_each body i l s = Ok s' ->
    exists t', for_each body' i l t = Ok t' /\ R s' t'.
Proof.
  intros Hstep l. induction l as [|x l IH]; simpl; intros i s t s' Hst Hrun.
  - apply ok_inj in Hrun. subst s'. eauto.
  - apply bind_ok in Hrun. destruct Hrun as (s1 & Hx & Hrest).
    destruct (Hstep _ _ _ _ _ Hst Hx) as (t1 & Hx' & Hst1).
    destruct (IH _ _ _ _ Hst1 Hrest) as (t' & Hrest' & Hst').
    exists t'. rewrite Hx'. simpl. auto.
Qed.

Lemma check_manifest_path_hosts h h' rp f l t l1 :
  InitDocument.errs l = InitDocument.errs t ->
  InitDocument.check_manifest_path h rp f l = Ok l1 ->
  exists t1, InitDocument.check_manifest_path h' rp f t = Ok t1 /\
             InitDocument.errs l1 = InitDocument.errs t1.
Proof.
  unfold InitDocument.check_manifest_path. intros Hlt Hrun.
  destruct (lookup "path" f) as [v|].
  2:{ apply ok_inj in Hrun. subst l1. eauto. }
  destruct v as [| | |p| |]; try discriminate Hrun.
  destruct (truthy rp && negb (InitDocument.isabs p)).
  - destruct rp; try discriminate Hrun. apply ok_inj in Hrun. subst l1.
    eexists. split; [reflexivity|].
    repeat match goal with
           | |- context [if path_exists ?w ?q then _ else _] =>
               destruct (path_exists w q)
           end;
      destruct (InitDocument.isabs p); simpl; congruence.
  - apply ok_inj in Hrun. subst l1. eexists. split; [reflexivity|].
    destruct (InitDocument.isabs p); simpl; congruence.
Qed.

Lemma check_manifest_data_related f l t l1 :
  InitDocument.errs l = InitDocument.errs t ->
  InitDocument.check_manifest_data f l = Ok l1 ->
  exists t1, InitDocument.check_manifest_data f t = Ok t1 /\
             InitDocument.errs l1 = InitDocument.errs t1.
Proof.
  unfold InitDocument.check_manifest_data. intros Hlt Hrun.
  destruct (lookup "data" f) as [v|].
  2:{ apply ok_inj in Hrun. subst l1. eauto. }
  destruct v as [| | | | |d];
    try (apply ok_inj in Hrun; subst l1; eexists;
         split; [reflexivity | simpl; congruence]).
  destruct (py_eq (dict_get f "type" (JStr "")) (JStr "npm")).
  { apply ok_inj in Hrun. subst l1. eexists. split; [reflexivity|].
    destruct (has_key "name" d); simpl; congruence. }
  destruct (py_eq (dict_get f "type" (JStr "")) (JStr "composer")).
  { apply ok_inj in Hrun. subst l1. eexists. split; [reflexivity|].
    destruct (has_key "name" d); simpl; congruence. }
  destruct (py_eq (dict_get f "type" (JStr "")) (JStr "cargo")).
  2:{ apply ok_inj in Hrun. subst l1. eauto. }
  destruct (lookup "package" d) as [package|].
  2:{ apply ok_inj in Hrun. subst l1. eauto. }
  apply bind_ok in Hrun. destruct Hrun as (named & Hnamed & Hrun).
  apply ok_inj in Hrun. subst l1. rewrite Hnamed. simpl.
  eexists. split; [reflexivity|]. destruct named; simpl; congruence.
Qed.

Lemma check_manifest_hosts h h' name rp i mf l t l1 :
  InitDocument.errs l = InitDocument.errs t ->
  InitDocument.check_manifest h name rp i mf l = Ok l1 ->
  exists t1, InitDocument.check_manifest h' name rp i mf t = Ok t1 /\
             InitDocument.errs l1 = InitDocument.errs t1.
Proof.
  unfold InitDocument.check_manifest. intros Hlt Hrun.
  destruct mf as [| | | | |f];
    try (apply ok_inj in Hrun; subst l1; eexists;
         split; [reflexivity | simpl; congruence]).
  apply bind_ok in Hrun. destruct Hrun as (l2 & Hpath & Hdata).
  eapply check_manifest_path_hosts with (h' := h') in Hpath.
  - destruct Hpath as (t2 & Ht2 & Hlt2). rewrite Ht2. simpl.
    eapply check_manifest_data_related; eassumption.
  - rewrite !check_manifest_type_errs. simpl. congruence.
Qed.

Lemma check_repository_manifests_hosts h h' i x l t l1 :
  InitDocument.errs l = InitDocument.errs t ->
  InitDocument.check_repository_manifests h i x l = Ok l1 ->
  exists t1,
    InitDocument.check_repository_manifests h' i x t = Ok t1 /\
    InitDocument.errs l1 = InitDocument.errs t1.
Proof.
  unfold InitDocument.check_repository_manifests. intros Hlt Hrun.
  destruct x as [| | | | |r];
    try (apply ok_inj in Hrun; subst l1; eauto).
  destruct (lookup "manifests" r) as [ms|].
  2:{ apply ok_inj in Hrun; subst l1; eauto. }
  destruct ms as [| | | |ms|];
    try (apply ok_inj in Hrun; subst l1; eexists;
         split; [reflexivity | simpl; congruence]).
  eapply for_each_simulation
    with (R := fun a b => InitDocument.errs a = InitDocument.errs b);
    [|exact Hlt | exact Hrun].
  intros. eapply check_manifest_hosts; eassumption.
Qed.

(** X7: the verdict and the errors of the manifest stage are the same on
    every host: whether a manifest file exists changes its warnings only. *)
Theorem manifest_errors_ignore_the_disk (h h' : InitDocument.host)
        (repositories : json) (valid : bool)
        (es ws : list InitDocument.message) :
  InitDocument.validate_package_manifests h repositories =
    Ok (valid, es, ws) ->
  exists ws',
    InitDocument.validate_package_manifests h' repositories =
      Ok (valid, es, ws').
Proof.
  unfold InitDocument.validate_package_manifests. intros Hrun.
  apply bind_ok in Hrun. destruct Hrun as (xs & Hxs & Hrun).
  apply bind_ok in Hrun. destruct Hrun as (l & Hloop & Hrun).
  apply ok_inj in Hrun. rewrite Hxs. simpl.
  eapply for_each_simulation
    with (R := fun a b => InitDocument.errs a = InitDocument.errs b)
         (body' := InitDocument.check_repository_manifests h')
         (t := InitDocument.no_messages) in Hloop.
  - destruct Hloop as (t' & Hloop' & Hlt). rewrite Hloop'. simpl.
    unfold InitDocument.close in *. rewrite <- Hlt.
    inversion Hrun; subst. eauto.
  - intros. eapply check_repository_manifests_hosts; eassumption.
  - reflexivity.
Qed.

(** ** The timestamp stage of validate-init.py *)

Lemma check_generated_at_kinds `{Runtime} metadata t ws :
  InitDocument.check_generated_at metadata t = Ok ws ->
  forall v, ~ In (InitDocument.TimestampInFuture v) ws.
Proof.
  unfold InitDocument.check_generated_at. intros Hrun v Hin.
  apply bind_ok in Hrun. destruct Hrun as (present & _ & Hrun).
  destruct present.
  - apply bind_ok in Hrun. destruct Hrun as (g & _ & Hrun).
    destruct (parse_timestamp g) as [d|e].
    + apply bind_ok in Hrun. destruct Hrun as (apart & _ & Hrun).
      apply ok_inj in Hrun. subst ws.
      destruct apart; simpl in Hin; [destruct Hin as [Hin|[]]|];
        try discriminate Hin; contradiction.
    + destruct e; try discriminate Hrun;
        apply bind_ok in Hrun; destruct Hrun as (shown & _ & Hrun);
        apply ok_inj in Hrun; subst ws;
        destruct Hin as [Hin|[]]; discriminate Hin.
  - apply ok_inj in Hrun. subst ws. exact Hin.
Qed.

(** X8: the timestamp stage never rejects a document, and for a timestamp
    that carries a UTC offset it warns of a timestamp in the future exactly
    when the instant is later than the clock of the host. *)
Theorem future_timestamps_are_flagged `{Runtime} (h : InitDocument.host)
        (md : list (string * json)) (ts : json) (t : datetime) (o : Z)
        (valid : bool) (ws : list InitDocument.message) :
  lookup "timestamp" md = Some ts ->
  parse_timestamp ts = Ok t ->
  dt_offset t = Some o ->
  InitDocument.validate_timestamps h (JObj md) = Ok (valid, ws) ->
  valid = true /\
  (In (InitDocument.TimestampInFuture ts) ws <->
   InitDocument.host_clock h < dt_local t - o).
Proof.
  intros Hts Hparse Hoff. unfold InitDocument.validate_timestamps.
  simpl. unfold has_key. rewrite Hts. simpl. rewrite Hparse.
  unfold InitDocument.dt_gt, InitDocument.utc_now. rewrite Hoff. simpl.
  intros Hrun. apply bind_ok in Hrun. destruct Hrun as (w2 & Hw2 & Hrun).
  apply ok_inj in Hrun. inversion Hrun; subst. split; [reflexivity|].
  rewrite Z.sub_0_r.
  destruct (Z.ltb_spec (InitDocument.host_clock h) (dt_local t - o))
    as [Hlt|Hge].
  - split; [auto|]. intros _. left. reflexivity.
  - split; [|lia]. simpl. intros Hin. exfalso.
    eapply check_generated_at_kinds; eassumption.
Qed.

Lemma naive_timestamp_raises `{Runtime} h md ts t :
  lookup "timestamp" md = Some ts ->
  parse_timestamp ts = Ok t ->
  dt_offset t = None ->
  InitDocument.validate_timestamps h (JObj md) = Raise TypeError.
Proof.
  intros Hts Hparse Hoff. unfold InitDocument.validate_timestamps.
  simpl. unfold has_key. rewrite Hts. simpl. rewrite Hparse.
  unfold InitDocument.dt_gt, InitDocument.utc_now. rewrite Hoff.
  reflexivity.
Qed.

(** X9: a timestamp that parses without a UTC offset makes the timestamp
    stage raise TypeError, so that a run on such a document returns no exit
    code other than the 2 of a rejected schema. *)
Theorem naive_timestamp_aborts `{Runtime} (h : InitDocument.host)
        (m md : list (string * json)) (ts : json) (t : datetime) :
  lookup "metadata" m = Some (JObj md) ->
  lookup "timestamp" md = Some ts ->
  parse_timestamp ts = Ok t ->
  dt_offset t = None ->
  InitDocument.validate_timestamps h (JObj md) = Raise TypeError /\
  forall code out,
    InitDocument.validate_loaded h (JObj m) = Ok (code, out) -> code = 2.
Proof.
  intros Hmd Hts Hparse Hoff.
  pose proof (naive_timestamp_raises h md ts t Hts Hparse Hoff) as Hraise.
  split; [exact Hraise|]. intros code out Hrun.
  unfold InitDocument.validate_loaded in Hrun.
  apply bind_ok in Hrun. destruct Hrun as ([valid es] & _ & Hrun).
  destruct valid.
  - exfalso. cbn [negb py_get bind] in Hrun. rewrite Hmd in Hrun.
    apply bind_ok in Hrun. destruct Hrun as (v2 & _ & Hrun).
    apply bind_ok in Hrun. destruct Hrun as (v3 & _ & Hrun).
    apply bind_ok in Hrun. destruct Hrun as (v4 & Hv4 & _).
    rewrite Hraise in Hv4. discriminate Hv4.
  - apply ok_inj in Hrun. inversion Hrun. reflexivity.
Qed.

(** ** What a completed run of validate-init.py has established *)

Lemma summary_shows s code out :
  InitDocument.summary s = (code, out) ->
  shown_errors out = shown_errors (InitDocument.shown s) /\
  shown_warnings out = shown_warnings (InitDocument.shown s).
Proof.
  unfold InitDocument.summary.
  destruct (InitDocument.failed s); [|destruct (InitDocument.warned s)];
    intros Hs; inversion Hs; subst;
    rewrite shown_errors_app, shown_warnings_app; simpl;
    rewrite !app_nil_r; auto.
Qed.

Lemma emit_warnings_shows ws s :
  shown_errors (InitDocument.shown (InitDocument.emit_warnings ws s)) =
  shown_errors (InitDocument.shown s) /\
  shown_warnings (InitDocument.shown (InitDocument.emit_warnings ws s)) =
  shown_warnings (InitDocument.shown s) ++ ws.
Proof.
  unfold InitDocument.emit_warnings. destruct ws as [|m ws].
  - rewrite app_nil_r. auto.
  - cbn [InitDocument.shown].
    rewrite shown_errors_app, shown_warnings_app, shown_errors_warnings,
      shown_warnings_warnings, app_nil_r. auto.
Qed.

Lemma emit_shows loc v s :
  balanced v ->
  shown_errors (InitDocument.shown (InitDocument.emit loc v s)) =
  shown_errors (InitDocument.shown s) ++ snd (fst v) /\
  shown_warnings (InitDocument.shown (InitDocument.emit loc v s)) =
  shown_warnings (InitDocument.shown s) ++ snd v.
Proof.
  destruct v as [[valid es] ws]. unfold balanced, InitDocument.emit.
  cbn [fst snd]. intros Hv.
  destruct (emit_warnings_shows ws
              (if valid then s
               else InitDocument.mk_state true (InitDocument.warned s)
                      (InitDocument.shown s ++
                       map (fun e => InitDocument.IError e loc) es)))
    as [He Hw].
  rewrite He, Hw. destruct valid.
  - destruct es; [|discriminate Hv]. rewrite app_nil_r. auto.
  - cbn [InitDocument.shown].
    rewrite shown_errors_app, shown_warnings_app, shown_errors_errors,
      shown_warnings_errors, app_nil_r. auto.
Qed.

Lemma repository_paths_balanced h repos v :
  InitDocument.validate_repository_paths h repos = Ok v -> balanced v.
Proof.
  unfold InitDocument.validate_repository_paths. intros Hv.
  apply bind_ok in Hv. destruct Hv as (? & _ & Hv).
  apply bind_ok in Hv. destruct Hv as (? & _ & Hv).
  apply ok_inj in Hv. subst v. apply close_balanced.
Qed.

Lemma package_manifests_balanced h repos v :
  InitDocument.validate_package_manifests h repos = Ok v -> balanced v.
Proof.
  unfold InitDocument.validate_package_manifests. intros Hv.
  apply bind_ok in Hv. destruct Hv as (? & _ & Hv).
  apply bind_ok in Hv. destruct Hv as (? & _ & Hv).
  apply ok_inj in Hv. subst v. apply close_balanced.
Qed.

(** The stages of a run that got past the schema stage, and what it
    printed. *)
Lemma validate_loaded_run `{Runtime} h data code out :
  InitDocument.validate_loaded h data = Ok (code, out) ->
  InitDocument.validate_schema_structure data = Ok (true, []) ->
  exists repos xs v2 v3 md v4 ws total,
    py_get data "repositories" (JArr []) = Ok repos /\
    InitDocument.validate_repository_paths h repos = Ok v2 /\
    InitDocument.validate_package_manifests h repos = Ok v3 /\
    py_get data "metadata" (JObj []) = Ok md /\
    InitDocument.validate_timestamps h md = Ok (v4, ws) /\
    py_iter repos = Ok xs /\
    InitDocument.total_manifests xs = Ok total /\
    shown_errors out = snd (fst v2) ++ snd (fst v3) /\
    shown_warnings out =
      snd v2 ++ snd v3 ++ ws ++
      (if Nat.eqb total 0 then [InitDocument.NoManifests] else []).
Proof.
  unfold InitDocument.validate_loaded. intros Hrun Hschema.
  rewrite Hschema in Hrun. cbn [bind negb] in Hrun.
  apply bind_ok in Hrun. destruct Hrun as (repos & Hrepos & Hrun).
  apply bind_ok in Hrun. destruct Hrun as (v2 & Hv2 & Hrun).
  apply bind_ok in Hrun. destruct Hrun as (v3 & Hv3 & Hrun).
  apply bind_ok in Hrun. destruct Hrun as (md & Hmd & Hrun).
  apply bind_ok in Hrun. destruct Hrun as ([v4 ws] & Hv4 & Hrun).
  apply bind_ok in Hrun. destruct Hrun as (xs & Hxs & Hrun).
  apply bind_ok in Hrun. destruct Hrun as (total & Htotal & Hrun).
  apply ok_inj in Hrun. apply summary_shows in Hrun.
  destruct Hrun as [He Hw].
  exists repos, xs, v2, v3, md, v4, ws, total.
  repeat (split; [assumption|]).
  pose proof (repository_paths_balanced _ _ _ Hv2) as Hb2.
  pose proof (package_manifests_balanced _ _ _ Hv3) as Hb3.
  set (s2 := InitDocument.emit "repositories" v2 InitDocument.initial)
    in *.
  set (s3 := InitDocument.emit "manifests" v3 s2) in *.
  set (s4 := InitDocument.emit_warnings ws s3) in *.
  destruct (emit_shows "repositories" v2 InitDocument.initial Hb2)
    as [He2 Hw2].
  destruct (emit_shows "manifests" v3 s2 Hb3) as [He3 Hw3].
  destruct (emit_warnings_shows ws s3) as [He4 Hw4].
  fold s2 in He2, Hw2. fold s3 in He3, Hw3. fold s4 in He4, Hw4.
  simpl in He2, Hw2.
  assert (Hs4 : shown_errors (InitDocument.shown s4) =
                  snd (fst v2) ++ snd (fst v3) /\
                shown_warnings (InitDocument.shown s4) =
                  snd v2 ++ snd v3 ++ ws).
  { rewrite He4, Hw4, He3, Hw3, He2, Hw2, app_assoc. auto. }
  destruct Hs4 as [Hes Hws].
  destruct (Nat.eqb total 0).
  - cbn [InitDocument.shown] in He, Hw.
    rewrite shown_errors_app in He. rewrite shown_warnings_app in Hw.
    simpl in He, Hw. rewrite app_nil_r in He.
    rewrite He, Hw, Hes, Hws, <- !app_assoc. auto.
  - rewrite He, Hw, Hes, Hws, app_nil_r. auto.
Qed.

Lemma in_shown_errors m loc out :
  In (InitDocument.IError m loc) out -> In m (shown_errors out).
Proof.
  intros Hin. unfold shown_errors. apply in_flat_map.
  exists (InitDocument.IError m loc). split; [exact Hin | left; auto].
Qed.

(** The sum over the repositories needs every entry to be an object. *)
Lemma total_manifests_objects xs total :
  InitDocument.total_manifests xs = Ok total ->
  Forall (fun x => is_dict x = true) xs.
Proof.
  revert total. induction xs as [|x xs IH]; simpl; intros total Hrun.
  - constructor.
  - apply bind_ok in Hrun. destruct Hrun as (ms & Hms & Hrun).
    apply bind_ok in Hrun. destruct Hrun as (n & _ & Hrun).
    apply bind_ok in Hrun. destruct Hrun as (t & Ht & _).
    constructor; [|eapply IH; exact Ht].
    destruct x; try discriminate Hms. reflexivity.
Qed.

Lemma objects_only_err m l :
  not_an_object_message m = false -> objects_only l ->
  objects_only (InitDocument.err m l).
Proof.
  intros Hm Hl. unfold objects_only. simpl.
  apply Forall_app. split; [exact Hl | constructor; auto].
Qed.

Lemma objects_only_same l l' :
  InitDocument.errs l' = InitDocument.errs l ->
  objects_only l -> objects_only l'.
Proof. unfold objects_only. intros ->. auto. Qed.

Lemma check_manifest_path_objects h rp f l l' :
  InitDocument.check_manifest_path h rp f l = Ok l' ->
  objects_only l -> objects_only l'.
Proof.
  unfold InitDocument.check_manifest_path. intros Hrun Hl.
  destruct (lookup "path" f) as [v|].
  2:{ apply ok_inj in Hrun. subst l'. exact Hl. }
  destruct v as [| | |p| |]; try discriminate Hrun.
  assert (H1 : objects_only
                 (if InitDocument.isabs p
                  then InitDocument.err (InitDocument.ManifestPathAbsolute p) l
                  else l)).
  { destruct (InitDocument.isabs p); [apply objects_only_err|]; auto. }
  destruct (truthy rp && negb (InitDocument.isabs p)).
  - destruct rp; try discriminate Hrun. apply ok_inj in Hrun. subst l'.
    match goal with
    | |- context [if path_exists ?w ?q then _ else _] =>
        destruct (path_exists w q)
    end; [exact H1|].
    eapply objects_only_same; [|exact H1]. reflexivity.
  - apply ok_inj in Hrun. subst l'. exact H1.
Qed.

Lemma check_manifest_data_objects f l l' :
  InitDocument.check_manifest_data f l = Ok l' ->
  objects_only l -> objects_only l'.
Proof.
  unfold InitDocument.check_manifest_data. intros Hrun Hl.
  destruct (lookup "data" f) as [v|].
  2:{ apply ok_inj in Hrun. subst l'. exact Hl. }
  destruct v as [| | | | |d];
    try (apply ok_inj in Hrun; subst l'; apply objects_only_err; auto).
  eapply objects_only_same; [|exact Hl].
  destruct (py_eq (dict_get f "type" (JStr "")) (JStr "npm")).
  { apply ok_inj in Hrun. subst l'. destruct (has_key "name" d);
      reflexivity. }
  destruct (py_eq (dict_get f "type" (JStr "")) (JStr "composer")).
  { apply ok_inj in Hrun. subst l'. destruct (has_key "name" d);
      reflexivity. }
  destruct (py_eq (dict_get f "type" (JStr "")) (JStr "cargo")).
  2:{ apply ok_inj in Hrun. subst l'. reflexivity. }
  destruct (lookup "package" d).
  2:{ apply ok_inj in Hrun. subst l'. reflexivity. }
  apply bind_ok in Hrun. destruct Hrun as (named & _ & Hrun).
  apply ok_inj in Hrun. subst l'. destruct named; reflexivity.
Qed.

Lemma check_manifest_objects h name rp i mf l l' :
  InitDocument.check_manifest h name rp i mf l = Ok l' ->
  objects_only l -> objects_only l'.
Proof.
  unfold InitDocument.check_manifest. intros Hrun Hl.
  destruct mf as [| | | | |f];
    try (apply ok_inj in Hrun; subst l'; apply objects_only_err; auto).
  apply bind_ok in Hrun. destruct Hrun as (l2 & Hpath & Hdata).
  eapply check_manifest_data_objects; [exact Hdata|].
  eapply check_manifest_path_objects; [exact Hpath|].
  eapply objects_only_same; [apply check_manifest_type_errs|].
  unfold objects_only. cbn [InitDocument.errs].
  apply Forall_app. split; [exact Hl|].
  apply Forall_forall. intros m Hm. apply in_map_iff in Hm.
  destruct Hm as (? & <- & _). reflexivity.
Qed.

Lemma check_repository_manifests_objects h i x l l' :
  InitDocument.check_repository_manifests h i x l = Ok l' ->
  objects_only l -> objects_only l'.
Proof.
  unfold InitDocument.check_repository_manifests. intros Hrun Hl.
  destruct x as [| | | | |r];
    try (apply ok_inj in Hrun; subst l'; exact Hl).
  destruct (lookup "manifests" r) as [ms|].
  2:{ apply ok_inj in Hrun; subst l'; exact Hl. }
  destruct ms as [| | | |ms|];
    try (apply ok_inj in Hrun; subst l'; apply objects_only_err; auto).
  eapply for_each_invariant with (P := objects_only);
    [exact Hrun | | exact Hl].
  intros k mf t t' _ Hmf. eapply check_manifest_objects; exact Hmf.
Qed.

Lemma check_repository_objects h i r s s' :
  InitDocument.check_repository h i (JObj r) s = Ok s' ->
  objects_only (InitDocument.plog s) ->
  objects_only (InitDocument.plog s').
Proof.
  unfold InitDocument.check_repository. intros Hrun Hl.
  destruct (lookup "path" r) as [path|].
  2:{ apply ok_inj in Hrun; subst s'; apply objects_only_err; auto. }
  destruct path as [| | |p| |]; try discriminate Hrun.
  destruct (InitDocument.isabs p); simpl in Hrun.
  2:{ apply ok_inj in Hrun; subst s'; apply objects_only_err; auto. }
  assert (H1 : objects_only
                 (InitDocument.plog
                    (if set_mem (JStr p) (InitDocument.seen_paths s)
                     then InitDocument.path_error
                            (InitDocument.DuplicatePath p) s
                     else s))).
  { destruct (set_mem (JStr p) (InitDocument.seen_paths s));
      [apply objects_only_err|]; auto. }
  destruct (path_exists (InitDocument.host_world h) p); simpl in Hrun.
  2:{ apply ok_inj in Hrun; subst s'; apply objects_only_err; auto. }
  apply check_name_keeps in Hrun. destruct Hrun as [He _].
  eapply objects_only_same; [exact He|].
  destruct (InitDocument.isdir h p); simpl;
    [exact H1 | apply objects_only_err; auto].
Qed.

Lemma missing_metadata_kinds fields metadata es :
  InitDocument.missing_metadata fields metadata = Ok es ->
  Forall (fun m => not_an_object_message m = false) es.
Proof.
  revert es. induction fields as [|f fields IH]; simpl; intros es Hrun.
  - apply ok_inj in Hrun. subst es. constructor.
  - apply bind_ok in Hrun. destruct Hrun as (present & _ & Hrun).
    apply bind_ok in Hrun. destruct Hrun as (rest & Hrest & Hrun).
    apply ok_inj in Hrun. subst es. apply Forall_app.
    split; [destruct present; repeat constructor | apply IH; exact Hrest].
Qed.

Lemma schema_structure_kinds `{Runtime} data valid es :
  InitDocument.validate_schema_structure data = Ok (valid, es) ->
  Forall (fun m => not_an_object_message m = false) es.
Proof.
  unfold InitDocument.validate_schema_structure. intros Hrun.
  apply bind_ok in Hrun. destruct Hrun as (has_md & _ & Hrun).
  destruct has_md; cbn [negb] in Hrun.
  2:{ apply ok_inj in Hrun. inversion Hrun; subst. repeat constructor. }
  apply bind_ok in Hrun. destruct Hrun as (metadata & _ & Hrun).
  apply bind_ok in Hrun. destruct Hrun as (e1 & He1 & Hrun).
  apply bind_ok in Hrun. destruct Hrun as (e2 & He2 & Hrun).
  apply bind_ok in Hrun. destruct Hrun as (e3 & He3 & Hrun).
  apply bind_ok in Hrun. destruct Hrun as (e4 & He4 & Hrun).
  apply ok_inj in Hrun. inversion Hrun; subst. clear Hrun.
  apply Forall_app; split;
    [|apply Forall_app; split; [|apply Forall_app; split]].
  - eapply missing_metadata_kinds; exact He1.
  - unfold InitDocument.check_schema_version in He2.
    apply bind_ok in He2. destruct He2 as (present & _ & He2).
    destruct present.
    + apply bind_ok in He2. destruct He2 as (v & _ & He2).
      apply bind_ok in He2. destruct He2 as (matches & _ & He2).
      apply ok_inj in He2. subst e2. destruct matches; repeat constructor.
    + apply ok_inj in He2. subst e2. constructor.
  - unfold InitDocument.check_timestamp in He3.
    apply bind_ok in He3. destruct He3 as (present & _ & He3).
    destruct present.
    + apply bind_ok in He3. destruct He3 as (v & _ & He3).
      destruct (parse_timestamp v) as [d|e].
      * apply ok_inj in He3. subst e3. constructor.
      * destruct e; try discriminate He3;
          apply bind_ok in He3; destruct He3 as (shown & _ & He3);
          apply ok_inj in He3; subst e3; repeat constructor.
    + apply ok_inj in He3. subst e3. constructor.
  - unfold InitDocument.check_repositories in He4.
    apply bind_ok in He4. destruct He4 as (present & _ & He4).
    destruct present; cbn [negb] in He4.
    + apply bind_ok in He4. destruct He4 as (r & _ & He4).
      destruct r as [| | | |[|]|]; apply ok_inj in He4; subst e4;
        repeat constructor.
    + apply ok_inj in He4. subst e4. repeat constructor.
Qed.

(** X10: a run of validate-init.py that returns has not printed that a
    repository entry is not an object: on such an entry the closing count of
    the manifests raises AttributeError. *)
Theorem entry_not_an_object_aborts `{Runtime} (h : InitDocument.host)
        (code : Z) (out : list InitDocument.output) :
  InitDocument.main h = Ok (code, out) ->
  forall idx location,
    ~ In (InitDocument.IError (InitDocument.RepositoryNotObject idx)
            location) out.
Proof.
  unfold InitDocument.main. intros Hrun idx loc Hin.
  destruct (Init.init_file (InitDocument.host_world h)) as [p|].
  2:{ apply ok_inj in Hrun. inversion Hrun; subst.
      destruct Hin as [Hin|[]]; discriminate Hin. }
  destruct (load_json (InitDocument.host_world h) p) as [data|e].
  2:{ destruct e; apply ok_inj in Hrun; inversion Hrun; subst;
        destruct Hin as [Hin|[]]; discriminate Hin. }
  apply in_shown_errors in Hin.
  assert (Hno : forall es,
             Forall (fun m => not_an_object_message m = false) es ->
             ~ In (InitDocument.RepositoryNotObject idx) es).
  { intros es Hall Hes. rewrite Forall_forall in Hall.
    apply Hall in Hes. discriminate Hes. }
  pose proof Hrun as Hstages. apply validate_loaded_stages in Hstages.
  destruct Hstages as [(es & _ & _ & -> & Hschema)|(_ & _ & _ & Hschema)].
  - rewrite shown_errors_errors in Hin.
    eapply Hno; [|exact Hin]. eapply schema_structure_kinds; exact Hschema.
  - destruct (validate_loaded_run _ _ _ _ Hrun Hschema)
      as (repos & xs & v2 & v3 & md & v4 & ws & total & _ & Hv2 & Hv3 & _ &
          _ & Hxs & Htotal & He & _).
    apply total_manifests_objects in Htotal.
    rewrite He in Hin. eapply Hno; [|exact Hin].
    apply Forall_app. split.
    + unfold InitDocument.validate_repository_paths in Hv2.
      rewrite Hxs in Hv2. cbn [bind] in Hv2.
      apply bind_ok in Hv2. destruct Hv2 as (s & Hloop & Hv2).
      apply ok_inj in Hv2. subst v2. simpl.
      eapply for_each_invariant
        with (P := fun s => objects_only (InitDocument.plog s));
        [exact Hloop | | constructor].
      intros k x t t' Hk Hx.
      rewrite Forall_forall in Htotal.
      apply nth_error_In in Hk. apply Htotal in Hk.
      destruct x; try discriminate Hk.
      eapply check_repository_objects; exact Hx.
    + unfold InitDocument.validate_package_manifests in Hv3.
      rewrite Hxs in Hv3. cbn [bind] in Hv3.
      apply bind_ok in Hv3. destruct Hv3 as (l & Hloop & Hv3).
      apply ok_inj in Hv3. subst v3. simpl.
      eapply for_each_invariant with (P := objects_only);
        [exact Hloop | | constructor].
      intros k x t t' _ Hx.
      eapply check_repository_manifests_objects; exact Hx.
Qed.

Lemma three_level_zero {A : Type} (es ws : list A) :
  0 = three_level es ws -> es = [] /\ ws = [].
Proof. destruct es, ws; simpl; intros Hz; try discriminate Hz; auto. Qed.

Lemma timestamps_quiet `{Runtime} h md ts t valid :
  lookup "timestamp" md = Some ts ->
  parse_timestamp ts = Ok t ->
  InitDocument.validate_timestamps h (JObj md) = Ok (valid, []) ->
  not_in_future h ts.
Proof.
  intros Hts Hparse. unfold InitDocument.validate_timestamps.
  simpl. unfold has_key. rewrite Hts. simpl. rewrite Hparse.
  unfold InitDocument.dt_gt, InitDocument.utc_now. simpl.
  destruct (dt_offset t) as [o|] eqn:Hoff; simpl; [|discriminate].
  intros Hrun. apply bind_ok in Hrun. destruct Hrun as (w2 & _ & Hrun).
  apply ok_inj in Hrun. inversion Hrun as [[Hv Hws]].
  exists t, o. repeat split; auto.
  rewrite Z.sub_0_r in Hws.
  destruct (Z.ltb_spec (InitDocument.host_clock h) (dt_local t - o));
    [discriminate Hws | assumption].
Qed.

Lemma some_manifest_listed xs : forall total,
  InitDocument.total_manifests xs = Ok total ->
  total <> 0%nat ->
  Forall manifests_shaped xs ->
  Exists lists_a_manifest xs.
Proof.
  induction xs as [|x xs IH]; simpl; intros total Hrun Hpos Hall.
  - apply ok_inj in Hrun. congruence.
  - apply bind_ok in Hrun. destruct Hrun as (ms & Hms & Hrun).
    apply bind_ok in Hrun. destruct Hrun as (n & Hn & Hrun).
    apply bind_ok in Hrun. destruct Hrun as (t & Ht & Hrun).
    apply ok_inj in Hrun. inversion Hall as [|? ? Hx Hrest]; subst.
    destruct n as [|n].
    + apply Exists_cons_tl. eapply IH; [exact Ht | | exact Hrest].
      simpl in Hpos. exact Hpos.
    + apply Exists_cons_hd.
      destruct x as [| | | | |r]; try discriminate Hms.
      simpl in Hms. apply ok_inj in Hms. simpl in Hx.
      destruct (lookup "manifests" r) as [v|] eqn:Hv.
      * subst v. destruct ms as [| | | |[|mf ms]|];
          try contradiction; try discriminate Hn.
        exists r, mf, ms. auto.
      * subst ms. discriminate Hn.
Qed.

(** X11: a run of validate-init.py exits with 0 only when it found no
    document and printed that it skips the validation, or when the document
    has the structure the schema stage asks for, a timestamp that is not in
    the future, repositories that are distinct existing directories,
    manifests of the expected shape and at least one manifest; it then
    prints the closing PASSED line and nothing else. *)
Theorem clean_exit_certifies `{Runtime} (h : InitDocument.host)
        (out : list InitDocument.output) :
  InitDocument.main h = Ok (0, out) ->
  (Init.init_file (InitDocument.host_world h) = None /\
   out = [InitDocument.ISkipped]) \/
  exists p data,
    Init.init_file (InitDocument.host_world h) = Some p /\
    load_json (InitDocument.host_world h) p = Ok data /\
    certified h data /\
    out = [InitDocument.IPassed].
Proof.
  unfold InitDocument.main. intros Hrun.
  destruct (Init.init_file (InitDocument.host_world h)) as [p|].
  2:{ apply ok_inj in Hrun. inversion Hrun. auto. }
  right. exists p.
  destruct (load_json (InitDocument.host_world h) p) as [data|e].
  2:{ destruct e; discriminate Hrun. }
  exists data. split; [reflexivity|]. split; [reflexivity|].
  pose proof Hrun as Hstages. apply validate_loaded_stages in Hstages.
  destruct Hstages as [(es & _ & Hcode & _)|(s & Hs & Hsum & Hschema)];
    [discriminate Hcode|].
  pose proof (accounted_summary _ _ _ Hs Hsum) as Hzero.
  apply three_level_zero in Hzero. destruct Hzero as [Hne Hnw].
  destruct (validate_loaded_run _ _ _ _ Hrun Hschema)
    as (repos & xs & [[b2 es2] ws2] & [[b3 es3] ws3] & md & v4 & ws &
        total & Hrepos & Hv2 & Hv3 & Hmd & Hv4 & Hxs & Htotal & He & Hw).
  pose proof (repository_paths_balanced _ _ _ Hv2) as Hb2.
  pose proof (package_manifests_balanced _ _ _ Hv3) as Hb3.
  unfold balanced in Hb2, Hb3. cbn [fst snd] in *.
  rewrite Hne in He. rewrite Hnw in Hw.
  symmetry in He, Hw.
  apply app_eq_nil in He. destruct He as [-> ->].
  apply app_eq_nil in Hw. destruct Hw as [-> Hw].
  apply app_eq_nil in Hw. destruct Hw as [-> Hw].
  apply app_eq_nil in Hw. destruct Hw as [-> Hw].
  simpl in Hb2, Hb3. subst b2 b3.
  destruct (Nat.eqb total 0) eqn:Htot; [discriminate Hw|].
  apply Nat.eqb_neq in Htot.
  destruct (schema_structure_sound _ _ Hschema) as [_ Hwf].
  pose proof Hwf as
    (m & mdo & v & ts & d & x & xs' & -> & Hm & Hfields & Hsv & Hsem & Hts &
     Hparse & Hr).
  simpl in Hrepos, Hmd. rewrite Hr in Hrepos. rewrite Hm in Hmd.
  apply ok_inj in Hrepos. apply ok_inj in Hmd. subst repos md.
  simpl in Hxs. apply ok_inj in Hxs. subst xs.
  destruct (repository_paths_sound _ _ _ _ Hv2) as [_ Hplace].
  destruct (package_manifests_sound _ _ _ _ Hv3) as [_ Hshape].
  split.
  - split; [exact Hwf|]. split.
    + exists ts. split; [simpl; rewrite Hm; exact Hts|].
      eapply timestamps_quiet; eassumption.
    + exists (x :: xs'). simpl. rewrite Hr.
      repeat split; auto.
      eapply some_manifest_listed; eassumption.
  - unfold InitDocument.validate_loaded in Hrun.
    rewrite Hschema in Hrun. cbn [bind negb py_get] in Hrun.
    rewrite Hr in Hrun. cbn [bind] in Hrun.
    rewrite Hv2, Hv3 in Hrun. cbn [bind] in Hrun.
    rewrite Hm in Hrun. cbn [bind] in Hrun.
    rewrite Hv4 in Hrun. cbn [bind py_iter] in Hrun.
    rewrite Htotal in Hrun. cbn [bind] in Hrun.
    apply Nat.eqb_neq in Htot. rewrite Htot in Hrun.
    apply ok_inj in Hrun. inversion Hrun. reflexivity.
Qed.

(** ** Parents without children (container and component scripts) *)

Lemma set_mem_eq v y s :
  hashable v = true -> hashable y = true ->
  Forall (fun k => hashable k = true) s ->
  py_eq v y = true -> set_mem y s = true -> set_mem v s = true.
Proof.
  intros Hv Hy Hs Hvy Hin. unfold set_mem in *.
  apply existsb_exists in Hin. destruct Hin as (z & Hz & Hyz).
  apply existsb_exists. exists z. split; [exact Hz|].
  rewrite Forall_forall in Hs.
  eapply py_eq_trans with (b := y); auto.
Qed.

Lemma set_mem_add v y s :
  hashable v = true -> hashable y = true ->
  Forall (fun k => hashable k = true) s ->
  set_mem v (set_add y s) = set_mem v s || py_eq v y.
Proof.
  intros Hv Hy Hs. unfold set_add. destruct (set_mem y s) eqn:Hin.
  - destruct (py_eq v y) eqn:Hvy; [|rewrite orb_false_r; reflexivity].
    rewrite (set_mem_eq v y s); auto.
  - unfold set_mem. rewrite existsb_app. simpl. rewrite orb_false_r.
    reflexivity.
Qed.

Lemma set_add_hashable y s :
  hashable y = true -> Forall (fun k => hashable k = true) s ->
  Forall (fun k => hashable k = true) (set_add y s).
Proof.
  intros Hy Hs. unfold set_add. destruct (set_mem y s); [exact Hs|].
  apply Forall_app. split; [exact Hs | constructor; auto].
Qed.

(** The keys of the grouping dict are the truthy references of the
    entities that are objects. *)
Lemma referenced_parents_spec key xs : forall s s',
  referenced_parents key xs s = Ok s' ->
  Forall (fun k => hashable k = true) s ->
  forall v, hashable v = true ->
    (set_mem v s' = true <->
     set_mem v s = true \/
     exists m, In (JObj m) xs /\
               truthy (dict_get m key JNull) = true /\
               py_eq v (dict_get m key JNull) = true).
Proof.
  induction xs as [|x xs IH]; simpl; intros s s' Hrun Hs v Hv.
  - apply ok_inj in Hrun. subst s'. split; [auto|].
    intros [Hin|(m & [] & _)]. exact Hin.
  - assert (Hskip : (forall m0, x = JObj m0 ->
                                 truthy (dict_get m0 key JNull) = false) ->
                    referenced_parents key xs s = Ok s' ->
                    (set_mem v s' = true <->
                     set_mem v s = true \/
                     exists m0, (x = JObj m0 \/ In (JObj m0) xs) /\
                                truthy (dict_get m0 key JNull) = true /\
                                py_eq v (dict_get m0 key JNull) = true)).
    { intros Hx Hrest. rewrite (IH _ _ Hrest Hs v Hv). split.
      - intros [Hin|(m0 & Hm0 & Ht & He)]; [auto|]. right. exists m0. auto.
      - intros [Hin|(m0 & [Hm0|Hm0] & Ht & He)]; [auto| |].
        + exfalso. rewrite (Hx m0 Hm0) in Ht. discriminate Ht.
        + right. exists m0. auto. }
    destruct x as [| | | | |m];
      try (apply Hskip; [intros ? Hm0; discriminate Hm0 | exact Hrun]).
    destruct (truthy (dict_get m key JNull)) eqn:Ht.
    2:{ apply Hskip; [|exact Hrun].
        intros m0 Hm0. inversion Hm0; subst. exact Ht. }
    destruct (hashable (dict_get m key JNull)) eqn:Hh; [|discriminate Hrun].
    rewrite (IH _ _ Hrun (set_add_hashable _ _ Hh Hs) v Hv).
    rewrite set_mem_add by assumption. split.
    + intros [Hin|(m0 & Hm0 & Ht0 & He)].
      * apply orb_true_iff in Hin. destruct Hin as [Hin|Hin]; [auto|].
        right. exists m. auto.
      * right. exists m0. auto.
    + intros [Hin|(m0 & [Hm0|Hm0] & Ht0 & He)].
      * left. rewrite Hin. reflexivity.
      * inversion Hm0; subst. left. rewrite He. apply orb_true_r.
      * right. exists m0. auto.
Qed.

(** X12: the closing loop of the container and component scripts warns of
    exactly the parent IDs that no entity names: an ID of the parent layer
    is reported if and only if no entity that is an object carries a truthy
    reference equal to it. *)
Theorem childless_parents_exact `{Runtime} (key : string)
        (parent_ids : pyset) (entities : json) (xs : list json)
        (advisories : list finding) :
  Forall (fun k => hashable k = true) parent_ids ->
  py_iter entities = Ok xs ->
  childless_parents key parent_ids entities = Ok advisories ->
  forall v,
    In (ParentWithoutChildren v) advisories <->
    In v parent_ids /\
    forall m, In (JObj m) xs ->
              truthy (dict_get m key JNull) = true ->
              py_eq v (dict_get m key JNull) = false.
Proof.
  intros Hids Hxs Hrun v. unfold childless_parents in Hrun.
  rewrite Hxs in Hrun. cbn [bind] in Hrun.
  apply bind_ok in Hrun. destruct Hrun as (referenced & Href & Hrun).
  apply ok_inj in Hrun. subst advisories.
  pose proof (referenced_parents_spec key xs [] referenced Href
                (Forall_nil _)) as Hspec.
  assert (Hperm : In v (set_order parent_ids) <-> In v parent_ids).
  { split; apply Permutation_in;
      [apply set_order_perm | apply Permutation_sym, set_order_perm]. }
  rewrite in_map_iff. split.
  - intros (w & Hw & Hin). inversion Hw; subst w.
    apply filter_In in Hin. destruct Hin as [Hin Hno].
    apply Hperm in Hin. split; [exact Hin|].
    intros m Hm Ht. destruct (py_eq v (dict_get m key JNull)) eqn:He; auto.
    exfalso. rewrite Forall_forall in Hids.
    apply negb_true_iff in Hno.
    assert (Hyes : set_mem v referenced = true).
    { apply Hspec; [apply Hids; exact Hin|]. right. exists m. auto. }
    congruence.
  - intros [Hin Hnone]. exists v. split; [reflexivity|].
    apply filter_In. split; [apply Hperm; exact Hin|].
    apply negb_true_iff. destruct (set_mem v referenced) eqn:Hmem; auto.
    exfalso. rewrite Forall_forall in Hids.
    apply Hspec in Hmem; [|apply Hids; exact Hin].
    destruct Hmem as [Hmem|(m & Hm & Ht & He)]; [discriminate Hmem|].
    rewrite (Hnone m Hm Ht) in He. discriminate He.
Qed.

(** ** The repository names the systems script reads from init.json *)

Lemma repo_names_objects rs :
  Forall (fun x => is_dict x = true) rs ->
  Systems.repo_names rs = Ok (map repository_label rs).
Proof.
  induction rs as [|x rs IH]; simpl; intros Hall; [reflexivity|].
  inversion Hall as [|? ? Hx Hrest]; subst.
  destruct x; try discriminate Hx. simpl. rewrite (IH Hrest). reflexivity.
Qed.

Lemma repo_names_raises rs :
  Exists (fun x => is_dict x = false) rs ->
  Systems.repo_names rs = Raise AttributeError.
Proof.
  induction rs as [|x rs IH]; intros Hex; inversion Hex; subst; simpl.
  - destruct x; try reflexivity. discriminate.
  - destruct x; try reflexivity. simpl. rewrite (IH H0). reflexivity.
Qed.

(** X13: the systems script reads the repository names of init.json all
    or nothing: when every entry of [repositories] is an object it gets,
    for each, the name, else the path, else the empty string; when one entry
    is not an object it gets no name at all. *)
Theorem init_repos_all_or_nothing (w : world) (init_file_path : string)
        (m : list (string * json)) (rs : list json) :
  files w init_file_path = Doc (JObj m) ->
  lookup "repositories" m = Some (JArr rs) ->
  (Forall (fun x => is_dict x = true) rs ->
   Systems.load_init_repos w init_file_path = map repository_label rs) /\
  (Exists (fun x => is_dict x = false) rs ->
   Systems.load_init_repos w init_file_path = []).
Proof.
  intros Hfile Hrepos. unfold Systems.load_init_repos, load_json.
  rewrite Hfile. cbn [bind py_get]. rewrite Hrepos. cbn [bind py_iter].
  split; intros Hrs.
  - rewrite (repo_names_objects _ Hrs). reflexivity.
  - rewrite (repo_names_raises _ Hrs). reflexivity.
Qed.

(** ** The coupling threshold of the component script *)

Lemma threshold_agrees_spec bound :
  threshold_agrees bound = true ->
  forall tight total,
    (tight <= total)%nat -> (total <= bound)%nat ->
    Components.high_tight_coupling tight total =
    Nat.ltb 0 total && Nat.ltb (3 * total) (10 * tight).
Proof.
  unfold threshold_agrees. intros Hall tight total Htight Htotal.
  rewrite forallb_forall in Hall.
  specialize (Hall total). rewrite forallb_forall in Hall.
  apply Bool.eqb_prop. apply Hall; apply in_seq; lia.
Qed.

Lemma threshold_agrees_500 : threshold_agrees 500 = true.
Proof. vm_compute. reflexivity. Qed.

(** X14: for up to 500 relations, the floating-point test
    [tight_coupling_count > total_relations * 0.3] holds exactly when there
    is a relation and more than three in ten are tightly coupled. *)
Theorem tight_coupling_threshold (tight total : nat) :
  (tight <= total)%nat -> (total <= 500)%nat ->
  Components.high_tight_coupling tight total =
  Nat.ltb 0 total && Nat.ltb (3 * total) (10 * tight).
Proof. apply threshold_agrees_spec. exact threshold_agrees_500. Qed.

(** ** What the entity checks of the layer scripts accept *)

Lemma missing_fields_nil mk fields m :
  missing_fields mk fields m = [] <->
  Forall (fun f => has_key f m = true) fields.
Proof.
  unfold missing_fields. induction fields as [|f fields IH]; simpl.
  - split; auto.
  - destruct (has_key f m) eqn:Hf; simpl.
    + rewrite IH. split; [auto | intros Hall; inversion Hall; auto].
    + split; [discriminate|]. intros Hall. inversion Hall; congruence.
Qed.

Lemma errors_add_error f r : errors (add_error f r) <> [].
Proof. simpl. destruct (errors r); discriminate. Qed.

(** An ID check that leaves the errors empty has read a well-formed ID that
    no earlier entity carries. *)
Lemma check_id_clean m s s1 v :
  check_id m s = Ok s1 ->
  lookup "id" m = Some v ->
  errors (found s1) = [] ->
  errors (found s) = [] /\
  exists id,
    v = JStr id /\ id_tokens true id = true /\
    set_mem (JStr id) (seen s) = false /\
    s1 = mk_scan (found s) (set_add (JStr id) (seen s)).
Proof.
  unfold check_id. intros Hrun Hv Hclean. rewrite Hv in Hrun.
  apply bind_ok in Hrun. destruct Hrun as (matches & Hm & Hrun).
  destruct v as [| | |id| |]; try discriminate Hm.
  simpl in Hm. apply ok_inj in Hm. subst matches.
  apply bind_ok in Hrun. destruct Hrun as (dup & Hdup & Hrun).
  apply ok_inj in Hrun. subst s1. cbn [found seen] in Hclean.
  unfold py_in_set in Hdup. simpl in Hdup. apply ok_inj in Hdup.
  destruct dup.
  { exfalso. eapply errors_add_error. exact Hclean. }
  destruct (id_tokens true id) eqn:Hid.
  2:{ exfalso. eapply errors_add_error. exact Hclean. }
  split; [exact Hclean|]. exists id. repeat split; auto.
Qed.

Lemma check_id_accepts m s id :
  lookup "id" m = Some (JStr id) -> id_tokens true id = true ->
  set_mem (JStr id) (seen s) = false ->
  check_id m s = Ok (mk_scan (found s) (set_add (JStr id) (seen s))).
Proof.
  intros Hv Hid Hseen. unfold check_id. rewrite Hv. simpl.
  rewrite Hid. unfold py_in_set. simpl. rewrite Hseen. reflexivity.
Qed.

(** The loop over the entities, for any entity check that accepts the
    entities of a given shape, and only them. *)
Section EntityLoop.

Variable body : nat -> json -> scan -> res scan.
Variable shaped : json -> string -> Prop.

Hypothesis body_clean : forall i x s s1,
  body i x s = Ok s1 -> errors (found s1) = [] ->
  errors (found s) = [] /\
  exists id,
    shaped x id /\ set_mem (JStr id) (seen s) = false /\
    seen s1 = set_add (JStr id) (seen s).

Hypothesis body_accepts : forall i x id s,
  shaped x id -> set_mem (JStr id) (seen s) = false ->
  exists s1,
    body i x s = Ok s1 /\ errors (found s1) = errors (found s) /\
    seen s1 = set_add (JStr id) (seen s).

Lemma entity_loop_sound l : forall i s s',
  for_each body i l s = Ok s' ->
  errors (found s') = [] ->
  errors (found s) = [] /\
  exists ids,
    Forall2 shaped l ids /\ NoDup ids /\
    forall id, In id ids -> set_mem (JStr id) (seen s) = false.
Proof.
  induction l as [|x l IH]; simpl; intros i s s' Hrun Hclean.
  - apply ok_inj in Hrun. subst s'. split; [exact Hclean|].
    exists []. repeat split; [constructor | constructor | intros ? []].
  - apply bind_ok in Hrun. destruct Hrun as (s1 & Hx & Hrest).
    destruct (IH _ _ _ Hrest Hclean) as (Hc1 & ids & Hall & Hnd & Hfresh).
    destruct (body_clean _ _ _ _ Hx Hc1) as (Hc & id & Hid & Hseen & Hs1).
    split; [exact Hc|]. exists (id :: ids).
    assert (Hout : forall q, In q ids -> q <> id /\
               set_mem (JStr q) (seen s) = false).
    { intros q Hq. specialize (Hfresh q Hq).
      rewrite Hs1, set_mem_str_add in Hfresh.
      apply orb_false_iff in Hfresh. destruct Hfresh as [Hm Hne].
      split; [|exact Hm]. apply String.eqb_neq. exact Hne. }
    repeat split.
    + constructor; assumption.
    + constructor; [|exact Hnd]. intros Hin. apply Hout in Hin.
      destruct Hin as [Hne _]. contradiction.
    + intros q [<-|Hq]; [exact Hseen | apply Hout; exact Hq].
Qed.

Lemma entity_loop_complete l : forall ids i s,
  Forall2 shaped l ids -> NoDup ids ->
  (forall id, In id ids -> set_mem (JStr id) (seen s) = false) ->
  exists s',
    for_each body i l s = Ok s' /\
    errors (found s') = errors (found s).
Proof.
  induction l as [|x l IH]; intros ids i s Hall Hnd Hfresh.
  - exists s. split; reflexivity.
  - inversion Hall as [|? id ? ids' Hx Hrest]; subst.
    inversion Hnd as [|? ? Hnotin Hnd']; subst.
    destruct (body_accepts i x id s Hx) as (s1 & Hs1 & He & Hs).
    { apply Hfresh. left; reflexivity. }
    destruct (IH ids' (S i) s1 Hrest Hnd') as (s' & Hrun & He').
    { intros q Hq. rewrite Hs, set_mem_str_add.
      rewrite Hfresh by (right; exact Hq). simpl.
      apply String.eqb_neq. intros ->. contradiction. }
    exists s'. simpl. rewrite Hs1. simpl. split; [exact Hrun|].
    congruence.
Qed.

(** The checker built on the loop: the empty test, the loop, the verdict. *)
Lemma entity_checker_accepts_iff xs :
  (exists es ws,
     (if negb (truthy (JArr xs)) then Ok (false, [NoEntities], [])
      else
        l <- py_iter (JArr xs) ;;
        s <- for_each body 0 l (mk_scan no_findings []) ;;
        Ok (conclude (found s))) = Ok (true, es, ws)) <->
  entities_in_order shaped xs.
Proof.
  split.
  - intros (es & ws & Hrun).
    destruct xs as [|x xs]; [discriminate Hrun|].
    split; [discriminate|].
    cbn [truthy negb py_iter bind] in Hrun.
    apply bind_ok in Hrun. destruct Hrun as (s & Hloop & Hrun).
    apply ok_inj in Hrun. unfold conclude in Hrun.
    destruct (errors (found s)) eqn:He; [|discriminate Hrun].
    destruct (entity_loop_sound _ _ _ _ Hloop He)
      as (_ & ids & Hall & Hnd & _).
    exists ids. auto.
  - intros (Hne & ids & Hall & Hnd).
    destruct xs as [|x xs]; [contradiction|].
    cbn [truthy negb py_iter bind].
    destruct (entity_loop_complete (x :: xs) ids 0%nat
                (mk_scan no_findings []) Hall Hnd)
      as (s' & Hrun & He).
    { intros id _. reflexivity. }
    rewrite Hrun. cbn [bind]. unfold conclude. rewrite He. simpl. eauto.
Qed.

End EntityLoop.

(** *** Systems *)

Lemma systems_check_type_errors m r :
  errors (Systems.check_type m r) = errors r.
Proof.
  unfold Systems.check_type. destruct (lookup "type" m) as [t|]; auto.
  destruct (list_mem t Systems.ALLOWED_SYSTEM_TYPES); reflexivity.
Qed.

Lemma check_repositories_clean repos idx m r :
  errors (Systems.check_repositories repos idx m r) = [] ->
  errors r = [] /\
  forall v, lookup "repositories" m = Some v ->
            exists x xs, v = JArr (x :: xs).
Proof.
  unfold Systems.check_repositories.
  destruct (lookup "repositories" m) as [v|].
  2:{ intros Hc. split; [exact Hc|]. intros ? Hv. discriminate Hv. }
  destruct v as [| | | |[|x xs]|];
    try (intros Hc; exfalso; eapply errors_add_error; exact Hc).
  simpl. intros Hc. split; [exact Hc|].
  intros v Hv. inversion Hv. eauto.
Qed.

Lemma check_system_clean repos i x s s1 :
  Systems.check_system repos i x s = Ok s1 -> errors (found s1) = [] ->
  errors (found s) = [] /\
  exists id,
    system_shaped x id /\ set_mem (JStr id) (seen s) = false /\
    seen s1 = set_add (JStr id) (seen s).
Proof.
  unfold Systems.check_system. intros Hrun Hclean.
  destruct x as [| | | | |m];
    try (apply ok_inj in Hrun; subst s1; exfalso;
         eapply errors_add_error; exact Hclean).
  apply bind_ok in Hrun. destruct Hrun as (s2 & Hid & Hrun).
  apply ok_inj in Hrun. subst s1. cbn [found seen] in *.
  apply check_repositories_clean in Hclean. destruct Hclean as [Hc Hrepos].
  rewrite systems_check_type_errors in Hc.
  assert (Hfields : errors (found s) = [] /\
            Forall (fun f => has_key f m = true) Systems.system_fields).
  { destruct (lookup "id" m) as [v|] eqn:Hv.
    - destruct (check_id_clean _ _ _ _ Hid Hv Hc) as (Hc1 & _).
      cbn [found errors add_errors] in Hc1.
      apply app_eq_nil in Hc1. destruct Hc1 as [Hs Hmiss].
      apply missing_fields_nil in Hmiss. auto.
    - unfold check_id in Hid. rewrite Hv in Hid. apply ok_inj in Hid.
      subst s2. cbn [found errors add_errors] in Hc.
      apply app_eq_nil in Hc. destruct Hc as [Hs Hmiss].
      apply missing_fields_nil in Hmiss. auto. }
  destruct Hfields as [Hs Hfields]. split; [exact Hs|].
  assert (Hhas : has_key "id" m = true /\ has_key "repositories" m = true).
  { rewrite Forall_forall in Hfields. split; apply Hfields; simpl; auto. }
  destruct Hhas as [Hhid Hhr].
  apply has_key_lookup in Hhid. destruct Hhid as (v & Hv).
  apply has_key_lookup in Hhr. destruct Hhr as (rv & Hrv).
  destruct (check_id_clean _ _ _ _ Hid Hv Hc)
    as (_ & id & -> & Htok & Hseen & ->).
  destruct (Hrepos _ Hrv) as (r & rs & ->).
  exists id. cbn [seen]. repeat split; auto.
  exists m, r, rs. auto.
Qed.

Lemma check_system_accepts repos i x id s :
  system_shaped x id -> set_mem (JStr id) (seen s) = false ->
  exists s1,
    Systems.check_system repos i x s = Ok s1 /\
    errors (found s1) = errors (found s) /\
    seen s1 = set_add (JStr id) (seen s).
Proof.
  intros (m & r & rs & -> & Hfields & Hid & Htok & Hrepos) Hseen.
  unfold Systems.check_system.
  apply (missing_fields_nil (MissingRequiredField i)) in Hfields.
  rewrite Hfields.
  rewrite (check_id_accepts m _ id Hid Htok) by exact Hseen.
  cbn [bind found seen]. eexists. split; [reflexivity|].
  cbn [found seen]. split; [|reflexivity].
  unfold Systems.check_repositories. rewrite Hrepos.
  cbn [errors add_warnings]. rewrite systems_check_type_errors.
  cbn [errors add_errors]. apply app_nil_r.
Qed.

(** X15: [validate_systems] accepts a list exactly when it is not empty,
    every entry is an object with the seven required fields, an ID the
    pattern accepts and a non-empty list of repositories, and no two entries
    have the same ID.  Neither the type of a system nor what init.json lists
    has a say. *)
Theorem validate_systems_accepts_iff (xs repos : list json) :
  (exists es ws,
     Systems.validate_systems (JArr xs) repos = Ok (true, es, ws)) <->
  entities_in_order system_shaped xs.
Proof.
  unfold Systems.validate_systems.
  apply entity_checker_accepts_iff.
  - apply check_system_clean.
  - apply check_system_accepts.
Qed.

(** *** Containers and components *)

Lemma check_parent_id_clean key ids idx m r r' :
  check_parent_id key ids idx m r = Ok r' -> errors r' = [] ->
  errors r = [] /\
  forall v, lookup key m = Some v ->
            hashable v = true /\ set_mem v ids = true.
Proof.
  unfold check_parent_id. intros Hrun Hclean.
  destruct (lookup key m) as [pid|].
  2:{ apply ok_inj in Hrun. subst r'. split; [exact Hclean|].
      intros ? Hv. discriminate Hv. }
  apply bind_ok in Hrun. destruct Hrun as (known & Hknown & Hrun).
  unfold py_in_set in Hknown.
  destruct (hashable pid) eqn:Hh; [|discriminate Hknown].
  apply ok_inj in Hknown. subst known.
  destruct (set_mem pid ids) eqn:Hmem.
  - apply ok_inj in Hrun. subst r'. split; [exact Hclean|].
    intros v Hv. inversion Hv; subst. auto.
  - apply bind_ok in Hrun. destruct Hrun as (? & _ & Hrun).
    apply ok_inj in Hrun. subst r'. exfalso. simpl in Hclean.
    apply app_eq_nil in Hclean. destruct Hclean as [_ Hc]. discriminate Hc.
Qed.

Lemma check_parent_id_accepts key ids idx m r v :
  lookup key m = Some v -> hashable v = true -> set_mem v ids = true ->
  check_parent_id key ids idx m r = Ok r.
Proof.
  intros Hv Hh Hmem. unfold check_parent_id, py_in_set.
  rewrite Hv, Hh. simpl. rewrite Hmem. reflexivity.
Qed.

Lemma containers_check_type_errors m r :
  errors (Containers.check_type m r) = errors r.
Proof.
  unfold Containers.check_type. destruct (lookup "type" m) as [t|]; auto.
  destruct (list_mem t Containers.ALLOWED_CONTAINER_TYPES); reflexivity.
Qed.

Lemma components_check_type_errors m r :
  errors (Components.check_type m r) = errors r.
Proof.
  unfold Components.check_type. destruct (lookup "type" m) as [t|]; auto.
  destruct (list_mem t Components.ALLOWED_COMPONENT_TYPES); reflexivity.
Qed.

Lemma check_technology_clean idx m r :
  errors (Containers.check_technology idx m r) = [] ->
  errors r = [] /\
  forall v, lookup "technology" m = Some v ->
            exists tech, v = JObj tech /\
                         has_key "primary_language" tech = true /\
                         has_key "framework" tech = true.
Proof.
  unfold Containers.check_technology.
  destruct (lookup "technology" m) as [v|].
  2:{ intros Hc. split; [exact Hc|]. intros ? Hv. discriminate Hv. }
  destruct v as [| | | | |tech];
    try (intros Hc; exfalso; eapply errors_add_error; exact Hc).
  destruct (has_key "framework" tech) eqn:Hfw.
  2:{ intros Hc. exfalso. eapply errors_add_error. exact Hc. }
  destruct (has_key "primary_language" tech) eqn:Hpl.
  2:{ intros Hc. exfalso. eapply errors_add_error. exact Hc. }
  intros Hc. split; [exact Hc|]. intros v Hv. inversion Hv. eauto.
Qed.

Lemma check_technology_accepts idx m r tech :
  lookup "technology" m = Some (JObj tech) ->
  has_key "primary_language" tech = true ->
  has_key "framework" tech = true ->
  Containers.check_technology idx m r = r.
Proof.
  intros Ht Hpl Hfw. unfold Containers.check_technology.
  rewrite Ht, Hpl, Hfw. reflexivity.
Qed.

Lemma check_runtime_clean idx m r :
  errors (Containers.check_runtime idx m r) = [] ->
  errors r = [] /\
  forall v, lookup "runtime" m = Some v ->
    exists rt c,
      v = JObj rt /\
      has_key "environment" rt = true /\
      has_key "platform" rt = true /\
      lookup "containerized" rt = Some c /\
      (truthy c = true -> has_key "container_technology" rt = true).
Proof.
  unfold Containers.check_runtime.
  destruct (lookup "runtime" m) as [v|].
  2:{ intros Hc. split; [exact Hc|]. intros ? Hv. discriminate Hv. }
  destruct v as [| | | | |rt];
    try (intros Hc; exfalso; eapply errors_add_error; exact Hc).
  destruct (lookup "containerized" rt) as [c|] eqn:Hcz.
  2:{ intros Hc. exfalso. eapply errors_add_error. exact Hc. }
  destruct (truthy c && negb (has_key "container_technology" rt)) eqn:Hct.
  { intros Hc. exfalso. eapply errors_add_error. exact Hc. }
  destruct (has_key "platform" rt) eqn:Hpf.
  2:{ intros Hc. exfalso. eapply errors_add_error. exact Hc. }
  destruct (lookup "environment" rt) as [e|] eqn:Henv.
  2:{ intros Hc. exfalso. eapply errors_add_error. exact Hc. }
  intros Hc.
  assert (Hr : errors r = []).
  { destruct (list_mem e Containers.ALLOWED_ENVIRONMENTS); exact Hc. }
  split; [exact Hr|]. intros v Hv. inversion Hv; subst.
  exists rt, c. repeat split; auto.
  - unfold has_key. rewrite Henv. reflexivity.
  - intros Htc. rewrite Htc in Hct. simpl in Hct.
    apply negb_false_iff in Hct. exact Hct.
Qed.

Lemma check_runtime_accepts idx m r rt c :
  lookup "runtime" m = Some (JObj rt) ->
  has_key "environment" rt = true ->
  has_key "platform" rt = true ->
  lookup "containerized" rt = Some c ->
  (truthy c = true -> has_key "container_technology" rt = true) ->
  errors (Containers.check_runtime idx m r) = errors r.
Proof.
  intros Hrt Henv Hpf Hcz Hct. unfold Containers.check_runtime.
  rewrite Hrt, Hpf, Hcz.
  apply has_key_lookup in Henv. destruct Henv as (e & He). rewrite He.
  assert (Hno : truthy c && negb (has_key "container_technology" rt)
                = false).
  { destruct (truthy c); [|reflexivity]. rewrite Hct; reflexivity. }
  rewrite Hno.
  destruct (list_mem e Containers.ALLOWED_ENVIRONMENTS); reflexivity.
Qed.

Lemma check_structure_clean idx m r :
  errors (Components.check_structure idx m r) = [] ->
  errors r = [] /\
  forall v, lookup "structure" m = Some v ->
            exists st, v = JObj st /\
                       has_key "path" st = true /\
                       has_key "language" st = true.
Proof.
  unfold Components.check_structure.
  destruct (lookup "structure" m) as [v|].
  2:{ intros Hc. split; [exact Hc|]. intros ? Hv. discriminate Hv. }
  destruct v as [| | | | |st];
    try (intros Hc; exfalso; eapply errors_add_error; exact Hc).
  intros Hc.
  assert (H2 : errors
                 (if has_key "language" st
                  then if has_key "path" st then r
                       else add_error
                              (MissingSubfield
                                 (dict_get m "id" (JNum (Z.of_nat idx)))
                                 "structure.path") r
                  else add_error
                         (MissingSubfield
                            (dict_get m "id" (JNum (Z.of_nat idx)))
                            "structure.language")
                         (if has_key "path" st then r
                          else add_error
                                 (MissingSubfield
                                    (dict_get m "id" (JNum (Z.of_nat idx)))
                                    "structure.path") r)) = []).
  { destruct (lookup "files" st) as [[| | | |[|]|]|]; exact Hc. }
  clear Hc. destruct (has_key "language" st) eqn:Hl.
  2:{ exfalso. eapply errors_add_error. exact H2. }
  destruct (has_key "path" st) eqn:Hp.
  2:{ exfalso. eapply errors_add_error. exact H2. }
  split; [exact H2|]. intros v Hv. inversion Hv. eauto.
Qed.

Lemma check_structure_accepts idx m r st :
  lookup "structure" m = Some (JObj st) ->
  has_key "path" st = true -> has_key "language" st = true ->
  errors (Components.check_structure idx m r) = errors r.
Proof.
  intros Hst Hp Hl. unfold Components.check_structure.
  rewrite Hst, Hp, Hl.
  destruct (lookup "files" st) as [[| | | |[|]|]|]; reflexivity.
Qed.

Lemma check_container_clean ids i x s s1 :
  Containers.check_container ids i x s = Ok s1 ->
  errors (found s1) = [] ->
  errors (found s) = [] /\
  exists id,
    container_shaped ids x id /\ set_mem (JStr id) (seen s) = false /\
    seen s1 = set_add (JStr id) (seen s).
Proof.
  unfold Containers.check_container. intros Hrun Hclean.
  destruct x as [| | | | |m];
    try (apply ok_inj in Hrun; subst s1; exfalso;
         eapply errors_add_error; exact Hclean).
  apply bind_ok in Hrun. destruct Hrun as (s2 & Hid & Hrun).
  apply bind_ok in Hrun. destruct Hrun as (r & Hparent & Hrun).
  apply ok_inj in Hrun. subst s1. cbn [found seen] in *.
  apply check_runtime_clean in Hclean. destruct Hclean as [Hc Hrt].
  apply check_technology_clean in Hc. destruct Hc as [Hc Htech].
  destruct (check_parent_id_clean _ _ _ _ _ _ Hparent Hc) as [Hc2 Hsid].
  rewrite containers_check_type_errors in Hc2.
  assert (Hfields : errors (found s) = [] /\
            Forall (fun f => has_key f m = true)
                   Containers.container_fields).
  { destruct (lookup "id" m) as [v|] eqn:Hv.
    - destruct (check_id_clean _ _ _ _ Hid Hv Hc2) as (Hc1 & _).
      cbn [found errors add_errors] in Hc1.
      apply app_eq_nil in Hc1. destruct Hc1 as [Hs Hmiss].
      apply missing_fields_nil in Hmiss. auto.
    - unfold check_id in Hid. rewrite Hv in Hid. apply ok_inj in Hid.
      subst s2. cbn [found errors add_errors] in Hc2.
      apply app_eq_nil in Hc2. destruct Hc2 as [Hs Hmiss].
      apply missing_fields_nil in Hmiss. auto. }
  destruct Hfields as [Hs Hfields]. split; [exact Hs|].
  assert (Hhas : has_key "id" m = true /\ has_key "system_id" m = true /\
                 has_key "technology" m = true /\
                 has_key "runtime" m = true).
  { rewrite Forall_forall in Hfields.
    repeat split; apply Hfields; simpl; auto 10. }
  destruct Hhas as (Hhid & Hhs & Hht & Hhr).
  apply has_key_lookup in Hhid. destruct Hhid as (v & Hv).
  apply has_key_lookup in Hhs. destruct Hhs as (sid & Hsv).
  apply has_key_lookup in Hht. destruct Hht as (tv & Htv).
  apply has_key_lookup in Hhr. destruct Hhr as (rv & Hrv).
  destruct (check_id_clean _ _ _ _ Hid Hv Hc2)
    as (_ & id & -> & Htok & Hseen & ->).
  destruct (Hsid _ Hsv) as [Hh Hmem].
  destruct (Htech _ Htv) as (tech & -> & Hpl & Hfw).
  destruct (Hrt _ Hrv) as (rt & c & -> & Henv & Hpf & Hcz & Hct).
  exists id. cbn [seen]. repeat split; auto.
  exists m, sid, tech, rt, c. auto 20.
Qed.

Lemma check_container_accepts ids i x id s :
  container_shaped ids x id -> set_mem (JStr id) (seen s) = false ->
  exists s1,
    Containers.check_container ids i x s = Ok s1 /\
    errors (found s1) = errors (found s) /\
    seen s1 = set_add (JStr id) (seen s).
Proof.
  intros (m & sid & tech & rt & c & -> & Hfields & Hid & Htok & Hsid & Hh &
          Hmem & Htech & Hpl & Hfw & Hrt & Henv & Hpf & Hcz & Hct) Hseen.
  unfold Containers.check_container.
  apply (missing_fields_nil (MissingRequiredField i)) in Hfields.
  rewrite Hfields.
  rewrite (check_id_accepts m _ id Hid Htok) by exact Hseen.
  cbn [bind found seen].
  rewrite (check_parent_id_accepts _ _ _ _ _ _ Hsid Hh Hmem).
  cbn [bind]. eexists. split; [reflexivity|].
  cbn [found seen]. split; [|reflexivity].
  rewrite (check_runtime_accepts _ _ _ _ _ Hrt Henv Hpf Hcz Hct).
  rewrite (check_technology_accepts _ _ _ _ Htech Hpl Hfw).
  rewrite containers_check_type_errors.
  cbn [errors add_errors]. apply app_nil_r.
Qed.

Lemma check_component_clean ids i x s s1 :
  Components.check_component ids i x s = Ok s1 ->
  errors (found s1) = [] ->
  errors (found s) = [] /\
  exists id,
    component_shaped ids x id /\ set_mem (JStr id) (seen s) = false /\
    seen s1 = set_add (JStr id) (seen s).
Proof.
  unfold Components.check_component. intros Hrun Hclean.
  destruct x as [| | | | |m];
    try (apply ok_inj in Hrun; subst s1; exfalso;
         eapply errors_add_error; exact Hclean).
  apply bind_ok in Hrun. destruct Hrun as (s2 & Hid & Hrun).
  apply bind_ok in Hrun. destruct Hrun as (r & Hparent & Hrun).
  apply ok_inj in Hrun. subst s1. cbn [found seen] in *.
  apply check_structure_clean in Hclean. destruct Hclean as [Hc Hst].
  destruct (check_parent_id_clean _ _ _ _ _ _ Hparent Hc) as [Hc2 Hcid].
  rewrite components_check_type_errors in Hc2.
  assert (Hfields : errors (found s) = [] /\
            Forall (fun f => has_key f m = true)
                   Components.component_fields).
  { destruct (lookup "id" m) as [v|] eqn:Hv.
    - destruct (check_id_clean _ _ _ _ Hid Hv Hc2) as (Hc1 & _).
      cbn [found errors add_errors] in Hc1.
      apply app_eq_nil in Hc1. destruct Hc1 as [Hs Hmiss].
      apply missing_fields_nil in Hmiss. auto.
    - unfold check_id in Hid. rewrite Hv in Hid. apply ok_inj in Hid.
      subst s2. cbn [found errors add_errors] in Hc2.
      apply app_eq_nil in Hc2. destruct Hc2 as [Hs Hmiss].
      apply missing_fields_nil in Hmiss. auto. }
  destruct Hfields as [Hs Hfields]. split; [exact Hs|].
  assert (Hhas : has_key "id" m = true /\ has_key "container_id" m = true /\
                 has_key "structure" m = true).
  { rewrite Forall_forall in Hfields.
    repeat split; apply Hfields; simpl; auto 10. }
  destruct Hhas as (Hhid & Hhc & Hhs).
  apply has_key_lookup in Hhid. destruct Hhid as (v & Hv).
  apply has_key_lookup in Hhc. destruct Hhc as (cid & Hcv).
  apply has_key_lookup in Hhs. destruct Hhs as (sv & Hsv).
  destruct (check_id_clean _ _ _ _ Hid Hv Hc2)
    as (_ & id & -> & Htok & Hseen & ->).
  destruct (Hcid _ Hcv) as [Hh Hmem].
  destruct (Hst _ Hsv) as (st & -> & Hp & Hl).
  exists id. cbn [seen]. repeat split; auto.
  exists m, cid, st. auto 20.
Qed.

Lemma check_component_accepts ids i x id s :
  component_shaped ids x id -> set_mem (JStr id) (seen s) = false ->
  exists s1,
    Components.check_component ids i x s = Ok s1 /\
    errors (found s1) = errors (found s) /\
    seen s1 = set_add (JStr id) (seen s).
Proof.
  intros (m & cid & st & -> & Hfields & Hid & Htok & Hcid & Hh & Hmem &
          Hst & Hp & Hl) Hseen.
  unfold Components.check_component.
  apply (missing_fields_nil (MissingRequiredField i)) in Hfields.
  rewrite Hfields.
  rewrite (check_id_accepts m _ id Hid Htok) by exact Hseen.
  cbn [bind found seen].
  rewrite (check_parent_id_accepts _ _ _ _ _ _ Hcid Hh Hmem).
  cbn [bind]. eexists. split; [reflexivity|].
  cbn [found seen]. split; [|reflexivity].
  rewrite (check_structure_accepts _ _ _ _ Hst Hp Hl).
  rewrite components_check_type_errors.
  cbn [errors add_errors]. apply app_nil_r.
Qed.

(** X16: [validate_containers] accepts a list exactly when it is not empty,
    no two entries have the same ID, and every entry is an object with the
    seven required fields, an ID the pattern accepts, a system among the
    system IDs, a technology object with a primary language and a framework,
    and a runtime object with an environment, a platform and a containerized
    flag, and with a container technology if that flag is truthy. *)
Theorem validate_containers_accepts_iff (xs : list json)
        (c1_system_ids : pyset) :
  (exists es ws,
     Containers.validate_containers (JArr xs) c1_system_ids
     = Ok (true, es, ws)) <->
  entities_in_order (container_shaped c1_system_ids) xs.
Proof.
  unfold Containers.validate_containers.
  apply entity_checker_accepts_iff.
  - apply check_container_clean.
  - apply check_container_accepts.
Qed.

(** X17: [validate_components] accepts a list exactly when it is not empty,
    no two entries have the same ID, and every entry is an object with the
    six required fields, an ID the pattern accepts, a container among the
    container IDs, and a structure object with a path and a language. *)
Theorem validate_components_accepts_iff (xs : list json)
        (c2_container_ids : pyset) :
  (exists es ws,
     Components.validate_components (JArr xs) c2_container_ids
     = Ok (true, es, ws)) <->
  entities_in_order (component_shaped c2_container_ids) xs.
Proof.
  unfold Components.validate_components.
  apply entity_checker_accepts_iff.
  - apply check_component_clean.
  - apply check_component_accepts.
Qed.

(** ** The cycle search misses no cycle *)

Lemma set_mem_hashable x s :
  set_mem x s = true -> Forall (fun k => hashable k = true) s ->
  hashable x = true.
Proof.
  unfold set_mem. intros Hin Hs. apply existsb_exists in Hin.
  destruct Hin as (z & Hz & Hxz). rewrite Forall_forall in Hs.
  eapply py_eq_hashable; [exact Hxz | apply Hs; exact Hz].
Qed.

Lemma set_mem_compat x y s :
  hashable x = true -> hashable y = true ->
  Forall (fun k => hashable k = true) s ->
  py_eq x y = true -> set_mem x s = set_mem y s.
Proof.
  intros Hx Hy Hs Hxy.
  destruct (set_mem y s) eqn:Hm.
  - eapply set_mem_eq; eauto.
  - destruct (set_mem x s) eqn:Hm'; [|reflexivity].
    rewrite <- Hm. symmetry. apply (set_mem_eq y x s); auto.
    rewrite (py_eq_sym y x); auto.
Qed.

Lemma set_mem_remove x y s :
  hashable x = true -> hashable y = true ->
  Forall (fun k => hashable k = true) s ->
  set_mem x (set_remove y s) = set_mem x s && negb (py_eq x y).
Proof.
  intros Hx Hy Hs. unfold set_remove, set_mem.
  induction s as [|z s IH]; simpl; [reflexivity|].
  inversion Hs as [|? ? Hz Hs']; subst. specialize (IH Hs').
  destruct (py_eq y z) eqn:Hyz; simpl.
  - rewrite IH. destruct (py_eq x z) eqn:Hxz; simpl; [|reflexivity].
    assert (Hxy : py_eq x y = true).
    { eapply py_eq_trans with (b := z); auto. rewrite py_eq_sym; auto. }
    rewrite Hxy. simpl. rewrite andb_false_r. reflexivity.
  - rewrite IH. destruct (py_eq x z) eqn:Hxz; simpl; [|reflexivity].
    destruct (py_eq x y) eqn:Hxy; simpl; [|reflexivity].
    exfalso.
    assert (Hyz' : py_eq y z = true).
    { eapply py_eq_trans with (b := x); auto. rewrite py_eq_sym; auto. }
    congruence.
Qed.

Lemma set_remove_hashable y s :
  Forall (fun k => hashable k = true) s ->
  Forall (fun k => hashable k = true) (set_remove y s).
Proof.
  unfold set_remove. rewrite !Forall_forall. intros Hs x Hx.
  apply filter_In in Hx. apply Hs. apply Hx.
Qed.

Lemma graph_get_compat g a a' :
  Forall (fun k => hashable k = true) (map fst g) ->
  hashable a = true -> hashable a' = true -> py_eq a a' = true ->
  Systems.graph_get a g = Systems.graph_get a' g.
Proof.
  intros Hg Ha Ha' Haa. induction g as [|[k ns] g IH]; simpl; auto.
  inversion Hg as [|? ? Hk Hg']; subst. simpl in Hk.
  assert (Hsame : py_eq a k = py_eq a' k).
  { destruct (py_eq a' k) eqn:E.
    - eapply py_eq_trans with (b := a'); auto.
    - destruct (py_eq a k) eqn:E'; [|reflexivity].
      rewrite <- E. symmetry.
      eapply py_eq_trans with (b := a); auto. rewrite py_eq_sym; auto. }
  rewrite Hsame. destruct (py_eq a' k); auto.
Qed.

(** From a node the search has left, a walk meets only such nodes. *)
Lemma settled_walk g V R :
  settled g V R -> graph_hashable g ->
  forall q c,
    hashable c = true -> black V R c ->
    walk (fun x y => In y (Systems.graph_get x g)) (c :: q) ->
    forall x, In x q -> black V R x /\ hashable x = true.
Proof.
  intros Hset [_ Hsucc] q. induction q as [|d q IH]; intros c Hc Hb Hw x Hx.
  - destruct Hx.
  - simpl in Hw. destruct Hw as [Hcd Hw].
    assert (Hd : black V R d) by (apply (Hset c Hc Hb); exact Hcd).
    assert (Hhd : hashable d = true) by (eapply Hsucc; exact Hcd).
    destruct Hx as [<-|Hx]; [auto|].
    eapply IH; [exact Hhd | exact Hd | | exact Hx].
    destruct q; exact Hw.
Qed.

(** Leaving a node whose successors have all been left. *)
Lemma settle_node g V R u :
  graph_hashable g -> hashable u = true ->
  Forall (fun k => hashable k = true) V ->
  Forall (fun k => hashable k = true) R ->
  settled g V R ->
  set_mem u V = true -> set_mem u R = true ->
  (forall b, In b (Systems.graph_get u g) -> black V R b) ->
  settled g V (set_remove u R).
Proof.
  intros Hg Hu HV HR Hset HuV HuR Hsucc a Ha [HaV HaR].
  rewrite set_mem_remove in HaR by assumption.
  assert (Hkeep : forall b, black V R b -> hashable b = true ->
                            black V (set_remove u R) b).
  { intros b [HbV HbR] Hb. split; [exact HbV|].
    rewrite set_mem_remove by assumption. rewrite HbR. reflexivity. }
  destruct (py_eq a u) eqn:Hau.
  - assert (Hsame : Systems.graph_get a g = Systems.graph_get u g)
      by (apply graph_get_compat; auto; apply Hg).
    split.
    + intros b Hb. rewrite Hsame in Hb. apply Hkeep; [auto|].
      destruct Hg as [_ Hg]. eapply Hg. exact Hb.
    + intros (p & b & Hw & Hab).
      destruct (p ++ [b]) as [|c q] eqn:Hq.
      { destruct p; discriminate Hq. }
      simpl in Hw. destruct Hw as [Hac Hw].
      rewrite Hsame in Hac.
      assert (Hc : black V R c) by (apply Hsucc; exact Hac).
      assert (Hhc : hashable c = true)
        by (destruct Hg as [_ Hg]; eapply Hg; exact Hac).
      assert (Hb : black V R b /\ hashable b = true).
      { assert (Hin : In b (c :: q))
          by (rewrite <- Hq; apply in_or_app; right; left; reflexivity).
        destruct Hin as [<-|Hin]; [auto|].
        eapply settled_walk; [exact Hset | exact Hg | exact Hhc | exact Hc
                              | | exact Hin].
        destruct q; exact Hw. }
      destruct Hb as [[_ HbR] Hhb].
      assert (Hbu : py_eq b u = true).
      { eapply py_eq_trans with (b := a); auto. rewrite py_eq_sym; auto. }
      rewrite (set_mem_compat b u R) in HbR by assumption. congruence.
  - rewrite andb_true_r in HaR.
    destruct (Hset a Ha (conj HaV HaR)) as [Hs Hno].
    split; [|exact Hno].
    intros b Hb. apply Hkeep; [apply Hs; exact Hb|].
    destruct Hg as [_ Hg]. eapply Hg. exact Hb.
Qed.

(** Entering a node that has not been visited. *)
Lemma settled_enter g V R u :
  hashable u = true ->
  Forall (fun k => hashable k = true) V ->
  Forall (fun k => hashable k = true) R ->
  graph_hashable g ->
  set_mem u V = false ->
  settled g V R ->
  settled g (set_add u V) (set_add u R).
Proof.
  intros Hu HV HR Hg HuV Hset a Ha [HaV HaR].
  rewrite set_mem_add in HaV, HaR by assumption.
  apply orb_false_iff in HaR. destruct HaR as [HaR Hau].
  rewrite Hau, orb_false_r in HaV.
  destruct (Hset a Ha (conj HaV HaR)) as [Hs Hno].
  split; [|exact Hno].
  intros b Hb. destruct (Hs b Hb) as [HbV HbR].
  assert (Hhb : hashable b = true)
    by (destruct Hg as [_ Hg]; eapply Hg; exact Hb).
  assert (Hbu : py_eq b u = false).
  { destruct (py_eq b u) eqn:E; [|reflexivity].
    rewrite (set_mem_compat b u V) in HbV by assumption. congruence. }
  split; rewrite set_mem_add by assumption.
  - rewrite HbV. reflexivity.
  - rewrite HbR, Hbu. reflexivity.
Qed.

(** A search that finds no cycle leaves every node it visited, with the
    stack as it was. *)
Lemma has_cycle_none g depth :
  graph_hashable g ->
  forall node V R path V' R',
    hashable node = true ->
    Forall (fun k => hashable k = true) V ->
    Forall (fun k => hashable k = true) R ->
    set_mem node V = false ->
    (forall x, set_mem x R = true -> set_mem x V = true) ->
    settled g V R ->
    Systems.has_cycle depth g node V R path = Ok (None, V', R') ->
    settled g V' R' /\
    (forall x, hashable x = true -> set_mem x R' = set_mem x R) /\
    (forall x, set_mem x V = true -> set_mem x V' = true) /\
    set_mem node V' = true /\
    Forall (fun k => hashable k = true) V' /\
    Forall (fun k => hashable k = true) R'.
Proof.
  intros Hg.
  induction depth as [|depth IH];
    intros node V R path V' R' Hnode HV HR HnV Hsub Hset Hc;
    [discriminate Hc|].
  simpl in Hc.
  set (succ := fun b => In b (Systems.graph_get node g)).
  assert (Hinner :
    forall ns v r,
      (forall b, In b ns -> hashable b = true) ->
      (forall b, succ b -> In b ns \/ black v r b) ->
      set_mem node v = true -> set_mem node r = true ->
      (forall x, set_mem x r = true -> set_mem x v = true) ->
      settled g v r ->
      Forall (fun k => hashable k = true) v ->
      Forall (fun k => hashable k = true) r ->
      (fix neighbors (ns : list json) (visited rec_stack : pyset)
         {struct ns} : res (option (list json) * pyset * pyset) :=
         match ns with
         | [] => Ok (None, visited, set_remove node rec_stack)
         | neighbor :: ns' =>
             if negb (set_mem neighbor visited) then
               '(found_cycle, visited', rec_stack') <-
                  Systems.has_cycle depth g neighbor visited rec_stack
                    (path ++ [node]) ;;
               match found_cycle with
               | Some cycle_path =>
                   Ok (Some cycle_path, visited', rec_stack')
               | None => neighbors ns' visited' rec_stack'
               end
             else if set_mem neighbor rec_stack then
               match Systems.index_of neighbor (path ++ [node]) with
               | Some cycle_start =>
                   Ok (Some (skipn cycle_start (path ++ [node]) ++
                             [neighbor]), visited, rec_stack)
               | None => Raise ValueError
               end
             else neighbors ns' visited rec_stack
         end) ns v r = Ok (None, V', R') ->
      settled g V' R' /\
      (forall x, hashable x = true ->
                 set_mem x R' = set_mem x r && negb (py_eq x node)) /\
      (forall x, set_mem x v = true -> set_mem x V' = true) /\
      Forall (fun k => hashable k = true) V' /\
      Forall (fun k => hashable k = true) R').
  { intros ns. induction ns as [|n ns IHns];
      intros v r Hns Hall Hv Hr Hrv Hs Hhv Hhr Hrun.
    - apply ok_inj in Hrun. inversion Hrun; subst V' R'.
      split; [|split; [|split; [|split]]].
      + apply settle_node; auto.
        intros b Hb. destruct (Hall b Hb) as [[]|Hblack]. exact Hblack.
      + intros x Hx. apply set_mem_remove; auto.
      + auto.
      + exact Hhv.
      + apply set_remove_hashable. exact Hhr.
    - assert (Hn : hashable n = true) by (apply Hns; left; reflexivity).
      assert (Hns' : forall b, In b ns -> hashable b = true)
        by (intros b Hb; apply Hns; right; exact Hb).
      destruct (set_mem n v) eqn:Hnv; cbn [negb] in Hrun.
      + destruct (set_mem n r) eqn:Hnr.
        * destruct (Systems.index_of n (path ++ [node]));
            discriminate Hrun.
        * apply (IHns v r); auto.
          intros b Hb. destruct (Hall b Hb) as [[<-|Hin]|Hblack]; auto.
          right. split; assumption.
      + apply bind_ok in Hrun.
        destruct Hrun as ([[fc v1] r1] & Hrec & Hrun).
        destruct fc as [c|]; [discriminate Hrun|].
        destruct (IH n v r (path ++ [node]) v1 r1 Hn Hhv Hhr Hnv Hrv Hs
                    Hrec)
          as (Hs1 & Hr1 & Hv1 & Hn1 & Hhv1 & Hhr1).
        assert (Hmono : forall b, black v r b -> hashable b = true ->
                                  black v1 r1 b).
        { intros b [HbV HbR] Hb. split; [apply Hv1; exact HbV|].
          rewrite Hr1 by exact Hb. exact HbR. }
        destruct (IHns v1 r1) as (Hs2 & Hr2 & Hv2 & Hhv2 & Hhr2); auto.
        * intros b Hb.
          assert (Hhb : hashable b = true)
            by (destruct Hg as [_ Hg]; eapply Hg; exact Hb).
          destruct (Hall b Hb) as [[<-|Hin]|Hblack]; auto.
          right. split; [exact Hn1|]. rewrite Hr1 by exact Hn.
          destruct (set_mem n r) eqn:E; [|reflexivity].
          apply Hrv in E. congruence.
        * rewrite Hr1 by exact Hnode. exact Hr.
        * intros x Hx.
          assert (Hhx : hashable x = true)
            by (eapply set_mem_hashable; eassumption).
          rewrite Hr1 in Hx by exact Hhx. apply Hv1. apply Hrv. exact Hx.
        * split; [exact Hs2|]. split; [|split; [|split]]; auto.
          intros x Hx. rewrite Hr2 by exact Hx. rewrite Hr1 by exact Hx.
          reflexivity. }
  destruct (Hinner (Systems.graph_get node g) (set_add node V)
              (set_add node R)) as (Hs & Hr & Hv & HhV & HhR).
  - intros b Hb. destruct Hg as [_ Hg]. eapply Hg. exact Hb.
  - intros b Hb. left. exact Hb.
  - apply set_mem_add_same. exact Hnode.
  - apply set_mem_add_same. exact Hnode.
  - intros x Hx.
    assert (Hhx : hashable x = true).
    { eapply set_mem_hashable; [exact Hx|].
      apply set_add_hashable; assumption. }
    rewrite set_mem_add in * by assumption.
    apply orb_true_iff in Hx. destruct Hx as [Hx|Hx].
    + rewrite (Hsub x Hx). reflexivity.
    + rewrite Hx. apply orb_true_r.
  - apply settled_enter; assumption.
  - apply set_add_hashable; assumption.
  - apply set_add_hashable; assumption.
  - exact Hc.
  - split; [exact Hs|]. split; [|split; [|split; [|split]]]; auto.
    + intros x Hx. rewrite Hr by exact Hx.
      rewrite set_mem_add by assumption.
      destruct (py_eq x node) eqn:Hxn; simpl.
      * rewrite andb_false_r.
        rewrite (set_mem_compat x node R) by assumption.
        destruct (set_mem node R) eqn:E; [|reflexivity].
        apply Hsub in E. congruence.
      * rewrite orb_false_r, andb_true_r. reflexivity.
    + intros x Hx. apply Hv. apply set_mem_add_other. exact Hx.
    + apply Hv. apply set_mem_add_same. exact Hnode.
Qed.

Lemma settled_stack g V R R' :
  graph_hashable g ->
  (forall x, hashable x = true -> set_mem x R' = set_mem x R) ->
  settled g V R -> settled g V R'.
Proof.
  intros [_ Hg] Hsame Hset a Ha [HaV HaR].
  rewrite Hsame in HaR by exact Ha.
  destruct (Hset a Ha (conj HaV HaR)) as [Hs Hno].
  split; [|exact Hno].
  intros b Hb. destruct (Hs b Hb) as [HbV HbR]. split; [exact HbV|].
  rewrite Hsame; [exact HbR|]. eapply Hg. exact Hb.
Qed.

(** Searches that report nothing leave every node they started from. *)
Lemma detect_cycles_quiet g depth :
  graph_hashable g ->
  forall nodes V r r',
    Forall (fun k => hashable k = true) nodes ->
    Forall (fun k => hashable k = true) V ->
    settled g V [] ->
    Systems.detect_cycles depth g nodes V r = Ok r' ->
    warnings r' = warnings r ->
    exists V',
      settled g V' [] /\
      (forall x, set_mem x V = true -> set_mem x V' = true) /\
      (forall n, In n nodes -> set_mem n V' = true) /\
      Forall (fun k => hashable k = true) V'.
Proof.
  intros Hg nodes. induction nodes as [|node nodes IH]; simpl;
    intros V r r' Hnodes HV Hset Hrun Hquiet.
  - exists V. split; [exact Hset|]. split; [auto|].
    split; [intros n []|exact HV].
  - inversion Hnodes as [|? ? Hnode Hnodes']; subst.
    destruct (set_mem node V) eqn:HnV.
    + destruct (IH _ _ _ Hnodes' HV Hset Hrun Hquiet)
        as (V' & Hs & Hmono & Hin & HV').
      exists V'. split; [exact Hs|]. split; [exact Hmono|].
      split; [|exact HV']. intros n [<-|Hn]; auto.
    + apply bind_ok in Hrun.
      destruct Hrun as ([[fc V1] R1] & Hsearch & Hrun).
      destruct fc as [c|].
      * exfalso. apply bind_ok in Hrun. destruct Hrun as (_ & _ & Hrun).
        apply (detect_cycles_adds (fun _ => true)) in Hrun.
        destruct Hrun as (es & ws & _ & Hw & _).
        rewrite Hquiet in Hw. simpl in Hw. rewrite <- app_assoc in Hw.
        apply (f_equal (@List.length finding)) in Hw.
        rewrite !length_app in Hw. simpl in Hw. lia.
      * destruct (has_cycle_none g depth Hg node V [] [] V1 R1 Hnode HV
                    (Forall_nil _) HnV)
          as (Hs1 & Hr1 & Hv1 & Hn1 & HV1 & _); auto.
        { intros x Hx. discriminate Hx. }
        assert (Hs1' : settled g V1 []).
        { eapply settled_stack; [exact Hg | | exact Hs1].
          intros x Hx. rewrite Hr1 by exact Hx. reflexivity. }
        destruct (IH _ _ _ Hnodes' HV1 Hs1' Hrun Hquiet)
          as (V' & Hs & Hmono & Hin & HV').
        exists V'. split; [exact Hs|]. split; [auto|].
        split; [|exact HV']. intros n [<-|Hn]; auto.
Qed.

Lemma py_eq_hashable_r a b :
  py_eq a b = true -> hashable a = true -> hashable b = true.
Proof. destruct a, b; simpl; congruence. Qed.

Lemma py_eq_truthy a b :
  hashable a = true -> py_eq a b = true -> truthy a = truthy b.
Proof.
  destruct a as [|x|n|s|l|m], b as [|y|k|t|l'|m']; simpl;
    try congruence; intros _ Hb.
  - apply Bool.eqb_prop in Hb. congruence.
  - apply Z.eqb_eq in Hb. subst. destruct x; reflexivity.
  - apply Z.eqb_eq in Hb. subst. destruct y; reflexivity.
  - apply Z.eqb_eq in Hb. congruence.
  - apply String.eqb_eq in Hb. congruence.
Qed.

(** *** The graph holds every followed relation *)

Lemma graph_grows_refl g : graph_grows g g.
Proof. split; auto. Qed.

Lemma graph_grows_trans g1 g2 g3 :
  graph_grows g1 g2 -> graph_grows g2 g3 -> graph_grows g1 g3.
Proof. intros [Hk1 He1] [Hk2 He2]. split; [congruence | auto]. Qed.

Lemma graph_get_append_keeps s t g a b :
  In b (Systems.graph_get a g) ->
  In b (Systems.graph_get a (Systems.graph_append s t g)).
Proof.
  induction g as [|[k ns] g IH]; simpl; [auto|].
  destruct (py_eq s k) eqn:Hsk; simpl.
  - destruct (py_eq a k); [|auto]. intros Hb. apply in_or_app. auto.
  - destruct (py_eq a k); auto.
Qed.

Lemma graph_grows_append s t g :
  graph_grows g (Systems.graph_append s t g).
Proof.
  split; [apply graph_keys_append|].
  intros a b. apply graph_get_append_keeps.
Qed.

Lemma graph_get_appended s t g a :
  Forall (fun k => hashable k = true) (map fst g) ->
  hashable s = true -> hashable a = true ->
  py_eq s a = true -> Systems.graph_has s g = true ->
  In t (Systems.graph_get a (Systems.graph_append s t g)).
Proof.
  intros Hg Hs Ha Hsa. induction g as [|[k ns] g IH]; simpl;
    [discriminate|].
  inversion Hg as [|? ? Hk Hg']; subst. simpl in Hk.
  assert (Hsame : py_eq a k = py_eq s k).
  { destruct (py_eq s k) eqn:E.
    - eapply py_eq_trans with (b := s); auto. rewrite py_eq_sym; auto.
    - destruct (py_eq a k) eqn:E'; [|reflexivity].
      rewrite <- E. symmetry. eapply py_eq_trans with (b := a); auto. }
  destruct (py_eq s k) eqn:Hsk; simpl; rewrite Hsame.
  - intros _. apply in_or_app. right. left. reflexivity.
  - intros Hhas. apply IH; assumption.
Qed.

Lemma check_relation_id_graph owner r s s' :
  Systems.check_relation_id owner r s = Ok s' ->
  Systems.rgraph s' = Systems.rgraph s.
Proof.
  unfold Systems.check_relation_id, Systems.rel_error.
  destruct (lookup "id" r) as [rel_id|];
    [|intros Hid; apply ok_inj in Hid; subst; reflexivity].
  intros Hid. apply bind_ok in Hid. destruct Hid as (dup & _ & Hid).
  apply ok_inj in Hid. subst s'. destruct dup; reflexivity.
Qed.

Lemma check_relation_type_graph owner r s :
  Systems.rgraph (Systems.check_relation_type owner r s) = Systems.rgraph s.
Proof.
  unfold Systems.check_relation_type, Systems.rel_warning.
  destruct (lookup "type" r) as [ty|]; [|reflexivity].
  destruct (list_mem ty Systems.RELATION_TYPES); reflexivity.
Qed.

(** What the block under [if source and target] does to the graph. *)
Lemma check_endpoints_graph ids owner idx r s s' :
  Systems.check_endpoints ids owner idx r s = Ok s' ->
  graph_grows (Systems.rgraph s) (Systems.rgraph s') /\
  (truthy (dict_get r "source" JNull) = true ->
   truthy (dict_get r "target" JNull) = true ->
   set_mem (dict_get r "target" JNull) ids = true ->
   Systems.graph_has (dict_get r "source" JNull) (Systems.rgraph s)
   = true ->
   Systems.rgraph s' =
   Systems.graph_append (dict_get r "source" JNull)
     (dict_get r "target" JNull) (Systems.rgraph s)).
Proof.
  unfold Systems.check_endpoints, py_in_set.
  set (source := dict_get r "source" JNull).
  set (target := dict_get r "target" JNull).
  destruct (truthy source && truthy target) eqn:Htruthy.
  2:{ intros Hrun. apply ok_inj in Hrun. subst s'.
      split; [apply graph_grows_refl|].
      intros Hs Ht. rewrite Hs, Ht in Htruthy. discriminate Htruthy. }
  destruct (hashable source) eqn:Hs; [|discriminate].
  destruct (hashable target) eqn:Ht; [|discriminate].
  cbn [bind]. intros Hrun. apply ok_inj in Hrun.
  match type of Hrun with
  | (if ?c then _ else ?u) = _ =>
      assert (Hu : Systems.rgraph u = Systems.rgraph s)
        by (unfold Systems.rel_warning;
            repeat match goal with
                   | |- context [if ?b then _ else _] => destruct b
                   end; reflexivity);
      destruct c eqn:Hcond
  end; subst s'.
  - cbn [Systems.rgraph]. rewrite Hu.
    split; [apply graph_grows_append | reflexivity].
  - rewrite Hu. split; [apply graph_grows_refl|].
    intros _ _ Hknown Hhas. rewrite Hu, Hhas, Hknown in Hcond.
    discriminate Hcond.
Qed.

Lemma check_relation_grows ids owner j x s s' :
  Systems.check_relation ids owner j x s = Ok s' ->
  graph_grows (Systems.rgraph s) (Systems.rgraph s').
Proof.
  unfold Systems.check_relation. intros Hc.
  destruct x as [| | | | |r];
    try (apply ok_inj in Hc; subst; apply graph_grows_refl).
  apply bind_ok in Hc. destruct Hc as (s2 & Hid & Hc).
  apply bind_ok in Hc. destruct Hc as (s3 & Hends & Hc).
  apply bind_ok in Hc. destruct Hc as (short & _ & Hc).
  apply ok_inj in Hc.
  apply check_relation_id_graph in Hid. cbn [Systems.rgraph] in Hid.
  apply check_endpoints_graph in Hends. destruct Hends as [Hgrow _].
  rewrite check_relation_type_graph, Hid in Hgrow.
  subst s'. destruct short; exact Hgrow.
Qed.

Lemma check_system_relations_grows ids i x s s' :
  Systems.check_system_relations ids i x s = Ok s' ->
  graph_grows (Systems.rgraph s) (Systems.rgraph s').
Proof.
  unfold Systems.check_system_relations. intros Hc.
  destruct x as [| | | | |m];
    try (apply ok_inj in Hc; subst; apply graph_grows_refl).
  destruct (dict_get m "relations" (JArr [])) as [| | | |rels|];
    try (apply ok_inj in Hc; subst; apply graph_grows_refl).
  apply (for_each_preorder
           (fun t t' => graph_grows (Systems.rgraph t) (Systems.rgraph t')))
    in Hc; [exact Hc | | |].
  - intros t. apply graph_grows_refl.
  - intros t1 t2 t3. apply graph_grows_trans.
  - intros k y t t'. apply check_relation_grows.
Qed.

Lemma relations_loop_grows ids l : forall i s s',
  for_each (Systems.check_system_relations ids) i l s = Ok s' ->
  graph_grows (Systems.rgraph s) (Systems.rgraph s').
Proof.
  apply (for_each_preorder
           (fun t t' => graph_grows (Systems.rgraph t) (Systems.rgraph t'))).
  - intros t. apply graph_grows_refl.
  - intros t1 t2 t3. apply graph_grows_trans.
  - intros k y t t'. apply check_system_relations_grows.
Qed.

Lemma relation_loop_grows ids owner l : forall i s s',
  for_each (Systems.check_relation ids owner) i l s = Ok s' ->
  graph_grows (Systems.rgraph s) (Systems.rgraph s').
Proof.
  apply (for_each_preorder
           (fun t t' => graph_grows (Systems.rgraph t) (Systems.rgraph t'))).
  - intros t. apply graph_grows_refl.
  - intros t1 t2 t3. apply graph_grows_trans.
  - intros k y t t'. apply check_relation_grows.
Qed.

(** The loop over the systems enters every followed relation. *)
Lemma followed_relations_entered xs ids keys s0 s a b :
  Forall (fun k => hashable k = true) ids ->
  Permutation keys ids ->
  map fst (Systems.rgraph s0) = keys ->
  for_each (Systems.check_system_relations ids) 0 xs s0 = Ok s ->
  followed_relation xs ids a b ->
  In b (Systems.graph_get a (Systems.rgraph s)).
Proof.
  intros Hids Hperm Hkeys Hloop
    [(idx & m & rels & j & r & Hm & Hrels & Hj & Hsa & Htgt & Hsrc & Hb)
     [Hta Htb]].
  assert (Hkh : Forall (fun k => hashable k = true) keys)
    by (eapply keys_hashable; eassumption).
  set (source := dict_get r "source" JNull) in *.
  assert (Hhs : hashable source = true)
    by (eapply set_mem_hashable; eassumption).
  assert (Hha : hashable a = true)
    by (eapply py_eq_hashable_r; eassumption).
  destruct (for_each_nth _ _ _ _ _ _ _ Hloop Hm)
    as (t1 & t2 & Hbefore & Hstep & Hafter).
  apply relations_loop_grows in Hbefore, Hafter.
  apply Hafter. clear Hafter.
  unfold Systems.check_system_relations in Hstep.
  rewrite (dict_get_some _ _ _ _ Hrels) in Hstep.
  destruct (for_each_nth _ _ _ _ _ _ _ Hstep Hj)
    as (u1 & u2 & Hub & Hustep & Hua).
  apply relation_loop_grows in Hub, Hua.
  apply Hua. clear Hua.
  cbn [Systems.rgraph] in Hub.
  assert (Hk1 : map fst (Systems.rgraph u1) = keys).
  { destruct Hub as [Hk _]. destruct Hbefore as [Hk' _]. congruence. }
  unfold Systems.check_relation in Hustep.
  apply bind_ok in Hustep. destruct Hustep as (s2 & Hid & Hustep).
  apply bind_ok in Hustep. destruct Hustep as (s3 & Hends & Hustep).
  apply bind_ok in Hustep. destruct Hustep as (short & _ & Hustep).
  apply ok_inj in Hustep.
  apply check_relation_id_graph in Hid. cbn [Systems.rgraph] in Hid.
  apply check_endpoints_graph in Hends. destruct Hends as [_ Happend].
  rewrite check_relation_type_graph, Hid in Happend.
  fold source in Happend. rewrite Htgt in Happend.
  assert (Hg3 : Systems.rgraph s3 =
                Systems.graph_append source b (Systems.rgraph u1)).
  { apply Happend; auto.
    - rewrite (py_eq_truthy source a Hhs Hsa). exact Hta.
    - rewrite graph_has_keys, Hk1.
      unfold set_mem in Hsrc. apply existsb_exists in Hsrc.
      destruct Hsrc as (z & Hz & Hsz). apply existsb_exists.
      exists z. split; [|exact Hsz].
      eapply Permutation_in; [apply Permutation_sym; exact Hperm|].
      exact Hz. }
  assert (Hin : In b (Systems.graph_get a (Systems.rgraph s3))).
  { rewrite Hg3. apply graph_get_appended; auto.
    - rewrite Hk1. exact Hkh.
    - rewrite graph_has_keys, Hk1.
      unfold set_mem in Hsrc. apply existsb_exists in Hsrc.
      destruct Hsrc as (z & Hz & Hsz). apply existsb_exists.
      exists z. split; [|exact Hsz].
      eapply Permutation_in; [apply Permutation_sym; exact Hperm|].
      exact Hz. }
  subst u2. destruct short; exact Hin.
Qed.

Lemma walk_weaken (E E' : json -> json -> Prop) p :
  (forall x y, E x y -> E' x y) -> walk E p -> walk E' p.
Proof.
  intros Himp. induction p as [|a p IH]; simpl; [auto|].
  destruct p as [|b p]; [auto|].
  intros [Hab Hw]. split; [auto|]. apply IH. exact Hw.
Qed.

(** A closed walk along the relations the search follows makes it report
    a cycle. *)
Lemma followed_cycle_reported `{Runtime} (systems : json) (xs : list json)
      (ids : pyset) (valid : bool) (errs warns : list finding) :
  Systems.validate_relations systems = Ok (valid, errs, warns) ->
  py_iter systems = Ok xs ->
  collect_ids xs [] = Ok ids ->
  (exists p, closed_walk (followed_relation xs ids) p) ->
  exists q,
    In (CircularDependency q) warns /\
    closed_walk (relation_edge xs ids) q.
Proof.
  intros Hv Hxs Hids (p & Hwalk & a & mid & b & -> & Hab).
  assert (Hfound : exists q, In (CircularDependency q) warns).
  2:{ destruct Hfound as (q & Hq). exists q. split; [exact Hq|].
      eapply reported_cycles_are_closed_walks; eassumption. }
  unfold Systems.validate_relations in Hv.
  rewrite Hxs in Hv. cbn [bind] in Hv. rewrite Hids in Hv. cbn [bind] in Hv.
  apply bind_ok in Hv. destruct Hv as (s & Hloop & Hv).
  apply bind_ok in Hv. destruct Hv as (r & Hdetect & Hv).
  apply ok_inj in Hv. unfold conclude in Hv. inversion Hv; subst warns.
  clear Hv.
  assert (Hhash : Forall (fun k => hashable k = true) ids)
    by (eapply collect_ids_hashable; [exact Hids|constructor]).
  assert (Hg : graph_ok xs ids (set_order ids) (Systems.rgraph s)).
  { eapply (for_each_invariant
              (fun t => graph_ok xs ids (set_order ids) (Systems.rgraph t)));
      [exact Hloop| |].
    - intros k x t t' Hk Hx.
      eapply check_system_relations_graph;
        [exact Hhash|apply set_order_perm|exact Hk|exact Hx].
    - simpl. split.
      + rewrite map_map. simpl. apply map_id.
      + intros x y Hy. rewrite graph_get_empty in Hy. destruct Hy. }
  destruct Hg as [Hkeys Hedges].
  pose proof (keys_hashable ids (set_order ids) Hhash (set_order_perm ids))
    as Hkh.
  assert (Hgh : graph_hashable (Systems.rgraph s)).
  { split; [rewrite Hkeys; exact Hkh|].
    intros x y Hy. apply Hedges in Hy.
    destruct Hy as (? & ? & ? & ? & ? & _ & _ & _ & _ & _ & _ & Hy).
    eapply set_mem_hashable; eassumption. }
  pose proof (detect_cycles_adds (fun _ => true) _ _ _ _ _ _ Hdetect)
    as (es & ws & _ & Hws & _ & Hkinds).
  destruct ws as [|f ws].
  2:{ simpl in Hkinds. apply andb_true_iff in Hkinds.
      destruct Hkinds as [Hf _].
      destruct f; try discriminate Hf.
      eexists. rewrite Hws. apply in_or_app. right. left. reflexivity. }
  exfalso. rewrite app_nil_r in Hws.
  assert (Hnodes : Forall (fun k => hashable k = true)
                     (map fst (Systems.rgraph s)))
    by (rewrite Hkeys; exact Hkh).
  assert (Hstart : settled (Systems.rgraph s) [] [])
    by (intros x _ [Hx _]; discriminate Hx).
  destruct (detect_cycles_quiet _ _ Hgh _ [] _ _ Hnodes (Forall_nil _)
              Hstart Hdetect Hws)
    as (V' & Hset & _ & Hall & HV').
  (* the walk, along the adjacency lists *)
  assert (Hgraph : walk (fun x y => In y (Systems.graph_get x
                                            (Systems.rgraph s)))
                     (a :: mid ++ [b])).
  { eapply walk_weaken; [|exact Hwalk].
    intros x y Hxy.
    eapply followed_relations_entered;
      [exact Hhash | apply set_order_perm | | exact Hloop | exact Hxy].
    simpl. rewrite map_map. simpl. apply map_id. }
  (* its first node is a key *)
  assert (Hfirst : exists c, followed_relation xs ids a c).
  { destruct (mid ++ [b]) as [|c q] eqn:Hq.
    - destruct mid; discriminate Hq.
    - exists c. simpl in Hwalk. apply Hwalk. }
  destruct Hfirst
    as (c & (? & ? & ? & ? & r0 & _ & _ & _ & Hsa & _ & Hsrc & _) & _).
  set (source := dict_get r0 "source" JNull) in *.
  assert (Hhs : hashable source = true)
    by (eapply set_mem_hashable; eassumption).
  assert (Hha : hashable a = true)
    by (eapply py_eq_hashable_r; eassumption).
  unfold set_mem in Hsrc. apply existsb_exists in Hsrc.
  destruct Hsrc as (z & Hz & Hsz).
  assert (Hhz : hashable z = true)
    by (rewrite Forall_forall in Hhash; apply Hhash; exact Hz).
  assert (Hzk : set_mem z V' = true).
  { apply Hall. rewrite Hkeys.
    eapply Permutation_in; [apply Permutation_sym, set_order_perm|].
    exact Hz. }
  assert (Haz : py_eq a z = true).
  { eapply py_eq_trans with (b := source); auto.
    rewrite py_eq_sym; auto. }
  assert (Hblack : black V' [] a).
  { split; [|reflexivity].
    rewrite (set_mem_compat a z V'); auto. }
  destruct (Hset a Hha Hblack) as [_ Hno]. apply Hno.
  exists mid, b. auto.
Qed.

(** X18: the cycle search of the systems script misses no cycle: when the
    relations it follows (truthy source and target, both of them system
    IDs) form a closed walk, a run of [validate_relations] that returns has
    reported a circular dependency, along some closed walk of the relation
    graph. *)
Theorem cycles_are_found `{Runtime} (systems : json) (xs : list json)
        (ids : pyset) (valid : bool) (errs warns : list finding) :
  Systems.validate_relations systems = Ok (valid, errs, warns) ->
  py_iter systems = Ok xs ->
  collect_ids xs [] = Ok ids ->
  (exists p, closed_walk (followed_relation xs ids) p) ->
  exists q,
    In (CircularDependency q) warns /\
    closed_walk (relation_edge xs ids) q.
Proof. apply followed_cycle_reported. Qed.
(** ** What the observation check of the layer scripts accepts *)

Lemma errors_add_warning f r : errors (add_warning f r) = errors r.
Proof. reflexivity. Qed.

Lemma short_text_len m k short :
  short_text m k = Ok short ->
  forall d, lookup k m = Some d -> exists n, py_len d = Ok n.
Proof.
  unfold short_text. intros Hrun d Hd. rewrite Hd in Hrun.
  destruct (py_len d) as [n|e]; [eauto | discriminate Hrun].
Qed.

Lemma short_text_returns m k d n :
  lookup k m = Some d -> py_len d = Ok n ->
  exists short, short_text m k = Ok short.
Proof.
  unfold short_text. intros -> ->. simpl. eauto.
Qed.

(** A loop whose iterations only add to a report is left without errors
    exactly when every element is one the body finds no fault with. *)
Section CleanLoop.

Context {A St : Type}.
Variable get : St -> report.
Variable body : nat -> A -> St -> res St.
Variable fine : A -> Prop.

Hypothesis body_clean : forall i x s s1,
  body i x s = Ok s1 -> errors (get s1) = [] ->
  errors (get s) = [] /\ fine x.

Hypothesis body_accepts : forall i x s,
  fine x -> exists s1, body i x s = Ok s1 /\ errors (get s1) = errors (get s).

Lemma clean_loop_sound l : forall i s s',
  for_each body i l s = Ok s' -> errors (get s') = [] ->
  errors (get s) = [] /\ Forall fine l.
Proof.
  induction l as [|x l IH]; simpl; intros i s s' Hrun Hclean.
  - apply ok_inj in Hrun. subst s'. split; [exact Hclean | constructor].
  - apply bind_ok in Hrun. destruct Hrun as (s1 & Hx & Hrest).
    destruct (IH _ _ _ Hrest Hclean) as (Hc1 & Hall).
    destruct (body_clean _ _ _ _ Hx Hc1) as (Hc & Hfine).
    split; [exact Hc | constructor; assumption].
Qed.

Lemma clean_loop_complete l : forall i s,
  Forall fine l ->
  exists s', for_each body i l s = Ok s' /\ errors (get s') = errors (get s).
Proof.
  induction l as [|x l IH]; intros i s Hall.
  - exists s. split; reflexivity.
  - inversion Hall as [|? ? Hx Hrest]; subst.
    destruct (body_accepts i x s Hx) as (s1 & Hs1 & He).
    destruct (IH (S i) s1 Hrest) as (s' & Hrun & He').
    exists s'. simpl. rewrite Hs1. simpl. split; [exact Hrun|].
    congruence.
Qed.

End CleanLoop.

Section ObservationLoop.

Variable categories : list json.

Lemma check_category_errors owner m r :
  errors (Observations.check_category categories owner m r) = errors r.
Proof.
  unfold Observations.check_category.
  destruct (lookup "category" m) as [c|]; [|reflexivity].
  destruct (list_mem c categories); reflexivity.
Qed.

Lemma check_severity_clean owner m r :
  errors (Observations.check_severity owner m r) = [] ->
  errors r = [] /\
  forall v, lookup "severity" m = Some v ->
            list_mem v Observations.OBSERVATION_SEVERITIES = true.
Proof.
  unfold Observations.check_severity.
  destruct (lookup "severity" m) as [v|].
  2:{ intros Hc. split; [exact Hc|]. intros ? Hv. discriminate Hv. }
  destruct (list_mem v Observations.OBSERVATION_SEVERITIES) eqn:Hv.
  - intros Hc. split; [exact Hc|]. intros ? Heq. inversion Heq; subst.
    exact Hv.
  - intros Hc. exfalso. eapply errors_add_error. exact Hc.
Qed.

Lemma check_severity_accepts owner m r :
  (forall v, lookup "severity" m = Some v ->
             list_mem v Observations.OBSERVATION_SEVERITIES = true) ->
  Observations.check_severity owner m r = r.
Proof.
  unfold Observations.check_severity. intros Hsev.
  destruct (lookup "severity" m) as [v|]; [|reflexivity].
  rewrite (Hsev v eq_refl). reflexivity.
Qed.

(** An observation that leaves the errors empty has the shape, and an ID
    that no earlier observation of the entity carries. *)
Lemma check_observation_clean owner i o s s1 :
  Observations.check_observation categories owner i o s = Ok s1 ->
  errors (found s1) = [] ->
  errors (found s) = [] /\
  exists id,
    observation_shaped o id /\ set_mem id (seen s) = false /\
    seen s1 = set_add id (seen s).
Proof.
  unfold Observations.check_observation. intros Hrun Hclean.
  destruct o as [| | | | |m];
    try (apply ok_inj in Hrun; subst s1; exfalso;
         eapply errors_add_error; exact Hclean).
  apply bind_ok in Hrun. destruct Hrun as (s2 & Hid & Hrun).
  apply bind_ok in Hrun. destruct Hrun as (short & Hshort & Hrun).
  apply ok_inj in Hrun. subst s1. cbn [found seen] in Hclean |- *.
  assert (Hc : errors (Observations.check_severity owner m
                 (Observations.check_category categories owner m
                    (found s2))) = [])
    by (destruct short; exact Hclean).
  apply check_severity_clean in Hc. destruct Hc as [Hc Hsev].
  rewrite check_category_errors in Hc.
  unfold Observations.check_observation_id in Hid.
  destruct (lookup "id" m) as [id|] eqn:Hlid.
  - apply bind_ok in Hid. destruct Hid as (dup & Hdup & Hid).
    apply ok_inj in Hid. subst s2. cbn [found seen] in Hc |- *.
    unfold py_in_set in Hdup. cbn [seen] in Hdup.
    destruct (hashable id) eqn:Hh; [|discriminate Hdup].
    apply ok_inj in Hdup.
    destruct dup.
    { exfalso. eapply errors_add_error. exact Hc. }
    cbn [found errors add_errors] in Hc.
    apply app_eq_nil in Hc. destruct Hc as [Hs Hmiss].
    apply missing_fields_nil in Hmiss.
    split; [exact Hs|]. exists id. cbn [seen].
    split; [|split; [exact Hdup | reflexivity]].
    assert (Hhas : has_key "category" m = true /\
                   has_key "description" m = true).
    { rewrite Forall_forall in Hmiss. split; apply Hmiss; simpl; auto. }
    destruct Hhas as [Hcat Hdesc].
    apply has_key_lookup in Hdesc. destruct Hdesc as (d & Hd).
    destruct (short_text_len _ _ _ Hshort d Hd) as (n & Hn).
    exists m, d, n. repeat split; auto.
  - apply ok_inj in Hid. subst s2. cbn [found errors add_errors] in Hc.
    apply app_eq_nil in Hc. destruct Hc as [_ Hmiss].
    apply missing_fields_nil in Hmiss. rewrite Forall_forall in Hmiss.
    assert (Hhas : has_key "id" m = true) by (apply Hmiss; simpl; auto).
    apply has_key_lookup in Hhas. destruct Hhas as (v & Hv). congruence.
Qed.

Lemma check_observation_accepts owner i o id s :
  observation_shaped o id -> set_mem id (seen s) = false ->
  exists s1,
    Observations.check_observation categories owner i o s = Ok s1 /\
    errors (found s1) = errors (found s) /\
    seen s1 = set_add id (seen s).
Proof.
  intros (m & d & n & -> & Hid & Hh & Hcat & Hd & Hn & Hsev) Hseen.
  unfold Observations.check_observation.
  assert (Hmiss : missing_fields (ObservationMissingField owner i)
                    Observations.observation_fields m = []).
  { apply missing_fields_nil. unfold Observations.observation_fields.
    repeat constructor; auto.
    - unfold has_key. rewrite Hid. reflexivity.
    - unfold has_key. rewrite Hd. reflexivity. }
  rewrite Hmiss. unfold Observations.check_observation_id.
  rewrite Hid. unfold py_in_set. cbn [seen]. rewrite Hh, Hseen.
  cbn [bind found seen].
  destruct (short_text_returns m "description" d n Hd Hn) as (short & Hs).
  rewrite Hs. cbn [bind]. eexists. split; [reflexivity|].
  cbn [found seen]. split; [|reflexivity].
  rewrite (check_severity_accepts owner m _ Hsev).
  destruct short; rewrite ?errors_add_warning, check_category_errors;
    cbn [errors add_errors]; apply app_nil_r.
Qed.

Lemma observation_loop_sound owner os : forall i s s',
  for_each (Observations.check_observation categories owner) i os s
  = Ok s' ->
  Forall (fun k => hashable k = true) (seen s) ->
  errors (found s') = [] ->
  errors (found s) = [] /\
  exists ids,
    Forall2 observation_shaped os ids /\ distinct ids /\
    Forall (fun q => set_mem q (seen s) = false) ids.
Proof.
  induction os as [|o os IH]; simpl; intros i s s' Hrun Hhash Hclean.
  - apply ok_inj in Hrun. subst s'. split; [exact Hclean|].
    exists []. repeat split; constructor.
  - apply bind_ok in Hrun. destruct Hrun as (s1 & Ho & Hrest).
    assert (Hstep : errors (found s1) = [] -> _)
      by (apply (check_observation_clean _ _ _ _ _ Ho)).
    assert (Hh1 : forall id, observation_shaped o id ->
              seen s1 = set_add id (seen s) ->
              Forall (fun k => hashable k = true) (seen s1)).
    { intros id (m & d & n & _ & _ & Hh & _) ->.
      apply set_add_hashable; assumption. }
    destruct (Observations.check_observation categories owner i o s)
      as [s1'|] eqn:Hcheck; [|discriminate Ho].
    apply ok_inj in Ho. subst s1'.
    (* the tail, once the state after the head is known to be hashable *)
    assert (Htail : Forall (fun k => hashable k = true) (seen s1) ->
              errors (found s1) = [] /\
              exists ids,
                Forall2 observation_shaped os ids /\ distinct ids /\
                Forall (fun q => set_mem q (seen s1) = false) ids)
      by (intros Hh; eapply IH; eauto).
    assert (Hs1 : Forall (fun k => hashable k = true) (seen s1)).
    { unfold Observations.check_observation in Hcheck.
      destruct o as [| | | | |m];
        try (apply ok_inj in Hcheck; subst s1; exact Hhash).
      apply bind_ok in Hcheck. destruct Hcheck as (s2 & Hid & Hcheck).
      apply bind_ok in Hcheck. destruct Hcheck as (short & _ & Hcheck).
      apply ok_inj in Hcheck. subst s1. cbn [seen].
      unfold Observations.check_observation_id in Hid.
      destruct (lookup "id" m) as [id|].
      - apply bind_ok in Hid. destruct Hid as (dup & Hdup & Hid).
        apply ok_inj in Hid. subst s2. cbn [seen].
        unfold py_in_set in Hdup.
        destruct (hashable id) eqn:Hh; [|discriminate Hdup].
        destruct dup; apply set_add_hashable; assumption.
      - apply ok_inj in Hid. subst s2. exact Hhash. }
    destruct (Htail Hs1) as (Hc1 & ids & Hall & Hd & Hfresh).
    destruct (Hstep Hc1) as (Hc & id & Hshape & Hseen & Hadd).
    split; [exact Hc|]. exists (id :: ids).
    assert (Hhid : hashable id = true)
      by (destruct Hshape as (? & ? & ? & _ & _ & Hh & _); exact Hh).
    assert (Hout : Forall (fun q => py_eq q id = false /\
                                    set_mem q (seen s) = false) ids).
    { clear - Hall Hfresh Hadd Hhid Hhash. revert Hfresh.
      induction Hall as [|o q os ids Hq _ IHall]; intros Hfresh;
        [constructor|].
      inversion Hfresh as [|? ? Hfq Hfrest]; subst.
      constructor; [|apply IHall; exact Hfrest].
      destruct Hq as (? & ? & ? & _ & _ & Hhq & _).
      rewrite Hadd, set_mem_add in Hfq by assumption.
      apply orb_false_iff in Hfq. tauto. }
    repeat split.
    + constructor; assumption.
    + eapply Forall_impl; [|exact Hout]. simpl. tauto.
    + exact Hd.
    + constructor; [exact Hseen|].
      eapply Forall_impl; [|exact Hout]. simpl. tauto.
Qed.

Lemma observation_loop_complete owner os : forall ids i s,
  Forall2 observation_shaped os ids -> distinct ids ->
  Forall (fun k => hashable k = true) (seen s) ->
  Forall (fun q => set_mem q (seen s) = false) ids ->
  exists s',
    for_each (Observations.check_observation categories owner) i os s
    = Ok s' /\
    errors (found s') = errors (found s).
Proof.
  induction os as [|o os IH]; intros ids i s Hall Hd Hhash Hfresh.
  - exists s. split; reflexivity.
  - inversion Hall as [|? id ? ids' Ho Hrest]; subst.
    destruct Hd as [Hnew Hd'].
    inversion Hfresh as [|? ? Hfid Hfrest]; subst.
    destruct (check_observation_accepts owner i o id s Ho Hfid)
      as (s1 & Hs1 & He & Hs).
    assert (Hhid : hashable id = true)
      by (destruct Ho as (? & ? & ? & _ & _ & Hh & _); exact Hh).
    destruct (IH ids' (S i) s1 Hrest Hd') as (s' & Hrun & He').
    { rewrite Hs. apply set_add_hashable; assumption. }
    { clear - Hrest Hnew Hfrest Hs Hhid Hhash. revert Hnew Hfrest.
      induction Hrest as [|o q os ids Hq _ IHrest]; intros Hnew Hfrest;
        [constructor|].
      inversion Hnew; subst. inversion Hfrest; subst.
      constructor; [|apply IHrest; assumption].
      destruct Hq as (? & ? & ? & _ & _ & Hhq & _).
      rewrite Hs, set_mem_add by assumption.
      apply orb_false_iff. split; assumption. }
    exists s'. simpl. rewrite Hs1. simpl. split; [exact Hrun|].
    congruence.
Qed.

Lemma check_entity_observations_clean i x r r1 :
  Observations.check_entity_observations categories i x r = Ok r1 ->
  errors r1 = [] ->
  errors r = [] /\ observations_in_order x.
Proof.
  unfold Observations.check_entity_observations. intros Hrun Hclean.
  destruct x as [| | | | |m];
    try (apply ok_inj in Hrun; subst r1; split; [exact Hclean | exact I]).
  destruct (dict_get m "observations" (JArr [])) as [| | | |os|] eqn:Hos;
    try (apply ok_inj in Hrun; subst r1; exfalso;
         eapply errors_add_error; exact Hclean).
  apply bind_ok in Hrun. destruct Hrun as (s & Hloop & Hrun).
  apply ok_inj in Hrun. subst r1.
  destruct (observation_loop_sound _ _ _ _ _ Hloop)
    as (Hc & ids & H1 & H2 & _);
    [constructor | exact Hclean |].
  split; [exact Hc|]. simpl. rewrite Hos. eauto.
Qed.

Lemma check_entity_observations_accepts i x r :
  observations_in_order x ->
  exists r1,
    Observations.check_entity_observations categories i x r = Ok r1 /\
    errors r1 = errors r.
Proof.
  unfold Observations.check_entity_observations. intros Hx.
  destruct x as [| | | | |m]; try (exists r; split; reflexivity).
  destruct Hx as (os & ids & Hos & Hall & Hd). rewrite Hos.
  destruct (observation_loop_complete (dict_get m "id" (JStr "unknown"))
              os ids 0%nat (mk_scan r []) Hall Hd) as (s' & Hrun & He).
  { constructor. }
  { clear. induction ids; constructor; auto. }
  rewrite Hrun. cbn [bind]. eauto.
Qed.

Lemma observations_accepts_iff xs :
  (exists es ws,
     Observations.validate_observations categories (JArr xs)
     = Ok (true, es, ws)) <->
  Forall observations_in_order xs.
Proof.
  unfold Observations.validate_observations. cbn [py_iter bind].
  split.
  - intros (es & ws & Hrun).
    apply bind_ok in Hrun. destruct Hrun as (r & Hloop & Hrun).
    apply ok_inj in Hrun. unfold conclude in Hrun.
    destruct (errors r) eqn:He; [|discriminate Hrun].
    eapply (clean_loop_sound (fun r => r)); eauto.
    intros. eapply check_entity_observations_clean; eassumption.
  - intros Hall.
    destruct (clean_loop_complete (fun r => r)
                (Observations.check_entity_observations categories)
                observations_in_order
                check_entity_observations_accepts xs 0%nat no_findings Hall)
      as (r & Hr & He).
    rewrite Hr. cbn [bind]. unfold conclude. rewrite He. simpl. eauto.
Qed.

End ObservationLoop.

(** X19: the observation check, the same in the three layer scripts,
    accepts a list of entities exactly when the observations of every entity
    that is an object are a list of objects with an ID that can be hashed, a
    category and a description that has a length, with a severity out of the
    three where one is given, and with no ID twice in one entity. *)
Theorem validate_observations_accepts_iff (categories xs : list json) :
  (exists es ws,
     Observations.validate_observations categories (JArr xs)
     = Ok (true, es, ws)) <->
  Forall observations_in_order xs.
Proof. apply observations_accepts_iff. Qed.
(** ** What the relation checks of the container and component scripts
       accept *)

(** The set comprehension over the IDs raises exactly on an ID that cannot
    be hashed. *)
Lemma collect_ids_returns xs : forall s,
  (exists ids, collect_ids xs s = Ok ids) <-> Forall hashable_id xs.
Proof.
  induction xs as [|x xs IH]; intros s; simpl.
  - split; [constructor | eauto].
  - destruct x as [| | | | |m];
      try (rewrite IH; split;
           [intros Hall; constructor; [exact I | exact Hall]
           |intros Hall; inversion Hall; assumption]).
    destruct (lookup "id" m) as [v|] eqn:Hv.
    + destruct (hashable v) eqn:Hh.
      * rewrite IH. split.
        -- intros Hall. constructor; [|exact Hall].
           simpl. intros v' Hv'. congruence.
        -- intros Hall. inversion Hall; assumption.
      * split; [intros (ids & Hids); discriminate Hids|].
        intros Hall. inversion Hall as [|? ? Hx _]; subst.
        simpl in Hx. rewrite (Hx v Hv) in Hh. discriminate Hh.
    + rewrite IH. split.
      * intros Hall. constructor; [|exact Hall].
        simpl. intros v' Hv'. congruence.
      * intros Hall. inversion Hall; assumption.
Qed.

Lemma missing_fields_clean mk fields m r :
  errors (add_errors (missing_fields mk fields m) r) = [] ->
  errors r = [] /\ Forall (fun f => has_key f m = true) fields.
Proof.
  cbn [errors add_errors]. intros Hc.
  apply app_eq_nil in Hc. destruct Hc as [Hr Hmiss].
  apply missing_fields_nil in Hmiss. auto.
Qed.

(** *** Containers *)

Lemma containers_relation_type_errors owner m r :
  errors (Containers.check_relation_type owner m r) = errors r.
Proof.
  unfold Containers.check_relation_type.
  destruct (lookup "type" m) as [t|]; [|reflexivity].
  destruct (list_mem t Containers.RELATION_TYPES); reflexivity.
Qed.

Lemma containers_check_relation_clean ids owner i rel r r1 :
  Containers.check_relation ids owner i rel r = Ok r1 ->
  errors r1 = [] ->
  errors r = [] /\ container_relation_shaped rel.
Proof.
  unfold Containers.check_relation. intros Hrun Hclean.
  destruct rel as [| | | | |m];
    try (apply ok_inj in Hrun; subst r1; exfalso;
         eapply errors_add_error; exact Hclean).
  apply bind_ok in Hrun. destruct Hrun as (r2 & Htarget & Hrun).
  apply bind_ok in Hrun. destruct Hrun as (short & Hshort & Hrun).
  apply ok_inj in Hrun. subst r1.
  assert (Hc2 : errors r2 = []) by (destruct short; exact Hclean).
  unfold Containers.check_target in Htarget.
  destruct (lookup "target" m) as [t|] eqn:Ht.
  - apply bind_ok in Htarget. destruct Htarget as (known & Hk & Htarget).
    apply ok_inj in Htarget. subst r2.
    unfold py_in_set in Hk.
    destruct (hashable t) eqn:Hh; [|discriminate Hk].
    assert (Hc : errors (Containers.check_relation_type owner m
                   (add_errors (missing_fields (RelationMissingField owner i)
                      Containers.relation_fields m) r)) = [])
      by (destruct known; exact Hc2).
    rewrite containers_relation_type_errors in Hc.
    apply missing_fields_clean in Hc. destruct Hc as [Hr Hfields].
    split; [exact Hr|].
    assert (Hhas : has_key "type" m = true /\
                   has_key "description" m = true).
    { rewrite Forall_forall in Hfields. split; apply Hfields; simpl; auto. }
    destruct Hhas as [Htype Hdesc].
    apply has_key_lookup in Hdesc. destruct Hdesc as (d & Hd).
    destruct (short_text_len _ _ _ Hshort d Hd) as (n & Hn).
    exists m, t, d, n. repeat split; auto.
  - apply ok_inj in Htarget. subst r2.
    rewrite containers_relation_type_errors in Hc2.
    apply missing_fields_clean in Hc2. destruct Hc2 as [_ Hfields].
    rewrite Forall_forall in Hfields.
    assert (Hhas : has_key "target" m = true)
      by (apply Hfields; simpl; auto).
    apply has_key_lookup in Hhas. destruct Hhas as (v & Hv). congruence.
Qed.

Lemma containers_check_relation_accepts ids owner i rel r :
  container_relation_shaped rel ->
  exists r1,
    Containers.check_relation ids owner i rel r = Ok r1 /\
    errors r1 = errors r.
Proof.
  intros (m & t & d & n & -> & Htype & Ht & Hh & Hd & Hn).
  unfold Containers.check_relation.
  assert (Hmiss : missing_fields (RelationMissingField owner i)
                    Containers.relation_fields m = []).
  { apply missing_fields_nil. unfold Containers.relation_fields.
    repeat constructor; auto.
    - unfold has_key. rewrite Ht. reflexivity.
    - unfold has_key. rewrite Hd. reflexivity. }
  rewrite Hmiss. unfold Containers.check_target, py_in_set.
  rewrite Ht, Hh. cbn [bind].
  destruct (short_text_returns m "description" d n Hd Hn) as (short & Hs).
  rewrite Hs. cbn [bind]. eexists. split; [reflexivity|].
  destruct short, (set_mem t ids);
    rewrite ?errors_add_warning, containers_relation_type_errors;
    cbn [errors add_errors]; apply app_nil_r.
Qed.

Lemma check_container_relations_clean ids i x r r1 :
  Containers.check_container_relations ids i x r = Ok r1 ->
  errors r1 = [] ->
  errors r = [] /\ relations_in_order container_relation_shaped x.
Proof.
  unfold Containers.check_container_relations. intros Hrun Hclean.
  destruct x as [| | | | |m];
    try (apply ok_inj in Hrun; subst r1; split; [exact Hclean | exact I]).
  destruct (dict_get m "relations" (JArr [])) as [| | | |rels|] eqn:Hrels;
    try (apply ok_inj in Hrun; subst r1; exfalso;
         eapply errors_add_error; exact Hclean).
  destruct (clean_loop_sound (fun r => r) _ container_relation_shaped
              (containers_check_relation_clean ids _) _ _ _ _ Hrun Hclean)
    as (Hc & Hall).
  split; [exact Hc|]. simpl. rewrite Hrels. eauto.
Qed.

Lemma check_container_relations_accepts ids i x r :
  relations_in_order container_relation_shaped x ->
  exists r1,
    Containers.check_container_relations ids i x r = Ok r1 /\
    errors r1 = errors r.
Proof.
  unfold Containers.check_container_relations. intros Hx.
  destruct x as [| | | | |m]; try (exists r; split; reflexivity).
  destruct Hx as (rels & Hrels & Hall). rewrite Hrels.
  apply (clean_loop_complete (fun r => r) _ container_relation_shaped
           (containers_check_relation_accepts ids _)).
  exact Hall.
Qed.

Lemma containers_relations_accepts xs :
  (exists es ws,
     Containers.validate_relations (JArr xs) = Ok (true, es, ws)) <->
  Forall hashable_id xs /\
  Forall (relations_in_order container_relation_shaped) xs.
Proof.
  unfold Containers.validate_relations. cbn [py_iter bind].
  split.
  - intros (es & ws & Hrun).
    apply bind_ok in Hrun. destruct Hrun as (ids & Hids & Hrun).
    apply bind_ok in Hrun. destruct Hrun as (r & Hloop & Hrun).
    apply ok_inj in Hrun. unfold conclude in Hrun.
    destruct (errors r) eqn:He; [|discriminate Hrun].
    split; [apply (collect_ids_returns xs []); eauto|].
    eapply (clean_loop_sound (fun r => r)); eauto.
    intros. eapply check_container_relations_clean; eassumption.
  - intros [Hhash Hall].
    apply (collect_ids_returns xs []) in Hhash.
    destruct Hhash as (ids & Hids). rewrite Hids. cbn [bind].
    destruct (clean_loop_complete (fun r => r)
                (Containers.check_container_relations ids)
                (relations_in_order container_relation_shaped)
                (check_container_relations_accepts ids)
                xs 0%nat no_findings Hall) as (r & Hr & He).
    rewrite Hr. cbn [bind]. unfold conclude. rewrite He. simpl. eauto.
Qed.

(** X20: the relation check of the container script accepts a list of
    containers exactly when every ID can be hashed and the relations of
    every container that is an object are a list of objects with a type, a
    target that can be hashed and a description that has a length.  A
    relation needs no ID, and an unknown target or type is no error. *)
Theorem validate_container_relations_accepts_iff (xs : list json) :
  (exists es ws,
     Containers.validate_relations (JArr xs) = Ok (true, es, ws)) <->
  Forall hashable_id xs /\
  Forall (relations_in_order container_relation_shaped) xs.
Proof. apply containers_relations_accepts. Qed.

(** *** Components *)

Lemma components_relation_type_errors owner m r :
  errors (Components.check_relation_type owner m r) = errors r.
Proof.
  unfold Components.check_relation_type.
  destruct (lookup "type" m) as [t|]; [|reflexivity].
  destruct (list_mem t Components.RELATION_TYPES); reflexivity.
Qed.

Lemma check_coupling_clean owner m t :
  errors (Components.tfound (Components.check_coupling owner m t)) = [] ->
  errors (Components.tfound t) = [] /\
  forall c, lookup "coupling" m = Some c ->
            list_mem c Components.COUPLING_TYPES = true.
Proof.
  unfold Components.check_coupling.
  destruct (lookup "coupling" m) as [c|].
  2:{ intros Hc. split; [exact Hc|]. intros ? Hv. discriminate Hv. }
  destruct (list_mem c Components.COUPLING_TYPES) eqn:Hin; simpl.
  - intros Hc. split.
    + destruct (py_eq c (JStr "tight")); exact Hc.
    + intros ? Heq. inversion Heq; subst. exact Hin.
  - intros Hc. exfalso. eapply errors_add_error. exact Hc.
Qed.

Lemma check_coupling_accepts owner m t c :
  lookup "coupling" m = Some c ->
  list_mem c Components.COUPLING_TYPES = true ->
  Components.tfound (Components.check_coupling owner m t)
  = Components.tfound t.
Proof.
  unfold Components.check_coupling. intros -> ->. simpl.
  destruct (py_eq c (JStr "tight")); reflexivity.
Qed.

Lemma components_check_relation_clean ids owner i rel t t1 :
  Components.check_relation ids owner i rel t = Ok t1 ->
  errors (Components.tfound t1) = [] ->
  errors (Components.tfound t) = [] /\ component_relation_shaped rel.
Proof.
  unfold Components.check_relation. intros Hrun Hclean.
  destruct rel as [| | | | |m];
    try (apply ok_inj in Hrun; subst t1; exfalso;
         eapply errors_add_error; exact Hclean).
  apply bind_ok in Hrun. destruct Hrun as (r2 & Htarget & Hrun).
  apply bind_ok in Hrun. destruct Hrun as (short & Hshort & Hrun).
  apply ok_inj in Hrun. subst t1.
  cbn [Components.tfound Components.with_report] in Hclean.
  assert (Hc2 : errors r2 = []) by (destruct short; exact Hclean).
  clear Hclean.
  assert (Hpre : errors (Components.tfound (Components.check_coupling owner m
                   (Components.with_report
                      (Components.check_relation_type owner m
                         (add_errors
                            (missing_fields (RelationMissingField owner i)
                               Components.relation_fields m)
                            (Components.tfound t)))
                      (Components.mk_tally (Components.tfound t)
                         (Components.tight_coupling_count t)
                         (S (Components.total_relations t)))))) = [] /\
                 exists tg, lookup "target" m = Some tg /\
                            hashable tg = true).
  { unfold Components.check_target in Htarget.
    cbn [Components.tfound] in Htarget.
    destruct (lookup "target" m) as [tg|] eqn:Ht.
    - apply bind_ok in Htarget. destruct Htarget as (known & Hk & Htarget).
      apply ok_inj in Htarget. subst r2. unfold py_in_set in Hk.
      destruct (hashable tg) eqn:Hh; [|discriminate Hk].
      split; [destruct known; exact Hc2 | eauto].
    - apply ok_inj in Htarget. subst r2. exfalso.
      apply check_coupling_clean in Hc2. destruct Hc2 as [Hc2 _].
      cbn [Components.tfound Components.with_report] in Hc2.
      rewrite components_relation_type_errors in Hc2.
      apply missing_fields_clean in Hc2. destruct Hc2 as [_ Hfields].
      rewrite Forall_forall in Hfields.
      assert (Hhas : has_key "target" m = true)
        by (apply Hfields; simpl; auto).
      apply has_key_lookup in Hhas. destruct Hhas as (v & Hv).
      congruence. }
  destruct Hpre as [Hc (tg & Htg & Hh)].
  apply check_coupling_clean in Hc. destruct Hc as [Hc Hcoupling].
  cbn [Components.tfound Components.with_report] in Hc.
  rewrite components_relation_type_errors in Hc.
  apply missing_fields_clean in Hc. destruct Hc as [Hr Hfields].
  split; [exact Hr|].
  assert (Hhas : has_key "type" m = true /\
                 has_key "coupling" m = true /\
                 has_key "description" m = true).
  { rewrite Forall_forall in Hfields.
    repeat split; apply Hfields; simpl; auto. }
  destruct Hhas as (Htype & Hcoup & Hdesc).
  apply has_key_lookup in Hdesc. destruct Hdesc as (d & Hd).
  apply has_key_lookup in Hcoup. destruct Hcoup as (c & Hcv).
  destruct (short_text_len _ _ _ Hshort d Hd) as (n & Hn).
  split.
  - exists m, tg, d, n. repeat split; auto.
  - exists m, c. repeat split; auto.
Qed.

Lemma components_check_relation_accepts ids owner i rel t :
  component_relation_shaped rel ->
  exists t1,
    Components.check_relation ids owner i rel t = Ok t1 /\
    errors (Components.tfound t1) = errors (Components.tfound t).
Proof.
  intros [(m & tg & d & n & -> & Htype & Ht & Hh & Hd & Hn)
          (m' & c & Hm' & Hc & Hin)].
  inversion Hm'; subst m'. clear Hm'.
  unfold Components.check_relation.
  assert (Hmiss : missing_fields (RelationMissingField owner i)
                    Components.relation_fields m = []).
  { apply missing_fields_nil. unfold Components.relation_fields.
    repeat constructor; auto.
    - unfold has_key. rewrite Ht. reflexivity.
    - unfold has_key. rewrite Hc. reflexivity.
    - unfold has_key. rewrite Hd. reflexivity. }
  rewrite Hmiss. unfold Components.check_target, py_in_set.
  rewrite Ht, Hh. cbn [bind].
  destruct (short_text_returns m "description" d n Hd Hn) as (short & Hs).
  rewrite Hs. cbn [bind]. eexists. split; [reflexivity|].
  cbn [Components.tfound Components.with_report].
  destruct short, (set_mem tg ids);
    rewrite ?errors_add_warning, (check_coupling_accepts owner m _ c Hc Hin);
    cbn [Components.tfound Components.with_report];
    rewrite components_relation_type_errors;
    cbn [errors add_errors]; apply app_nil_r.
Qed.

Lemma check_component_relations_clean ids i x t t1 :
  Components.check_component_relations ids i x t = Ok t1 ->
  errors (Components.tfound t1) = [] ->
  errors (Components.tfound t) = [] /\
  relations_in_order component_relation_shaped x.
Proof.
  unfold Components.check_component_relations. intros Hrun Hclean.
  destruct x as [| | | | |m];
    try (apply ok_inj in Hrun; subst t1; split; [exact Hclean | exact I]).
  destruct (dict_get m "relations" (JArr [])) as [| | | |rels|] eqn:Hrels;
    try (apply ok_inj in Hrun; subst t1; exfalso;
         eapply errors_add_error; exact Hclean).
  destruct (clean_loop_sound Components.tfound _ component_relation_shaped
              (components_check_relation_clean ids _) _ _ _ _ Hrun Hclean)
    as (Hc & Hall).
  split; [exact Hc|]. simpl. rewrite Hrels. eauto.
Qed.

Lemma check_component_relations_accepts ids i x t :
  relations_in_order component_relation_shaped x ->
  exists t1,
    Components.check_component_relations ids i x t = Ok t1 /\
    errors (Components.tfound t1) = errors (Components.tfound t).
Proof.
  unfold Components.check_component_relations. intros Hx.
  destruct x as [| | | | |m]; try (exists t; split; reflexivity).
  destruct Hx as (rels & Hrels & Hall). rewrite Hrels.
  apply (clean_loop_complete Components.tfound _ component_relation_shaped
           (components_check_relation_accepts ids _)).
  exact Hall.
Qed.

Lemma components_relations_accepts xs :
  (exists es ws,
     Components.validate_relations (JArr xs) = Ok (true, es, ws)) <->
  Forall hashable_id xs /\
  Forall (relations_in_order component_relation_shaped) xs.
Proof.
  unfold Components.validate_relations. cbn [py_iter bind].
  split.
  - intros (es & ws & Hrun).
    apply bind_ok in Hrun. destruct Hrun as (ids & Hids & Hrun).
    apply bind_ok in Hrun. destruct Hrun as (t & Hloop & Hrun).
    apply ok_inj in Hrun. unfold conclude in Hrun.
    assert (He : errors (Components.tfound t) = []).
    { destruct (Components.high_tight_coupling _ _) in Hrun;
        cbn [errors add_warning] in Hrun;
        destruct (errors (Components.tfound t)); [reflexivity| |reflexivity|];
        discriminate Hrun. }
    split; [apply (collect_ids_returns xs []); eauto|].
    eapply (clean_loop_sound Components.tfound); eauto.
    intros. eapply check_component_relations_clean; eassumption.
  - intros [Hhash Hall].
    apply (collect_ids_returns xs []) in Hhash.
    destruct Hhash as (ids & Hids). rewrite Hids. cbn [bind].
    destruct (clean_loop_complete Components.tfound
                (Components.check_component_relations ids)
                (relations_in_order component_relation_shaped)
                (check_component_relations_accepts ids)
                xs 0%nat (Components.mk_tally no_findings 0 0) Hall)
      as (t & Hr & He).
    rewrite Hr. cbn [bind]. unfold conclude.
    destruct (Components.high_tight_coupling _ _);
      cbn [errors add_warning warnings]; rewrite He; simpl; eauto.
Qed.

(** X21: the relation check of the component script accepts a list of
    components exactly when every ID can be hashed and the relations of
    every component that is an object are a list of objects with a type, a
    target that can be hashed, a description that has a length and a
    coupling that is loose or tight.  The share of tight couplings has no
    say. *)
Theorem validate_component_relations_accepts_iff (xs : list json) :
  (exists es ws,
     Components.validate_relations (JArr xs) = Ok (true, es, ws)) <->
  Forall hashable_id xs /\
  Forall (relations_in_order component_relation_shaped) xs.
Proof. apply components_relations_accepts. Qed.
(** ** The cycle search returns *)

Lemma filter_length_le {A : Type} (f f' : A -> bool) l :
  (forall x, In x l -> f' x = true -> f x = true) ->
  (List.length (filter f' l) <= List.length (filter f l))%nat.
Proof.
  induction l as [|a l IH]; simpl; intros Himp; [lia|].
  assert (IH' : (List.length (filter f' l) <= List.length (filter f l))%nat)
    by (apply IH; intros x Hx; apply Himp; right; exact Hx).
  destruct (f' a) eqn:Ha'.
  - rewrite (Himp a (or_introl eq_refl) Ha'). simpl. lia.
  - destruct (f a); simpl; lia.
Qed.

Lemma filter_length_lt {A : Type} (f f' : A -> bool) l k :
  (forall x, In x l -> f' x = true -> f x = true) ->
  In k l -> f k = true -> f' k = false ->
  (List.length (filter f' l) < List.length (filter f l))%nat.
Proof.
  induction l as [|a l IH]; simpl; intros Himp Hk Hfk Hfk'; [destruct Hk|].
  assert (Hle : (List.length (filter f' l) <= List.length (filter f l))%nat)
    by (apply filter_length_le; intros x Hx; apply Himp; right; exact Hx).
  destruct Hk as [->|Hk].
  - rewrite Hfk, Hfk'. simpl. lia.
  - assert (IH' : (List.length (filter f' l) < List.length (filter f l))%nat)
      by (apply IH; auto).
    destruct (f' a) eqn:Ha'.
    + rewrite (Himp a (or_introl eq_refl) Ha'). simpl. lia.
    + destruct (f a); simpl; lia.
Qed.

Lemma unvisited_mono g V V' :
  (forall x, set_mem x V = true -> set_mem x V' = true) ->
  (List.length (unvisited g V') <= List.length (unvisited g V))%nat.
Proof.
  intros Hsub. unfold unvisited. apply filter_length_le.
  intros x _ Hx. apply negb_true_iff in Hx. apply negb_true_iff.
  destruct (set_mem x V) eqn:E; [|reflexivity].
  apply Hsub in E. congruence.
Qed.

Lemma unvisited_enter g V node :
  Forall (fun k => hashable k = true) (map fst g) ->
  Forall (fun k => hashable k = true) V ->
  hashable node = true ->
  Systems.graph_has node g = true -> set_mem node V = false ->
  (List.length (unvisited g (set_add node V))
   < List.length (unvisited g V))%nat.
Proof.
  intros Hg HV Hnode Hhas HnV.
  rewrite graph_has_keys in Hhas. apply existsb_exists in Hhas.
  destruct Hhas as (k & Hk & Hnk).
  assert (Hhk : hashable k = true)
    by (rewrite Forall_forall in Hg; apply Hg; exact Hk).
  unfold unvisited. apply filter_length_lt with (k := k).
  - intros x _ Hx. apply negb_true_iff in Hx. apply negb_true_iff.
    destruct (set_mem x V) eqn:E; [|reflexivity].
    rewrite (set_mem_add_other x node V E) in Hx. discriminate Hx.
  - exact Hk.
  - rewrite <- (set_mem_compat node k V) by assumption.
    rewrite HnV. reflexivity.
  - rewrite set_mem_add by assumption.
    rewrite (py_eq_sym k node) by assumption. rewrite Hnk.
    rewrite orb_true_r. reflexivity.
Qed.

Lemma index_of_found x l :
  (exists y, In y l /\ py_eq y x = true) ->
  exists i, Systems.index_of x l = Some i.
Proof.
  induction l as [|a l IH]; intros (y & Hy & Hyx); [destruct Hy|].
  simpl. destruct (py_eq a x) eqn:Hax; [eauto|].
  destruct Hy as [->|Hy]; [congruence|].
  destruct IH as (i & Hi); [eauto|]. rewrite Hi. simpl. eauto.
Qed.

Lemma Forall_skipn {A : Type} (P : A -> Prop) n l :
  Forall P l -> Forall P (skipn n l).
Proof.
  intros Hl. rewrite <- (firstn_skipn n l) in Hl.
  apply Forall_app in Hl. apply Hl.
Qed.

Lemma stack_on_path_enter R path node :
  hashable node = true ->
  Forall (fun k => hashable k = true) R ->
  stack_on_path R path ->
  stack_on_path (set_add node R) (path ++ [node]).
Proof.
  intros Hnode HR Hsp x Hx Hin.
  rewrite set_mem_add in Hin by assumption.
  apply orb_true_iff in Hin. destruct Hin as [Hin|Hxn].
  - destruct (Hsp x Hx Hin) as (y & Hy & Hyx).
    exists y. split; [apply in_or_app; left; exact Hy | exact Hyx].
  - exists node. split; [apply in_or_app; right; left; reflexivity|].
    rewrite py_eq_sym by assumption. exact Hxn.
Qed.

(** A search started with at least as many nested calls left as there are
    nodes not yet visited returns: it neither runs out of calls nor looks
    on the path for a node that is not there.  What it returns as a cycle
    is made of nodes of the path and of the graph. *)
Lemma has_cycle_returns (P : json -> Prop) g :
  graph_hashable g -> graph_closed g ->
  (forall a b, In b (Systems.graph_get a g) -> P b) ->
  forall depth node V R path,
    hashable node = true -> Systems.graph_has node g = true ->
    Forall (fun k => hashable k = true) V ->
    Forall (fun k => hashable k = true) R ->
    set_mem node V = false ->
    stack_on_path R path ->
    P node -> Forall P path ->
    (List.length (unvisited g V) <= depth)%nat ->
    exists fc V' R',
      Systems.has_cycle depth g node V R path = Ok (fc, V', R') /\
      Forall (fun k => hashable k = true) V' /\
      Forall (fun k => hashable k = true) R' /\
      (forall x, set_mem x V = true -> set_mem x V' = true) /\
      (fc = None ->
       forall x, hashable x = true -> set_mem x R' = true ->
                 set_mem x R = true) /\
      (forall p, fc = Some p -> Forall P p).
Proof.
  intros Hg Hclosed HP.
  induction depth as [|depth IH];
    intros node V R path Hnode Hhas HV HR HnV Hsp HPn HPp Hlen.
  { exfalso.
    pose proof (unvisited_enter g V node (proj1 Hg) HV Hnode Hhas HnV).
    lia. }
  simpl.
  assert (HPp1 : Forall P (path ++ [node]))
    by (apply Forall_app; split; [exact HPp | constructor; auto]).
  assert (Hinner :
    forall ns v r,
      (forall b, In b ns -> In b (Systems.graph_get node g)) ->
      Forall (fun k => hashable k = true) v ->
      Forall (fun k => hashable k = true) r ->
      stack_on_path r (path ++ [node]) ->
      (List.length (unvisited g v) <= depth)%nat ->
      exists fc V' R',
        (fix neighbors (ns : list json) (visited rec_stack : pyset)
           {struct ns} : res (option (list json) * pyset * pyset) :=
           match ns with
           | [] => Ok (None, visited, set_remove node rec_stack)
           | neighbor :: ns' =>
               if negb (set_mem neighbor visited) then
                 '(found_cycle, visited', rec_stack') <-
                    Systems.has_cycle depth g neighbor visited rec_stack
                      (path ++ [node]) ;;
                 match found_cycle with
                 | Some cycle_path =>
                     Ok (Some cycle_path, visited', rec_stack')
                 | None => neighbors ns' visited' rec_stack'
                 end
               else if set_mem neighbor rec_stack then
                 match Systems.index_of neighbor (path ++ [node]) with
                 | Some cycle_start =>
                     Ok (Some (skipn cycle_start (path ++ [node]) ++
                               [neighbor]), visited, rec_stack)
                 | None => Raise ValueError
                 end
               else neighbors ns' visited rec_stack
           end) ns v r = Ok (fc, V', R') /\
        Forall (fun k => hashable k = true) V' /\
        Forall (fun k => hashable k = true) R' /\
        (forall x, set_mem x v = true -> set_mem x V' = true) /\
        (fc = None ->
         forall x, hashable x = true -> set_mem x R' = true ->
                   set_mem x r = true /\ py_eq x node = false) /\
        (forall p, fc = Some p -> Forall P p)).
  { intros ns. induction ns as [|n ns IHns];
      intros v r Hns Hhv Hhr Hspr Hlenv.
    - exists None, v, (set_remove node r).
      split; [reflexivity|]. split; [exact Hhv|].
      split; [apply set_remove_hashable; exact Hhr|].
      split; [auto|]. split; [|intros p Hp; discriminate Hp].
      intros _ x Hx Hin. rewrite set_mem_remove in Hin by assumption.
      apply andb_true_iff in Hin. destruct Hin as [Hin Hne].
      apply negb_true_iff in Hne. auto.
    - assert (Hnsucc : In n (Systems.graph_get node g))
        by (apply Hns; left; reflexivity).
      assert (Hn : hashable n = true)
        by (destruct Hg as [_ Hg]; eapply Hg; exact Hnsucc).
      assert (Hns' : forall b, In b ns -> In b (Systems.graph_get node g))
        by (intros b Hb; apply Hns; right; exact Hb).
      destruct (set_mem n v) eqn:Hnv; cbn [negb].
      + destruct (set_mem n r) eqn:Hnr.
        * destruct (index_of_found n (path ++ [node]) (Hspr n Hn Hnr))
            as (i & Hi).
          rewrite Hi. do 3 eexists. split; [reflexivity|].
          split; [exact Hhv|]. split; [exact Hhr|]. split; [auto|].
          split; [intros Hnone; discriminate Hnone|].
          intros p Hp. inversion Hp; subst p.
          apply Forall_app. split; [apply Forall_skipn; exact HPp1|].
          constructor; [|constructor]. eapply HP. exact Hnsucc.
        * apply IHns; assumption.
      + destruct (IH n v r (path ++ [node])) as
          (fc & v1 & r1 & Hrun & Hhv1 & Hhr1 & Hmono & Hstack & Hpath);
          auto.
        { eapply Hclosed. exact Hnsucc. }
        { eapply HP. exact Hnsucc. }
        rewrite Hrun. cbn [bind].
        destruct fc as [c|].
        * do 3 eexists. split; [reflexivity|].
          split; [exact Hhv1|]. split; [exact Hhr1|]. split; [exact Hmono|].
          split; [intros Hnone; discriminate Hnone | exact Hpath].
        * destruct (IHns v1 r1) as
            (fc2 & v2 & r2 & Hrun2 & Hhv2 & Hhr2 & Hmono2 & Hstack2 & Hp2);
            auto.
          { intros x Hx Hin. apply Hspr; [exact Hx|].
            apply (Hstack eq_refl); assumption. }
          { pose proof (unvisited_mono g v v1 Hmono). lia. }
          exists fc2, v2, r2. split; [exact Hrun2|].
          split; [exact Hhv2|]. split; [exact Hhr2|].
          split; [auto|]. split; [|exact Hp2].
          intros Hnone x Hx Hin.
          destruct (Hstack2 Hnone x Hx Hin) as [Hin1 Hne].
          split; [|exact Hne]. apply (Hstack eq_refl); assumption. }
  destruct (Hinner (Systems.graph_get node g) (set_add node V)
              (set_add node R))
    as (fc & V' & R' & Hrun & HhV & HhR & Hmono & Hstack & Hpath).
  - auto.
  - apply set_add_hashable; assumption.
  - apply set_add_hashable; assumption.
  - apply stack_on_path_enter; assumption.
  - pose proof (unvisited_enter g V node (proj1 Hg) HV Hnode Hhas HnV).
    lia.
  - exists fc, V', R'. split; [exact Hrun|].
    split; [exact HhV|]. split; [exact HhR|].
    split; [intros x Hx; apply Hmono; apply set_mem_add_other; exact Hx|].
    split; [|exact Hpath].
    intros Hnone x Hx Hin.
    destruct (Hstack Hnone x Hx Hin) as [Hin1 Hne].
    rewrite set_mem_add in Hin1 by assumption.
    rewrite Hne, orb_false_r in Hin1. exact Hin1.
Qed.

Lemma all_str_spec l :
  all_str l = true <-> Forall (fun j => is_str j = true) l.
Proof.
  unfold all_str. rewrite forallb_forall, Forall_forall. reflexivity.
Qed.

(** The loop over the nodes returns when every search it starts has
    enough nested calls for the whole graph, and the nodes are strings. *)
Lemma detect_cycles_returns g depth :
  graph_hashable g -> graph_closed g ->
  Forall (fun k => is_str k = true) (map fst g) ->
  (forall a b, In b (Systems.graph_get a g) -> is_str b = true) ->
  (List.length (map fst g) <= depth)%nat ->
  forall nodes V r,
    (forall n, In n nodes -> In n (map fst g)) ->
    Forall (fun k => hashable k = true) V ->
    exists r', Systems.detect_cycles depth g nodes V r = Ok r'.
Proof.
  intros Hg Hclosed Hkeys Hsucc Hdepth nodes.
  induction nodes as [|n nodes IH]; intros V r Hnodes HV; simpl; [eauto|].
  assert (Hnodes' : forall k, In k nodes -> In k (map fst g))
    by (intros k Hk; apply Hnodes; right; exact Hk).
  destruct (set_mem n V) eqn:HnV; [apply IH; assumption|].
  assert (Hin : In n (map fst g)) by (apply Hnodes; left; reflexivity).
  assert (Hn : hashable n = true).
  { destruct Hg as [Hg _]. rewrite Forall_forall in Hg. apply Hg, Hin. }
  assert (Hstr : is_str n = true)
    by (rewrite Forall_forall in Hkeys; apply Hkeys, Hin).
  destruct (has_cycle_returns (fun j => is_str j = true) g Hg Hclosed Hsucc
              depth n V [] [])
    as (fc & V' & R' & Hrun & HhV & _ & _ & _ & Hpath); auto.
  - rewrite graph_has_keys. apply existsb_exists. exists n.
    split; [exact Hin | apply py_eq_refl; exact Hn].
  - intros x _ Hx. discriminate Hx.
  - unfold unvisited.
    pose proof (filter_length_le (fun _ => true)
                  (fun k => negb (set_mem k V)) (map fst g)
                  (fun _ _ _ => eq_refl)) as Hle.
    rewrite (forallb_filter_id (fun _ : json => true)) in Hle
      by (apply forallb_forall; reflexivity).
    lia.
  - rewrite Hrun. cbn [bind].
    destruct fc as [p|]; [|apply IH; assumption].
    unfold py_join.
    rewrite (proj2 (all_str_spec p) (Hpath p eq_refl)). cbn [bind].
    apply IH; assumption.
Qed.
(** ** What the relation check of the systems script accepts *)

Lemma check_relation_type_found owner m s :
  errors (Systems.rfound (Systems.check_relation_type owner m s))
  = errors (Systems.rfound s) /\
  Systems.rseen (Systems.check_relation_type owner m s) = Systems.rseen s.
Proof.
  unfold Systems.check_relation_type.
  destruct (lookup "type" m) as [t|]; [|auto].
  destruct (list_mem t Systems.RELATION_TYPES); auto.
Qed.

Lemma check_endpoints_found ids owner idx m s s' :
  Systems.check_endpoints ids owner idx m s = Ok s' ->
  errors (Systems.rfound s') = errors (Systems.rfound s) /\
  Systems.rseen s' = Systems.rseen s.
Proof.
  unfold Systems.check_endpoints, py_in_set.
  set (source := dict_get m "source" JNull).
  set (target := dict_get m "target" JNull).
  destruct (truthy source && truthy target).
  2:{ intros Hrun. apply ok_inj in Hrun. subst s'. auto. }
  destruct (hashable source); [|discriminate].
  destruct (hashable target); [|discriminate].
  cbn [bind]. intros Hrun. apply ok_inj in Hrun. subst s'.
  repeat match goal with
         | |- context [if ?b then _ else _] => destruct b
         end; auto.
Qed.

(** What one relation does to the errors and to the IDs seen: nothing but
    the missing fields and the ID block count. *)
Lemma check_relation_found ids owner i m s s' :
  Systems.check_relation ids owner i (JObj m) s = Ok s' ->
  exists s2,
    Systems.check_relation_id owner m
      (Systems.mk_rel_scan
         (add_errors (missing_fields (RelationMissingField owner i)
                        Systems.relation_fields m) (Systems.rfound s))
         (Systems.rgraph s) (Systems.rseen s)) = Ok s2 /\
    errors (Systems.rfound s') = errors (Systems.rfound s2) /\
    Systems.rseen s' = Systems.rseen s2.
Proof.
  unfold Systems.check_relation. intros Hrun.
  apply bind_ok in Hrun. destruct Hrun as (s2 & Hid & Hrun).
  apply bind_ok in Hrun. destruct Hrun as (s3 & Hends & Hrun).
  apply bind_ok in Hrun. destruct Hrun as (short & _ & Hrun).
  apply ok_inj in Hrun.
  exists s2. split; [exact Hid|].
  apply check_endpoints_found in Hends. destruct Hends as [He Hs].
  destruct (check_relation_type_found owner m s2) as [He2 Hs2].
  rewrite He2 in He. rewrite Hs2 in Hs.
  subst s'. destruct short; auto.
Qed.

Lemma check_relation_id_found owner m s s2 :
  Systems.check_relation_id owner m s = Ok s2 ->
  match lookup "id" m with
  | Some id =>
      hashable id = true /\
      Systems.rseen s2 = set_add id (Systems.rseen s) /\
      (set_mem id (Systems.rseen s) = false ->
       errors (Systems.rfound s2) = errors (Systems.rfound s)) /\
      (errors (Systems.rfound s2) = [] ->
       set_mem id (Systems.rseen s) = false)
  | None => s2 = s
  end.
Proof.
  unfold Systems.check_relation_id, py_in_set.
  destruct (lookup "id" m) as [id|].
  2:{ intros Hrun. apply ok_inj in Hrun. auto. }
  destruct (hashable id); [|discriminate].
  cbn [bind]. intros Hrun. apply ok_inj in Hrun. subst s2.
  split; [reflexivity|].
  destruct (set_mem id (Systems.rseen s)) eqn:Hdup;
    cbn [Systems.rfound Systems.rseen Systems.rel_error].
  - split; [reflexivity|]. split; [discriminate|].
    intros Hc. exfalso. eapply errors_add_error. exact Hc.
  - auto.
Qed.

Lemma systems_check_relation_clean ids owner i rel s s1 :
  Systems.check_relation ids owner i rel s = Ok s1 ->
  errors (Systems.rfound s1) = [] ->
  errors (Systems.rfound s) = [] /\
  exists id,
    system_relation_shaped rel id /\
    set_mem id (Systems.rseen s) = false /\
    Systems.rseen s1 = set_add id (Systems.rseen s).
Proof.
  intros Hrun Hclean.
  destruct rel as [| | | | |m];
    try (apply ok_inj in Hrun; subst s1; exfalso;
         eapply errors_add_error; exact Hclean).
  apply check_relation_found in Hrun.
  destruct Hrun as (s2 & Hid & He & Hs).
  rewrite He in Hclean. rewrite Hs.
  apply check_relation_id_found in Hid.
  cbn [Systems.rfound Systems.rseen] in Hid.
  destruct (lookup "id" m) as [id|] eqn:Hlid.
  - destruct Hid as (Hh & Hseen & Hkeep & Hfresh).
    specialize (Hfresh Hclean). rewrite (Hkeep Hfresh) in Hclean.
    apply missing_fields_clean in Hclean. destruct Hclean as [Hc Hfields].
    split; [exact Hc|]. exists id. split; [|auto].
    exists m. auto.
  - subst s2. cbn [Systems.rfound] in Hclean.
    apply missing_fields_clean in Hclean. destruct Hclean as [_ Hfields].
    rewrite Forall_forall in Hfields.
    assert (Hhas : has_key "id" m = true) by (apply Hfields; simpl; auto).
    apply has_key_lookup in Hhas. destruct Hhas as (v & Hv). congruence.
Qed.

Lemma systems_check_relation_keeps ids owner i rel id s s1 :
  Systems.check_relation ids owner i rel s = Ok s1 ->
  system_relation_shaped rel id ->
  set_mem id (Systems.rseen s) = false ->
  errors (Systems.rfound s1) = errors (Systems.rfound s) /\
  Systems.rseen s1 = set_add id (Systems.rseen s).
Proof.
  intros Hrun (m & -> & Hfields & Hlid & Hh) Hfresh.
  apply check_relation_found in Hrun.
  destruct Hrun as (s2 & Hid & He & Hs).
  apply check_relation_id_found in Hid.
  cbn [Systems.rfound Systems.rseen] in Hid. rewrite Hlid in Hid.
  destruct Hid as (_ & Hseen & Hkeep & _).
  rewrite He, Hs, Hseen, (Hkeep Hfresh).
  split; [|reflexivity].
  apply (missing_fields_nil (RelationMissingField owner i)) in Hfields.
  rewrite Hfields. cbn [errors add_errors]. apply app_nil_r.
Qed.

Lemma systems_relation_loop_sound ids owner rels : forall i s s',
  for_each (Systems.check_relation ids owner) i rels s = Ok s' ->
  Forall (fun k => hashable k = true) (Systems.rseen s) ->
  errors (Systems.rfound s') = [] ->
  errors (Systems.rfound s) = [] /\
  exists rids,
    Forall2 system_relation_shaped rels rids /\ distinct rids /\
    Forall (fun q => set_mem q (Systems.rseen s) = false) rids.
Proof.
  induction rels as [|rel rels IH]; simpl; intros i s s' Hrun Hhash Hclean.
  - apply ok_inj in Hrun. subst s'. split; [exact Hclean|].
    exists []. repeat split; constructor.
  - apply bind_ok in Hrun. destruct Hrun as (s1 & Hrel & Hrest).
    assert (Hs1 : Forall (fun k => hashable k = true) (Systems.rseen s1)).
    { destruct rel as [| | | | |m];
        try (apply ok_inj in Hrel; subst s1; exact Hhash).
      apply check_relation_found in Hrel.
      destruct Hrel as (s2 & Hid & _ & Hs). rewrite Hs.
      apply check_relation_id_found in Hid. cbn [Systems.rseen] in Hid.
      destruct (lookup "id" m) as [id|].
      - destruct Hid as (Hh & -> & _). apply set_add_hashable; assumption.
      - subst s2. exact Hhash. }
    destruct (IH _ _ _ Hrest Hs1 Hclean)
      as (Hc1 & rids & Hall & Hd & Hfresh).
    destruct (systems_check_relation_clean _ _ _ _ _ _ Hrel Hc1)
      as (Hc & id & Hshape & Hseen & Hadd).
    split; [exact Hc|]. exists (id :: rids).
    assert (Hhid : hashable id = true)
      by (destruct Hshape as (? & _ & _ & _ & Hh); exact Hh).
    assert (Hout : Forall (fun q => py_eq q id = false /\
                             set_mem q (Systems.rseen s) = false) rids).
    { clear - Hall Hfresh Hadd Hhid Hhash. revert Hfresh.
      induction Hall as [|o q os rids Hq _ IHall]; intros Hfresh;
        [constructor|].
      inversion Hfresh as [|? ? Hfq Hfrest]; subst.
      constructor; [|apply IHall; exact Hfrest].
      destruct Hq as (? & _ & _ & _ & Hhq).
      rewrite Hadd, set_mem_add in Hfq by assumption.
      apply orb_false_iff in Hfq. tauto. }
    repeat split.
    + constructor; assumption.
    + eapply Forall_impl; [|exact Hout]. simpl. tauto.
    + exact Hd.
    + constructor; [exact Hseen|].
      eapply Forall_impl; [|exact Hout]. simpl. tauto.
Qed.

Lemma systems_relation_loop_keeps ids owner rels : forall rids i s s',
  for_each (Systems.check_relation ids owner) i rels s = Ok s' ->
  Forall2 system_relation_shaped rels rids -> distinct rids ->
  Forall (fun k => hashable k = true) (Systems.rseen s) ->
  Forall (fun q => set_mem q (Systems.rseen s) = false) rids ->
  errors (Systems.rfound s') = errors (Systems.rfound s).
Proof.
  induction rels as [|rel rels IH]; simpl;
    intros rids i s s' Hrun Hall Hd Hhash Hfresh.
  - apply ok_inj in Hrun. subst s'. reflexivity.
  - apply bind_ok in Hrun. destruct Hrun as (s1 & Hrel & Hrest).
    inversion Hall as [|? id ? rids' Hshape Hrest2]; subst.
    destruct Hd as [Hnew Hd'].
    inversion Hfresh as [|? ? Hfid Hfrest]; subst.
    destruct (systems_check_relation_keeps _ _ _ _ _ _ _ Hrel Hshape Hfid)
      as (He & Hs).
    assert (Hhid : hashable id = true)
      by (destruct Hshape as (? & _ & _ & _ & Hh); exact Hh).
    rewrite <- He. eapply (IH rids'); eauto.
    + rewrite Hs. apply set_add_hashable; assumption.
    + clear - Hrest2 Hnew Hfrest Hs Hhid Hhash. revert Hnew Hfrest.
      induction Hrest2 as [|o q os rids Hq _ IHrest]; intros Hnew Hfrest;
        [constructor|].
      inversion Hnew; subst. inversion Hfrest; subst.
      constructor; [|apply IHrest; assumption].
      destruct Hq as (? & _ & _ & _ & Hhq).
      rewrite Hs, set_mem_add by assumption.
      apply orb_false_iff. split; assumption.
Qed.

Lemma check_system_relations_clean ids i x s s1 :
  Systems.check_system_relations ids i x s = Ok s1 ->
  errors (Systems.rfound s1) = [] ->
  errors (Systems.rfound s) = [] /\ system_relations_in_order x.
Proof.
  unfold Systems.check_system_relations. intros Hrun Hclean.
  destruct x as [| | | | |m];
    try (apply ok_inj in Hrun; subst s1; split; [exact Hclean | exact I]).
  destruct (dict_get m "relations" (JArr [])) as [| | | |rels|] eqn:Hrels;
    try (apply ok_inj in Hrun; subst s1; exfalso;
         eapply errors_add_error; exact Hclean).
  destruct (systems_relation_loop_sound _ _ _ _ _ _ Hrun)
    as (Hc & rids & H1 & H2 & _); [constructor | exact Hclean |].
  split; [exact Hc|]. simpl. rewrite Hrels. eauto.
Qed.

Lemma check_system_relations_keeps ids i x s s1 :
  Systems.check_system_relations ids i x s = Ok s1 ->
  system_relations_in_order x ->
  errors (Systems.rfound s1) = errors (Systems.rfound s).
Proof.
  unfold Systems.check_system_relations. intros Hrun Hx.
  destruct x as [| | | | |m];
    try (apply ok_inj in Hrun; subst s1; reflexivity).
  destruct Hx as (rels & rids & Hrels & Hall & Hd).
  rewrite Hrels in Hrun.
  rewrite (systems_relation_loop_keeps _ _ _ _ _ _ _ Hrun Hall Hd);
    [reflexivity | constructor |].
  clear. induction rids; constructor; auto.
Qed.

Lemma systems_loop_keeps ids xs : forall i s s',
  for_each (Systems.check_system_relations ids) i xs s = Ok s' ->
  Forall system_relations_in_order xs ->
  errors (Systems.rfound s') = errors (Systems.rfound s).
Proof.
  induction xs as [|x xs IH]; simpl; intros i s s' Hrun Hall.
  - apply ok_inj in Hrun. subst s'. reflexivity.
  - apply bind_ok in Hrun. destruct Hrun as (s1 & Hx & Hrest).
    inversion Hall; subst.
    rewrite (IH _ _ _ Hrest) by assumption.
    eapply check_system_relations_keeps; eassumption.
Qed.

Lemma detect_cycles_errors depth g nodes visited r r' :
  Systems.detect_cycles depth g nodes visited r = Ok r' ->
  errors r' = errors r.
Proof.
  intros Hd.
  apply detect_cycles_adds with (PE := fun _ => false) in Hd.
  destruct Hd as (es & ws & He & _ & Hes & _).
  destruct es as [|e es]; [|discriminate Hes].
  rewrite He. apply app_nil_r.
Qed.

Lemma systems_relations_accepts `{Runtime} xs valid errs warns :
  Systems.validate_relations (JArr xs) = Ok (valid, errs, warns) ->
  valid = true <-> Forall system_relations_in_order xs.
Proof.
  unfold Systems.validate_relations. cbn [py_iter bind]. intros Hrun.
  apply bind_ok in Hrun. destruct Hrun as (ids & Hids & Hrun).
  apply bind_ok in Hrun. destruct Hrun as (s & Hloop & Hrun).
  apply bind_ok in Hrun. destruct Hrun as (r & Hdetect & Hrun).
  apply ok_inj in Hrun. unfold conclude in Hrun.
  apply detect_cycles_errors in Hdetect.
  inversion Hrun as [[Hvalid He Hw]]. clear Hrun He Hw.
  rewrite Hdetect. split.
  - intros Hv.
    assert (He : errors (Systems.rfound s) = [])
      by (destruct (errors (Systems.rfound s)); [reflexivity|discriminate]).
    eapply (clean_loop_sound Systems.rfound); eauto.
    intros. eapply check_system_relations_clean; eassumption.
  - intros Hall.
    rewrite (systems_loop_keeps _ _ _ _ _ Hloop Hall). reflexivity.
Qed.

(** X22: when the relation check of the systems script returns, it
    accepts exactly when the relations of every system that is an object
    are a list of objects with the five required fields and an ID that can
    be hashed, with no ID twice in one system.  Unknown sources, targets
    and types, self-references and cycles have no say. *)
Theorem validate_system_relations_accepts_iff `{Runtime} (xs : list json)
        (valid : bool) (errs warns : list finding) :
  Systems.validate_relations (JArr xs) = Ok (valid, errs, warns) ->
  valid = true <-> Forall system_relations_in_order xs.
Proof. apply systems_relations_accepts. Qed.
(** ** The relation check of the systems script returns *)

Lemma collect_ids_strings xs : forall s ids,
  collect_ids xs s = Ok ids ->
  Forall system_readable xs ->
  Forall (fun k => is_str k = true) s ->
  Forall (fun k => is_str k = true) ids /\
  (List.length ids <= List.length s + List.length xs)%nat.
Proof.
  induction xs as [|x xs IH]; simpl; intros s ids Hc Hall Hs.
  - apply ok_inj in Hc. subst. split; [exact Hs | lia].
  - inversion Hall as [|? ? Hx Hrest]; subst.
    destruct x as [| | | | |m];
      try (destruct (IH _ _ Hc Hrest Hs); split; [assumption | lia]).
    destruct (lookup "id" m) as [v|] eqn:Hv.
    + destruct (hashable v); [|discriminate Hc].
      destruct Hx as [Hid _]. specialize (Hid v Hv).
      destruct (IH _ _ Hc Hrest) as [Hstr Hlen].
      { unfold set_add. destruct (set_mem v s); [exact Hs|].
        apply Forall_app. split; [exact Hs | constructor; auto]. }
      split; [exact Hstr|].
      assert (List.length (set_add v s) <= S (List.length s))%nat.
      { unfold set_add. destruct (set_mem v s); [lia|].
        rewrite length_app. simpl. lia. }
      lia.
    + destruct (IH _ _ Hc Hrest Hs). split; [assumption | lia].
Qed.

Lemma readable_hashable_id x : system_readable x -> hashable_id x.
Proof.
  destruct x as [| | | | |m]; simpl; auto.
  intros [Hid _] v Hv. specialize (Hid v Hv).
  destruct v; try discriminate Hid. reflexivity.
Qed.

Lemma check_relation_id_returns owner m s :
  (forall v, lookup "id" m = Some v -> hashable v = true) ->
  exists s2, Systems.check_relation_id owner m s = Ok s2.
Proof.
  intros Hid. unfold Systems.check_relation_id, py_in_set.
  destruct (lookup "id" m) as [v|] eqn:Hv; [|eauto].
  rewrite (Hid v eq_refl). cbn [bind]. eauto.
Qed.

Lemma check_endpoints_returns ids owner i m s :
  (truthy (dict_get m "source" JNull) = true ->
   truthy (dict_get m "target" JNull) = true ->
   hashable (dict_get m "source" JNull) = true /\
   hashable (dict_get m "target" JNull) = true) ->
  exists s3, Systems.check_endpoints ids owner i m s = Ok s3.
Proof.
  intros Hends. unfold Systems.check_endpoints, py_in_set.
  destruct (truthy (dict_get m "source" JNull)) eqn:Hs; [|simpl; eauto].
  destruct (truthy (dict_get m "target" JNull)) eqn:Ht; [|simpl; eauto].
  destruct (Hends eq_refl eq_refl) as [-> ->]. simpl. eauto.
Qed.

Lemma check_relation_returns ids owner i rel s :
  relation_readable rel ->
  exists s1, Systems.check_relation ids owner i rel s = Ok s1.
Proof.
  unfold Systems.check_relation.
  destruct rel as [| | | | |m]; try (intros _; eauto; fail).
  intros (Hid & Hends & Hdesc).
  match goal with
  | |- context [Systems.check_relation_id owner m ?s1] =>
      destruct (check_relation_id_returns owner m s1 Hid) as (s2 & Hs2)
  end.
  rewrite Hs2. cbn [bind].
  destruct (check_endpoints_returns ids owner i m
              (Systems.check_relation_type owner m s2) Hends)
    as (s3 & Hs3).
  rewrite Hs3. cbn [bind].
  assert (Hshort : exists short, short_text m "description" = Ok short).
  { unfold short_text.
    destruct (lookup "description" m) as [d|] eqn:Hd; [|eauto].
    destruct (Hdesc d eq_refl) as (n & ->). simpl. eauto. }
  destruct Hshort as (short & ->). cbn [bind]. eauto.
Qed.

Lemma for_each_returns {A St : Type} (body : nat -> A -> St -> res St)
      (fine : A -> Prop) l :
  (forall i x s, fine x -> exists s1, body i x s = Ok s1) ->
  Forall fine l ->
  forall i s, exists s', for_each body i l s = Ok s'.
Proof.
  intros Hbody Hall. induction Hall as [|x l Hx _ IH]; intros i s.
  - exists s. reflexivity.
  - destruct (Hbody i x s Hx) as (s1 & Hs1).
    destruct (IH (S i) s1) as (s' & Hs').
    exists s'. simpl. rewrite Hs1. exact Hs'.
Qed.

Lemma check_system_relations_returns ids i x s :
  system_readable x ->
  exists s1, Systems.check_system_relations ids i x s = Ok s1.
Proof.
  unfold Systems.check_system_relations.
  destruct x as [| | | | |m]; try (intros _; eauto; fail).
  intros [_ Hrels].
  destruct (dict_get m "relations" (JArr [])) as [| | | |rels|];
    try (eauto; fail).
  apply (for_each_returns _ relation_readable).
  - intros. apply check_relation_returns. assumption.
  - apply Hrels. reflexivity.
Qed.

Lemma py_eq_str a k :
  py_eq a k = true -> is_str k = true -> is_str a = true.
Proof. destruct a, k; simpl; congruence. Qed.

Lemma set_mem_str b ids :
  set_mem b ids = true -> Forall (fun k => is_str k = true) ids ->
  is_str b = true.
Proof.
  unfold set_mem. intros Hin Hids. apply existsb_exists in Hin.
  destruct Hin as (k & Hk & Hbk). rewrite Forall_forall in Hids.
  eapply py_eq_str; [exact Hbk | apply Hids; exact Hk].
Qed.

(** X23: the relation check of the systems script returns a verdict for
    every list of systems it can read (string IDs; in each relation an ID
    and, where both are truthy, a source and a target that can be hashed,
    and a description that has a length) that is no longer than the number
    of nested calls the interpreter allows: the cycle search then neither
    exhausts the call stack nor fails to find a node on its path. *)
Theorem validate_system_relations_returns `{Runtime} (xs : list json) :
  Forall system_readable xs ->
  (List.length xs <= recursion_limit)%nat ->
  exists v, Systems.validate_relations (JArr xs) = Ok v.
Proof.
  intros Hall Hlimit. unfold Systems.validate_relations.
  cbn [py_iter bind].
  destruct (proj2 (collect_ids_returns xs [])) as (ids & Hids).
  { eapply Forall_impl; [|exact Hall]. apply readable_hashable_id. }
  rewrite Hids. cbn [bind].
  destruct (collect_ids_strings _ _ _ Hids Hall) as [Hstr Hlen];
    [constructor|]. simpl in Hlen.
  assert (Hhash : Forall (fun k => hashable k = true) ids)
    by (eapply collect_ids_hashable; [exact Hids|constructor]).
  destruct (for_each_returns (Systems.check_system_relations ids)
              system_readable xs
              (fun i x s => check_system_relations_returns ids i x s)
              Hall 0%nat
              (Systems.mk_rel_scan no_findings
                 (map (fun k => (k, [])) (set_order ids)) []))
    as (s & Hloop).
  rewrite Hloop. cbn [bind].
  assert (Hg : graph_ok xs ids (set_order ids) (Systems.rgraph s)).
  { eapply (for_each_invariant
              (fun t => graph_ok xs ids (set_order ids) (Systems.rgraph t)));
      [exact Hloop| |].
    - intros k x t t' Hk Hx.
      eapply check_system_relations_graph;
        [exact Hhash|apply set_order_perm|exact Hk|exact Hx].
    - simpl. split.
      + rewrite map_map. simpl. apply map_id.
      + intros a b Hb. rewrite graph_get_empty in Hb. destruct Hb. }
  destruct Hg as [Hkeys Hedges].
  assert (Hknown : forall a b, In b (Systems.graph_get a (Systems.rgraph s))
                               -> set_mem b ids = true).
  { intros a b Hb. destruct (Hedges a b Hb)
      as (? & ? & ? & ? & ? & _ & _ & _ & _ & _ & _ & Hin). exact Hin. }
  assert (Hperm := set_order_perm ids).
  destruct (detect_cycles_returns (Systems.rgraph s) recursion_limit)
    with (nodes := map fst (Systems.rgraph s)) (V := @nil json)
         (r := Systems.rfound s) as (r & Hr).
  - split.
    + rewrite Hkeys. rewrite Forall_forall in *. intros k Hk.
      apply Hhash. eapply Permutation_in; eassumption.
    + intros a b Hb. eapply set_mem_hashable; [|exact Hhash]. eauto.
  - intros a b Hb. rewrite graph_has_keys, Hkeys.
    specialize (Hknown a b Hb). unfold set_mem in Hknown.
    apply existsb_exists in Hknown. destruct Hknown as (k & Hk & Hbk).
    apply existsb_exists. exists k. split; [|exact Hbk].
    eapply Permutation_in; [apply Permutation_sym|]; eassumption.
  - rewrite Hkeys. rewrite Forall_forall in *. intros k Hk.
    apply Hstr. eapply Permutation_in; eassumption.
  - intros a b Hb. eapply set_mem_str; [|exact Hstr]. eauto.
  - rewrite Hkeys, (Permutation_length Hperm). lia.
  - auto.
  - constructor.
  - rewrite Hr. cbn [bind]. eauto.
Qed.
(** ** What exit code 0 of the systems script certifies *)

(** A run that exits with 0 printed no finding: every verdict is clean and
    there is no advisory. *)
Lemma exit_zero_reports out vs adv :
  reports 0 out vs adv ->
  Forall (fun v => errors_of v = [] /\ warnings_of v = []) vs /\ adv = [].
Proof.
  intros (_ & _ & Hcode). unfold exit_of in Hcode.
  destruct (flat_map errors_of vs) eqn:He; [|discriminate Hcode].
  destruct (flat_map warnings_of vs ++ adv) eqn:Hw; [|discriminate Hcode].
  apply app_eq_nil in Hw. destruct Hw as [Hw Hadv].
  split; [|exact Hadv]. clear Hcode Hadv.
  induction vs as [|v vs IH]; [constructor|].
  simpl in He, Hw. apply app_eq_nil in He. apply app_eq_nil in Hw.
  destruct He, Hw. constructor; auto.
Qed.

Lemma chars_not_objects s :
  Forall (fun x => forall m, x <> JObj m) (chars s).
Proof.
  induction s as [|c s IH]; simpl; constructor; [discriminate | exact IH].
Qed.

(** What an entity check accepts is a list: iterating over a string or
    over the keys of an object meets entries that are not objects. *)
Lemma accepted_entities_are_a_list (shaped : json -> string -> Prop)
      entities xs ids :
  (forall x id, shaped x id -> exists m, x = JObj m) ->
  truthy entities = true ->
  py_iter entities = Ok xs ->
  Forall2 shaped xs ids ->
  entities = JArr xs.
Proof.
  intros Hobj Htruthy Hiter Hall.
  destruct entities as [| | |s|l|m]; try discriminate Hiter;
    simpl in Hiter; apply ok_inj in Hiter; subst xs.
  - destruct s as [|c s]; [discriminate Htruthy|].
    simpl in Hall. inversion Hall as [|? ? ? ? Hx _]; subst.
    apply Hobj in Hx. destruct Hx as (m & Hm). discriminate Hm.
  - reflexivity.
  - destruct m as [|[k v] m]; [discriminate Htruthy|].
    simpl in Hall. inversion Hall as [|? ? ? ? Hx _]; subst.
    apply Hobj in Hx. destruct Hx as (m' & Hm). discriminate Hm.
Qed.

Lemma system_shaped_object x id : system_shaped x id -> exists m, x = JObj m.
Proof. intros (m & _ & _ & -> & _). eauto. Qed.

(** An accepted list of systems, read as a list. *)
Lemma validate_systems_accepted systems repos es ws :
  Systems.validate_systems systems repos = Ok (true, es, ws) ->
  exists xs, systems = JArr xs /\ entities_in_order system_shaped xs.
Proof.
  intros Hrun.
  assert (Hlist : exists xs, systems = JArr xs).
  { unfold Systems.validate_systems in Hrun.
    destruct (truthy systems) eqn:Ht; [|discriminate Hrun].
    cbn [negb] in Hrun.
    apply bind_ok in Hrun. destruct Hrun as (xs & Hiter & Hrun).
    apply bind_ok in Hrun. destruct Hrun as (s & Hloop & Hrun).
    apply ok_inj in Hrun. unfold conclude in Hrun.
    destruct (errors (found s)) eqn:He; [|discriminate Hrun].
    destruct (entity_loop_sound _ system_shaped
                (check_system_clean repos) _ _ _ _ Hloop He)
      as (_ & ids & Hall & _).
    exists xs.
    eapply accepted_entities_are_a_list;
      [apply system_shaped_object | exact Ht | exact Hiter | exact Hall]. }
  destruct Hlist as (xs & ->). exists xs. split; [reflexivity|].
  apply (proj1 (entity_checker_accepts_iff _ system_shaped
                  (check_system_clean repos) (check_system_accepts repos)
                  xs)).
  exists es, ws. exact Hrun.
Qed.

Lemma systems_repositories_listed systems repos xs es :
  Systems.validate_systems systems repos = Ok (true, es, []) ->
  py_iter systems = Ok xs ->
  Forall (repositories_listed repos) xs.
Proof.
  intros Hv Hxs. apply Forall_forall. intros x Hx.
  destruct x as [| | | | |m]; try exact I.
  intros rs repo Hrs Hin.
  destruct (list_mem repo repos) eqn:Hun; [reflexivity|exfalso].
  apply In_nth_error in Hx. destruct Hx as (idx & Hk).
  unfold Systems.validate_systems in Hv.
  destruct (truthy systems); [|discriminate Hv]. cbn [negb] in Hv.
  rewrite Hxs in Hv. cbn [bind] in Hv.
  apply bind_ok in Hv. destruct Hv as (s & Hloop & Hv).
  apply ok_inj in Hv. apply conclude_valid in Hv.
  destruct Hv as (_ & Hw & _).
  assert (Hin' : In (RepositoryNotFound
                       (dict_get m "id" (JNum (Z.of_nat idx))) repo)
                    (warnings (found s))).
  { eapply for_each_keeps_warning with (get := found);
      [apply check_system_adds | exact Hloop | exact Hk |].
    intros s1 s2 Hb. eapply check_system_unlisted; eassumption. }
  rewrite <- Hw in Hin'. destruct Hin'.
Qed.

Lemma systems_endpoints_resolve `{Runtime} systems xs ids valid errs :
  Systems.validate_relations systems = Ok (valid, errs, []) ->
  py_iter systems = Ok xs ->
  collect_ids xs [] = Ok ids ->
  Forall (endpoints_resolve ids) xs.
Proof.
  intros Hv Hxs Hids. apply Forall_forall. intros x Hx.
  destruct x as [| | | | |m]; try exact I.
  intros rels r Hrels Hr Hs Ht.
  apply In_nth_error in Hx. destruct Hx as (idx & Hk).
  apply In_nth_error in Hr. destruct Hr as (j & Hj).
  pose proof (systems_relation_lifts _ _ _ _ _ _ _ _ _ _ _
                Hv Hxs Hids Hk Hrels Hj) as Hlift.
  split.
  - destruct (set_mem (dict_get r "source" JNull) ids) eqn:Hun;
      [reflexivity|exfalso].
    eapply (Hlift (RelationSourceNotFound _ _)).
    intros s s' Hc.
    destruct (systems_unresolved_endpoints _ _ _ _ _ _ Hc Hs Ht) as [A _].
    apply A. exact Hun.
  - destruct (set_mem (dict_get r "target" JNull) ids) eqn:Hun;
      [reflexivity|exfalso].
    eapply (Hlift (RelationTargetNotFound _ _)).
    intros s s' Hc.
    destruct (systems_unresolved_endpoints _ _ _ _ _ _ Hc Hs Ht) as [_ B].
    apply B. exact Hun.
Qed.

Lemma no_advisories_documented xs :
  flat_map Systems.empty_collections xs = [] -> Forall documented xs.
Proof.
  induction xs as [|x xs IH]; simpl; intros Hadv; [constructor|].
  apply app_eq_nil in Hadv. destruct Hadv as [Hx Hrest].
  constructor; [|apply IH; exact Hrest].
  destruct x as [| | | | |m]; try exact I.
  simpl in Hx |- *.
  destruct (truthy (dict_get m "observations" (JArr [])));
    [|discriminate Hx].
  destruct (truthy (dict_get m "relations" (JArr [])));
    [auto | discriminate Hx].
Qed.

Lemma clean_verdict v :
  coherent v -> errors_of v = [] -> warnings_of v = [] -> v = (true, [], []).
Proof.
  destruct v as [[valid es] ws].
  unfold coherent, errors_of, warnings_of, valid_of. simpl.
  intros Hc He Hw. subst es ws. simpl in Hc. rewrite Hc. reflexivity.
Qed.

Lemma systems_exit_zero `{Runtime} w out :
  Systems.main w = Ok (0, out) ->
  exists data errs,
    stdin w = StdinDoc data /\
    Systems.validate_parent_reference w data (Systems.init_path w)
    = Ok (true, errs) /\
    systems_certified (Systems.load_init_repos w (Systems.init_path w))
      data.
Proof.
  intros Hmain. pose proof Hmain as Hrun. unfold Systems.main in Hrun.
  destruct (stdin w) as [| |data] eqn:Hin; try discriminate Hrun.
  destruct (Systems.validate_parent_reference w data (Systems.init_path w))
    as [[valid errs]|] eqn:Hlin; [|discriminate Hrun].
  cbn [bind] in Hrun.
  destruct valid; [|discriminate Hrun]. clear Hrun.
  exists data, errs. split; [reflexivity|]. split; [exact Hlin|].
  destruct (systems_run w data errs 0 out Hin Hlin Hmain)
    as (systems & xs & v1 & v2 & v3 & Hget & Hiter & Hv1 & Hv2 & Hv3 & Hrep).
  apply exit_zero_reports in Hrep. destruct Hrep as [Hclean Hadv].
  inversion Hclean as [|? ? [He1 Hw1] Hclean2]; subst.
  inversion Hclean2 as [|? ? [He2 Hw2] Hclean3]; subst.
  inversion Hclean3 as [|? ? [He3 Hw3] _]; subst.
  rewrite (clean_verdict v1) in Hv1
    by eauto using validate_systems_coherent.
  rewrite (clean_verdict v2) in Hv2
    by eauto using validate_observations_coherent.
  rewrite (clean_verdict v3) in Hv3
    by eauto using systems_relations_coherent.
  destruct (validate_systems_accepted _ _ _ _ Hv1) as (xs' & -> & Hshape).
  simpl in Hiter. apply ok_inj in Hiter. subst xs'.
  assert (Hids : exists ids, collect_ids xs [] = Ok ids).
  { unfold Systems.validate_relations in Hv3. cbn [py_iter bind] in Hv3.
    apply bind_ok in Hv3. destruct Hv3 as (ids & Hids & _). eauto. }
  destruct Hids as (ids & Hids).
  exists xs, ids. split; [exact Hget|]. split; [exact Hids|].
  split; [exact Hshape|].
  split; [eapply systems_repositories_listed; [exact Hv1 | reflexivity]|].
  split; [apply (observations_accepts_iff Systems.OBSERVATION_CATEGORIES);
          eauto|].
  split; [apply (systems_relations_accepts xs true [] [] Hv3); reflexivity|].
  split; [apply no_advisories_documented; exact Hadv|].
  split; [eapply systems_endpoints_resolve; [exact Hv3 | reflexivity
                                             | exact Hids]|].
  intros Hcycle.
  destruct (followed_cycle_reported (JArr xs) xs ids true [] [] Hv3
              eq_refl Hids Hcycle) as (q & [] & _).
Qed.

(** X24: what exit code 0 of the systems script certifies: the input
    parsed, the lineage check accepted it, and its systems are a non-empty
    list of well-shaped systems with distinct IDs, whose repositories
    init.json lists, whose observations and relations are in order and not
    empty, and whose relations with a source and a target join systems of
    the document without forming a cycle. *)
Theorem systems_exit_zero_certifies `{Runtime} (w : world)
        (out : list line) :
  Systems.main w = Ok (0, out) ->
  exists data errs,
    stdin w = StdinDoc data /\
    Systems.validate_parent_reference w data (Systems.init_path w)
    = Ok (true, errs) /\
    systems_certified (Systems.load_init_repos w (Systems.init_path w))
      data.
Proof. apply systems_exit_zero. Qed.
(** ** What exit code 0 of the container and component scripts
       certifies *)

Lemma container_shaped_object ids x id :
  container_shaped ids x id -> exists m, x = JObj m.
Proof. intros (m & ? & ? & ? & ? & -> & _). eauto. Qed.

Lemma component_shaped_object ids x id :
  component_shaped ids x id -> exists m, x = JObj m.
Proof. intros (m & ? & ? & -> & _). eauto. Qed.

Lemma validate_containers_accepted containers ids es ws :
  Containers.validate_containers containers ids = Ok (true, es, ws) ->
  exists xs,
    containers = JArr xs /\ entities_in_order (container_shaped ids) xs.
Proof.
  intros Hrun.
  assert (Hlist : exists xs, containers = JArr xs).
  { unfold Containers.validate_containers in Hrun.
    destruct (truthy containers) eqn:Ht; [|discriminate Hrun].
    cbn [negb] in Hrun.
    apply bind_ok in Hrun. destruct Hrun as (xs & Hiter & Hrun).
    apply bind_ok in Hrun. destruct Hrun as (s & Hloop & Hrun).
    apply ok_inj in Hrun. unfold conclude in Hrun.
    destruct (errors (found s)) eqn:He; [|discriminate Hrun].
    destruct (entity_loop_sound _ (container_shaped ids)
                (check_container_clean ids) _ _ _ _ Hloop He)
      as (_ & cids & Hall & _).
    exists xs.
    eapply accepted_entities_are_a_list;
      [apply (container_shaped_object ids) | exact Ht | exact Hiter
      | exact Hall]. }
  destruct Hlist as (xs & ->). exists xs. split; [reflexivity|].
  apply (proj1 (entity_checker_accepts_iff _ (container_shaped ids)
                  (check_container_clean ids) (check_container_accepts ids)
                  xs)).
  exists es, ws. exact Hrun.
Qed.

Lemma validate_components_accepted components ids es ws :
  Components.validate_components components ids = Ok (true, es, ws) ->
  exists xs,
    components = JArr xs /\ entities_in_order (component_shaped ids) xs.
Proof.
  intros Hrun.
  assert (Hlist : exists xs, components = JArr xs).
  { unfold Components.validate_components in Hrun.
    destruct (truthy components) eqn:Ht; [|discriminate Hrun].
    cbn [negb] in Hrun.
    apply bind_ok in Hrun. destruct Hrun as (xs & Hiter & Hrun).
    apply bind_ok in Hrun. destruct Hrun as (s & Hloop & Hrun).
    apply ok_inj in Hrun. unfold conclude in Hrun.
    destruct (errors (found s)) eqn:He; [|discriminate Hrun].
    destruct (entity_loop_sound _ (component_shaped ids)
                (check_component_clean ids) _ _ _ _ Hloop He)
      as (_ & cids & Hall & _).
    exists xs.
    eapply accepted_entities_are_a_list;
      [apply (component_shaped_object ids) | exact Ht | exact Hiter
      | exact Hall]. }
  destruct Hlist as (xs & ->). exists xs. split; [reflexivity|].
  apply (proj1 (entity_checker_accepts_iff _ (component_shaped ids)
                  (check_component_clean ids) (check_component_accepts ids)
                  xs)).
  exists es, ws. exact Hrun.
Qed.

Lemma containers_targets_resolve containers xs ids valid errs :
  Containers.validate_relations containers = Ok (valid, errs, []) ->
  py_iter containers = Ok xs ->
  collect_ids xs [] = Ok ids ->
  Forall (targets_resolve ids) xs.
Proof.
  intros Hv Hxs Hids. apply Forall_forall. intros x Hx.
  destruct x as [| | | | |m]; try exact I.
  intros rels r t Hrels Hr Ht.
  apply In_nth_error in Hx. destruct Hx as (idx & Hk).
  apply In_nth_error in Hr. destruct Hr as (j & Hj).
  destruct (set_mem t ids) eqn:Hun; [reflexivity|exfalso].
  eapply (containers_relation_lifts _ _ _ _ _ _ _ _ _ _ _
            Hv Hxs Hids Hk Hrels Hj (RelationTargetNotFound _ _)).
  intros s s' Hc. eapply containers_unresolved_target; eassumption.
Qed.

Lemma components_targets_resolve components xs ids valid errs :
  Components.validate_relations components = Ok (valid, errs, []) ->
  py_iter components = Ok xs ->
  collect_ids xs [] = Ok ids ->
  Forall (targets_resolve ids) xs.
Proof.
  intros Hv Hxs Hids. apply Forall_forall. intros x Hx.
  destruct x as [| | | | |m]; try exact I.
  intros rels r t Hrels Hr Ht.
  apply In_nth_error in Hx. destruct Hx as (idx & Hk).
  apply In_nth_error in Hr. destruct Hr as (j & Hj).
  destruct (set_mem t ids) eqn:Hun; [reflexivity|exfalso].
  destruct (components_relation_lifts _ _ _ _ _ _ _ _ _ _ _
              Hv Hxs Hids Hk Hrels Hj) as [Hlift _].
  eapply (Hlift (RelationTargetNotFound _ _)).
  intros s s' Hc. eapply components_unresolved_target; eassumption.
Qed.

(** No advisory of the closing loop: every parent is named. *)
Lemma no_childless_parents `{Runtime} key parent_ids entities xs :
  Forall (fun k => hashable k = true) parent_ids ->
  py_iter entities = Ok xs ->
  childless_parents key parent_ids entities = Ok [] ->
  every_parent_has_a_child key parent_ids xs.
Proof.
  intros Hids Hxs Hrun id Hid. unfold childless_parents in Hrun.
  rewrite Hxs in Hrun. cbn [bind] in Hrun.
  apply bind_ok in Hrun. destruct Hrun as (referenced & Href & Hrun).
  apply ok_inj in Hrun. apply map_eq_nil in Hrun.
  assert (Hh : hashable id = true)
    by (rewrite Forall_forall in Hids; apply Hids; exact Hid).
  assert (Hmem : set_mem id referenced = true).
  { destruct (set_mem id referenced) eqn:Hmem; [reflexivity|exfalso].
    assert (Hin : In id (filter (fun k => negb (set_mem k referenced))
                           (set_order parent_ids))).
    { apply filter_In. split; [|rewrite Hmem; reflexivity].
      eapply Permutation_in;
        [apply Permutation_sym, set_order_perm | exact Hid]. }
    rewrite Hrun in Hin. destruct Hin. }
  apply (referenced_parents_spec key xs [] referenced Href (Forall_nil _)
           id Hh) in Hmem.
  destruct Hmem as [Hmem|Hm]; [discriminate Hmem | exact Hm].
Qed.

Lemma id_set_hashable entities ids :
  id_set entities = Ok ids -> Forall (fun k => hashable k = true) ids.
Proof.
  unfold id_set. intros Hrun.
  apply bind_ok in Hrun. destruct Hrun as (xs & _ & Hrun).
  eapply collect_ids_hashable; [exact Hrun | constructor].
Qed.

Lemma load_system_ids_hashable w path :
  Forall (fun k => hashable k = true) (Containers.load_system_ids w path).
Proof.
  unfold Containers.load_system_ids.
  destruct (load_json w path) as [c1_data|]; [|constructor].
  cbn [bind].
  destruct (py_get c1_data "systems" (JArr [])) as [systems|];
    [|constructor].
  cbn [bind].
  destruct (id_set systems) as [ids|] eqn:Hids; [|constructor].
  eapply id_set_hashable. exact Hids.
Qed.

Lemma load_container_ids_hashable w path ids :
  Components.load_container_ids w path = Ok ids ->
  Forall (fun k => hashable k = true) ids.
Proof.
  unfold Components.load_container_ids.
  destruct (load_json w path) as [c2_data|].
  2:{ intros Hrun. apply ok_inj in Hrun. subst ids. constructor. }
  intros Hrun. apply bind_ok in Hrun.
  destruct Hrun as (containers & _ & Hrun).
  eapply id_set_hashable. exact Hrun.
Qed.

(** X25: what exit code 0 of the container script certifies: the input
    parsed, the lineage check accepted it, and its containers are a
    non-empty list of well-shaped containers with distinct IDs, each in a
    system of c1-systems.json, whose observations and relations are in
    order, whose relation targets are containers of the document, and among
    which every system of c1-systems.json has a container. *)
Theorem containers_exit_zero_certifies `{Runtime} (w : world)
        (out : list line) :
  Containers.main w = Ok (0, out) ->
  exists data errs,
    stdin w = StdinDoc data /\
    Containers.validate_parent_reference w data (Containers.c1_path w)
    = Ok (true, errs) /\
    containers_certified
      (Containers.load_system_ids w (Containers.c1_path w)) data.
Proof.
  intros Hmain. pose proof Hmain as Hrun. unfold Containers.main in Hrun.
  destruct (stdin w) as [| |data] eqn:Hin; try discriminate Hrun.
  destruct (Containers.validate_parent_reference w data
              (Containers.c1_path w))
    as [[valid errs]|] eqn:Hlin; [|discriminate Hrun].
  cbn [bind] in Hrun.
  destruct valid; [|discriminate Hrun]. clear Hrun.
  exists data, errs. split; [reflexivity|]. split; [exact Hlin|].
  destruct (containers_run w data errs 0 out Hin Hlin Hmain)
    as (containers & adv & v1 & v2 & v3 & Hget & Hadv & Hv1 & Hv2 & Hv3
        & Hrep).
  apply exit_zero_reports in Hrep. destruct Hrep as [Hclean ->].
  inversion Hclean as [|? ? [He1 Hw1] Hclean2]; subst.
  inversion Hclean2 as [|? ? [He2 Hw2] Hclean3]; subst.
  inversion Hclean3 as [|? ? [He3 Hw3] _]; subst.
  rewrite (clean_verdict v1) in Hv1
    by eauto using validate_containers_coherent.
  rewrite (clean_verdict v2) in Hv2
    by eauto using validate_observations_coherent.
  rewrite (clean_verdict v3) in Hv3
    by eauto using containers_relations_coherent.
  destruct (validate_containers_accepted _ _ _ _ Hv1)
    as (xs & -> & Hshape).
  destruct (proj1 (containers_relations_accepts xs)) as [Hhash Hrels];
    [eauto|].
  apply (collect_ids_returns xs []) in Hhash. destruct Hhash as (ids & Hids).
  exists xs, ids. split; [exact Hget|]. split; [exact Hids|].
  split; [exact Hshape|].
  split; [apply (observations_accepts_iff
                   Containers.OBSERVATION_CATEGORIES); eauto|].
  split; [exact Hrels|].
  split; [eapply containers_targets_resolve;
          [exact Hv3 | reflexivity | exact Hids]|].
  eapply no_childless_parents with (entities := JArr xs);
    [apply load_system_ids_hashable | reflexivity | exact Hadv].
Qed.


(** X26: what exit code 0 of the component script certifies: the input
    parsed, the lineage check accepted it, the container IDs of
    c2-containers.json could be read, and its components are a non-empty
    list of well-shaped components with distinct IDs, each in a container
    of c2-containers.json, whose observations and relations are in order,
    whose relation targets are components of the document, and among which
    every container of c2-containers.json has a component. *)
Theorem components_exit_zero_certifies `{Runtime} (w : world)
        (out : list line) :
  Components.main w = Ok (0, out) ->
  exists data errs ids,
    stdin w = StdinDoc data /\
    Components.validate_parent_reference w data (Components.c2_path w)
    = Ok (true, errs) /\
    Components.load_container_ids w (Components.c2_path w) = Ok ids /\
    components_certified ids data.
Proof.
  intros Hmain. pose proof Hmain as Hrun. unfold Components.main in Hrun.
  destruct (stdin w) as [| |data] eqn:Hin; try discriminate Hrun.
  destruct (Components.validate_parent_reference w data
              (Components.c2_path w))
    as [[valid errs]|] eqn:Hlin; [|discriminate Hrun].
  cbn [bind] in Hrun.
  destruct valid; [|discriminate Hrun]. clear Hrun.
  destruct (components_run w data errs 0 out Hin Hlin Hmain)
    as (pids & components & adv & v1 & v2 & v3 & Hload & Hget & Hadv & Hv1
        & Hv2 & Hv3 & Hrep).
  exists data, errs, pids. split; [reflexivity|]. split; [exact Hlin|].
  split; [exact Hload|].
  apply exit_zero_reports in Hrep. destruct Hrep as [Hclean ->].
  inversion Hclean as [|? ? [He1 Hw1] Hclean2]; subst.
  inversion Hclean2 as [|? ? [He2 Hw2] Hclean3]; subst.
  inversion Hclean3 as [|? ? [He3 Hw3] _]; subst.
  rewrite (clean_verdict v1) in Hv1
    by eauto using validate_components_coherent.
  rewrite (clean_verdict v2) in Hv2
    by eauto using validate_observations_coherent.
  rewrite (clean_verdict v3) in Hv3
    by eauto using components_relations_coherent.
  destruct (validate_components_accepted _ _ _ _ Hv1)
    as (xs & -> & Hshape).
  destruct (proj1 (components_relations_accepts xs)) as [Hhash Hrels];
    [eauto|].
  apply (collect_ids_returns xs []) in Hhash. destruct Hhash as (ids & Hids).
  exists xs, ids. split; [exact Hget|]. split; [exact Hids|].
  split; [exact Hshape|].
  split; [apply (observations_accepts_iff
                   Components.OBSERVATION_CATEGORIES); eauto|].
  split; [exact Hrels|].
  split; [eapply components_targets_resolve;
          [exact Hv3 | reflexivity | exact Hids]|].
  eapply no_childless_parents with (entities := JArr xs);
    [eapply load_container_ids_hashable; exact Hload | reflexivity
    | exact Hadv].
Qed.
(** ** A clean pass of the systems script needs a system that no relation
       starts from *)

Lemma walk_app_l edge p q : walk edge (p ++ q) -> walk edge p.
Proof.
  induction p as [|a p IH]; simpl; intros Hw; [exact I|].
  destruct p as [|b p]; [exact I|].
  simpl in Hw. destruct Hw as [Hab Hw]. split; [exact Hab|].
  apply IH. exact Hw.
Qed.

Lemma walk_app_r edge p q : walk edge (p ++ q) -> walk edge q.
Proof.
  induction p as [|a p IH]; simpl; intros Hw; [exact Hw|].
  apply IH. eapply walk_tail. exact Hw.
Qed.

Lemma set_remove_shorter x s :
  set_mem x s = true ->
  (List.length (set_remove x s) < List.length s)%nat.
Proof.
  unfold set_mem, set_remove. intros Hin.
  apply existsb_exists in Hin. destruct Hin as (y & Hy & Hxy).
  pose proof (filter_length_lt (fun _ => true)
                (fun y => negb (py_eq x y)) s y
                (fun _ _ _ => eq_refl) Hy eq_refl) as Hlt.
  rewrite (forallb_filter_id (fun _ : json => true)) in Hlt
    by (apply forallb_forall; reflexivity).
  apply Hlt. rewrite Hxy. reflexivity.
Qed.

(** More values than the set has elements: two of them are equal. *)
Lemma repeated_value l : forall s,
  Forall (fun k => hashable k = true) s ->
  Forall (fun x => hashable x = true /\ set_mem x s = true) l ->
  (List.length s < List.length l)%nat ->
  exists l1 x l2 y l3,
    l = l1 ++ x :: l2 ++ y :: l3 /\ py_eq x y = true.
Proof.
  induction l as [|x l IH]; intros s Hs Hl Hlen; [simpl in Hlen; lia|].
  inversion Hl as [|? ? [Hx Hxs] Hl']; subst.
  destruct (set_mem x l) eqn:Hdup.
  - unfold set_mem in Hdup. apply existsb_exists in Hdup.
    destruct Hdup as (y & Hy & Hxy).
    apply in_split in Hy. destruct Hy as (l2 & l3 & ->).
    exists [], x, l2, y, l3. split; [reflexivity | exact Hxy].
  - destruct (IH (set_remove x s)) as (l1 & a & l2 & b & l3 & -> & Hab).
    + apply set_remove_hashable. exact Hs.
    + rewrite Forall_forall in Hl' |- *. intros z Hz.
      destruct (Hl' z Hz) as [Hhz Hzs]. split; [exact Hhz|].
      rewrite set_mem_remove by assumption. rewrite Hzs. simpl.
      rewrite (py_eq_sym z x) by assumption.
      unfold set_mem in Hdup.
      destruct (py_eq x z) eqn:Hxz; [|reflexivity].
      assert (Hex : existsb (py_eq x) l = true)
        by (apply existsb_exists; eauto).
      congruence.
    + pose proof (set_remove_shorter x s Hxs). simpl in Hlen. lia.
    + exists (x :: l1), a, l2, b, l3. split; [reflexivity | exact Hab].
Qed.

Lemma collect_ids_grows xs : forall s ids,
  collect_ids xs s = Ok ids -> (List.length s <= List.length ids)%nat.
Proof.
  induction xs as [|x xs IH]; simpl; intros s ids Hc.
  - apply ok_inj in Hc. subst. lia.
  - destruct x as [| | | | |m]; eauto.
    destruct (lookup "id" m) as [v|]; eauto.
    destruct (hashable v); [|discriminate Hc].
    apply IH in Hc. unfold set_add in Hc.
    destruct (set_mem v s); [exact Hc|].
    rewrite length_app in Hc. simpl in Hc. lia.
Qed.

Lemma nonempty_has {A : Type} (l : list A) : l <> [] -> exists k, In k l.
Proof.
  destruct l as [|k l]; [contradiction|]. exists k. left. reflexivity.
Qed.

Section EverySystemDepends.

Variables (xs : list json) (ids : pyset).

Hypothesis ids_hashable : Forall (fun k => hashable k = true) ids.
Hypothesis resolved : Forall (endpoints_resolve ids) xs.
Hypothesis depends : forall id, In id ids -> starts_relation xs id.

(** From every system a followed relation leads to a system. *)
Lemma next_system a :
  hashable a = true -> set_mem a ids = true ->
  exists b,
    followed_relation xs ids a b /\
    hashable b = true /\ set_mem b ids = true.
Proof.
  intros Ha Hin. pose proof Hin as Hmem.
  unfold set_mem in Hin. apply existsb_exists in Hin.
  destruct Hin as (k & Hk & Hak).
  assert (Hhk : hashable k = true)
    by (rewrite Forall_forall in ids_hashable; auto).
  destruct (depends k Hk) as (m & rels & r & Hm & Hrels & Hr & Hs & Ht & Hsk).
  rewrite Forall_forall in resolved.
  destruct (resolved (JObj m) Hm rels r Hrels Hr Hs Ht) as [Hsin Htin].
  set (source := dict_get r "source" JNull) in *.
  set (target := dict_get r "target" JNull) in *.
  assert (Hhs : hashable source = true)
    by (eapply set_mem_hashable; eassumption).
  assert (Hsa : py_eq source a = true).
  { eapply py_eq_trans with (b := k); auto.
    rewrite py_eq_sym; auto. }
  exists target. split; [|split].
  - split; [|split].
    + apply In_nth_error in Hm. destruct Hm as (idx & Hidx).
      apply In_nth_error in Hr. destruct Hr as (j & Hj).
      exists idx, m, rels, j, r. repeat split; assumption.
    + rewrite <- (py_eq_truthy source a) by assumption. exact Hs.
    + exact Ht.
  - eapply set_mem_hashable; eassumption.
  - exact Htin.
Qed.

Lemma walk_of_length n : forall a,
  hashable a = true -> set_mem a ids = true ->
  exists p,
    List.length p = n /\
    walk (followed_relation xs ids) (a :: p) /\
    Forall (fun x => hashable x = true /\ set_mem x ids = true) p.
Proof.
  induction n as [|n IH]; intros a Ha Hin.
  - exists []. repeat split. constructor.
  - destruct (next_system a Ha Hin) as (b & Hab & Hb & Hbin).
    destruct (IH b Hb Hbin) as (p & Hlen & Hw & Hall).
    exists (b :: p). split; [simpl; congruence|].
    split; [split; assumption|]. constructor; auto.
Qed.

Lemma dependencies_close :
  ids <> [] -> exists p, closed_walk (followed_relation xs ids) p.
Proof.
  intros Hne. destruct (nonempty_has ids Hne) as (k & Hk).
  assert (Hhk : hashable k = true)
    by (rewrite Forall_forall in ids_hashable; auto).
  assert (Hkin : set_mem k ids = true).
  { unfold set_mem. apply existsb_exists. exists k.
    split; [exact Hk | apply py_eq_refl; exact Hhk]. }
  destruct (walk_of_length (List.length ids) k Hhk Hkin)
    as (p & Hlen & Hw & Hall).
  destruct (repeated_value (k :: p) ids ids_hashable)
    as (l1 & x & l2 & y & l3 & Hsplit & Hxy).
  - constructor; auto.
  - simpl. lia.
  - exists (x :: l2 ++ [y]). split.
    + rewrite Hsplit in Hw. apply walk_app_r in Hw.
      replace (x :: l2 ++ y :: l3) with ((x :: l2 ++ [y]) ++ l3) in Hw
        by (simpl; rewrite <- app_assoc; reflexivity).
      eapply walk_app_l. exact Hw.
    + exists x, l2, y. split; [reflexivity | exact Hxy].
Qed.

End EverySystemDepends.

Lemma shaped_systems_have_ids xs ids :
  entities_in_order system_shaped xs ->
  collect_ids xs [] = Ok ids -> ids <> [].
Proof.
  intros [Hne (sids & Hall & _)] Hids.
  destruct xs as [|x xs]; [contradiction|].
  inversion Hall as [|? id ? ? Hx _]; subst.
  destruct Hx as (m & r & rs & -> & _ & Hid & _).
  simpl in Hids. rewrite Hid in Hids. simpl in Hids.
  apply collect_ids_grows in Hids. simpl in Hids.
  destruct ids; [simpl in Hids; lia | discriminate].
Qed.

(** X27: the systems script never exits with 0 on a document in which
    every system ID is the source of some relation with a truthy source and
    target: such relations either leave the document (a warning), or close
    a cycle (a warning).  A clean pass needs a system that no relation
    starts from. *)
Theorem clean_pass_needs_a_sink `{Runtime} (w : world) (data : json)
        (xs : list json) (ids : pyset) (code : Z) (out : list line) :
  stdin w = StdinDoc data ->
  py_get data "systems" (JArr []) = Ok (JArr xs) ->
  collect_ids xs [] = Ok ids ->
  (forall id, In id ids -> starts_relation xs id) ->
  Systems.main w = Ok (code, out) ->
  code <> 0.
Proof.
  intros Hin Hget Hids Hdep Hmain Hcode. subst code.
  destruct (systems_exit_zero w out Hmain)
    as (data' & errs & Hin' & _ & xs' & ids' & Hget' & Hids' & Hshape & _
        & _ & _ & _ & Hres & Hno).
  rewrite Hin in Hin'. inversion Hin'; subst data'.
  rewrite Hget in Hget'. inversion Hget'; subst xs'.
  rewrite Hids in Hids'. inversion Hids'; subst ids'.
  apply Hno. apply dependencies_close; auto.
  - eapply collect_ids_hashable; [exact Hids | constructor].
  - eapply shaped_systems_have_ids; eassumption.
Qed.
(** ** The entity checks and IDs that are not strings *)

Lemma check_id_returns m s :
  (forall v, lookup "id" m = Some v -> is_str v = true) ->
  exists s', check_id m s = Ok s'.
Proof.
  intros Hid. unfold check_id.
  destruct (lookup "id" m) as [v|] eqn:Hv; [|eauto].
  specialize (Hid v eq_refl).
  destruct v as [| | |id| |]; try discriminate Hid.
  simpl. unfold py_in_set. simpl. eauto.
Qed.

Lemma check_id_reads m s s' :
  check_id m s = Ok s' ->
  forall v, lookup "id" m = Some v -> is_str v = true.
Proof.
  unfold check_id. intros Hrun v Hv. rewrite Hv in Hrun.
  destruct v; try discriminate Hrun. reflexivity.
Qed.

Lemma check_id_raises m s v :
  lookup "id" m = Some v -> is_str v = false ->
  check_id m s = Raise TypeError.
Proof.
  unfold check_id. intros -> Hv.
  destruct v; try discriminate Hv; reflexivity.
Qed.

Lemma check_id_type_error m s e : check_id m s = Raise e -> e = TypeError.
Proof.
  unfold check_id. destruct (lookup "id" m) as [v|]; [|discriminate].
  destruct v as [| | |id| |]; simpl; try (intros Hr; congruence).
Qed.

Lemma check_parent_id_type_error key ids idx m r e :
  check_parent_id key ids idx m r = Raise e -> e = TypeError.
Proof.
  unfold check_parent_id, py_in_set, py_join.
  destruct (lookup key m) as [v|]; [|discriminate].
  destruct (hashable v); [|simpl; congruence].
  cbn [bind]. destruct (set_mem v ids); [discriminate|].
  destruct (all_str ids); simpl; [discriminate | congruence].
Qed.

(** A loop whose body raises nothing but [TypeError], and raises it on a
    bad element, raises it when the list has a bad element. *)
Lemma for_each_raises {A St : Type} (body : nat -> A -> St -> res St)
      (bad : A -> Prop) l :
  (forall i x s e, body i x s = Raise e -> e = TypeError) ->
  (forall i x s, bad x -> body i x s = Raise TypeError) ->
  Exists bad l ->
  forall i s, for_each body i l s = Raise TypeError.
Proof.
  intros Honly Hbad Hex.
  induction Hex as [x l Hx|x l _ IH]; intros i s; simpl.
  - rewrite (Hbad i x s Hx). reflexivity.
  - destruct (body i x s) as [s1|e] eqn:Hb; simpl; [apply IH|].
    rewrite (Honly _ _ _ _ Hb). reflexivity.
Qed.

Lemma for_each_all {A St : Type} (body : nat -> A -> St -> res St)
      (fine : A -> Prop) l :
  (forall i x s s1, body i x s = Ok s1 -> fine x) ->
  forall i s s', for_each body i l s = Ok s' -> Forall fine l.
Proof.
  intros Hbody. induction l as [|x l IH]; intros i s s' Hrun;
    [constructor|].
  simpl in Hrun. apply bind_ok in Hrun. destruct Hrun as (s1 & Hx & Hrest).
  constructor; [eapply Hbody; exact Hx | eapply IH; exact Hrest].
Qed.

Lemma check_system_type_error repos i x s e :
  Systems.check_system repos i x s = Raise e -> e = TypeError.
Proof.
  unfold Systems.check_system. destruct x as [| | | | |m]; try discriminate.
  match goal with
  | |- context [check_id m ?s1] =>
      destruct (check_id m s1) as [s2|e'] eqn:Hid
  end; [discriminate|].
  simpl. intros Hr. inversion Hr; subst. eapply check_id_type_error.
  exact Hid.
Qed.

Lemma check_system_raises repos i x s :
  nonstring_id x -> Systems.check_system repos i x s = Raise TypeError.
Proof.
  intros (m & v & -> & Hv & Hstr). unfold Systems.check_system.
  rewrite (check_id_raises m _ v Hv Hstr). reflexivity.
Qed.

Lemma check_container_type_error ids i x s e :
  Containers.check_container ids i x s = Raise e -> e = TypeError.
Proof.
  unfold Containers.check_container.
  destruct x as [| | | | |m]; try discriminate.
  match goal with
  | |- context [check_id m ?s1] =>
      destruct (check_id m s1) as [s2|e'] eqn:Hid
  end.
  - cbn [bind].
    match goal with
    | |- context [check_parent_id ?k ?p ?j m ?r] =>
        destruct (check_parent_id k p j m r) as [r2|e'] eqn:Hp
    end; [discriminate|].
    simpl. intros Hr. inversion Hr; subst.
    eapply check_parent_id_type_error. exact Hp.
  - simpl. intros Hr. inversion Hr; subst. eapply check_id_type_error.
    exact Hid.
Qed.

Lemma check_container_raises ids i x s :
  nonstring_id x -> Containers.check_container ids i x s = Raise TypeError.
Proof.
  intros (m & v & -> & Hv & Hstr). unfold Containers.check_container.
  rewrite (check_id_raises m _ v Hv Hstr). reflexivity.
Qed.

Lemma check_component_type_error ids i x s e :
  Components.check_component ids i x s = Raise e -> e = TypeError.
Proof.
  unfold Components.check_component.
  destruct x as [| | | | |m]; try discriminate.
  match goal with
  | |- context [check_id m ?s1] =>
      destruct (check_id m s1) as [s2|e'] eqn:Hid
  end.
  - cbn [bind].
    match goal with
    | |- context [check_parent_id ?k ?p ?j m ?r] =>
        destruct (check_parent_id k p j m r) as [r2|e'] eqn:Hp
    end; [discriminate|].
    simpl. intros Hr. inversion Hr; subst.
    eapply check_parent_id_type_error. exact Hp.
  - simpl. intros Hr. inversion Hr; subst. eapply check_id_type_error.
    exact Hid.
Qed.

Lemma check_component_raises ids i x s :
  nonstring_id x -> Components.check_component ids i x s = Raise TypeError.
Proof.
  intros (m & v & -> & Hv & Hstr). unfold Components.check_component.
  rewrite (check_id_raises m _ v Hv Hstr). reflexivity.
Qed.

Lemma check_system_returns repos i x s :
  string_id x -> exists s1, Systems.check_system repos i x s = Ok s1.
Proof.
  unfold Systems.check_system. destruct x as [| | | | |m]; eauto.
  intros Hid.
  match goal with
  | |- context [check_id m ?s1] =>
      destruct (check_id_returns m s1 Hid) as (s2 & ->)
  end.
  cbn [bind]. eauto.
Qed.

Lemma check_system_reads repos i x s s1 :
  Systems.check_system repos i x s = Ok s1 -> string_id x.
Proof.
  unfold Systems.check_system.
  destruct x as [| | | | |m]; try (intros; exact I).
  intros Hrun. apply bind_ok in Hrun. destruct Hrun as (s2 & Hid & _).
  simpl. eapply check_id_reads. exact Hid.
Qed.

(** X28: the entity check of the systems script returns a verdict exactly
    when the ID of every entry that is an object and has one is a string;
    on any other ID the pattern match raises before the format is
    reported. *)
Theorem validate_systems_returns_iff (xs repos : list json) :
  (exists v, Systems.validate_systems (JArr xs) repos = Ok v) <->
  Forall string_id xs.
Proof.
  unfold Systems.validate_systems. split.
  - intros (v & Hrun). destruct xs as [|x xs]; [constructor|].
    cbn [truthy negb py_iter bind] in Hrun.
    apply bind_ok in Hrun. destruct Hrun as (s & Hloop & _).
    eapply for_each_all; [|exact Hloop].
    intros. eapply check_system_reads; eassumption.
  - intros Hall. destruct xs as [|x xs]; [simpl; eauto|].
    cbn [truthy negb py_iter bind].
    destruct (for_each_returns (Systems.check_system repos) string_id
                (x :: xs) (check_system_returns repos) Hall 0%nat
                (mk_scan no_findings [])) as (s & ->).
    cbn [bind]. eauto.
Qed.

(** X29: an entry with an ID that is not a string makes the entity check
    of each of the three layer scripts raise TypeError, whatever else the
    list holds: nothing is reported about the list. *)
Theorem non_string_id_raises (xs : list json) :
  Exists nonstring_id xs ->
  (forall repos,
     Systems.validate_systems (JArr xs) repos = Raise TypeError) /\
  (forall ids,
     Containers.validate_containers (JArr xs) ids = Raise TypeError) /\
  (forall ids,
     Components.validate_components (JArr xs) ids = Raise TypeError).
Proof.
  intros Hex.
  assert (Hne : truthy (JArr xs) = true)
    by (destruct xs; [inversion Hex | reflexivity]).
  unfold Systems.validate_systems, Containers.validate_containers,
    Components.validate_components.
  rewrite Hne. cbn [negb py_iter bind].
  split; [|split]; intros p.
  - rewrite (for_each_raises (Systems.check_system p) nonstring_id xs
               (check_system_type_error p) (check_system_raises p) Hex).
    reflexivity.
  - rewrite (for_each_raises (Containers.check_container p) nonstring_id xs
               (check_container_type_error p) (check_container_raises p)
               Hex).
    reflexivity.
  - rewrite (for_each_raises (Components.check_component p) nonstring_id xs
               (check_component_type_error p) (check_component_raises p)
               Hex).
    reflexivity.
Qed.

(** ** The properties of validate-init.py at concrete documents *)

(** The schema-version pattern with the Arabic-Indic digits in the class:
    U+0661 . U+0662 . U+0663 is accepted, and so is ["1.2.3"]. *)
Lemma semver_pattern_language_witness :
  (forall c, (c < 256)%N ->
             InitExamples.western_or_arabic_indic c
             = ((48 <=? c) && (c <=? 57))%N) /\
  InitDocument.semver_points InitExamples.western_or_arabic_indic 2 true
    [1633; 46; 1634; 46; 1635]%N = true /\
  (exists a b c tail,
     point_group InitExamples.western_or_arabic_indic a /\
     point_group InitExamples.western_or_arabic_indic b /\
     point_group InitExamples.western_or_arabic_indic c /\
     points_end tail /\
     [1633; 46; 1634; 46; 1635]%N = a ++ 46%N :: b ++ 46%N :: c ++ tail) /\
  InitDocument.semver_pattern_match (JStr "1.2.3") = Ok true.
Proof.
  assert (Hlatin : forall c, (c < 256)%N ->
                     InitExamples.western_or_arabic_indic c
                     = ((48 <=? c) && (c <=? 57))%N).
  { intros c Hc. unfold InitExamples.western_or_arabic_indic.
    destruct (N.leb_spec 1632 c); [lia|].
    rewrite andb_false_l, orb_false_r. reflexivity. }
  assert (Hrun : InitDocument.semver_points
                   InitExamples.western_or_arabic_indic 2 true
                   [1633; 46; 1634; 46; 1635]%N = true) by reflexivity.
  destruct (semver_pattern_language
              InitExamples.western_or_arabic_indic Hlatin) as [Hlang Hstr].
  refine (conj Hlatin (conj Hrun (conj (proj1 (Hlang _) Hrun) _))).
  rewrite Hstr. reflexivity.
Defined.

(** The tidy document on its host: the run passes. *)
Lemma init_exit_code_follows_messages_witness :
  @InitDocument.main reference_runtime
    (InitExamples.host_of InitExamples.tidy)
    = Ok (0, [InitDocument.IPassed]) /\
  0 = three_level (shown_errors [InitDocument.IPassed])
        (shown_warnings [InitDocument.IPassed]).
Proof.
  assert (H1 : @InitDocument.main reference_runtime
                 (InitExamples.host_of InitExamples.tidy)
               = Ok (0, [InitDocument.IPassed]))
    by (vm_compute; reflexivity).
  exact (conj H1 (@init_exit_code_follows_messages reference_runtime
                    _ _ _ H1)).
Defined.

(** The one repository of the tidy document is in place. *)
Lemma repository_paths_accepts_witness :
  repositories_in_place (InitExamples.host_of InitExamples.tidy)
    [InitExamples.app] /\
  Forall hashable_name [InitExamples.app] /\
  exists ws,
    InitDocument.validate_repository_paths
      (InitExamples.host_of InitExamples.tidy) (JArr [InitExamples.app])
    = Ok (true, [], ws).
Proof.
  assert (H1 : repositories_in_place
                 (InitExamples.host_of InitExamples.tidy)
                 [InitExamples.app]).
  { exists ["/srv/app"]. split.
    - constructor; [|constructor]. eexists. repeat split.
    - constructor; [intros []|constructor]. }
  assert (H2 : Forall hashable_name [InitExamples.app])
    by (constructor; [reflexivity | constructor]).
  exact (conj H1 (conj H2
           (proj2 (repository_paths_accepts _ _) H1 H2))).
Defined.

Lemma package_manifests_accepts_shaped_witness :
  InitDocument.validate_package_manifests
    (InitExamples.host_of InitExamples.tidy) (JArr [InitExamples.app])
    = Ok (true, [], []) /\
  Forall manifests_shaped [InitExamples.app].
Proof.
  assert (H1 : InitDocument.validate_package_manifests
                 (InitExamples.host_of InitExamples.tidy)
                 (JArr [InitExamples.app]) = Ok (true, [], []))
    by (vm_compute; reflexivity).
  exact (conj H1 (proj2 (package_manifests_accepts_shaped _ _ _ _ H1))).
Defined.

(** Without the manifest file the stage warns, and accepts as before. *)
Lemma manifest_errors_ignore_the_disk_witness :
  InitDocument.validate_package_manifests
    (InitExamples.bare_host_of InitExamples.tidy) (JArr [InitExamples.app])
    = Ok (true, [],
          [InitDocument.ManifestFileNotFound "/srv/app/package.json"]) /\
  exists ws,
    InitDocument.validate_package_manifests
      (InitExamples.host_of InitExamples.tidy) (JArr [InitExamples.app])
    = Ok (true, [], ws).
Proof.
  assert (H1 : InitDocument.validate_package_manifests
                 (InitExamples.bare_host_of InitExamples.tidy)
                 (JArr [InitExamples.app])
               = Ok (true, [],
                     [InitDocument.ManifestFileNotFound
                        "/srv/app/package.json"]))
    by (vm_compute; reflexivity).
  exact (conj H1 (manifest_errors_ignore_the_disk _
                    (InitExamples.host_of InitExamples.tidy) _ _ _ _ H1)).
Defined.

(** A timestamp in 2030 read in 2027. *)
Lemma future_timestamps_are_flagged_witness :
  @InitDocument.validate_timestamps reference_runtime
    (InitExamples.host_of InitExamples.tidy)
    (JObj (InitExamples.metadata InitExamples.future))
    = Ok (true, [InitDocument.TimestampInFuture
                   (JStr InitExamples.future)]) /\
  (In (InitDocument.TimestampInFuture (JStr InitExamples.future))
      [InitDocument.TimestampInFuture (JStr InitExamples.future)] <->
   1800000000000000 < 1893456000000000 - 0).
Proof.
  assert (H1 : @InitDocument.validate_timestamps reference_runtime
                 (InitExamples.host_of InitExamples.tidy)
                 (JObj (InitExamples.metadata InitExamples.future))
               = Ok (true, [InitDocument.TimestampInFuture
                              (JStr InitExamples.future)]))
    by (vm_compute; reflexivity).
  refine (conj H1 _).
  exact (proj2 (@future_timestamps_are_flagged reference_runtime
                  (InitExamples.host_of InitExamples.tidy)
                  (InitExamples.metadata InitExamples.future)
                  (JStr InitExamples.future)
                  (mk_datetime 1893456000000000 (Some 0)) 0 true _
                  eq_refl eq_refl eq_refl H1)).
Defined.

(** A timestamp without an offset: the schema stage accepts the document,
    and the run returns nothing. *)
Lemma naive_timestamp_aborts_witness :
  @InitDocument.validate_schema_structure reference_runtime
    (InitExamples.document InitExamples.naive [InitExamples.app])
    = Ok (true, []) /\
  @InitDocument.validate_timestamps reference_runtime
    (InitExamples.host_of
       (InitExamples.document InitExamples.naive [InitExamples.app]))
    (JObj (InitExamples.metadata InitExamples.naive)) = Raise TypeError /\
  @InitDocument.main reference_runtime
    (InitExamples.host_of
       (InitExamples.document InitExamples.naive [InitExamples.app]))
    = Raise TypeError.
Proof.
  split; [vm_compute; reflexivity|]. split; [|vm_compute; reflexivity].
  exact (proj1 (@naive_timestamp_aborts reference_runtime
                  (InitExamples.host_of
                     (InitExamples.document InitExamples.naive
                        [InitExamples.app]))
                  [("metadata", JObj (InitExamples.metadata
                                        InitExamples.naive));
                   ("repositories", JArr [InitExamples.app])]
                  (InitExamples.metadata InitExamples.naive)
                  (JStr InitExamples.naive)
                  (mk_datetime 1704067200000000 None)
                  eq_refl eq_refl eq_refl eq_refl)).
Defined.

(** The tidy run printed no such message. *)
Lemma entry_not_an_object_aborts_witness :
  @InitDocument.main reference_runtime
    (InitExamples.host_of InitExamples.tidy)
    = Ok (0, [InitDocument.IPassed]) /\
  ~ In (InitDocument.IError (InitDocument.RepositoryNotObject 0) "")
       [InitDocument.IPassed].
Proof.
  assert (H1 : @InitDocument.main reference_runtime
                 (InitExamples.host_of InitExamples.tidy)
               = Ok (0, [InitDocument.IPassed]))
    by (vm_compute; reflexivity).
  exact (conj H1 (@entry_not_an_object_aborts reference_runtime _ _ _ H1
                    0%nat "")).
Defined.

(** The tidy document is certified on its host. *)
Lemma clean_exit_certifies_witness :
  @InitDocument.main reference_runtime
    (InitExamples.host_of InitExamples.tidy)
    = Ok (0, [InitDocument.IPassed]) /\
  @certified reference_runtime (InitExamples.host_of InitExamples.tidy)
    InitExamples.tidy.
Proof.
  assert (H1 : @InitDocument.main reference_runtime
                 (InitExamples.host_of InitExamples.tidy)
               = Ok (0, [InitDocument.IPassed]))
    by (vm_compute; reflexivity).
  refine (conj H1 _).
  destruct (@clean_exit_certifies reference_runtime _ _ H1)
    as [[Hnone _]|(p & data & Hp & Hload & Hcert & _)].
  - discriminate Hnone.
  - inversion Hp; subst p. inversion Hload; subst data. exact Hcert.
Defined.

(** ** The properties of the layer scripts at concrete documents *)

(** Two systems, one container of the first: the second is reported. *)
Lemma childless_parents_exact_witness :
  Forall (fun k => hashable k = true) [JStr "a"; JStr "b"] /\
  @childless_parents reference_runtime "system_id" [JStr "a"; JStr "b"]
    (JArr [Examples.container "api" "a" [] []])
    = Ok [ParentWithoutChildren (JStr "b")] /\
  (In (ParentWithoutChildren (JStr "b"))
      [ParentWithoutChildren (JStr "b")] <->
   In (JStr "b") [JStr "a"; JStr "b"] /\
   forall m, In (JObj m) [Examples.container "api" "a" [] []] ->
             truthy (dict_get m "system_id" JNull) = true ->
             py_eq (JStr "b") (dict_get m "system_id" JNull) = false).
Proof.
  assert (H1 : Forall (fun k => hashable k = true) [JStr "a"; JStr "b"])
    by (repeat constructor).
  assert (H2 : @childless_parents reference_runtime "system_id"
                 [JStr "a"; JStr "b"]
                 (JArr [Examples.container "api" "a" [] []])
               = Ok [ParentWithoutChildren (JStr "b")])
    by (vm_compute; reflexivity).
  exact (conj H1 (conj H2
           (@childless_parents_exact reference_runtime "system_id"
              [JStr "a"; JStr "b"]
              (JArr [Examples.container "api" "a" [] []])
              [Examples.container "api" "a" [] []] _ H1
              eq_refl H2 (JStr "b")))).
Defined.

(** The init document of the examples lists one repository, by path. *)
Lemma init_repos_all_or_nothing_witness :
  files (Examples.run Examples.c1_doc) "knowledge-base/init.json"
    = Doc Examples.init_doc /\
  Systems.load_init_repos (Examples.run Examples.c1_doc)
    "knowledge-base/init.json" = [JStr "/repo-a"].
Proof.
  split; [reflexivity|].
  exact (proj1 (init_repos_all_or_nothing (Examples.run Examples.c1_doc)
                  "knowledge-base/init.json"
                  [("metadata", JObj (Examples.stamped Examples.t0));
                   ("repositories", JArr [JObj [("path", JStr "/repo-a")]])]
                  [JObj [("path", JStr "/repo-a")]] eq_refl eq_refl)
           (Forall_cons (JObj [("path", JStr "/repo-a")])
              (eq_refl : is_dict (JObj [("path", JStr "/repo-a")]) = true)
              (Forall_nil _))).
Defined.

(** Two tight relations out of five are more than three in ten. *)
Lemma tight_coupling_threshold_witness :
  Components.high_tight_coupling 2 5 = true.
Proof.
  exact (tight_coupling_threshold 2 5 ltac:(lia) ltac:(lia)).
Defined.

(** The ring a -> b -> c -> a. *)
Lemma cycles_are_found_witness :
  @Systems.validate_relations reference_runtime (JArr Examples.ring)
    = Ok (true, [],
          [CircularDependency [JStr "a"; JStr "b"; JStr "c"; JStr "a"]]) /\
  closed_walk (followed_relation Examples.ring Examples.ring_ids)
    [JStr "a"; JStr "b"; JStr "c"; JStr "a"] /\
  exists q,
    In (CircularDependency q)
       [CircularDependency [JStr "a"; JStr "b"; JStr "c"; JStr "a"]] /\
    closed_walk (relation_edge Examples.ring Examples.ring_ids) q.
Proof.
  assert (H1 : @Systems.validate_relations reference_runtime
                 (JArr Examples.ring)
               = Ok (true, [],
                     [CircularDependency
                        [JStr "a"; JStr "b"; JStr "c"; JStr "a"]]))
    by (vm_compute; reflexivity).
  assert (H2 : closed_walk
                 (followed_relation Examples.ring Examples.ring_ids)
                 [JStr "a"; JStr "b"; JStr "c"; JStr "a"]).
  { split.
    - simpl. repeat split.
      + exists 0%nat. do 2 eexists. exists 0%nat. eexists.
        repeat split; reflexivity.
      + exists 1%nat. do 2 eexists. exists 0%nat. eexists.
        repeat split; reflexivity.
      + exists 2%nat. do 2 eexists. exists 0%nat. eexists.
        repeat split; reflexivity.
    - exists (JStr "a"), [JStr "b"; JStr "c"], (JStr "a").
      split; reflexivity. }
  exact (conj H1 (conj H2
           (@cycles_are_found reference_runtime (JArr Examples.ring)
              Examples.ring Examples.ring_ids _ _ _ H1 eq_refl
              eq_refl (ex_intro _ _ H2)))).
Defined.
(** ** The accepted documents and the clean passes at concrete documents *)

(** The ring of three systems: its relations are in order, whatever the
    cycle. *)
Lemma validate_system_relations_accepts_iff_witness :
  @Systems.validate_relations reference_runtime (JArr Examples.ring)
    = Ok (true, [],
          [CircularDependency [JStr "a"; JStr "b"; JStr "c"; JStr "a"]]) /\
  (true = true <-> Forall system_relations_in_order Examples.ring).
Proof.
  assert (H1 : @Systems.validate_relations reference_runtime
                 (JArr Examples.ring)
               = Ok (true, [],
                     [CircularDependency
                        [JStr "a"; JStr "b"; JStr "c"; JStr "a"]]))
    by (vm_compute; reflexivity).
  exact (conj H1
           (@validate_system_relations_accepts_iff reference_runtime
              Examples.ring _ _ _ H1)).
Defined.

Lemma ring_readable : Forall system_readable Examples.ring.
Proof.
  repeat constructor;
    try (intros v Hv; inversion Hv; reflexivity);
    intros rels Hrels; inversion Hrels; subst rels;
    repeat constructor;
    try (intros v Hv; inversion Hv; reflexivity);
    try (intros d Hd; inversion Hd; simpl; eauto).
Defined.

(** The ring of three systems, with a thousand nested calls allowed. *)
Lemma validate_system_relations_returns_witness :
  Forall system_readable Examples.ring /\
  (List.length Examples.ring <= @recursion_limit reference_runtime)%nat /\
  exists v,
    @Systems.validate_relations reference_runtime (JArr Examples.ring)
    = Ok v.
Proof.
  assert (H2 : (List.length Examples.ring
                <= @recursion_limit reference_runtime)%nat)
    by (vm_compute; lia).
  exact (conj ring_readable (conj H2
           (@validate_system_relations_returns reference_runtime
              Examples.ring ring_readable H2))).
Defined.

(** Two systems and one dependency, recorded by both. *)
Lemma systems_exit_zero_certifies_witness :
  @Systems.main reference_runtime (Examples.run LayerExamples.c1_doc)
    = Ok (0, [LPassed]) /\
  exists data errs,
    stdin (Examples.run LayerExamples.c1_doc) = StdinDoc data /\
    @Systems.validate_parent_reference reference_runtime
      (Examples.run LayerExamples.c1_doc) data
      (Systems.init_path (Examples.run LayerExamples.c1_doc))
    = Ok (true, errs) /\
    systems_certified
      (Systems.load_init_repos (Examples.run LayerExamples.c1_doc)
         (Systems.init_path (Examples.run LayerExamples.c1_doc))) data.
Proof.
  assert (H1 : @Systems.main reference_runtime
                 (Examples.run LayerExamples.c1_doc) = Ok (0, [LPassed]))
    by (vm_compute; reflexivity).
  exact (conj H1
           (@systems_exit_zero_certifies reference_runtime
              (Examples.run LayerExamples.c1_doc) [LPassed] H1)).
Defined.

(** One container in each of the three systems. *)
Lemma containers_exit_zero_certifies_witness :
  @Containers.main reference_runtime (Examples.run Examples.c2_doc)
    = Ok (0, [LPassed]) /\
  exists data errs,
    stdin (Examples.run Examples.c2_doc) = StdinDoc data /\
    @Containers.validate_parent_reference reference_runtime
      (Examples.run Examples.c2_doc) data
      (Containers.c1_path (Examples.run Examples.c2_doc))
    = Ok (true, errs) /\
    containers_certified
      (Containers.load_system_ids (Examples.run Examples.c2_doc)
         (Containers.c1_path (Examples.run Examples.c2_doc))) data.
Proof.
  assert (H1 : @Containers.main reference_runtime
                 (Examples.run Examples.c2_doc) = Ok (0, [LPassed]))
    by (vm_compute; reflexivity).
  exact (conj H1
           (@containers_exit_zero_certifies reference_runtime
              (Examples.run Examples.c2_doc) [LPassed] H1)).
Defined.

(** One component in each of the three containers. *)
Lemma components_exit_zero_certifies_witness :
  @Components.main reference_runtime (Examples.run LayerExamples.c3_doc)
    = Ok (0, [LPassed]) /\
  exists data errs ids,
    stdin (Examples.run LayerExamples.c3_doc) = StdinDoc data /\
    @Components.validate_parent_reference reference_runtime
      (Examples.run LayerExamples.c3_doc) data
      (Components.c2_path (Examples.run LayerExamples.c3_doc))
    = Ok (true, errs) /\
    Components.load_container_ids (Examples.run LayerExamples.c3_doc)
      (Components.c2_path (Examples.run LayerExamples.c3_doc)) = Ok ids /\
    components_certified ids data.
Proof.
  assert (H1 : @Components.main reference_runtime
                 (Examples.run LayerExamples.c3_doc) = Ok (0, [LPassed]))
    by (vm_compute; reflexivity).
  exact (conj H1
           (@components_exit_zero_certifies reference_runtime
              (Examples.run LayerExamples.c3_doc) [LPassed] H1)).
Defined.

Lemma ring_depends :
  forall id, In id Examples.ring_ids -> starts_relation Examples.ring id.
Proof.
  intros id [<-|[<-|[<-|[]]]].
  - do 3 eexists. split; [left; reflexivity|].
    split; [reflexivity|]. split; [left; reflexivity|].
    repeat split.
  - do 3 eexists. split; [right; left; reflexivity|].
    split; [reflexivity|]. split; [left; reflexivity|].
    repeat split.
  - do 3 eexists. split; [right; right; left; reflexivity|].
    split; [reflexivity|]. split; [left; reflexivity|].
    repeat split.
Defined.

(** The ring a -> b -> c -> a passes with a warning at best. *)
Lemma clean_pass_needs_a_sink_witness :
  stdin (Examples.run Examples.c1_doc) = StdinDoc Examples.c1_doc /\
  py_get Examples.c1_doc "systems" (JArr []) = Ok (JArr Examples.ring) /\
  collect_ids Examples.ring [] = Ok Examples.ring_ids /\
  (forall id, In id Examples.ring_ids ->
              starts_relation Examples.ring id) /\
  @Systems.main reference_runtime (Examples.run Examples.c1_doc)
    = Ok (1, [LWarning
                (CircularDependency
                   [JStr "a"; JStr "b"; JStr "c"; JStr "a"]);
              LPassedWithWarnings]) /\
  1 <> 0.
Proof.
  assert (H5 : @Systems.main reference_runtime
                 (Examples.run Examples.c1_doc)
               = Ok (1, [LWarning
                           (CircularDependency
                              [JStr "a"; JStr "b"; JStr "c"; JStr "a"]);
                         LPassedWithWarnings]))
    by (vm_compute; reflexivity).
  exact (conj eq_refl (conj eq_refl (conj eq_refl (conj ring_depends
           (conj H5
              (@clean_pass_needs_a_sink reference_runtime
                 (Examples.run Examples.c1_doc) Examples.c1_doc
                 Examples.ring Examples.ring_ids _ _
                 eq_refl eq_refl eq_refl ring_depends H5)))))).
Defined.

(** A system numbered 7. *)
Lemma non_string_id_raises_witness :
  Exists nonstring_id [JObj [("id", JNum 7)]] /\
  (forall repos,
     Systems.validate_systems (JArr [JObj [("id", JNum 7)]]) repos
     = Raise TypeError) /\
  (forall ids,
     Containers.validate_containers (JArr [JObj [("id", JNum 7)]]) ids
     = Raise TypeError) /\
  (forall ids,
     Components.validate_components (JArr [JObj [("id", JNum 7)]]) ids
     = Raise TypeError).
Proof.
  assert (H1 : Exists nonstring_id [JObj [("id", JNum 7)]]).
  { constructor. exists [("id", JNum 7)], (JNum 7).
    repeat split; reflexivity. }
  exact (conj H1 (non_string_id_raises [JObj [("id", JNum 7)]] H1)).
Defined.
